(** * SplatMesh: a shallow embedding of src/SplatMesh.js

    The development follows the JavaScript class [SplatMesh] of
    GaussianSplats3D: the global index maps, the attribute packer
    ([uploadSplatDataToTextures], [fillSplatDataArrays]), the fixed-point
    center extraction, the vertex-shader projection and the life cycle of
    the WebGL objects of the distances computation.

    Conventions.
    - Splat counts and array indexes are [nat]; texture sizes, which reach
      4096 * 1024 * 4 elements, are [N] or [Z].
    - A JavaScript Number is an IEEE-754 binary64 value: [spec_float] of the
      standard library with [prec = 53] and [emax = 1024].
    - A statement that can throw is a function from the state to the new
      state and a completion ([Normal v] or [Throw e]), so that the state at
      the point of the throw can be observed.
    - A GLSL [highp float] of the vertex shader is an IEEE-754 binary32
      value: [spec_float] with [prec = 24] and [emax = 128]. Its sums,
      differences and products are correctly rounded; its quotients, square
      roots and [normalize] are parameters of the shader. *)

From Stdlib Require Import ZArith NArith QArith Qround Lia Bool.
From Stdlib Require Import Floats.SpecFloat.
From stdpp Require Import base list gmap strings pretty.

Local Open Scope nat_scope.

(* ===================================================================== *)
(** * Part I: the embedding                                                *)
(* ===================================================================== *)

(** ** Counted loops

    [for (let i = from; i < to; i++) body] on a state that the body updates. *)

Definition for_range {S : Type} (from to : nat) (body : nat -> S -> S) (s : S) : S :=
  fold_left (fun acc i => body i acc) (seq from (to - from)) s.

(** ** JavaScript Numbers *)

Module JsNumber.

Definition t : Type := spec_float.

Definition NaN : t := S754_nan.
Definition zero : t := S754_zero false.

(** The Number of an integer literal or of an integer result. *)
Definition ofZ (z : Z) : t := binary_normalize 53 1024 z 0 false.
Definition ofNat (n : nat) : t := ofZ (Z.of_nat n).

(** [x * y] *)
Definition mul (x y : t) : t := SFmul 53 1024 x y.

(** The integer part of a Number (truncation toward zero); 0 for NaN and
    the infinities, as in the ToInt32 and ToUint32 conversions. *)
Definition truncZ (x : t) : Z :=
  match x with
  | S754_finite s m e => cond_Zopp s (Z.shiftl (Zpos m) e)
  | _ => 0%Z
  end.

Definition wrapU (bits : Z) (z : Z) : Z := (z mod 2 ^ bits)%Z.
Definition wrapS32 (z : Z) : Z :=
  let r := wrapU 32 z in if (2 ^ 31 <=? r)%Z then (r - 2 ^ 32)%Z else r.

Definition ToInt32 (x : t) : Z := wrapS32 (truncZ x).
Definition ToUint32 (x : t) : Z := wrapU 32 (truncZ x).
Definition ToUint16 (x : t) : Z := wrapU 16 (truncZ x).
Definition ToUint8 (x : t) : Z := wrapU 8 (truncZ x).

(** [Math.round(x)]: the closest integer, ties toward +infinity; an
    argument in [-0.5, 0) gives -0; NaN, the infinities and the zeros are
    returned unchanged, and so is a Number that is already an integer. *)
Definition Math_round (x : t) : t :=
  match x with
  | S754_finite s m e =>
      if (0 <=? e)%Z then x
      else
        let r := ((2 * cond_Zopp s (Zpos m) + 2 ^ (- e)) / 2 ^ (1 - e))%Z in
        if (r =? 0)%Z then S754_zero s else ofZ r
  | _ => x
  end.

(** Rounding to binary32 ([Math.fround], the store into a Float32Array):
    the binary32 value, and that value again as a Number. *)
Definition to_binary32 (x : t) : spec_float :=
  match x with
  | S754_finite s m e => binary_normalize 24 128 (cond_Zopp s (Zpos m)) e s
  | _ => x
  end.

Definition fround (x : t) : t :=
  match to_binary32 x with
  | S754_finite s m e => binary_normalize 53 1024 (cond_Zopp s (Zpos m)) e s
  | y => y
  end.

(** The 32 bits of a binary32 value, as an unsigned integer. *)
Definition binary32_bits (x : spec_float) : Z :=
  let sign (s : bool) := if s then (2 ^ 31)%Z else 0%Z in
  match x with
  | S754_zero s => sign s
  | S754_infinity s => (sign s + 255 * 2 ^ 23)%Z
  | S754_nan => (255 * 2 ^ 23 + 2 ^ 22)%Z
  | S754_finite s m e =>
      if (Zpos (digits2_pos m) =? 24)%Z
      then (sign s + (e + 150) * 2 ^ 23 + (Zpos m - 2 ^ 23))%Z
      else (sign s + Zpos m)%Z
  end.

End JsNumber.

(** ** Typed arrays

    A typed array has a kind, a length and zero-initialised elements. The
    packed textures hold up to 4096 * 1024 * 4 elements, so the elements are
    a function of the index; an element is observed through [get] only,
    which is [None] ([undefined]) outside the array. A store converts the
    Number to the element type and is ignored outside the array. *)

Module TypedArray.

Inductive Kind := Float32Array | Uint8Array | Uint16Array | Uint32Array | Int32Array.

#[global] Instance Kind_eq_dec : EqDecision Kind.
Proof. solve_decision. Defined.

Definition convert (k : Kind) (x : JsNumber.t) : JsNumber.t :=
  match k with
  | Float32Array => JsNumber.fround x
  | Uint8Array => JsNumber.ofZ (JsNumber.ToUint8 x)
  | Uint16Array => JsNumber.ofZ (JsNumber.ToUint16 x)
  | Uint32Array => JsNumber.ofZ (JsNumber.ToUint32 x)
  | Int32Array => JsNumber.ofZ (JsNumber.ToInt32 x)
  end.

Definition bytesPerElement (k : Kind) : Z :=
  match k with
  | Float32Array | Uint32Array | Int32Array => 4
  | Uint16Array => 2
  | Uint8Array => 1
  end.

Record t := make {
  kind : Kind;
  length : N;
  elems : nat -> JsNumber.t
}.

(** [new Kind(len)] *)
Definition create (k : Kind) (len : N) : t :=
  {| kind := k; length := len; elems := fun _ => JsNumber.zero |}.

Definition inBounds (a : t) (i : nat) : bool := (N.of_nat i <? length a)%N.

(** [a[i]] *)
Definition get (a : t) (i : nat) : option JsNumber.t :=
  if inBounds a i then Some (elems a i) else None.

(** [a[i] = v] *)
Definition store (a : t) (i : nat) (v : JsNumber.t) : t :=
  if inBounds a i
  then {| kind := kind a; length := length a;
          elems := fun j => if Nat.eqb j i then convert (kind a) v else elems a j |}
  else a.

(** [dst.set(src)] when [src] fits: every element of [src] is converted to
    the kind of [dst] and stored at the same index. (A longer [src] makes
    [set] throw a RangeError; the caller checks [fits] first.) *)
Definition fits (dst src : t) : bool := (length src <=? length dst)%N.

Definition set (dst src : t) : t :=
  {| kind := kind dst; length := length dst;
     elems := fun j => if inBounds src j then convert (kind dst) (elems src j)
                       else elems dst j |}.

(** Two arrays hold the same bytes: same kind, same length, same elements. *)
Definition same (a b : t) : Prop :=
  kind a = kind b /\ length a = length b /\
  forall i, inBounds a i = true -> elems a i = elems b i.

End TypedArray.

(** ** Completions, errors and the state monad of the methods *)

Inductive JsError :=
  | Error (message : string)
  | ReferenceError (message : string)
  | TypeError (message : string)
  | RangeError (message : string).

Inductive Completion (A : Type) :=
  | Normal (value : A)
  | Throw (error : JsError).
Arguments Normal {A} value.
Arguments Throw {A} error.

Definition M (S A : Type) : Type := S -> S * Completion A.

Definition ret {S A} (a : A) : M S A := fun s => (s, Normal a).
Definition throw {S A} (e : JsError) : M S A := fun s => (s, Throw e).
Definition bind {S A B} (c : M S A) (k : A -> M S B) : M S B :=
  fun s => match c s with
           | (s', Normal a) => k a s'
           | (s', Throw e) => (s', Throw e)
           end.
Definition gets {S A} (f : S -> A) : M S A := fun s => (s, Normal (f s)).
Definition modify {S} (f : S -> S) : M S unit := fun s => (f s, Normal tt).
Definition when_ {S} (b : bool) (c : M S unit) : M S unit := if b then c else ret tt.

Declare Scope js_scope.
Delimit Scope js_scope with js.
Notation "'let*' x ':=' c 'in' k" := (bind c (fun x => k))
  (at level 10, x binder, c at level 100, k at level 200) : js_scope.
Notation "c ;; k" := (bind c (fun _ => k))
  (at level 100, k at level 200, right associativity) : js_scope.

Definition threw {S A} (r : S * Completion A) : Prop :=
  exists e, snd r = Throw e.

(** ** Plain JavaScript arrays

    [arr[i] = v] on an [Array]: inside the array the slot is overwritten, at
    or past the end the array grows and the slots in between are holes
    ([None], read back as [undefined]). *)

Definition js_array_assign {A : Type} (arr : list (option A)) (i : nat) (v : A)
  : list (option A) :=
  if i <? length arr then <[i := Some v]> arr
  else arr ++ replicate (i - length arr) None ++ [Some v].

(** [arr[i]]: [None] is [undefined] (a hole or an index past the end). *)
Definition js_array_get {A : Type} (arr : list (option A)) (i : nat) : option A :=
  mjoin (arr !! i).

(** [undefined] becomes NaN when it is used as a Number. *)
Definition ToNumber (v : option JsNumber.t) : JsNumber.t :=
  default JsNumber.NaN v.

Definition ToNumber_nat (v : option nat) : JsNumber.t :=
  match v with Some n => JsNumber.ofNat n | None => JsNumber.NaN end.

(** An [Array] of integers used where a Number is expected
    ([this.lastBuildSplatCount * 6], [c < from], [c++]): the array is
    converted to the string of its elements joined by commas, and that
    string to a Number: 0 for [[]], [n] for [[n]], NaN ([None]) otherwise. *)
Definition arrayToNumber (arr : list nat) : option Z :=
  match arr with
  | [] => Some 0%Z
  | [n] => Some (Z.of_nat n)
  | _ => None
  end.

(** ** Collaborators that are outside src/SplatMesh.js *)

Module Matrix4.
Record t := make { elements : list JsNumber.t }.
End Matrix4.

(** Modelled from the spec: SplatBuffer.js (the point-cloud source buffer)
    is not part of the sources. The spec gives its interface:
    [splatCount()], [maxSplatCount()] and the bulk extraction
    [fillCenters(dst, transform|null, from, to, destOffset)],
    [fillCovariances(dst, transform|null, from, to, destOffset, precisionFlag)],
    [fillColors(dst, transform|null, from, to, destOffset)].
    A buffer is its two counters and, for every local splat index, the
    components it extracts (3 per center, 6 per covariance, 4 per color),
    which may depend on the transform and, for covariances, on the
    precision flag. *)
Module SplatBuffer.

Record t := make {
  getSplatCount : nat;
  getMaxSplatCount : nat;
  centerComponent : option Matrix4.t -> nat -> nat -> JsNumber.t;
  covarianceComponent : option Matrix4.t -> Z -> nat -> nat -> JsNumber.t;
  colorComponent : option Matrix4.t -> nat -> nat -> JsNumber.t
}.

(** Modelled from the spec: the bulk extraction writes, for every splat
    [i] of the sub-range, its components at splat slot
    [i - from + destOffset] of [dst]. An [undefined] [from] is 0, an
    [undefined] [to] is the last splat, an [undefined] [destOffset] is
    [from]. *)
Definition fillArray (componentCount : nat) (component : nat -> nat -> JsNumber.t)
  (splatCount : nat) (outArray : TypedArray.t) (srcFrom srcTo destFrom : option nat)
  : TypedArray.t :=
  let from := default 0 srcFrom in
  let toExclusive := match srcTo with Some to => S to | None => splatCount end in
  let dest := default from destFrom in
  for_range from toExclusive (fun i out =>
    for_range 0 componentCount (fun k out =>
      TypedArray.store out ((i - from + dest) * componentCount + k) (component i k)) out)
    outArray.

Definition fillSplatCovarianceArray (sb : t) (covarianceArray : TypedArray.t)
  (transform : option Matrix4.t) (srcFrom srcTo destFrom : option nat)
  (desiredOutputCompressionLevel : Z) : TypedArray.t :=
  fillArray 6 (covarianceComponent sb transform desiredOutputCompressionLevel)
    (getSplatCount sb) covarianceArray srcFrom srcTo destFrom.

Definition fillSplatCenterArray (sb : t) (outCenterArray : TypedArray.t)
  (transform : option Matrix4.t) (srcFrom srcTo destFrom : option nat) : TypedArray.t :=
  fillArray 3 (centerComponent sb transform) (getSplatCount sb)
    outCenterArray srcFrom srcTo destFrom.

Definition fillSplatColorArray (sb : t) (outColorArray : TypedArray.t)
  (transform : option Matrix4.t) (srcFrom srcTo destFrom : option nat) : TypedArray.t :=
  fillArray 4 (colorComponent sb transform) (getSplatCount sb)
    outColorArray srcFrom srcTo destFrom.

(** The same buffer object after more splats have been loaded into it. *)
Definition withSplatCount (sb : t) (n : nat) : t :=
  {| getSplatCount := n; getMaxSplatCount := getMaxSplatCount sb;
     centerComponent := centerComponent sb;
     covarianceComponent := covarianceComponent sb;
     colorComponent := colorComponent sb |}.

End SplatBuffer.

(** SplatScene.js: a source buffer and the scene transform. *)
Module SplatScene.
Record t := make {
  splatBuffer : SplatBuffer.t;
  transform : Matrix4.t
}.
End SplatScene.

(** Modelled from the spec: Util.js is not part of the sources. Colors are
    packed as one RGBA word, which the vertex shader decodes with the masks
    0xFF, 0xFF00, 0xFF0000, 0xFF000000 and the shifts 0, 8, 16, 24:
    [arr[offset] + (arr[offset + 1] << 8) + (arr[offset + 2] << 16) +
    (arr[offset + 3] << 24)], a shift working on 32-bit integers. *)
Definition shiftLeft32 (v : option JsNumber.t) (k : Z) : Z :=
  JsNumber.wrapS32 (JsNumber.ToInt32 (ToNumber v) * 2 ^ k).

Definition rgbaArrayToInteger (arr : TypedArray.t) (offset : nat) : JsNumber.t :=
  match TypedArray.get arr offset with
  | None => JsNumber.NaN
  | Some r =>
      JsNumber.ofZ (JsNumber.truncZ r
                    + shiftLeft32 (TypedArray.get arr (offset + 1)) 8
                    + shiftLeft32 (TypedArray.get arr (offset + 2)) 16
                    + shiftLeft32 (TypedArray.get arr (offset + 3)) 24)
  end.

(** Modelled from the spec: Util.js is not part of the sources. Centers are
    encoded as the 32-bit pattern of their IEEE-754 binary32 layout. *)
Definition uintEncodedFloat (f : option JsNumber.t) : JsNumber.t :=
  JsNumber.ofZ (JsNumber.binary32_bits (JsNumber.to_binary32 (ToNumber f))).

(** ** Global index maps: [SplatMesh.buildSplatIndexMaps] *)

Module IndexMaps.

Record t := make {
  localSplatIndexMap : list (option nat);
  sceneIndexMap : list (option nat)
}.

(** The three variables the loops update:
    [localSplatIndexMap], [sceneIndexMap], [totalSplatCount]. *)
Definition loop_state : Type := list (option nat) * list (option nat) * nat.

Definition inner_body (s : nat) (i : nat) (st : loop_state) : loop_state :=
  let '(lm, sm, totalSplatCount) := st in
  (js_array_assign lm totalSplatCount i,
   js_array_assign sm totalSplatCount s,
   S totalSplatCount).

Definition outer_body (splatBuffers : list SplatBuffer.t) (s : nat)
  (st : loop_state) : loop_state :=
  match splatBuffers !! s with
  | Some splatBuffer =>
      let maxSplatCount := SplatBuffer.getMaxSplatCount splatBuffer in
      for_range 0 maxSplatCount (inner_body s) st
  | None => st
  end.

Definition buildSplatIndexMaps (splatBuffers : list SplatBuffer.t) : t :=
  let '(lm, sm, _) :=
    for_range 0 (length splatBuffers) (outer_body splatBuffers) ([], [], 0) in
  {| localSplatIndexMap := lm; sceneIndexMap := sm |}.

(** First global index of scene [s]: the max counts of the scenes before it. *)
Definition sceneOffset (splatBuffers : list SplatBuffer.t) (s : nat) : nat :=
  sum_list (SplatBuffer.getMaxSplatCount <$> take s splatBuffers).

Definition totalMax (splatBuffers : list SplatBuffer.t) : nat :=
  sum_list (SplatBuffer.getMaxSplatCount <$> splatBuffers).

(** Global indexes owned by scene [s], in increasing order. *)
Definition globalIndexesOfScene (m : t) (s : nat) : list nat :=
  filter (fun g => sceneIndexMap m !! g = Some (Some s))
         (seq 0 (length (sceneIndexMap m))).

(** [localSplatInfo(g)]: [getSceneIndexForSplat] and [getSplatLocalIndex]. *)
Definition localSplatInfo (m : t) (g : nat) : option nat * option nat :=
  (js_array_get (sceneIndexMap m) g, js_array_get (localSplatIndexMap m) g).

End IndexMaps.

(** ** The WebGL context

    The context is modelled by what the methods of SplatMesh can observe or
    cause: the table of live objects, the bindings they query, and the
    sequence of calls (most recent first). Whether a shader compiles and a
    program links is a property of the context. *)

Module GL.

Definition handle : Type := nat.

Inductive ShaderType := VERTEX_SHADER | FRAGMENT_SHADER.
Inductive BufferTarget := ARRAY_BUFFER | TRANSFORM_FEEDBACK_BUFFER.
Inductive Usage := STATIC_DRAW | STATIC_READ.

Inductive ObjectKind :=
  | VertexArray | Program | Shader (type : ShaderType) | Buffer
  | TransformFeedback | Texture.

(** The data argument of [bufferData]: an array or a size in bytes. *)
Inductive BufferSource := SrcArray (a : TypedArray.t) | SrcSize (bytes : Z).

Inductive Call :=
  | createVertexArray (h : handle)
  | deleteVertexArray (h : option handle)
  | bindVertexArray (h : option handle)
  | createProgram (h : handle)
  | deleteProgram (h : option handle)
  | useProgram (h : option handle)
  | createShader (type : ShaderType) (h : option handle)
  | shaderSource (h : handle) (source : string)
  | compileShader (h : handle)
  | deleteShader (h : option handle)
  | attachShader (program shader : handle)
  | transformFeedbackVaryings (program : handle) (varyings : list string)
  | linkProgram (program : handle)
  | createBuffer (h : handle)
  | deleteBuffer (h : option handle)
  | bindBuffer (target : BufferTarget) (h : option handle)
  | bufferData (target : BufferTarget) (src : BufferSource) (usage : Usage)
  | bufferSubData (target : BufferTarget) (byteOffset : option Z) (src : TypedArray.t)
  | enableVertexAttribArray (loc : Z)
  | vertexAttribPointer (loc : Z) (size : Z)
  | vertexAttribIPointer (loc : Z) (size : Z)
  | createTransformFeedback (h : handle)
  | deleteTransformFeedback (h : option handle)
  | bindTransformFeedback (h : option handle)
  | bindBufferBase (target : BufferTarget) (index : Z) (h : option handle)
  | bindTexture (h : option handle)
  | texSubImage2D (yoffset width height : Z) (view : TypedArray.t)
                  (viewStart viewLength : Z).

Record t := make {
  objects : gmap handle ObjectKind;
  nextHandle : handle;
  VERTEX_ARRAY_BINDING : option handle;
  CURRENT_PROGRAM : option handle;
  ARRAY_BUFFER_BINDING : option handle;
  TEXTURE_BINDING_2D : option handle;
  calls : list Call;
  createShaderSucceeds : ShaderType -> bool;
  COMPILE_STATUS : ShaderType -> bool;
  LINK_STATUS : bool;
  attribLocation : handle -> string -> Z;
  uniformLocation : handle -> string -> Z
}.

Definition log (c : Call) (g : t) : t :=
  {| objects := objects g; nextHandle := nextHandle g;
     VERTEX_ARRAY_BINDING := VERTEX_ARRAY_BINDING g;
     CURRENT_PROGRAM := CURRENT_PROGRAM g;
     ARRAY_BUFFER_BINDING := ARRAY_BUFFER_BINDING g;
     TEXTURE_BINDING_2D := TEXTURE_BINDING_2D g;
     calls := c :: calls g;
     createShaderSucceeds := createShaderSucceeds g;
     COMPILE_STATUS := COMPILE_STATUS g; LINK_STATUS := LINK_STATUS g;
     attribLocation := attribLocation g; uniformLocation := uniformLocation g |}.

Definition withObjects (f : gmap handle ObjectKind -> gmap handle ObjectKind)
  (next : handle) (g : t) : t :=
  {| objects := f (objects g); nextHandle := next;
     VERTEX_ARRAY_BINDING := VERTEX_ARRAY_BINDING g;
     CURRENT_PROGRAM := CURRENT_PROGRAM g;
     ARRAY_BUFFER_BINDING := ARRAY_BUFFER_BINDING g;
     TEXTURE_BINDING_2D := TEXTURE_BINDING_2D g;
     calls := calls g;
     createShaderSucceeds := createShaderSucceeds g;
     COMPILE_STATUS := COMPILE_STATUS g; LINK_STATUS := LINK_STATUS g;
     attribLocation := attribLocation g; uniformLocation := uniformLocation g |}.

Definition withBindings (vao program arrayBuffer texture : option handle) (g : t) : t :=
  {| objects := objects g; nextHandle := nextHandle g;
     VERTEX_ARRAY_BINDING := vao;
     CURRENT_PROGRAM := program;
     ARRAY_BUFFER_BINDING := arrayBuffer;
     TEXTURE_BINDING_2D := texture;
     calls := calls g;
     createShaderSucceeds := createShaderSucceeds g;
     COMPILE_STATUS := COMPILE_STATUS g; LINK_STATUS := LINK_STATUS g;
     attribLocation := attribLocation g; uniformLocation := uniformLocation g |}.

(** [gl.create...()]: a fresh live object. *)
Definition create (k : ObjectKind) (c : handle -> Call) (g : t) : t * handle :=
  let h := nextHandle g in
  (log (c h) (withObjects (fun o => <[h := k]> o) (S h) g), h).

(** [gl.delete...(h)]: the object is released and a binding of a vertex
    array, array buffer or texture to it reverts to [null]; a [null]
    argument is ignored. *)
Definition unbind (h : handle) (b : option handle) : option handle :=
  match b with
  | Some h' => if Nat.eqb h h' then None else b
  | None => None
  end.

Definition delete (c : option handle -> Call) (h : option handle) (g : t) : t :=
  log (c h)
    (match h with
     | Some h' =>
         withBindings (unbind h' (VERTEX_ARRAY_BINDING g)) (CURRENT_PROGRAM g)
           (unbind h' (ARRAY_BUFFER_BINDING g)) (unbind h' (TEXTURE_BINDING_2D g))
           (withObjects (fun o => base.delete h' o) (nextHandle g) g)
     | None => g
     end).

Definition doBindVertexArray (h : option handle) (g : t) : t :=
  log (bindVertexArray h)
    (withBindings h (CURRENT_PROGRAM g) (ARRAY_BUFFER_BINDING g) (TEXTURE_BINDING_2D g) g).

Definition doUseProgram (h : option handle) (g : t) : t :=
  log (useProgram h)
    (withBindings (VERTEX_ARRAY_BINDING g) h (ARRAY_BUFFER_BINDING g) (TEXTURE_BINDING_2D g) g).

Definition doBindBuffer (target : BufferTarget) (h : option handle) (g : t) : t :=
  log (bindBuffer target h)
    (match target with
     | ARRAY_BUFFER =>
         withBindings (VERTEX_ARRAY_BINDING g) (CURRENT_PROGRAM g) h (TEXTURE_BINDING_2D g) g
     | TRANSFORM_FEEDBACK_BUFFER => g
     end).

Definition doBindTexture (h : option handle) (g : t) : t :=
  log (bindTexture h)
    (withBindings (VERTEX_ARRAY_BINDING g) (CURRENT_PROGRAM g) (ARRAY_BUFFER_BINDING g) h g).

(** An object is live when the context still holds it. *)
Definition live (g : t) (h : handle) : bool := bool_decide (is_Some (objects g !! h)).

(** The arguments of the [gl.deleteBuffer] calls, most recent first. *)
Definition deletedBuffers (g : t) : list (option handle) :=
  omap (fun c => match c with deleteBuffer h => Some h | _ => None end) (calls g).

(** The calls that give a buffer its contents. *)
Definition isBufferUpload (c : Call) : bool :=
  match c with
  | bufferData _ (SrcArray _) _ | bufferSubData _ _ _ => true
  | _ => false
  end.

End GL.

(** ** Three.js objects held by the mesh *)

(** [THREE.DataTexture]: the object identity and its [needsUpdate] flag; its
    image data is the [data] array of the descriptor that holds it. *)
Module DataTexture.
Record t := make { id : nat; needsUpdate : bool }.
End DataTexture.

(** An entry of [splatDataTextures]: [{data, texture, size}]. *)
Module TextureDesc.
Record t := make {
  data : TypedArray.t;
  texture : option DataTexture.t;
  size : Z * Z
}.
End TextureDesc.

(** [splatDataTextures.baseData]: [{covariances, centers, colors}]. *)
Module BaseData.
Record t := make {
  covariances : TypedArray.t;
  centers : TypedArray.t;
  colors : TypedArray.t
}.
End BaseData.

(** [splatDataTextures]; a key that is absent is [None]. The key of the
    transform indexes is spelled [tansformIndexes] in the source. *)
Module SplatDataTextures.
Record t := make {
  baseData : option BaseData.t;
  covariances : option TextureDesc.t;
  centerColors : option TextureDesc.t;
  tansformIndexes : option TextureDesc.t
}.
Definition empty : t :=
  {| baseData := None; covariances := None; centerColors := None;
     tansformIndexes := None |}.
End SplatDataTextures.

(** The uniforms of the shader material that the packer writes; the three
    transform-index uniforms exist when the material was built for dynamic
    mode. A texture uniform holds the identity of its texture. *)
Module Uniforms.
Record t := make {
  covariancesTexture : option nat;
  covariancesTextureSize : Z * Z;
  centersColorsTexture : option nat;
  centersColorsTextureSize : Z * Z;
  hasTransformUniforms : bool;
  transformIndexesTexture : option nat;
  transformIndexesTextureSize : Z * Z;
  uniformsNeedUpdate : bool
}.
(** [SplatMesh.buildMaterial(dynamicMode)]: the initial uniforms. *)
Definition initial (dynamicMode : bool) : t :=
  {| covariancesTexture := None; covariancesTextureSize := (1024, 1024)%Z;
     centersColorsTexture := None; centersColorsTextureSize := (1024, 1024)%Z;
     hasTransformUniforms := dynamicMode;
     transformIndexesTexture := None; transformIndexesTextureSize := (1024, 1024)%Z;
     uniformsNeedUpdate := false |}.
End Uniforms.

(** [this.material]: the [dummyMaterial] of the constructor (a
    MeshBasicMaterial, without uniforms) or a built shader material. *)
Inductive Material :=
  | dummyMaterial
  | ShaderMaterial (uniforms : Uniforms.t).

(** [this.geometry]: the [dummyGeometry] of the constructor or the geometry
    built for a maximum splat count. *)
Inductive Geometry :=
  | dummyGeometry
  | InstancedGeometry (maxSplatCount : nat).

(** [this.renderer]: its identity and, for every texture identity, the
    [__webglTexture] of [renderer.properties.get(texture)]. *)
Module Renderer.
Record t := make {
  id : nat;
  webglTexture : nat -> option GL.handle
}.
End Renderer.

(** [this.distancesTransformFeedback]; [vao] is absent until it is created. *)
Module DistancesTransformFeedback.
Record t := make {
  id : option GL.handle;
  vertexShader : option GL.handle;
  fragmentShader : option GL.handle;
  program : option GL.handle;
  centersBuffer : option GL.handle;
  transformIndexesBuffer : option GL.handle;
  outDistancesBuffer : option GL.handle;
  vao : option GL.handle;
  centersLoc : Z;
  modelViewProjLoc : Z;
  transformIndexesLoc : Z;
  transformsLocs : list (option Z)
}.
Definition initial : t :=
  {| id := None; vertexShader := None; fragmentShader := None; program := None;
     centersBuffer := None; transformIndexesBuffer := None;
     outDistancesBuffer := None; vao := None;
     centersLoc := (-1); modelViewProjLoc := (-1); transformIndexesLoc := (-1);
     transformsLocs := [] |}.

(** Assignment of the object references, the locations being kept. *)
Definition setObjects (id' vertexShader' fragmentShader' program' centersBuffer'
  transformIndexesBuffer' outDistancesBuffer' vao' : option GL.handle) (d : t) : t :=
  {| id := id'; vertexShader := vertexShader'; fragmentShader := fragmentShader';
     program := program'; centersBuffer := centersBuffer';
     transformIndexesBuffer := transformIndexesBuffer';
     outDistancesBuffer := outDistancesBuffer'; vao := vao';
     centersLoc := centersLoc d; modelViewProjLoc := modelViewProjLoc d;
     transformIndexesLoc := transformIndexesLoc d;
     transformsLocs := transformsLocs d |}.

(** Assignment of the locations, the object references being kept. *)
Definition setLocations (centersLoc' modelViewProjLoc' transformIndexesLoc' : Z)
  (transformsLocs' : list (option Z)) (d : t) : t :=
  {| id := id d; vertexShader := vertexShader d; fragmentShader := fragmentShader d;
     program := program d; centersBuffer := centersBuffer d;
     transformIndexesBuffer := transformIndexesBuffer d;
     outDistancesBuffer := outDistancesBuffer d; vao := vao d;
     centersLoc := centersLoc'; modelViewProjLoc := modelViewProjLoc';
     transformIndexesLoc := transformIndexesLoc';
     transformsLocs := transformsLocs' |}.
End DistancesTransformFeedback.

(** Disposal of a Three.js object, as the library is told of it. *)
Inductive ThreeEvent :=
  | GeometryDispose
  | MaterialDispose
  | TextureDispose (textureId : nat).

(** ** The SplatMesh instance *)

Module SplatMesh.

Record t := make {
  renderer : option Renderer.t;
  halfPrecisionCovariancesOnGPU : bool;
  dynamicMode : bool;
  enableDistancesComputationOnGPU : bool;
  integerBasedDistancesComputation : bool;
  scenes : list SplatScene.t;
  splatTree : option unit;
  splatDataTextures : option SplatDataTextures.t;
  distancesTransformFeedback : DistancesTransformFeedback.t;
  globalSplatIndexToLocalSplatIndexMap : list (option nat);
  globalSplatIndexToSceneIndexMap : list (option nat);
  lastBuildSplatCount : list nat;
  lastBuildMaxSplatCount : nat;
  lastBuildSceneCount : nat;
  webGLUtils : bool;
  geometry : option Geometry;
  material : option Material;
  (* the variables captured by [setupDistancesComputationTransformFeedback] *)
  currentRenderer : option nat;
  currentMaxSplatCount : option nat
}.

(** [new SplatMesh(dynamicMode, halfPrecisionCovariancesOnGPU,
    devicePixelRatio, enableDistancesComputationOnGPU,
    integerBasedDistancesComputation)] *)
Definition constructor (dynamicMode halfPrecisionCovariancesOnGPU
  enableDistancesComputationOnGPU integerBasedDistancesComputation : bool) : t :=
  {| renderer := None;
     halfPrecisionCovariancesOnGPU := halfPrecisionCovariancesOnGPU;
     dynamicMode := dynamicMode;
     enableDistancesComputationOnGPU := enableDistancesComputationOnGPU;
     integerBasedDistancesComputation := integerBasedDistancesComputation;
     scenes := [];
     splatTree := None;
     splatDataTextures := Some SplatDataTextures.empty;
     distancesTransformFeedback := DistancesTransformFeedback.initial;
     globalSplatIndexToLocalSplatIndexMap := [];
     globalSplatIndexToSceneIndexMap := [];
     lastBuildSplatCount := [];
     lastBuildMaxSplatCount := 0;
     lastBuildSceneCount := 0;
     webGLUtils := false;
     geometry := Some dummyGeometry;
     material := Some dummyMaterial;
     currentRenderer := None;
     currentMaxSplatCount := None |}.

Definition set_splatDataTextures (v : option SplatDataTextures.t) (m : t) : t :=
  {| renderer := renderer m;
     halfPrecisionCovariancesOnGPU := halfPrecisionCovariancesOnGPU m;
     dynamicMode := dynamicMode m;
     enableDistancesComputationOnGPU := enableDistancesComputationOnGPU m;
     integerBasedDistancesComputation := integerBasedDistancesComputation m;
     scenes := scenes m; splatTree := splatTree m;
     splatDataTextures := v;
     distancesTransformFeedback := distancesTransformFeedback m;
     globalSplatIndexToLocalSplatIndexMap := globalSplatIndexToLocalSplatIndexMap m;
     globalSplatIndexToSceneIndexMap := globalSplatIndexToSceneIndexMap m;
     lastBuildSplatCount := lastBuildSplatCount m;
     lastBuildMaxSplatCount := lastBuildMaxSplatCount m;
     lastBuildSceneCount := lastBuildSceneCount m;
     webGLUtils := webGLUtils m; geometry := geometry m; material := material m;
     currentRenderer := currentRenderer m;
     currentMaxSplatCount := currentMaxSplatCount m |}.

Definition set_distancesTransformFeedback (v : DistancesTransformFeedback.t) (m : t) : t :=
  {| renderer := renderer m;
     halfPrecisionCovariancesOnGPU := halfPrecisionCovariancesOnGPU m;
     dynamicMode := dynamicMode m;
     enableDistancesComputationOnGPU := enableDistancesComputationOnGPU m;
     integerBasedDistancesComputation := integerBasedDistancesComputation m;
     scenes := scenes m; splatTree := splatTree m;
     splatDataTextures := splatDataTextures m;
     distancesTransformFeedback := v;
     globalSplatIndexToLocalSplatIndexMap := globalSplatIndexToLocalSplatIndexMap m;
     globalSplatIndexToSceneIndexMap := globalSplatIndexToSceneIndexMap m;
     lastBuildSplatCount := lastBuildSplatCount m;
     lastBuildMaxSplatCount := lastBuildMaxSplatCount m;
     lastBuildSceneCount := lastBuildSceneCount m;
     webGLUtils := webGLUtils m; geometry := geometry m; material := material m;
     currentRenderer := currentRenderer m;
     currentMaxSplatCount := currentMaxSplatCount m |}.

Definition set_meshData (g : option Geometry) (mat : option Material) (m : t) : t :=
  {| renderer := renderer m;
     halfPrecisionCovariancesOnGPU := halfPrecisionCovariancesOnGPU m;
     dynamicMode := dynamicMode m;
     enableDistancesComputationOnGPU := enableDistancesComputationOnGPU m;
     integerBasedDistancesComputation := integerBasedDistancesComputation m;
     scenes := scenes m; splatTree := splatTree m;
     splatDataTextures := splatDataTextures m;
     distancesTransformFeedback := distancesTransformFeedback m;
     globalSplatIndexToLocalSplatIndexMap := globalSplatIndexToLocalSplatIndexMap m;
     globalSplatIndexToSceneIndexMap := globalSplatIndexToSceneIndexMap m;
     lastBuildSplatCount := lastBuildSplatCount m;
     lastBuildMaxSplatCount := lastBuildMaxSplatCount m;
     lastBuildSceneCount := lastBuildSceneCount m;
     webGLUtils := webGLUtils m; geometry := g; material := mat;
     currentRenderer := currentRenderer m;
     currentMaxSplatCount := currentMaxSplatCount m |}.

Definition set_splatTree (v : option unit) (m : t) : t :=
  {| renderer := renderer m;
     halfPrecisionCovariancesOnGPU := halfPrecisionCovariancesOnGPU m;
     dynamicMode := dynamicMode m;
     enableDistancesComputationOnGPU := enableDistancesComputationOnGPU m;
     integerBasedDistancesComputation := integerBasedDistancesComputation m;
     scenes := scenes m; splatTree := v;
     splatDataTextures := splatDataTextures m;
     distancesTransformFeedback := distancesTransformFeedback m;
     globalSplatIndexToLocalSplatIndexMap := globalSplatIndexToLocalSplatIndexMap m;
     globalSplatIndexToSceneIndexMap := globalSplatIndexToSceneIndexMap m;
     lastBuildSplatCount := lastBuildSplatCount m;
     lastBuildMaxSplatCount := lastBuildMaxSplatCount m;
     lastBuildSceneCount := lastBuildSceneCount m;
     webGLUtils := webGLUtils m; geometry := geometry m; material := material m;
     currentRenderer := currentRenderer m;
     currentMaxSplatCount := currentMaxSplatCount m |}.

(** The scene list and the bookkeeping of the last build. *)
Definition set_build (sc : list SplatScene.t) (lastCount : list nat)
  (lastMax lastScenes : nat) (m : t) : t :=
  {| renderer := renderer m;
     halfPrecisionCovariancesOnGPU := halfPrecisionCovariancesOnGPU m;
     dynamicMode := dynamicMode m;
     enableDistancesComputationOnGPU := enableDistancesComputationOnGPU m;
     integerBasedDistancesComputation := integerBasedDistancesComputation m;
     scenes := sc; splatTree := splatTree m;
     splatDataTextures := splatDataTextures m;
     distancesTransformFeedback := distancesTransformFeedback m;
     globalSplatIndexToLocalSplatIndexMap := globalSplatIndexToLocalSplatIndexMap m;
     globalSplatIndexToSceneIndexMap := globalSplatIndexToSceneIndexMap m;
     lastBuildSplatCount := lastCount;
     lastBuildMaxSplatCount := lastMax;
     lastBuildSceneCount := lastScenes;
     webGLUtils := webGLUtils m; geometry := geometry m; material := material m;
     currentRenderer := currentRenderer m;
     currentMaxSplatCount := currentMaxSplatCount m |}.

Definition set_renderer (r : option Renderer.t) (utils : bool) (m : t) : t :=
  {| renderer := r;
     halfPrecisionCovariancesOnGPU := halfPrecisionCovariancesOnGPU m;
     dynamicMode := dynamicMode m;
     enableDistancesComputationOnGPU := enableDistancesComputationOnGPU m;
     integerBasedDistancesComputation := integerBasedDistancesComputation m;
     scenes := scenes m; splatTree := splatTree m;
     splatDataTextures := splatDataTextures m;
     distancesTransformFeedback := distancesTransformFeedback m;
     globalSplatIndexToLocalSplatIndexMap := globalSplatIndexToLocalSplatIndexMap m;
     globalSplatIndexToSceneIndexMap := globalSplatIndexToSceneIndexMap m;
     lastBuildSplatCount := lastBuildSplatCount m;
     lastBuildMaxSplatCount := lastBuildMaxSplatCount m;
     lastBuildSceneCount := lastBuildSceneCount m;
     webGLUtils := utils; geometry := geometry m; material := material m;
     currentRenderer := currentRenderer m;
     currentMaxSplatCount := currentMaxSplatCount m |}.

Definition set_indexMaps (localMap sceneMap : list (option nat)) (m : t) : t :=
  {| renderer := renderer m;
     halfPrecisionCovariancesOnGPU := halfPrecisionCovariancesOnGPU m;
     dynamicMode := dynamicMode m;
     enableDistancesComputationOnGPU := enableDistancesComputationOnGPU m;
     integerBasedDistancesComputation := integerBasedDistancesComputation m;
     scenes := scenes m; splatTree := splatTree m;
     splatDataTextures := splatDataTextures m;
     distancesTransformFeedback := distancesTransformFeedback m;
     globalSplatIndexToLocalSplatIndexMap := localMap;
     globalSplatIndexToSceneIndexMap := sceneMap;
     lastBuildSplatCount := lastBuildSplatCount m;
     lastBuildMaxSplatCount := lastBuildMaxSplatCount m;
     lastBuildSceneCount := lastBuildSceneCount m;
     webGLUtils := webGLUtils m; geometry := geometry m; material := material m;
     currentRenderer := currentRenderer m;
     currentMaxSplatCount := currentMaxSplatCount m |}.

Definition set_setupState (r : option nat) (c : option nat) (m : t) : t :=
  {| renderer := renderer m;
     halfPrecisionCovariancesOnGPU := halfPrecisionCovariancesOnGPU m;
     dynamicMode := dynamicMode m;
     enableDistancesComputationOnGPU := enableDistancesComputationOnGPU m;
     integerBasedDistancesComputation := integerBasedDistancesComputation m;
     scenes := scenes m; splatTree := splatTree m;
     splatDataTextures := splatDataTextures m;
     distancesTransformFeedback := distancesTransformFeedback m;
     globalSplatIndexToLocalSplatIndexMap := globalSplatIndexToLocalSplatIndexMap m;
     globalSplatIndexToSceneIndexMap := globalSplatIndexToSceneIndexMap m;
     lastBuildSplatCount := lastBuildSplatCount m;
     lastBuildMaxSplatCount := lastBuildMaxSplatCount m;
     lastBuildSceneCount := lastBuildSceneCount m;
     webGLUtils := webGLUtils m; geometry := geometry m; material := material m;
     currentRenderer := r;
     currentMaxSplatCount := c |}.

End SplatMesh.

(** ** The state the methods run in: the instance, the WebGL context of its
    renderer, the Three.js disposal events and the next object identity. *)

Record World := mkWorld {
  mesh : SplatMesh.t;
  gl : GL.t;
  three : list ThreeEvent;
  nextTextureId : nat
}.

Definition withMesh (f : SplatMesh.t -> SplatMesh.t) (w : World) : World :=
  {| mesh := f (mesh w); gl := gl w; three := three w;
     nextTextureId := nextTextureId w |}.

Definition withGL (f : GL.t -> GL.t) (w : World) : World :=
  {| mesh := mesh w; gl := f (gl w); three := three w;
     nextTextureId := nextTextureId w |}.

Definition withThreeEvent (e : ThreeEvent) (w : World) : World :=
  {| mesh := mesh w; gl := gl w; three := e :: three w;
     nextTextureId := nextTextureId w |}.

Definition Method (A : Type) : Type := M World A.

Local Open Scope js_scope.

Definition getMesh : Method SplatMesh.t := gets mesh.
Definition glDo (f : GL.t -> GL.t) : Method unit := modify (withGL f).
Definition glGet {A} (f : GL.t -> A) : Method A := gets (fun w => f (gl w)).

Definition glCreate (k : GL.ObjectKind) (c : GL.handle -> GL.Call) : Method GL.handle :=
  fun w => let '(g, h) := GL.create k c (gl w) in (withGL (fun _ => g) w, Normal h).

Definition setDTF (f : DistancesTransformFeedback.t -> DistancesTransformFeedback.t)
  : Method unit :=
  modify (withMesh (fun m =>
    SplatMesh.set_distancesTransformFeedback (f (SplatMesh.distancesTransformFeedback m)) m)).

Definition getDTF : Method DistancesTransformFeedback.t :=
  gets (fun w => SplatMesh.distancesTransformFeedback (mesh w)).

(** A property read on [null] or [undefined] throws a TypeError. *)
Definition propertyOf {A} (what : string) (o : option A) : Method A :=
  match o with
  | Some a => ret a
  | None => throw (TypeError ("Cannot read properties of undefined or null: " ++ what)%string)
  end.

(** A [let] or [const] binding of a block: until its declaration has been
    evaluated the binding is in its temporal dead zone, and reading it throws
    a ReferenceError. *)
Inductive Binding (A : Type) :=
  | Uninitialized
  | Initialized (value : A).
Arguments Uninitialized {A}.
Arguments Initialized {A} value.

Definition readBinding {A} (name : string) (b : Binding A) : Method A :=
  match b with
  | Initialized v => ret v
  | Uninitialized =>
      throw (ReferenceError ("Cannot access '" ++ name ++ "' before initialization")%string)
  end.

(** [new Kind(length)]: a NaN length is 0, a negative length throws. *)
Definition newTypedArray (k : TypedArray.Kind) (len : option Z) : Method TypedArray.t :=
  match len with
  | None => ret (TypedArray.create k 0)
  | Some l =>
      if (l <? 0)%Z then throw (RangeError "Invalid typed array length")
      else ret (TypedArray.create k (Z.to_N l))
  end.

(** [dst.set(src)] *)
Definition typedArraySet (dst src : TypedArray.t) : Method TypedArray.t :=
  if TypedArray.fits dst src then ret (TypedArray.set dst src)
  else throw (RangeError "offset is out of bounds").

(** ** Counters *)

Definition COVARIANCES_ELEMENTS_PER_SPLAT : nat := 6.
Definition CENTER_COLORS_ELEMENTS_PER_SPLAT : nat := 4.

Definition getTotalSplatCountForScenes (scenes : list SplatScene.t) : nat :=
  fold_left (fun totalSplatCount scene =>
               totalSplatCount + SplatBuffer.getSplatCount (SplatScene.splatBuffer scene))
            scenes 0.

Definition getTotalMaxSplatCountForScenes (scenes : list SplatScene.t) : nat :=
  fold_left (fun totalSplatCount scene =>
               totalSplatCount + SplatBuffer.getMaxSplatCount (SplatScene.splatBuffer scene))
            scenes 0.

Definition getSplatCount (m : SplatMesh.t) : nat :=
  getTotalSplatCountForScenes (SplatMesh.scenes m).

Definition getMaxSplatCount (m : SplatMesh.t) : nat :=
  getTotalMaxSplatCountForScenes (SplatMesh.scenes m).

(** ** [checkForMultiSceneUpdateCondition] *)

Definition multiSceneMessage (functionName parameterName : string) : string :=
  (functionName ++ "() -> '" ++ parameterName
   ++ "' cannot be true if splat mesh has more than one scene.")%string.

Definition checkForMultiSceneUpdateCondition (sinceLastBuild : bool)
  (functionName parameterName : string) : Method unit :=
  let* m := getMesh in
  if (1 <? Datatypes.length (SplatMesh.scenes m)) && sinceLastBuild
  then throw (Error (multiSceneMessage functionName parameterName))
  else ret tt.

(** ** [getScene] *)

Definition getScene (sceneIndex : nat) : Method SplatScene.t :=
  let* m := getMesh in
  match SplatMesh.scenes m !! sceneIndex with
  | Some scene => ret scene
  | None => throw (Error "SplatMesh::getScene() -> Invalid scene index.")
  end.

(** ** [fillSplatDataArrays]

    The three target arrays are optional and are filled in place; the
    method returns them as they are after the call. [applySceneTransform],
    when [undefined], is set from [dynamicMode] on the first iteration.
    An [undefined] [sinceLastBuild] or [forceDestFromZero] is [false]. *)

Definition FillArrays : Type :=
  option TypedArray.t * option TypedArray.t * option TypedArray.t.

Definition fillSplatDataArrays_body (m : SplatMesh.t)
  (sinceLastBuild forceDestFromZero : bool) (i : nat)
  (st : nat * option bool * FillArrays) : nat * option bool * FillArrays :=
  let '(destfrom, applySceneTransform, (covariances, centers, colors)) := st in
  let applySceneTransform :=
    match applySceneTransform with
    | None => Some (if SplatMesh.dynamicMode m then false else true)
    | Some b => Some b
    end in
  let srcFrom := if sinceLastBuild then SplatMesh.lastBuildSplatCount m !! i else None in
  let srcTo : option nat := None in
  let localDestFrom :=
    if sinceLastBuild then (if forceDestFromZero then Some 0 else srcFrom)
    else Some destfrom in
  match SplatMesh.scenes m !! i with
  | Some scene =>
      let splatBuffer := SplatScene.splatBuffer scene in
      let sceneTransform :=
        if default false applySceneTransform then Some (SplatScene.transform scene)
        else None in
      let covariances :=
        (fun a => SplatBuffer.fillSplatCovarianceArray splatBuffer a sceneTransform
                    srcFrom srcTo localDestFrom
                    (if SplatMesh.halfPrecisionCovariancesOnGPU m then 1 else 0)%Z)
          <$> covariances in
      let centers :=
        (fun a => SplatBuffer.fillSplatCenterArray splatBuffer a sceneTransform
                    srcFrom srcTo localDestFrom) <$> centers in
      let colors :=
        (fun a => SplatBuffer.fillSplatColorArray splatBuffer a sceneTransform
                    srcFrom srcTo localDestFrom) <$> colors in
      (destfrom + SplatBuffer.getSplatCount splatBuffer, applySceneTransform,
       (covariances, centers, colors))
  | None => st
  end.

(** The loop over the scenes. *)
Definition fillSplatDataArrays_loop (m : SplatMesh.t)
  (covariances centers colors : option TypedArray.t)
  (applySceneTransform : option bool) (sinceLastBuild forceDestFromZero : bool)
  : FillArrays :=
  (for_range 0 (length (SplatMesh.scenes m))
     (fillSplatDataArrays_body m sinceLastBuild forceDestFromZero)
     (0, applySceneTransform, (covariances, centers, colors))).2.

Definition fillSplatDataArrays (covariances centers colors : option TypedArray.t)
  (applySceneTransform : option bool) (sinceLastBuild forceDestFromZero : bool)
  : Method FillArrays :=
  checkForMultiSceneUpdateCondition sinceLastBuild "fillSplatDataArrays" "sinceLastBuild" ;;
  let* m := getMesh in
  ret (fillSplatDataArrays_loop m covariances centers colors applySceneTransform
         sinceLastBuild forceDestFromZero).

(** ** [computeDataTextureSize] (local to [uploadSplatDataToTextures])

    [texSize = (4096, 1024); while (x * y * elementsPerTexel <
    maxSplatCount * elementsPerSplat) y *= 2]. The loop is run on a counter
    of allowed iterations: [None] is a loop that has not finished within
    that many iterations. *)

Fixpoint computeDataTextureSize_loop (fuel : nat) (maxSplatCount elementsPerTexel
  elementsPerSplat : Z) (x y : Z) : option (Z * Z) :=
  if (x * y * elementsPerTexel <? maxSplatCount * elementsPerSplat)%Z then
    match fuel with
    | O => None
    | S fuel' =>
        computeDataTextureSize_loop fuel' maxSplatCount elementsPerTexel
          elementsPerSplat x (y * 2)%Z
    end
  else Some (x, y).

Definition computeDataTextureSize_fuel (fuel : nat) (maxSplatCount : nat)
  (elementsPerTexel elementsPerSplat : Z) : option (Z * Z) :=
  computeDataTextureSize_loop fuel (Z.of_nat maxSplatCount) elementsPerTexel
    elementsPerSplat 4096 1024.

(** Iterations that always suffice when [elementsPerTexel] is positive. *)
Definition textureSizeFuel (maxSplatCount : nat) (elementsPerSplat : Z) : nat :=
  Z.to_nat (Z.log2_up (Z.of_nat maxSplatCount * elementsPerSplat + 1)).

Definition computeDataTextureSize (maxSplatCount : nat)
  (elementsPerTexel elementsPerSplat : Z) : Z * Z :=
  default (4096, 1024)%Z
    (computeDataTextureSize_fuel (textureSizeFuel maxSplatCount elementsPerSplat)
       maxSplatCount elementsPerTexel elementsPerSplat).

(** ** [computeTextureUpdateRegion]

    The Numbers of the region are exact rationals: [texelsPerSplat] is the
    quotient of two Numbers and is not rounded to an integer (6/4 is 3/2),
    and [Math.floor] is [Qfloor]. A division by zero gives an infinity or
    NaN, and so does every operation on such a result here: [None] is a
    Number that is not finite. The rounding of binary64 is not modelled;
    the divisions and products are exact when [elementsPerTexel] divides
    [elementsPerSplat], as at the three call sites (6/2, 4/4 and 1/1), and
    the products are below 2^53.

    [dataStart] and [dataEnd] are NaN whenever they are not finite, since
    an infinite row comes from a zero width or a zero [elementsPerTexel],
    by which it is multiplied. *)

Definition numberQuotient (a b : option Q) : option Q :=
  match a, b with
  | Some x, Some y => if Qeq_bool y 0 then None else Some (x / y)%Q
  | _, _ => None
  end.

Definition numberProduct (a b : option Q) : option Q :=
  match a, b with
  | Some x, Some y => Some (x * y)%Q
  | _, _ => None
  end.

Module UpdateRegion.
Record t := make {
  dataStart : option Z;
  dataEnd : option Z;
  startRow : option Z;
  endRow : option Z
}.
End UpdateRegion.

Definition computeTextureUpdateRegion (startSplat endSplat : option Z)
  (textureWidth textureHeight elementsPerTexel elementsPerSplat : Z) : UpdateRegion.t :=
  let texelsPerSplat :=
    numberQuotient (Some (inject_Z elementsPerSplat)) (Some (inject_Z elementsPerTexel)) in
  let startSplatTexels := numberProduct (inject_Z <$> startSplat) texelsPerSplat in
  let startRow :=
    Qfloor <$> numberQuotient startSplatTexels (Some (inject_Z textureWidth)) in
  let startRowElement := (fun r => r * textureWidth * elementsPerTexel)%Z <$> startRow in
  let endSplatTexels := numberProduct (inject_Z <$> endSplat) texelsPerSplat in
  let endRow :=
    Qfloor <$> numberQuotient endSplatTexels (Some (inject_Z textureWidth)) in
  let endRowEndElement :=
    (fun r => r * textureWidth * elementsPerTexel + textureWidth * elementsPerTexel)%Z
      <$> endRow in
  {| UpdateRegion.dataStart := startRowElement;
     UpdateRegion.dataEnd := endRowEndElement;
     UpdateRegion.startRow := startRow;
     UpdateRegion.endRow := endRow |}.

(** [a - b] and [a - b + 1] on Numbers that may be NaN. *)
Definition optSub (a b : option Z) : option Z :=
  match a, b with Some x, Some y => Some (x - y)%Z | _, _ => None end.

(** ** [updateDataTexture]

    [this.renderer.getContext()] is evaluated before the region is
    computed, and throws a TypeError on an instance without a renderer.

    [new paddedData.constructor(paddedData.buffer, byteOffset, length)]
    throws a RangeError when the offset is negative or not a multiple of the
    element size, when the length is negative, or when the view does not fit
    in the buffer; NaN is 0 in both places.

    In [this.webGLUtils.convert(dataTexture.type)] the function is looked
    up before its argument is evaluated: an instance without [webGLUtils]
    throws at the look-up, and a descriptor without a texture at the read
    of [type]. The constants that [convert] returns are not modelled. The
    rows, which [texSubImage2D] takes as integers, are 0 when they are not
    finite. *)

Definition updateDataTexture (paddedData : TypedArray.t) (textureDesc : TextureDesc.t)
  (webglTexture : GL.handle) (elementsPerTexel elementsPerSplat bytesPerElement : Z)
  : Method unit :=
  let* m := getMesh in
  let splatCount := getSplatCount m in
  let* renderer := propertyOf "renderer.getContext" (SplatMesh.renderer m) in
  let '(sizeX, sizeY) := TextureDesc.size textureDesc in
  let updateRegion :=
    computeTextureUpdateRegion (arrayToNumber (SplatMesh.lastBuildSplatCount m))
      (Some (Z.of_nat splatCount - 1)%Z) sizeX sizeY elementsPerTexel elementsPerSplat in
  let updateElementCount :=
    optSub (UpdateRegion.dataEnd updateRegion) (UpdateRegion.dataStart updateRegion) in
  let byteOffset :=
    default 0%Z ((fun s => s * bytesPerElement)%Z <$> UpdateRegion.dataStart updateRegion) in
  let viewLength := default 0%Z updateElementCount in
  let elementSize := TypedArray.bytesPerElement (TypedArray.kind paddedData) in
  let byteLength := (Z.of_N (TypedArray.length paddedData) * elementSize)%Z in
  if ((byteOffset <? 0) || negb (byteOffset mod elementSize =? 0)
      || (viewLength <? 0) || (byteLength <? byteOffset + viewLength * elementSize))%Z
  then throw (RangeError "Invalid typed array length or offset")
  else
    let updateHeight :=
      (fun h => h + 1)%Z
        <$> optSub (UpdateRegion.endRow updateRegion) (UpdateRegion.startRow updateRegion) in
    if negb (SplatMesh.webGLUtils m) then propertyOf "webGLUtils.convert" None
    else
      let* dataTexture := propertyOf "dataTexture.type" (TextureDesc.texture textureDesc) in
      let* currentTexture := glGet GL.TEXTURE_BINDING_2D in
      glDo (GL.doBindTexture (Some webglTexture)) ;;
      glDo (GL.log (GL.texSubImage2D (default 0%Z (UpdateRegion.startRow updateRegion))
                      sizeX (default 0%Z updateHeight) paddedData
                      (byteOffset / elementSize) viewLength)) ;;
      glDo (GL.doBindTexture currentTexture).

(** ** [disposeMeshData], [disposeTextures], [disposeSplatTree] *)

Definition disposeMeshData : Method unit :=
  let* m := getMesh in
  (match SplatMesh.geometry m with
   | Some (InstancedGeometry _) =>
       modify (withThreeEvent GeometryDispose) ;;
       modify (withMesh (fun m => SplatMesh.set_meshData None (SplatMesh.material m) m))
   | _ => ret tt
   end) ;;
  let* m := getMesh in
  match SplatMesh.material m with
  | Some _ =>
      modify (withThreeEvent MaterialDispose) ;;
      modify (withMesh (fun m => SplatMesh.set_meshData (SplatMesh.geometry m) None m))
  | None => ret tt
  end.

(** [textureContainer.texture.dispose(); textureContainer.texture = null]
    for a container that holds a texture. The [baseData] container has no
    [texture] property. *)
Definition disposeTextureOf (d : option TextureDesc.t) : Method unit :=
  match d with
  | Some desc =>
      match TextureDesc.texture desc with
      | Some tex => modify (withThreeEvent (TextureDispose (DataTexture.id tex)))
      | None => ret tt
      end
  | None => ret tt
  end.

(** A [for ... in] over [null] has no iteration. The containers are
    dropped with [splatDataTextures], which is set to [null]. *)
Definition disposeTextures : Method unit :=
  let* m := getMesh in
  (match SplatMesh.splatDataTextures m with
   | Some t =>
       disposeTextureOf (SplatDataTextures.covariances t) ;;
       disposeTextureOf (SplatDataTextures.centerColors t) ;;
       disposeTextureOf (SplatDataTextures.tansformIndexes t)
   | None => ret tt
   end) ;;
  modify (withMesh (SplatMesh.set_splatDataTextures None)).

Definition disposeSplatTree : Method unit :=
  modify (withMesh (SplatMesh.set_splatTree None)).

(** ** [uploadSplatDataToTextures] *)

(** [updateCenterColorsPaddedData(to, from, centers, colors,
    paddedCenterColors)]; the loop runs from [to] up to [from]. On the
    incremental path [to] is the array [lastBuildSplatCount], used as a
    Number by [c < from], [c * 4], [c * 3] and [c++]. *)
Definition updateCenterColorsPaddedData_body (centers colors : TypedArray.t) (c : nat)
  (paddedCenterColors : TypedArray.t) : TypedArray.t :=
  let colorsBase := c * 4 in
  let centersBase := c * 3 in
  let centerColorsBase := c * 4 in
  let p := TypedArray.store paddedCenterColors centerColorsBase
             (rgbaArrayToInteger colors colorsBase) in
  let p := TypedArray.store p (centerColorsBase + 1)
             (uintEncodedFloat (TypedArray.get centers centersBase)) in
  let p := TypedArray.store p (centerColorsBase + 2)
             (uintEncodedFloat (TypedArray.get centers (centersBase + 1))) in
  TypedArray.store p (centerColorsBase + 3)
    (uintEncodedFloat (TypedArray.get centers (centersBase + 2))).

Definition updateCenterColorsPaddedData (to : option Z) (from : nat)
  (centers colors paddedCenterColors : TypedArray.t) : TypedArray.t :=
  match to with
  | Some start =>
      for_range (Z.to_nat start) from
        (updateCenterColorsPaddedData_body centers colors) paddedCenterColors
  | None => paddedCenterColors
  end.

(** [new THREE.DataTexture(...)] with [needsUpdate = true]. *)
Definition newDataTexture : Method DataTexture.t :=
  fun w =>
    ({| mesh := mesh w; gl := gl w; three := three w;
        nextTextureId := S (nextTextureId w) |},
     Normal {| DataTexture.id := nextTextureId w; DataTexture.needsUpdate := true |}).

(** [this.material.uniforms]: absent on [null] and on the dummy material. *)
Definition getUniforms : Method Uniforms.t :=
  let* m := getMesh in
  match SplatMesh.material m with
  | Some (ShaderMaterial u) => ret u
  | _ => propertyOf "material.uniforms" None
  end.

Definition setUniforms (u : Uniforms.t) : Method unit :=
  modify (withMesh (fun m =>
    SplatMesh.set_meshData (SplatMesh.geometry m) (Some (ShaderMaterial u)) m)).

Definition setTextures (t : SplatDataTextures.t) : Method unit :=
  modify (withMesh (SplatMesh.set_splatDataTextures (Some t))).

(** [this.renderer.properties.get(texture).__webglTexture] *)
Definition webglTextureOf (texture : option DataTexture.t) : Method (option GL.handle) :=
  let* m := getMesh in
  let* r := propertyOf "renderer.properties" (SplatMesh.renderer m) in
  let* tex := propertyOf "texture" texture in
  ret (Renderer.webglTexture r (DataTexture.id tex)).

Definition markNeedsUpdate (d : TextureDesc.t) : TextureDesc.t :=
  {| TextureDesc.data := TextureDesc.data d;
     TextureDesc.texture :=
       (fun t => {| DataTexture.id := DataTexture.id t; DataTexture.needsUpdate := true |})
         <$> TextureDesc.texture d;
     TextureDesc.size := TextureDesc.size d |}.

Definition withData (a : TypedArray.t) (d : TextureDesc.t) : TextureDesc.t :=
  {| TextureDesc.data := a; TextureDesc.texture := TextureDesc.texture d;
     TextureDesc.size := TextureDesc.size d |}.

(** The full rebuild: the branch of [!sinceLastBuild]. *)
Definition uploadSplatDataToTextures_full (maxSplatCount splatCount : nat) : Method unit :=
  let COVARIANCES_ELEMENTS_PER_TEXEL := 2%Z in
  let CENTER_COLORS_ELEMENTS_PER_TEXEL := 4%Z in
  let TRANSFORM_INDEXES_ELEMENTS_PER_TEXEL := 1%Z in
  disposeTextures ;;
  let covariances :=
    TypedArray.create TypedArray.Float32Array
      (N.of_nat (maxSplatCount * COVARIANCES_ELEMENTS_PER_SPLAT)) in
  let centers := TypedArray.create TypedArray.Float32Array (N.of_nat (maxSplatCount * 3)) in
  let colors := TypedArray.create TypedArray.Uint8Array (N.of_nat (maxSplatCount * 4)) in
  let* filled := fillSplatDataArrays (Some covariances) (Some centers) (Some colors)
                   None false false in
  let covariances := default covariances (filled.1.1) in
  let centers := default centers (filled.1.2) in
  let colors := default colors (filled.2) in
  let* m := getMesh in
  (* covariances data texture *)
  let covTexSize := computeDataTextureSize maxSplatCount COVARIANCES_ELEMENTS_PER_TEXEL 6 in
  let CovariancesDataType :=
    if SplatMesh.halfPrecisionCovariancesOnGPU m then TypedArray.Uint16Array
    else TypedArray.Float32Array in
  let* paddedCovariances :=
    typedArraySet
      (TypedArray.create CovariancesDataType
         (Z.to_N (covTexSize.1 * covTexSize.2 * COVARIANCES_ELEMENTS_PER_TEXEL)))
      covariances in
  let* covTex := newDataTexture in
  let* u := getUniforms in
  setUniforms
    {| Uniforms.covariancesTexture := Some (DataTexture.id covTex);
       Uniforms.covariancesTextureSize := covTexSize;
       Uniforms.centersColorsTexture := Uniforms.centersColorsTexture u;
       Uniforms.centersColorsTextureSize := Uniforms.centersColorsTextureSize u;
       Uniforms.hasTransformUniforms := Uniforms.hasTransformUniforms u;
       Uniforms.transformIndexesTexture := Uniforms.transformIndexesTexture u;
       Uniforms.transformIndexesTextureSize := Uniforms.transformIndexesTextureSize u;
       Uniforms.uniformsNeedUpdate := Uniforms.uniformsNeedUpdate u |} ;;
  (* centers/colors data texture *)
  let centersColsTexSize :=
    computeDataTextureSize maxSplatCount CENTER_COLORS_ELEMENTS_PER_TEXEL 4 in
  let paddedCentersCols :=
    updateCenterColorsPaddedData (Some 0%Z) splatCount centers colors
      (TypedArray.create TypedArray.Uint32Array
         (Z.to_N (centersColsTexSize.1 * centersColsTexSize.2
                  * CENTER_COLORS_ELEMENTS_PER_TEXEL))) in
  let* centersColsTex := newDataTexture in
  let* u := getUniforms in
  setUniforms
    {| Uniforms.covariancesTexture := Uniforms.covariancesTexture u;
       Uniforms.covariancesTextureSize := Uniforms.covariancesTextureSize u;
       Uniforms.centersColorsTexture := Some (DataTexture.id centersColsTex);
       Uniforms.centersColorsTextureSize := centersColsTexSize;
       Uniforms.hasTransformUniforms := Uniforms.hasTransformUniforms u;
       Uniforms.transformIndexesTexture := Uniforms.transformIndexesTexture u;
       Uniforms.transformIndexesTextureSize := Uniforms.transformIndexesTextureSize u;
       Uniforms.uniformsNeedUpdate := true |} ;;
  let textures :=
    {| SplatDataTextures.baseData :=
         Some {| BaseData.covariances := covariances; BaseData.centers := centers;
                 BaseData.colors := colors |};
       SplatDataTextures.covariances :=
         Some {| TextureDesc.data := paddedCovariances;
                 TextureDesc.texture := Some covTex;
                 TextureDesc.size := covTexSize |};
       SplatDataTextures.centerColors :=
         Some {| TextureDesc.data := paddedCentersCols;
                 TextureDesc.texture := Some centersColsTex;
                 TextureDesc.size := centersColsTexSize |};
       SplatDataTextures.tansformIndexes := None |} in
  setTextures textures ;;
  if SplatMesh.dynamicMode m then
    let transformIndexesTexSize :=
      computeDataTextureSize maxSplatCount TRANSFORM_INDEXES_ELEMENTS_PER_TEXEL 4 in
    let paddedTransformIndexes :=
      for_range 0 splatCount
        (fun c p => TypedArray.store p c
           (ToNumber_nat (js_array_get (SplatMesh.globalSplatIndexToSceneIndexMap m) c)))
        (TypedArray.create TypedArray.Uint32Array
           (Z.to_N (transformIndexesTexSize.1 * transformIndexesTexSize.2
                    * TRANSFORM_INDEXES_ELEMENTS_PER_TEXEL))) in
    let* transformIndexesTexture := newDataTexture in
    let* u := getUniforms in
    if negb (Uniforms.hasTransformUniforms u)
    then propertyOf "uniforms.transformIndexesTexture" None
    else
      setUniforms
        {| Uniforms.covariancesTexture := Uniforms.covariancesTexture u;
           Uniforms.covariancesTextureSize := Uniforms.covariancesTextureSize u;
           Uniforms.centersColorsTexture := Uniforms.centersColorsTexture u;
           Uniforms.centersColorsTextureSize := Uniforms.centersColorsTextureSize u;
           Uniforms.hasTransformUniforms := true;
           Uniforms.transformIndexesTexture := Some (DataTexture.id transformIndexesTexture);
           Uniforms.transformIndexesTextureSize := transformIndexesTexSize;
           Uniforms.uniformsNeedUpdate := true |} ;;
      setTextures
        {| SplatDataTextures.baseData := SplatDataTextures.baseData textures;
           SplatDataTextures.covariances := SplatDataTextures.covariances textures;
           SplatDataTextures.centerColors := SplatDataTextures.centerColors textures;
           SplatDataTextures.tansformIndexes :=
             Some {| TextureDesc.data := paddedTransformIndexes;
                     TextureDesc.texture := Some transformIndexesTexture;
                     TextureDesc.size := transformIndexesTexSize |} |}
  else ret tt.

(** The loop over the transform indexes on the incremental path:
    [for (let c = this.lastBuildSplatCount; c < splatCount; c++)
       paddedTransformIndexes[c] = this.globalSplatIndexToSceneIndexMap[c]].
    On the first iteration [c] is the array itself, used as a property key:
    the key of [[n]] is the index [n]; the key of [[]] is the empty string,
    which is no element, and [c++] then gives 1; a longer array compares as
    NaN and the loop does not run. *)
Definition updateTransformIndexes (lastBuildSplatCount : list nat) (splatCount : nat)
  (sceneIndexMap : list (option nat)) (paddedTransformIndexes : TypedArray.t)
  : TypedArray.t :=
  let body := fun c p =>
    TypedArray.store p c (ToNumber_nat (js_array_get sceneIndexMap c)) in
  match lastBuildSplatCount with
  | [] => for_range 1 splatCount body paddedTransformIndexes
  | [n] => for_range n splatCount body paddedTransformIndexes
  | _ => paddedTransformIndexes
  end.

(** [if (!props.__webglTexture) texture.needsUpdate = true; else
    this.updateDataTexture(...)], on the descriptor stored under a key of
    [splatDataTextures]. *)
Definition refreshTexture (desc : TextureDesc.t)
  (store : TextureDesc.t -> SplatDataTextures.t -> SplatDataTextures.t)
  (elementsPerTexel elementsPerSplat bytesPerElement : Z) : Method unit :=
  let* webglTexture := webglTextureOf (TextureDesc.texture desc) in
  match webglTexture with
  | None =>
      let* m := getMesh in
      let* t := propertyOf "splatDataTextures" (SplatMesh.splatDataTextures m) in
      setTextures (store (markNeedsUpdate desc) t)
  | Some h =>
      updateDataTexture (TextureDesc.data desc) desc h
        elementsPerTexel elementsPerSplat bytesPerElement
  end.

Definition store_covariances (d : TextureDesc.t) (t : SplatDataTextures.t)
  : SplatDataTextures.t :=
  {| SplatDataTextures.baseData := SplatDataTextures.baseData t;
     SplatDataTextures.covariances := Some d;
     SplatDataTextures.centerColors := SplatDataTextures.centerColors t;
     SplatDataTextures.tansformIndexes := SplatDataTextures.tansformIndexes t |}.

Definition store_centerColors (d : TextureDesc.t) (t : SplatDataTextures.t)
  : SplatDataTextures.t :=
  {| SplatDataTextures.baseData := SplatDataTextures.baseData t;
     SplatDataTextures.covariances := SplatDataTextures.covariances t;
     SplatDataTextures.centerColors := Some d;
     SplatDataTextures.tansformIndexes := SplatDataTextures.tansformIndexes t |}.

Definition store_tansformIndexes (d : TextureDesc.t) (t : SplatDataTextures.t)
  : SplatDataTextures.t :=
  {| SplatDataTextures.baseData := SplatDataTextures.baseData t;
     SplatDataTextures.covariances := SplatDataTextures.covariances t;
     SplatDataTextures.centerColors := SplatDataTextures.centerColors t;
     SplatDataTextures.tansformIndexes := Some d |}.

Definition store_baseData (b : BaseData.t) (t : SplatDataTextures.t)
  : SplatDataTextures.t :=
  {| SplatDataTextures.baseData := Some b;
     SplatDataTextures.covariances := SplatDataTextures.covariances t;
     SplatDataTextures.centerColors := SplatDataTextures.centerColors t;
     SplatDataTextures.tansformIndexes := SplatDataTextures.tansformIndexes t |}.

(** The incremental update: the branch of [sinceLastBuild]. The arrays of
    [baseData] and the [data] arrays of the descriptors are updated in
    place, so every update is stored back before the next statement that
    can throw. *)
Definition uploadSplatDataToTextures_incremental (splatCount : nat) : Method unit :=
  let COVARIANCES_ELEMENTS_PER_TEXEL := 2%Z in
  let CENTER_COLORS_ELEMENTS_PER_TEXEL := 4%Z in
  let* m := getMesh in
  let* t := propertyOf "splatDataTextures.baseData" (SplatMesh.splatDataTextures m) in
  let* base := propertyOf "baseData.covariances" (SplatDataTextures.baseData t) in
  let* filled :=
    fillSplatDataArrays (Some (BaseData.covariances base)) (Some (BaseData.centers base))
      (Some (BaseData.colors base)) None true false in
  let base :=
    {| BaseData.covariances := default (BaseData.covariances base) (filled.1.1);
       BaseData.centers := default (BaseData.centers base) (filled.1.2);
       BaseData.colors := default (BaseData.colors base) (filled.2) |} in
  let t := store_baseData base t in
  setTextures t ;;
  (* covariances *)
  let* covariancesTextureDescriptor :=
    propertyOf "covariances.data" (SplatDataTextures.covariances t) in
  let paddedCovariances :=
    match arrayToNumber (SplatMesh.lastBuildSplatCount m) with
    | Some last =>
        let covarancesStartSplat := (last * Z.of_nat COVARIANCES_ELEMENTS_PER_SPLAT)%Z in
        let covariancesEndSplat := splatCount * COVARIANCES_ELEMENTS_PER_SPLAT in
        for_range (Z.to_nat covarancesStartSplat) covariancesEndSplat
          (fun i p =>
             let covariance := TypedArray.get (BaseData.covariances base) i in
             TypedArray.store p i (ToNumber covariance))
          (TextureDesc.data covariancesTextureDescriptor)
    | None => TextureDesc.data covariancesTextureDescriptor
    end in
  let covariancesTextureDescriptor := withData paddedCovariances covariancesTextureDescriptor in
  let t := store_covariances covariancesTextureDescriptor t in
  setTextures t ;;
  let covaranceBytesPerElement :=
    (if SplatMesh.halfPrecisionCovariancesOnGPU m then 2 else 4)%Z in
  refreshTexture covariancesTextureDescriptor store_covariances
    COVARIANCES_ELEMENTS_PER_TEXEL (Z.of_nat COVARIANCES_ELEMENTS_PER_SPLAT)
    covaranceBytesPerElement ;;
  (* centers and colors *)
  let* m1 := getMesh in
  let* t := propertyOf "splatDataTextures" (SplatMesh.splatDataTextures m1) in
  let* centerColorsTextureDescriptor :=
    propertyOf "centerColors.data" (SplatDataTextures.centerColors t) in
  let paddedCenterColors :=
    updateCenterColorsPaddedData (arrayToNumber (SplatMesh.lastBuildSplatCount m))
      splatCount (BaseData.centers base) (BaseData.colors base)
      (TextureDesc.data centerColorsTextureDescriptor) in
  let centerColorsTextureDescriptor := withData paddedCenterColors centerColorsTextureDescriptor in
  let t := store_centerColors centerColorsTextureDescriptor t in
  setTextures t ;;
  refreshTexture centerColorsTextureDescriptor store_centerColors
    CENTER_COLORS_ELEMENTS_PER_TEXEL (Z.of_nat CENTER_COLORS_ELEMENTS_PER_SPLAT) 4 ;;
  (* transform indexes *)
  if SplatMesh.dynamicMode m then
    let* m2 := getMesh in
    let* t := propertyOf "splatDataTextures" (SplatMesh.splatDataTextures m2) in
    let* transformIndexesTexDesc :=
      propertyOf "tansformIndexes.data" (SplatDataTextures.tansformIndexes t) in
    let paddedTransformIndexes :=
      updateTransformIndexes (SplatMesh.lastBuildSplatCount m) splatCount
        (SplatMesh.globalSplatIndexToSceneIndexMap m)
        (TextureDesc.data transformIndexesTexDesc) in
    let transformIndexesTexDesc := withData paddedTransformIndexes transformIndexesTexDesc in
    setTextures (store_tansformIndexes transformIndexesTexDesc t) ;;
    refreshTexture transformIndexesTexDesc store_tansformIndexes 1 1 1
  else ret tt.

Definition uploadSplatDataToTextures (sinceLastBuild : bool) : Method unit :=
  checkForMultiSceneUpdateCondition sinceLastBuild "uploadSplatDataToTextures"
    "sinceLastBuild" ;;
  let* m := getMesh in
  let maxSplatCount := getMaxSplatCount m in
  let splatCount := getSplatCount m in
  if negb sinceLastBuild then uploadSplatDataToTextures_full maxSplatCount splatCount
  else uploadSplatDataToTextures_incremental splatCount.

(** The bookkeeping at the end of [build]:
    [lastBuildSplatCount[i] = scenes[i].splatBuffer.getSplatCount()] for
    every scene, [lastBuildMaxSplatCount] and [lastBuildSceneCount]. (On a
    build that is not an update, [lastBuildSplatCount] was reset to one 0
    per scene at the start.) *)
Definition recordLastBuild (m : SplatMesh.t) : SplatMesh.t :=
  let counts :=
    for_range 0 (length (SplatMesh.scenes m))
      (fun i acc =>
         match SplatMesh.scenes m !! i with
         | Some scene =>
             let n := SplatBuffer.getSplatCount (SplatScene.splatBuffer scene) in
             if i <? length acc then <[i := n]> acc else acc ++ [n]
         | None => acc
         end) (SplatMesh.lastBuildSplatCount m) in
  SplatMesh.set_build (SplatMesh.scenes m) counts (getMaxSplatCount m)
    (length (SplatMesh.scenes m)) m.

(** More splats have been loaded into the buffers of the scenes: every
    scene keeps its buffer object, whose splat count is now [counts[i]]. *)
Definition growSplatBuffers (counts : list nat) (m : SplatMesh.t) : SplatMesh.t :=
  SplatMesh.set_build
    (zip_with (fun scene n =>
                 {| SplatScene.splatBuffer :=
                      SplatBuffer.withSplatCount (SplatScene.splatBuffer scene) n;
                    SplatScene.transform := SplatScene.transform scene |})
              (SplatMesh.scenes m) counts)
    (SplatMesh.lastBuildSplatCount m) (SplatMesh.lastBuildMaxSplatCount m)
    (SplatMesh.lastBuildSceneCount m) m.

(** ** [getIntegerCenters], [getFloatCenters], [getIntegerMatrixArray] *)

(** [fillCount = sinceLastBuild ? splatCount - this.lastBuildSplatCount[0]
    : splatCount]; an [undefined] operand gives NaN. *)
Definition fillCountOf (m : SplatMesh.t) (sinceLastBuild : bool) : option Z :=
  let splatCount := getSplatCount m in
  if sinceLastBuild
  then (fun last => Z.of_nat splatCount - Z.of_nat last)%Z
         <$> SplatMesh.lastBuildSplatCount m !! 0
  else Some (Z.of_nat splatCount).

Definition fillCountLoops (fillCount : option Z) : nat :=
  match fillCount with Some n => Z.to_nat n | None => 0 end.

Definition thousand : JsNumber.t := JsNumber.ofZ 1000.

(** [Math.round(x * 1000.0)] *)
Definition scaleAndRound (x : option JsNumber.t) : JsNumber.t :=
  JsNumber.Math_round (JsNumber.mul (ToNumber x) thousand).

(** The body of the loop over the splats in [getIntegerCenters]. *)
Definition getIntegerCenters_body (floatCenters : TypedArray.t) (componentCount : nat)
  (padFour : bool) (i : nat) (intCenters : TypedArray.t) : TypedArray.t :=
  let intCenters :=
    for_range 0 3
      (fun t intCenters =>
         TypedArray.store intCenters (i * componentCount + t)
           (scaleAndRound (TypedArray.get floatCenters (i * 3 + t))))
      intCenters in
  if padFour then TypedArray.store intCenters (i * componentCount + 3) thousand
  else intCenters.

(** The array of centers that [getIntegerCenters] converts: a new
    Float32Array of [fillCount * 3] elements, filled by
    [fillSplatDataArrays(null, floatCenters, null, undefined,
    sinceLastBuild, sinceLastBuild)]. *)
Definition filledFloatCenters (m : SplatMesh.t) (sinceLastBuild : bool)
  (floatCenters : TypedArray.t) : TypedArray.t :=
  default floatCenters
    (fillSplatDataArrays_loop m None (Some floatCenters) None None
       sinceLastBuild sinceLastBuild).1.2.

Definition getIntegerCenters (padFour sinceLastBuild : bool) : Method TypedArray.t :=
  checkForMultiSceneUpdateCondition sinceLastBuild "getIntegerCenters" "sinceLastBuild" ;;
  let* m := getMesh in
  let fillCount := fillCountOf m sinceLastBuild in
  let* floatCenters :=
    newTypedArray TypedArray.Float32Array ((fun n => n * 3)%Z <$> fillCount) in
  let* filled :=
    fillSplatDataArrays None (Some floatCenters) None None sinceLastBuild sinceLastBuild in
  let floatCenters := default floatCenters (filled.1.2) in
  let componentCount := if padFour then 4 else 3 in
  let* intCenters :=
    newTypedArray TypedArray.Int32Array
      ((fun n => n * Z.of_nat componentCount)%Z <$> fillCount) in
  ret (for_range 0 (fillCountLoops fillCount)
         (getIntegerCenters_body floatCenters componentCount padFour) intCenters).

(** In [getFloatCenters] the call of [fillSplatDataArrays] names
    [floatCenters] one line before [const floatCenters = ...]: the binding
    is still uninitialised when the argument is evaluated. *)
Definition getFloatCenters (padFour sinceLastBuild : bool) : Method TypedArray.t :=
  checkForMultiSceneUpdateCondition sinceLastBuild "getFloatCenters" "sinceLastBuild" ;;
  let* m := getMesh in
  let fillCount := fillCountOf m sinceLastBuild in
  let floatCenters_binding : Binding TypedArray.t := Uninitialized in
  let* argument := readBinding "floatCenters" floatCenters_binding in
  fillSplatDataArrays None (Some argument) None None sinceLastBuild sinceLastBuild ;;
  let* floatCenters :=
    newTypedArray TypedArray.Float32Array ((fun n => n * 3)%Z <$> fillCount) in
  if negb padFour then ret floatCenters
  else
    let* paddedFloatCenters :=
      newTypedArray TypedArray.Float32Array ((fun n => n * 4)%Z <$> fillCount) in
    ret (for_range 0 (fillCountLoops fillCount)
           (fun i padded =>
              let padded :=
                for_range 0 3
                  (fun t padded =>
                     TypedArray.store padded (i * 4 + t)
                       (ToNumber (TypedArray.get floatCenters (i * 3 + t))))
                  padded in
              TypedArray.store padded (i * 4 + 3) (JsNumber.ofZ 1))
           paddedFloatCenters).

(** [getIntegerMatrixArray(matrix)]: a plain array of 16 Numbers. *)
Definition getIntegerMatrixArray (matrix : Matrix4.t) : list (option JsNumber.t) :=
  let matrixElements := Matrix4.elements matrix in
  for_range 0 16
    (fun i intMatrixArray =>
       js_array_assign intMatrixArray i (scaleAndRound (matrixElements !! i)))
    [].

(** What a method returns, when it returns. *)
Definition returned {A} (r : World * Completion A) : option A :=
  match snd r with
  | Normal a => Some a
  | Throw _ => None
  end.

(** ** The WebGL objects of the distances computation *)

Module DTF := DistancesTransformFeedback.

(** In the first branch the reference is set to [null] before it is passed
    to [gl.deleteBuffer], as the source has it. *)
Definition disposeDistancesComputationGPUBufferResources : Method unit :=
  let* m := getMesh in
  match SplatMesh.renderer m with
  | None => ret tt
  | Some _ =>
      let* d := getDTF in
      (match DTF.centersBuffer d with
       | Some _ =>
           setDTF (fun d =>
             DTF.setObjects (DTF.id d) (DTF.vertexShader d) (DTF.fragmentShader d)
               (DTF.program d) None (DTF.transformIndexesBuffer d)
               (DTF.outDistancesBuffer d) (DTF.vao d) d) ;;
           let* d := getDTF in
           glDo (GL.delete GL.deleteBuffer (DTF.centersBuffer d))
       | None => ret tt
       end) ;;
      let* d := getDTF in
      match DTF.outDistancesBuffer d with
      | Some _ =>
          glDo (GL.delete GL.deleteBuffer (DTF.outDistancesBuffer d)) ;;
          setDTF (fun d =>
            DTF.setObjects (DTF.id d) (DTF.vertexShader d) (DTF.fragmentShader d)
              (DTF.program d) (DTF.centersBuffer d) (DTF.transformIndexesBuffer d)
              None (DTF.vao d) d)
      | None => ret tt
      end
  end.

Definition disposeDistancesComputationGPUResources : Method unit :=
  let* m := getMesh in
  match SplatMesh.renderer m with
  | None => ret tt
  | Some _ =>
      let* d := getDTF in
      (match DTF.vao d with
       | Some _ =>
           glDo (GL.delete GL.deleteVertexArray (DTF.vao d)) ;;
           setDTF (fun d =>
             DTF.setObjects (DTF.id d) (DTF.vertexShader d) (DTF.fragmentShader d)
               (DTF.program d) (DTF.centersBuffer d) (DTF.transformIndexesBuffer d)
               (DTF.outDistancesBuffer d) None d)
       | None => ret tt
       end) ;;
      let* d := getDTF in
      (match DTF.program d with
       | Some _ =>
           glDo (GL.delete GL.deleteProgram (DTF.program d)) ;;
           glDo (GL.delete GL.deleteShader (DTF.vertexShader d)) ;;
           glDo (GL.delete GL.deleteShader (DTF.fragmentShader d)) ;;
           setDTF (fun d =>
             DTF.setObjects (DTF.id d) None None None (DTF.centersBuffer d)
               (DTF.transformIndexesBuffer d) (DTF.outDistancesBuffer d) (DTF.vao d) d)
       | None => ret tt
       end) ;;
      disposeDistancesComputationGPUBufferResources ;;
      let* d := getDTF in
      match DTF.id d with
      | Some _ =>
          glDo (GL.delete GL.deleteTransformFeedback (DTF.id d)) ;;
          setDTF (fun d =>
            DTF.setObjects None (DTF.vertexShader d) (DTF.fragmentShader d)
              (DTF.program d) (DTF.centersBuffer d) (DTF.transformIndexesBuffer d)
              (DTF.outDistancesBuffer d) (DTF.vao d) d)
      | None => ret tt
      end
  end.

(** ** [dispose] *)

Definition dispose : Method unit :=
  disposeMeshData ;;
  disposeTextures ;;
  disposeSplatTree ;;
  let* m := getMesh in
  if SplatMesh.enableDistancesComputationOnGPU m
  then disposeDistancesComputationGPUResources
  else ret tt.

(** ** [setupDistancesComputationTransformFeedback] *)

(** The local [createShader(gl, type, source)]. *)
Definition createShader (type : GL.ShaderType) (source : string)
  : Method (option GL.handle) :=
  let* g := glGet id in
  if GL.createShaderSucceeds g type then
    let* shader := glCreate (GL.Shader type) (fun h => GL.createShader type (Some h)) in
    glDo (GL.log (GL.shaderSource shader source)) ;;
    glDo (GL.log (GL.compileShader shader)) ;;
    if GL.COMPILE_STATUS g type then ret (Some shader)
    else glDo (GL.delete GL.deleteShader (Some shader)) ;; ret None
  else
    glDo (GL.log (GL.createShader type None)) ;; ret None.

(** The body of [main] of the vertex shader source that is selected. *)
Definition vsSource (integerBasedDistancesComputation dynamicMode : bool) : string :=
  if integerBasedDistancesComputation then
    if dynamicMode
    then "ivec4 transform = transforms[transformIndex]; distance = center.x * transform.x + center.y * transform.y + center.z * transform.z + transform.w * center.w;"
    else "distance = center.x * modelViewProj.x + center.y * modelViewProj.y + center.z * modelViewProj.z;"
  else
    if dynamicMode
    then "vec4 transformedCenter = transforms[transformIndex] * vec4(center, 1.0); distance = transformedCenter.z;"
    else "distance = center.x * modelViewProj.x + center.y * modelViewProj.y + center.z * modelViewProj.z;".

Definition fsSource : string := "void main(){}".

Definition option_nat_eqb (a b : option nat) : bool := bool_decide (a = b).

(** [gl.getAttribLocation(program, name)] and [gl.getUniformLocation(program,
    name)]: the [program] parameter of WebGL2 is not nullable, so the call
    throws a TypeError on [null] before it does anything. ([useProgram],
    the [bind...] and the [delete...] calls accept [null].) *)
Definition programArgument (call : string) (program : option GL.handle)
  : Method GL.handle :=
  match program with
  | Some p => ret p
  | None =>
      throw (TypeError ("Failed to execute '" ++ call
                        ++ "' on 'WebGL2RenderingContext': parameter 1 is not of type 'WebGLProgram'."))
  end.

Definition setupDistancesComputationTransformFeedback : Method unit :=
  let* m := getMesh in
  let maxSplatCount := getMaxSplatCount m in
  match SplatMesh.renderer m with
  | None => ret tt
  | Some renderer =>
      let rebuildGPUObjects :=
        negb (option_nat_eqb (SplatMesh.currentRenderer m) (Some (Renderer.id renderer))) in
      let rebuildBuffers :=
        negb (option_nat_eqb (SplatMesh.currentMaxSplatCount m) (Some maxSplatCount)) in
      if negb rebuildGPUObjects && negb rebuildBuffers then ret tt
      else
        (if rebuildGPUObjects then disposeDistancesComputationGPUResources
         else if rebuildBuffers then disposeDistancesComputationGPUBufferResources
         else ret tt) ;;
        let* currentVao := glGet GL.VERTEX_ARRAY_BINDING in
        let* currentProgram := glGet GL.CURRENT_PROGRAM in
        (if rebuildGPUObjects then
           let* vao := glCreate GL.VertexArray GL.createVertexArray in
           setDTF (fun d =>
             DTF.setObjects (DTF.id d) (DTF.vertexShader d) (DTF.fragmentShader d)
               (DTF.program d) (DTF.centersBuffer d) (DTF.transformIndexesBuffer d)
               (DTF.outDistancesBuffer d) (Some vao) d)
         else ret tt) ;;
        let* d := getDTF in
        glDo (GL.doBindVertexArray (DTF.vao d)) ;;
        (if rebuildGPUObjects then
           let* program := glCreate GL.Program GL.createProgram in
           let* vertexShader :=
             createShader GL.VERTEX_SHADER
               (vsSource (SplatMesh.integerBasedDistancesComputation m)
                  (SplatMesh.dynamicMode m)) in
           let* fragmentShader := createShader GL.FRAGMENT_SHADER fsSource in
           match vertexShader, fragmentShader with
           | Some vs, Some fs =>
               glDo (GL.log (GL.attachShader program vs)) ;;
               glDo (GL.log (GL.attachShader program fs)) ;;
               glDo (GL.log (GL.transformFeedbackVaryings program ["distance"%string])) ;;
               glDo (GL.log (GL.linkProgram program)) ;;
               let* linked := glGet GL.LINK_STATUS in
               if negb linked then
                 glDo (GL.delete GL.deleteProgram (Some program)) ;;
                 glDo (GL.delete GL.deleteShader (Some fs)) ;;
                 glDo (GL.delete GL.deleteShader (Some vs)) ;;
                 throw (Error "Could not link shaders for distances computation on GPU.")
               else
                 (* program = program; vertexShader = vertexShader;
                    vertexShader = fragmentShader *)
                 setDTF (fun d =>
                   DTF.setObjects (DTF.id d) (DTF.vertexShader d) (DTF.fragmentShader d)
                     (Some program) (DTF.centersBuffer d) (DTF.transformIndexesBuffer d)
                     (DTF.outDistancesBuffer d) (DTF.vao d) d) ;;
                 setDTF (fun d =>
                   DTF.setObjects (DTF.id d) (Some vs) (DTF.fragmentShader d)
                     (DTF.program d) (DTF.centersBuffer d) (DTF.transformIndexesBuffer d)
                     (DTF.outDistancesBuffer d) (DTF.vao d) d) ;;
                 setDTF (fun d =>
                   DTF.setObjects (DTF.id d) (Some fs) (DTF.fragmentShader d)
                     (DTF.program d) (DTF.centersBuffer d) (DTF.transformIndexesBuffer d)
                     (DTF.outDistancesBuffer d) (DTF.vao d) d)
           | _, _ =>
               throw (Error "Could not compile shaders for distances computation on GPU.")
           end
         else ret tt) ;;
        let* d := getDTF in
        glDo (GL.doUseProgram (DTF.program d)) ;;
        (* every location query below is given [this.distancesTransformFeedback.program] *)
        let* program := programArgument "getAttribLocation" (DTF.program d) in
        let* g := glGet id in
        setDTF (fun d =>
          DTF.setLocations (GL.attribLocation g program "center") (DTF.modelViewProjLoc d)
            (DTF.transformIndexesLoc d) (DTF.transformsLocs d) d) ;;
        (if SplatMesh.dynamicMode m then
           setDTF (fun d =>
             DTF.setLocations (DTF.centersLoc d) (DTF.modelViewProjLoc d)
               (GL.attribLocation g program "transformIndex")
               (for_range 0 (length (SplatMesh.scenes m))
                  (fun i locs =>
                     js_array_assign locs i
                       (GL.uniformLocation g program
                          ("transforms[" ++ pretty i ++ "]")%string))
                  (DTF.transformsLocs d)) d)
         else
           setDTF (fun d =>
             DTF.setLocations (DTF.centersLoc d)
               (GL.uniformLocation g program "modelViewProj")
               (DTF.transformIndexesLoc d) (DTF.transformsLocs d) d)) ;;
        (if rebuildGPUObjects || rebuildBuffers then
           let* centersBuffer := glCreate GL.Buffer GL.createBuffer in
           setDTF (fun d =>
             DTF.setObjects (DTF.id d) (DTF.vertexShader d) (DTF.fragmentShader d)
               (DTF.program d) (Some centersBuffer) (DTF.transformIndexesBuffer d)
               (DTF.outDistancesBuffer d) (DTF.vao d) d) ;;
           glDo (GL.doBindBuffer GL.ARRAY_BUFFER (Some centersBuffer)) ;;
           let* d := getDTF in
           glDo (GL.log (GL.enableVertexAttribArray (DTF.centersLoc d))) ;;
           glDo (GL.log (if SplatMesh.integerBasedDistancesComputation m
                         then GL.vertexAttribIPointer (DTF.centersLoc d) 4
                         else GL.vertexAttribPointer (DTF.centersLoc d) 3)) ;;
           if SplatMesh.dynamicMode m then
             let* transformIndexesBuffer := glCreate GL.Buffer GL.createBuffer in
             setDTF (fun d =>
               DTF.setObjects (DTF.id d) (DTF.vertexShader d) (DTF.fragmentShader d)
                 (DTF.program d) (DTF.centersBuffer d) (Some transformIndexesBuffer)
                 (DTF.outDistancesBuffer d) (DTF.vao d) d) ;;
             glDo (GL.doBindBuffer GL.ARRAY_BUFFER (Some transformIndexesBuffer)) ;;
             glDo (GL.log (GL.enableVertexAttribArray (DTF.transformIndexesLoc d))) ;;
             glDo (GL.log (GL.vertexAttribIPointer (DTF.transformIndexesLoc d) 1))
           else ret tt
         else ret tt) ;;
        (if rebuildGPUObjects || rebuildBuffers then
           let* outDistancesBuffer := glCreate GL.Buffer GL.createBuffer in
           setDTF (fun d =>
             DTF.setObjects (DTF.id d) (DTF.vertexShader d) (DTF.fragmentShader d)
               (DTF.program d) (DTF.centersBuffer d) (DTF.transformIndexesBuffer d)
               (Some outDistancesBuffer) (DTF.vao d) d)
         else ret tt) ;;
        let* d := getDTF in
        glDo (GL.doBindBuffer GL.ARRAY_BUFFER (DTF.outDistancesBuffer d)) ;;
        glDo (GL.log (GL.bufferData GL.ARRAY_BUFFER
                        (GL.SrcSize (Z.of_nat maxSplatCount * 4)) GL.STATIC_READ)) ;;
        (if rebuildGPUObjects then
           let* tf := glCreate GL.TransformFeedback GL.createTransformFeedback in
           setDTF (fun d =>
             DTF.setObjects (Some tf) (DTF.vertexShader d) (DTF.fragmentShader d)
               (DTF.program d) (DTF.centersBuffer d) (DTF.transformIndexesBuffer d)
               (DTF.outDistancesBuffer d) (DTF.vao d) d)
         else ret tt) ;;
        let* d := getDTF in
        glDo (GL.log (GL.bindTransformFeedback (DTF.id d))) ;;
        glDo (GL.log (GL.bindBufferBase GL.TRANSFORM_FEEDBACK_BUFFER 0
                        (DTF.outDistancesBuffer d))) ;;
        (if bool_decide (is_Some currentProgram) then glDo (GL.doUseProgram currentProgram)
         else ret tt) ;;
        (if bool_decide (is_Some currentVao) then glDo (GL.doBindVertexArray currentVao)
         else ret tt) ;;
        modify (withMesh (SplatMesh.set_setupState (Some (Renderer.id renderer))
                            (Some maxSplatCount)))
  end.

(** ** [updateGPUCentersBufferForDistancesComputation] *)

Definition updateGPUCentersBufferForDistancesComputation (sinceLastBuild : bool)
  : Method unit :=
  checkForMultiSceneUpdateCondition sinceLastBuild
    "updateGPUCentersBufferForDistancesComputation" "sinceLastBuild" ;;
  let* m := getMesh in
  match SplatMesh.renderer m with
  | None => ret tt
  | Some _ =>
      let* currentVao := glGet GL.VERTEX_ARRAY_BINDING in
      let* d := getDTF in
      glDo (GL.doBindVertexArray (DTF.vao d)) ;;
      let ArrayType :=
        if SplatMesh.integerBasedDistancesComputation m then TypedArray.Uint32Array
        else TypedArray.Float32Array in
      let subBufferOffset :=
        if sinceLastBuild
        then (fun n => n * 16)%Z <$> arrayToNumber (SplatMesh.lastBuildSplatCount m)
        else Some 0%Z in
      let* srcCenters :=
        if SplatMesh.integerBasedDistancesComputation m
        then getIntegerCenters true sinceLastBuild
        else getFloatCenters false sinceLastBuild in
      let* d := getDTF in
      glDo (GL.doBindBuffer GL.ARRAY_BUFFER (DTF.centersBuffer d)) ;;
      (if sinceLastBuild then
         glDo (GL.log (GL.bufferSubData GL.ARRAY_BUFFER subBufferOffset srcCenters))
       else
         let* maxArray :=
           typedArraySet
             (TypedArray.create ArrayType (N.of_nat (getMaxSplatCount m * 16)))
             srcCenters in
         glDo (GL.log (GL.bufferData GL.ARRAY_BUFFER (GL.SrcArray maxArray) GL.STATIC_DRAW))) ;;
      glDo (GL.doBindBuffer GL.ARRAY_BUFFER None) ;;
      if bool_decide (is_Some currentVao) then glDo (GL.doBindVertexArray currentVao)
      else ret tt
  end.

(** [getTransformIndexes]: a Uint32Array copy of the scene index map. *)
Definition getTransformIndexes (m : SplatMesh.t) : TypedArray.t :=
  let map := SplatMesh.globalSplatIndexToSceneIndexMap m in
  for_range 0 (length map)
    (fun i a => TypedArray.store a i (ToNumber_nat (js_array_get map i)))
    (TypedArray.create TypedArray.Uint32Array (N.of_nat (length map))).

Definition updateGPUTransformIndexesBufferForDistancesComputation : Method unit :=
  let* m := getMesh in
  match SplatMesh.renderer m with
  | None => ret tt
  | Some _ =>
      if negb (SplatMesh.dynamicMode m) then ret tt
      else
        let* currentVao := glGet GL.VERTEX_ARRAY_BINDING in
        let* d := getDTF in
        glDo (GL.doBindVertexArray (DTF.vao d)) ;;
        glDo (GL.doBindBuffer GL.ARRAY_BUFFER (DTF.transformIndexesBuffer d)) ;;
        glDo (GL.log (GL.bufferData GL.ARRAY_BUFFER (GL.SrcArray (getTransformIndexes m))
                        GL.STATIC_DRAW)) ;;
        glDo (GL.doBindBuffer GL.ARRAY_BUFFER None) ;;
        if bool_decide (is_Some currentVao) then glDo (GL.doBindVertexArray currentVao)
        else ret tt
  end.

(** ** [resetGPUDataFromSplatBuffers] and [setRenderer] *)

Definition resetGPUDataFromSplatBuffers (sinceLastBuild : bool) : Method unit :=
  uploadSplatDataToTextures sinceLastBuild ;;
  let* m := getMesh in
  if SplatMesh.enableDistancesComputationOnGPU m then
    updateGPUCentersBufferForDistancesComputation sinceLastBuild ;;
    updateGPUTransformIndexesBufferForDistancesComputation
  else ret tt.

Definition rendererIs (r : Renderer.t) (current : option Renderer.t) : bool :=
  match current with
  | Some c => Nat.eqb (Renderer.id c) (Renderer.id r)
  | None => false
  end.

Definition setRenderer (renderer : Renderer.t) : Method unit :=
  let* m := getMesh in
  if rendererIs renderer (SplatMesh.renderer m) then ret tt
  else
    modify (withMesh (SplatMesh.set_renderer (Some renderer) true)) ;;
    let* m := getMesh in
    if SplatMesh.enableDistancesComputationOnGPU m && (0 <? getSplatCount m) then
      setupDistancesComputationTransformFeedback ;;
      updateGPUCentersBufferForDistancesComputation false ;;
      updateGPUTransformIndexesBufferForDistancesComputation
    else ret tt.

(** ** The vertex shader of [buildMaterial]

    A [highp float] of GLSL ES 3.00 is an IEEE-754 binary32 value:
    [spec_float] with [prec = 24] and [emax = 128]. Sums, differences and
    products are correctly rounded (section 4.5.1 of the language
    specification), here to nearest, ties to even; a decimal literal is the
    binary32 value nearest to it; a comparison with NaN is false. The
    results of [/], [sqrt] and [normalize] are bounded in error but not
    fixed by the language: they are parameters of [main]. The products of a
    matrix product are rounded one by one and summed from left to right.

    Matrices are column-major as in GLSL: [mat3(a, b, c, d, e, f, g, h, i)]
    has the columns [(a, b, c)], [(d, e, f)], [(g, h, i)], and [m[i][j]] is
    row [j] of column [i]. Texture fetches are inputs of the shader. *)

Module Shader.

Definition float : Type := spec_float.
Definition prec : Z := 24.
Definition emax : Z := 128.

Definition add (x y : float) : float := SFadd prec emax x y.
Definition sub (x y : float) : float := SFsub prec emax x y.
Definition mul (x y : float) : float := SFmul prec emax x y.
Definition neg (x : float) : float := SFopp x.

(** [a < b] *)
Definition ltb (a b : float) : bool := SFltb a b.

(** The float of an integer. *)
Definition ofZ (z : Z) : float := binary_normalize prec emax z 0 false.

(** A decimal literal: the correctly rounded quotient of its numerator and
    its denominator, which are exact. [lit 1.2] is 10066330 * 2^-23. *)
Definition lit (q : Q) : float :=
  SFdiv prec emax (ofZ (Qnum q)) (ofZ (Zpos (Qden q))).

(** Neither NaN nor an infinity. *)
Definition isFinite (x : float) : bool :=
  match x with
  | S754_zero _ | S754_finite _ _ _ => true
  | _ => false
  end.


(** The rational that a finite float stands for. *)
Definition toQ (x : float) : Q :=
  match x with
  | S754_finite s m e => inject_Z (cond_Zopp s (Zpos m)) * Qpower 2 e
  | _ => 0
  end.

Declare Scope glsl_scope.
Delimit Scope glsl_scope with glsl.
Infix "+" := add : glsl_scope.
Infix "-" := sub : glsl_scope.
Infix "*" := mul : glsl_scope.
Notation "- x" := (neg x) : glsl_scope.

Local Open Scope glsl_scope.

Record vec2 := mkvec2 { x2 : float; y2 : float }.
Record vec3 := mkvec3 { x3 : float; y3 : float; z3 : float }.
Record vec4 := mkvec4 { x4 : float; y4 : float; z4 : float; w4 : float }.
Record mat3 := mkmat3 { col0 : vec3; col1 : vec3; col2 : vec3 }.
Record mat4 := mkmat4 { c0 : vec4; c1 : vec4; c2 : vec4; c3 : vec4 }.

(** [m[i][j]] *)
Definition at3 (v : vec3) (j : nat) : float :=
  match j with 0%nat => x3 v | 1%nat => y3 v | _ => z3 v end.
Definition column (m : mat3) (i : nat) : vec3 :=
  match i with 0%nat => col0 m | 1%nat => col1 m | _ => col2 m end.
Definition entry (m : mat3) (i j : nat) : float := at3 (column m i) j.

Definition at4 (v : vec4) (j : nat) : float :=
  match j with 0%nat => x4 v | 1%nat => y4 v | 2%nat => z4 v | _ => w4 v end.
Definition column4 (m : mat4) (i : nat) : vec4 :=
  match i with 0%nat => c0 m | 1%nat => c1 m | 2%nat => c2 m | _ => c3 m end.
Definition entry4 (m : mat4) (i j : nat) : float := at4 (column4 m i) j.

(** [mat3(a, b, c, d, e, f, g, h, i)] *)
Definition mat3_of (a b c d e f g h i : float) : mat3 :=
  mkmat3 (mkvec3 a b c) (mkvec3 d e f) (mkvec3 g h i).

(** [mat3(m)] of a [mat4]: the upper-left 3x3 block. *)
Definition mat3_of_mat4 (m : mat4) : mat3 :=
  mkmat3 (mkvec3 (x4 (c0 m)) (y4 (c0 m)) (z4 (c0 m)))
         (mkvec3 (x4 (c1 m)) (y4 (c1 m)) (z4 (c1 m)))
         (mkvec3 (x4 (c2 m)) (y4 (c2 m)) (z4 (c2 m))).

Definition transpose (m : mat3) : mat3 :=
  mkmat3 (mkvec3 (x3 (col0 m)) (x3 (col1 m)) (x3 (col2 m)))
         (mkvec3 (y3 (col0 m)) (y3 (col1 m)) (y3 (col2 m)))
         (mkvec3 (z3 (col0 m)) (z3 (col1 m)) (z3 (col2 m))).

(** [m * v] *)
Definition mat3_mul_vec (m : mat3) (v : vec3) : vec3 :=
  mkvec3 (x3 (col0 m) * x3 v + x3 (col1 m) * y3 v + x3 (col2 m) * z3 v)
         (y3 (col0 m) * x3 v + y3 (col1 m) * y3 v + y3 (col2 m) * z3 v)
         (z3 (col0 m) * x3 v + z3 (col1 m) * y3 v + z3 (col2 m) * z3 v).

(** [a * b]: column [i] of the product is [a] times column [i] of [b]. *)
Definition mat3_mul (a b : mat3) : mat3 :=
  mkmat3 (mat3_mul_vec a (col0 b)) (mat3_mul_vec a (col1 b)) (mat3_mul_vec a (col2 b)).

Definition mat4_mul_vec (m : mat4) (v : vec4) : vec4 :=
  mkvec4
    (x4 (c0 m) * x4 v + x4 (c1 m) * y4 v + x4 (c2 m) * z4 v + x4 (c3 m) * w4 v)
    (y4 (c0 m) * x4 v + y4 (c1 m) * y4 v + y4 (c2 m) * z4 v + y4 (c3 m) * w4 v)
    (z4 (c0 m) * x4 v + z4 (c1 m) * y4 v + z4 (c2 m) * z4 v + z4 (c3 m) * w4 v)
    (w4 (c0 m) * x4 v + w4 (c1 m) * y4 v + w4 (c2 m) * z4 v + w4 (c3 m) * w4 v).

Definition mat4_mul (a b : mat4) : mat4 :=
  mkmat4 (mat4_mul_vec a (c0 b)) (mat4_mul_vec a (c1 b))
         (mat4_mul_vec a (c2 b)) (mat4_mul_vec a (c3 b)).

(** [step(edge, x)]: 0.0 if [x < edge], otherwise 1.0. *)
Definition step (edge x : float) : float := if ltb x edge then lit 0 else lit 1.

(** [max(x, y)]: [y] if [x < y], otherwise [x]. *)
Definition max (x y : float) : float := if ltb x y then y else x.

Definition scale2 (v : vec2) (k : float) : vec2 := mkvec2 (x2 v * k) (y2 v * k).
Definition dot2 (a b : vec2) : float := x2 a * x2 b + y2 a * y2 b.

(** The attributes, uniforms and texture fetches that [main] reads.
    [transform] is [transforms[transformIndex]] in dynamic mode and absent
    otherwise. *)
Record Input := mkInput {
  position : vec3;
  sampledCenterColor_r : Z;
  splatCenter : vec3;
  sampledCovarianceA : vec2;
  sampledCovarianceB : vec2;
  sampledCovarianceC : vec2;
  transform : option mat4;
  modelViewMatrix : mat4;
  projectionMatrix : mat4;
  focal : vec2;
  basisViewport : vec2
}.

(** What [main] writes: [gl_Position] and, unless it returns early, the
    varyings. *)
Record Output := mkOutput {
  gl_Position : vec4;
  vPosition : option vec2;
  vColor : option vec4
}.

(** What the language leaves to the implementation. *)
Record Implementation := mkImplementation {
  div : float -> float -> float;
  sqrt : float -> float;
  normalize : vec2 -> vec2
}.

Section Main.

Variable gpu : Implementation.
Variable i : Input.

Local Infix "/" := (div gpu) : glsl_scope.

Definition sqrt8 : float := sqrt gpu (lit 8).

(** [1.0 / 255.0], a component of [encodeNorm4]. *)
Definition encodeNorm : float := lit 1 / lit 255.

(** [uintToRGBAVec(u)]: the four bytes of the color word, each times
    [1.0 / 255.0]. *)
Definition uintToRGBAVec (u : Z) : vec4 :=
  let byte (mask shift : Z) := ofZ (Z.shiftr (Z.land u mask) shift) in
  mkvec4 (byte 255%Z 0%Z * encodeNorm) (byte 65280%Z 8%Z * encodeNorm)
         (byte 16711680%Z 16%Z * encodeNorm) (byte 4278190080%Z 24%Z * encodeNorm).

Definition transformModelViewMatrix : mat4 :=
  match transform i with
  | Some t => mat4_mul (modelViewMatrix i) t
  | None => modelViewMatrix i
  end.

Definition viewCenter : vec4 :=
  mat4_mul_vec transformModelViewMatrix
    (mkvec4 (x3 (splatCenter i)) (y3 (splatCenter i)) (z3 (splatCenter i)) (lit 1)).

Definition clipCenter : vec4 := mat4_mul_vec (projectionMatrix i) viewCenter.

Definition clip : float := lit 1.2 * w4 clipCenter.

(** The condition of the early return. *)
Definition clipTest : bool :=
  ltb (z4 clipCenter) (- clip) || ltb (x4 clipCenter) (- clip)
  || ltb clip (x4 clipCenter) || ltb (y4 clipCenter) (- clip)
  || ltb clip (y4 clipCenter).

Definition vColor_value : vec4 := uintToRGBAVec (sampledCenterColor_r i).

Definition cov3D_M11_M12_M13 : vec3 :=
  mkvec3 (x2 (sampledCovarianceA i)) (y2 (sampledCovarianceA i))
         (x2 (sampledCovarianceB i)).
Definition cov3D_M22_M23_M33 : vec3 :=
  mkvec3 (y2 (sampledCovarianceB i)) (x2 (sampledCovarianceC i))
         (y2 (sampledCovarianceC i)).

Definition Vrk : mat3 :=
  mat3_of
    (x3 cov3D_M11_M12_M13) (y3 cov3D_M11_M12_M13) (z3 cov3D_M11_M12_M13)
    (y3 cov3D_M11_M12_M13) (x3 cov3D_M22_M23_M33) (y3 cov3D_M22_M23_M33)
    (z3 cov3D_M11_M12_M13) (y3 cov3D_M22_M23_M33) (z3 cov3D_M22_M23_M33).

Definition s : float := lit 1 / (z4 viewCenter * z4 viewCenter).

Definition J : mat3 :=
  mat3_of
    (x2 (focal i) / z4 viewCenter) (lit 0) (- (x2 (focal i) * x4 viewCenter) * s)
    (lit 0) (y2 (focal i) / z4 viewCenter) (- (y2 (focal i) * y4 viewCenter) * s)
    (lit 0) (lit 0) (lit 0).

Definition W : mat3 := transpose (mat3_of_mat4 transformModelViewMatrix).
Definition T : mat3 := mat3_mul W J.

(** [transpose(T) * Vrk * T], before the two additions of 0.3. *)
Definition cov2Dm_projected : mat3 := mat3_mul (mat3_mul (transpose T) Vrk) T.

(** [cov2Dm[0][0] += 0.3; cov2Dm[1][1] += 0.3] *)
Definition cov2Dm : mat3 :=
  let m := cov2Dm_projected in
  mkmat3 (mkvec3 (x3 (col0 m) + lit 0.3) (y3 (col0 m)) (z3 (col0 m)))
         (mkvec3 (x3 (col1 m)) (y3 (col1 m) + lit 0.3) (z3 (col1 m)))
         (col2 m).

Definition cov2Dv : vec3 :=
  mkvec3 (entry cov2Dm 0 0) (entry cov2Dm 0 1) (entry cov2Dm 1 1).

Definition ndcCenter : vec3 :=
  mkvec3 (x4 clipCenter / w4 clipCenter) (y4 clipCenter / w4 clipCenter)
         (z4 clipCenter / w4 clipCenter).

Definition a : float := x3 cov2Dv.
Definition d : float := z3 cov2Dv.
Definition b : float := y3 cov2Dv.
Definition D : float := a * d - b * b.
Definition trace : float := a + d.
Definition traceOver2 : float := lit 0.5 * trace.
Definition radicand : float := max (lit 0.1) (traceOver2 * traceOver2 - D).
Definition term2 : float := sqrt gpu radicand.
Definition eigenValue1 : float := traceOver2 + term2.
(** [eigenValue2] as first assigned. *)
Definition eigenValue2_initial : float := traceOver2 - term2.

Definition transparentAdjust : float := step (lit 1 / lit 255) (w4 vColor_value).
(** [eigenValue2 = eigenValue2 * transparentAdjust] *)
Definition eigenValue2 : float := eigenValue2_initial * transparentAdjust.

Definition eigenVector1 : vec2 := normalize gpu (mkvec2 b (eigenValue1 - a)).
Definition eigenVector2 : vec2 := mkvec2 (y2 eigenVector1) (- x2 eigenVector1).

Definition basisVector1 : vec2 :=
  scale2 (scale2 eigenVector1 sqrt8) (sqrt gpu eigenValue1).
Definition basisVector2 : vec2 :=
  scale2 (scale2 eigenVector2 sqrt8) (sqrt gpu eigenValue2).

Definition ndcOffset : vec2 :=
  let px := x3 (position i) in
  let py := y3 (position i) in
  mkvec2 ((px * x2 basisVector1 + py * x2 basisVector2) * x2 (basisViewport i) * lit 2)
         ((px * y2 basisVector1 + py * y2 basisVector2) * y2 (basisViewport i) * lit 2).

Definition main : Output :=
  if clipTest then
    {| gl_Position := mkvec4 (lit 0) (lit 0) (lit 2) (lit 1);
       vPosition := None; vColor := None |}
  else
    {| gl_Position :=
         mkvec4 (x3 ndcCenter + x2 ndcOffset) (y3 ndcCenter + y2 ndcOffset)
                (z3 ndcCenter) (lit 1);
       vPosition := Some (mkvec2 (x3 (position i) * sqrt8) (y3 (position i) * sqrt8));
       vColor := Some vColor_value |}.

(** A vertex is rejected when [main] returns at the clip test: the position
    is the fixed point (0, 0, 2, 1), outside the clip volume, and no varying
    is written. *)
Definition rejected : bool := clipTest.

End Main.

(** An implementation whose quotients and square roots are correctly
    rounded and whose [normalize(v)] is [v / sqrt(dot(v, v))]. *)
Definition ieee : Implementation :=
  {| div := SFdiv prec emax;
     sqrt := SFsqrt prec emax;
     normalize := fun v =>
       let length := SFsqrt prec emax (x2 v * x2 v + y2 v * y2 v) in
       mkvec2 (SFdiv prec emax (x2 v) length) (SFdiv prec emax (y2 v) length) |}.

End Shader.

(** ** The start of [build] for a build that is not an update

    [build] with the scenes made by [buildScenes]: the scene list is
    replaced; the bookkeeping of the last build is reset; the geometry and
    the material are disposed of and built anew; the index maps are
    rebuilt. The upload to the GPU follows ([resetGPUDataFromSplatBuffers]). *)

Local Open Scope js_scope.

Definition beginFullBuild (newScenes : list SplatScene.t) : Method unit :=
  modify (withMesh (fun m =>
    SplatMesh.set_build newScenes (replicate (length newScenes) 0) 0
      (SplatMesh.lastBuildSceneCount m) m)) ;;
  disposeMeshData ;;
  let* m := getMesh in
  let maxSplatCount := getMaxSplatCount m in
  modify (withMesh (SplatMesh.set_meshData
                      (Some (InstancedGeometry maxSplatCount))
                      (Some (ShaderMaterial (Uniforms.initial (SplatMesh.dynamicMode m)))))) ;;
  let indexMaps :=
    IndexMaps.buildSplatIndexMaps (SplatScene.splatBuffer <$> newScenes) in
  modify (withMesh (SplatMesh.set_indexMaps
                      (IndexMaps.localSplatIndexMap indexMaps)
                      (IndexMaps.sceneIndexMap indexMaps))).

Local Close Scope js_scope.

(** ** Concrete inputs *)

Module Examples.

(** A source buffer whose splat [i] has the center [(3i, 3i+1, 3i+2)], the
    covariance components [6i .. 6i+5] and the color bytes
    [(4i .. 4i+3) mod 256], whatever the transform. *)
Definition buffer (splatCount maxSplatCount : nat) : SplatBuffer.t :=
  {| SplatBuffer.getSplatCount := splatCount;
     SplatBuffer.getMaxSplatCount := maxSplatCount;
     SplatBuffer.centerComponent := fun _ i k => JsNumber.ofNat (i * 3 + k);
     SplatBuffer.covarianceComponent := fun _ _ i k => JsNumber.ofNat (i * 6 + k);
     SplatBuffer.colorComponent := fun _ i k => JsNumber.ofNat ((i * 4 + k) mod 256) |}.

Definition identity : Matrix4.t :=
  {| Matrix4.elements :=
       JsNumber.ofZ <$> [1; 0; 0; 0; 0; 1; 0; 0; 0; 0; 1; 0; 0; 0; 0; 1]%Z |}.

Definition scene (splatCount maxSplatCount : nat) : SplatScene.t :=
  {| SplatScene.splatBuffer := buffer splatCount maxSplatCount;
     SplatScene.transform := identity |}.

(** A context on which shaders compile and programs link. *)
Definition context : GL.t :=
  {| GL.objects := ∅; GL.nextHandle := 1;
     GL.VERTEX_ARRAY_BINDING := None; GL.CURRENT_PROGRAM := None;
     GL.ARRAY_BUFFER_BINDING := None; GL.TEXTURE_BINDING_2D := None;
     GL.calls := [];
     GL.createShaderSucceeds := fun _ => true;
     GL.COMPILE_STATUS := fun _ => true; GL.LINK_STATUS := true;
     GL.attribLocation := fun _ name => if String.eqb name "center" then 0%Z else 1%Z;
     GL.uniformLocation := fun _ _ => 0%Z |}.

(** A renderer that has not uploaded any texture yet. *)
Definition renderer : Renderer.t :=
  {| Renderer.id := 1; Renderer.webglTexture := fun _ => None |}.

(** A renderer that has uploaded every texture. *)
Definition renderer_uploaded : Renderer.t :=
  {| Renderer.id := 1; Renderer.webglTexture := fun textureId => Some (100 + textureId) |}.

(** A new instance in a fresh context. *)
Definition newWorld (dynamicMode halfPrecisionCovariancesOnGPU
  enableDistancesComputationOnGPU integerBasedDistancesComputation : bool) : World :=
  {| mesh := SplatMesh.constructor dynamicMode halfPrecisionCovariancesOnGPU
               enableDistancesComputationOnGPU integerBasedDistancesComputation;
     gl := context; three := []; nextTextureId := 0 |}.

(** The state reached by a sequence of method calls, whatever their
    completion. *)
Definition after {A} (c : Method A) (w : World) : World := fst (c w).

(** An instance with two scenes (max splat counts 500 and 300). *)
Definition twoScenes : World :=
  after (beginFullBuild [scene 500 500; scene 300 300]) (newWorld true false true true).

(** An instance in dynamic, integer-based mode with one scene of 2 splats,
    given a renderer: [setRenderer] sets up the distances computation. *)
Definition rendered : World :=
  after (setRenderer renderer)
    (after (beginFullBuild [scene 2 4]) (newWorld true false true true)).

(** A source buffer of one splat whose center is (3000000, 0.5, -2.5). *)
Definition farBuffer : SplatBuffer.t :=
  {| SplatBuffer.getSplatCount := 1;
     SplatBuffer.getMaxSplatCount := 1;
     SplatBuffer.centerComponent := fun _ _ k =>
       match k with
       | 0 => JsNumber.ofZ 3000000
       | 1 => S754_finite false 4503599627370496 (-53)
       | _ => S754_finite true 5629499534213120 (-51)
       end;
     SplatBuffer.covarianceComponent := fun _ _ _ _ => JsNumber.zero;
     SplatBuffer.colorComponent := fun _ _ _ => JsNumber.zero |}.

(** An instance in integer-based mode whose only scene is [farBuffer]. *)
Definition far : World :=
  after (beginFullBuild [{| SplatScene.splatBuffer := farBuffer;
                            SplatScene.transform := identity |}])
    (newWorld true false true true).

(** The same instance after [dispose()]. *)
Definition disposed : World := after dispose rendered.

(** A new instance in dynamic mode with half-precision covariances, given
    a renderer that has uploaded every texture. *)
Definition attached : World :=
  after (setRenderer renderer_uploaded) (newWorld true true false false).

End Examples.

(** ** The projection as the specification words it, and concrete shader
    inputs

    The matrices of the specification are indexed by row and column, a
    product is the sum over the inner index, and the model-view transform
    is the model-view matrix, times the transform of the scene in dynamic
    mode. *)

Module ShaderSpec.
Import Shader.

Local Open Scope glsl_scope.

(** Row [r], column [c] of a matrix. *)
Definition rc (m : mat3) (r c : nat) : float := entry m c r.
Definition rc4 (m : mat4) (r c : nat) : float := entry4 m c r.

(** A sum over three or four indexes. *)
Definition sum3 (f : nat -> float) : float := f 0%nat + f 1%nat + f 2%nat.
Definition sum4 (f : nat -> float) : float := f 0%nat + f 1%nat + f 2%nat + f 3%nat.

(** The model-view transform of a splat. *)
Definition modelViewTransform (i : Input) (r c : nat) : float :=
  match transform i with
  | Some t => sum4 (fun k => rc4 (modelViewMatrix i) r k * rc4 t k c)
  | None => rc4 (modelViewMatrix i) r c
  end.

(** The center of the splat as a point: (x, y, z, 1). *)
Definition center (i : Input) (k : nat) : float :=
  match k with
  | 0%nat => x3 (splatCenter i)
  | 1%nat => y3 (splatCenter i)
  | 2%nat => z3 (splatCenter i)
  | _ => lit 1
  end.

(** The center in view space and in clip space. *)
Definition viewCenter (i : Input) (r : nat) : float :=
  sum4 (fun k => modelViewTransform i r k * center i k).
Definition clipCenter (i : Input) (r : nat) : float :=
  sum4 (fun k => rc4 (projectionMatrix i) r k * viewCenter i k).

(** The margin of the clip test: 1.2 times the clip-space [w]. *)
Definition margin (i : Input) : float := lit 1.2 * clipCenter i 3.

(** [a < b] and [a <= b] as propositions; both are false of NaN. *)
Definition lt (a b : float) : Prop := SFltb a b = true.
Definition le (a b : float) : Prop := SFleb a b = true.

(** A coordinate lies outside the margin [clip] on one side or the other. *)
Definition outsideMargin (clip coordinate : float) : Prop :=
  lt coordinate (- clip) \/ lt clip coordinate.

(** A coordinate lies within the margin. *)
Definition withinMargin (clip coordinate : float) : Prop :=
  le (- clip) coordinate /\ le coordinate clip.


Definition identity4 : mat4 :=
  mkmat4 (mkvec4 (lit 1) (lit 0) (lit 0) (lit 0)) (mkvec4 (lit 0) (lit 1) (lit 0) (lit 0))
         (mkvec4 (lit 0) (lit 0) (lit 1) (lit 0)) (mkvec4 (lit 0) (lit 0) (lit 0) (lit 1)).

(** A splat at [(x, 0, z)], seen through identity matrices with unit focal
    lengths; its covariance is diagonal. *)
Definition seenAt (x z : float) (colorWord : Z) (m11 m22 m33 : float) : Input :=
  {| position := mkvec3 (lit 1) (lit 1) (lit 0);
     sampledCenterColor_r := colorWord;
     splatCenter := mkvec3 x (lit 0) z;
     sampledCovarianceA := mkvec2 m11 (lit 0);
     sampledCovarianceB := mkvec2 (lit 0) m22;
     sampledCovarianceC := mkvec2 (lit 0) m33;
     transform := None;
     modelViewMatrix := identity4;
     projectionMatrix := identity4;
     focal := mkvec2 (lit 1) (lit 1);
     basisViewport := mkvec2 (lit 1) (lit 1) |}.

(** A splat on the optical axis at depth [z]. *)
Definition onAxis (z : float) (colorWord : Z) (m11 m22 m33 : float) : Input :=
  seenAt (lit 0) z colorWord m11 m22 m33.

(** Clip-space center (0, 0, 5, 1): [z] is beyond 1.2 times [w]. *)
Definition beyondFarMargin : Input := onAxis (lit 5) 4294967295 (lit 1) (lit 1) (lit 1).

(** Clip-space center (x, 0, 1, 1) where [x] is the float of the literal
    1.2, which is above 6/5. *)
Definition atMargin : Input := seenAt (lit 1.2) (lit 1) 4294967295 (lit 1) (lit 1) (lit 1).

(** Alpha byte 1, that is alpha 1/255, and the 2D covariance
    [diag(1, 3)] after the dilation. *)
Definition alphaOne : Input := onAxis (lit 1) 16777216 (lit 0.7) (lit 2.7) (lit 1).


(** Alpha byte 0 and the 2D covariance [diag(3, 1)] after the dilation:
    the vector that [normalize] gets is (0, 0). *)
Definition alphaZeroFlat : Input := onAxis (lit 1) 0 (lit 2.7) (lit 0.7) (lit 1).

(** A splat at (0.5, 0, 1) of a scene whose transform doubles [x], under
    an identity model-view matrix: its view-space center is (1, 0, 1). *)
Definition stretched : Input :=
  {| position := mkvec3 (lit 1) (lit 1) (lit 0);
     sampledCenterColor_r := 4294967295;
     splatCenter := mkvec3 (lit 0.5) (lit 0) (lit 1);
     sampledCovarianceA := mkvec2 (lit 1) (lit 0);
     sampledCovarianceB := mkvec2 (lit 0) (lit 1);
     sampledCovarianceC := mkvec2 (lit 0) (lit 1);
     transform :=
       Some (mkmat4 (mkvec4 (lit 2) (lit 0) (lit 0) (lit 0))
                    (mkvec4 (lit 0) (lit 1) (lit 0) (lit 0))
                    (mkvec4 (lit 0) (lit 0) (lit 1) (lit 0))
                    (mkvec4 (lit 0) (lit 0) (lit 0) (lit 1)));
     modelViewMatrix := identity4;
     projectionMatrix := identity4;
     focal := mkvec2 (lit 1) (lit 1);
     basisViewport := mkvec2 (lit 1) (lit 1) |}.

End ShaderSpec.

(** ** Definitions used by the statements of Part II *)

(** The invariant of the outer loop of [buildSplatIndexMaps] before scene
    [k]: the maps have the total of the scenes before [k] as length and
    hold the pairs of those scenes. *)
Definition outer_inv (bs : list SplatBuffer.t) (k : nat) (st : IndexMaps.loop_state)
  : Prop :=
  let '(lm, sm, total) := st in
  total = length lm /\ length sm = length lm /\ total = IndexMaps.sceneOffset bs k /\
  forall s sb i, s < k -> bs !! s = Some sb -> i < SplatBuffer.getMaxSplatCount sb ->
    lm !! (IndexMaps.sceneOffset bs s + i) = Some (Some i) /\
    sm !! (IndexMaps.sceneOffset bs s + i) = Some (Some s).

(** The error of a read of [floatCenters] before its declaration. *)
Definition floatCentersReferenceError : JsError :=
  ReferenceError "Cannot access 'floatCenters' before initialization".

(** A method returns normally from [w], with a value and a final instance
    that satisfy [Q]. *)
Definition returns {A} (c : Method A) (Q : A -> SplatMesh.t -> Prop) (w : World) : Prop :=
  exists w' a, c w = (w', Normal a) /\ Q a (mesh w').

(** Two descriptors hold the same packed data: arrays of the same kind and
    length with the same elements, for textures of the same size. *)
Definition sameData (d1 d2 : option TextureDesc.t) : Prop :=
  match d1, d2 with
  | Some a, Some b =>
      TypedArray.same (TextureDesc.data a) (TextureDesc.data b)
      /\ TextureDesc.size a = TextureDesc.size b
  | None, None => True
  | _, _ => False
  end.

(** The packed attribute arrays of two instances are identical: padded
    covariances, packed center and color words, transform indexes. *)
Definition samePackedData (m1 m2 : SplatMesh.t) : Prop :=
  match SplatMesh.splatDataTextures m1, SplatMesh.splatDataTextures m2 with
  | Some t1, Some t2 =>
      sameData (SplatDataTextures.covariances t1) (SplatDataTextures.covariances t2)
      /\ sameData (SplatDataTextures.centerColors t1) (SplatDataTextures.centerColors t2)
      /\ sameData (SplatDataTextures.tansformIndexes t1)
           (SplatDataTextures.tansformIndexes t2)
  | _, _ => False
  end.

(** One scene made of a source buffer that holds [n] splats so far. *)
Definition sceneWith (sb : SplatBuffer.t) (transform : Matrix4.t) (n : nat) : SplatScene.t :=
  {| SplatScene.splatBuffer := SplatBuffer.withSplatCount sb n;
     SplatScene.transform := transform |}.

(** A full rebuild that packs the first [n] splats of the buffer: the start
    of [build] and the upload with [sinceLastBuild] false. *)
Definition fullRebuild (sb : SplatBuffer.t) (transform : Matrix4.t) (n : nat)
  : Method unit :=
  bind (beginFullBuild [sceneWith sb transform n])
       (fun _ => uploadSplatDataToTextures false).

(** An incremental append up to [n] splats: the end of the previous build
    has recorded the splat counts, the buffer has grown to [n] splats, and
    the upload runs with [sinceLastBuild] true. *)
Definition incrementalAppend (n : nat) : Method unit :=
  bind (modify (withMesh (fun m => growSplatBuffers [n] (recordLastBuild m))))
       (fun _ => uploadSplatDataToTextures true).

(** The interval test of the closed forms of the loops. *)
Definition within (lo hi j : nat) : bool := (lo <=? j) && (j <? hi).

(** The word that [updateCenterColorsPaddedData] stores at element [j] of
    the packed array: the RGBA word of the splat at offset 0, the encoded
    center components at offsets 1 to 3. *)
Definition packedWord (centers colors : TypedArray.t) (j : nat) : JsNumber.t :=
  match j mod 4 with
  | 0 => rgbaArrayToInteger colors j
  | S k => uintEncodedFloat (TypedArray.get centers (j / 4 * 3 + k))
  end.

(** An array of kind [k] and length [len] whose elements below [hi] are the
    values [f], converted on the store, and whose other elements are 0. *)
Definition holds (a : TypedArray.t) (k : TypedArray.Kind) (len : N) (hi : nat)
  (f : nat -> JsNumber.t) : Prop :=
  TypedArray.kind a = k /\ TypedArray.length a = len /\
  forall j, TypedArray.elems a j
            = if (j <? hi) && TypedArray.inBounds a j then TypedArray.convert k (f j)
              else JsNumber.zero.

(** A descriptor with a texture, of the size computed for [maxSplatCount],
    whose data are as [holds] says. *)
Definition describes (d : TextureDesc.t) (k : TypedArray.Kind) (maxSplatCount : nat)
  (elementsPerTexel elementsPerSplat : Z) (hi : nat) (f : nat -> JsNumber.t) : Prop :=
  let size := computeDataTextureSize maxSplatCount elementsPerTexel elementsPerSplat in
  TextureDesc.size d = size /\
  (exists tex, TextureDesc.texture d = Some tex) /\
  holds (TextureDesc.data d) k (Z.to_N (size.1 * size.2 * elementsPerTexel)) hi f.

(** The scene transform that [fillSplatDataArrays] passes on when
    [applySceneTransform] is [undefined]. *)
Definition sceneTransformOf (dynamicMode : bool) (transform : Matrix4.t)
  : option Matrix4.t :=
  if dynamicMode then None else Some transform.

(** The instance holds the packed data of the first [n] splats of the
    buffer [sb]: the base arrays, the padded covariances, the packed center
    and color words and, in dynamic mode, the transform indexes. *)
Definition packed (sb : SplatBuffer.t) (transform : Matrix4.t) (n : nat)
  (m : SplatMesh.t) : Prop :=
  let sceneTransform := sceneTransformOf (SplatMesh.dynamicMode m) transform in
  let level := (if SplatMesh.halfPrecisionCovariancesOnGPU m then 1 else 0)%Z in
  let maxSplatCount := SplatBuffer.getMaxSplatCount sb in
  let CovariancesDataType :=
    if SplatMesh.halfPrecisionCovariancesOnGPU m then TypedArray.Uint16Array
    else TypedArray.Float32Array in
  exists t base dcov dcc,
    SplatMesh.splatDataTextures m = Some t
    /\ SplatDataTextures.baseData t = Some base
    /\ SplatDataTextures.covariances t = Some dcov
    /\ SplatDataTextures.centerColors t = Some dcc
    /\ holds (BaseData.covariances base) TypedArray.Float32Array
         (N.of_nat (maxSplatCount * 6)) (n * 6)
         (fun j => SplatBuffer.covarianceComponent sb sceneTransform level (j / 6) (j mod 6))
    /\ holds (BaseData.centers base) TypedArray.Float32Array
         (N.of_nat (maxSplatCount * 3)) (n * 3)
         (fun j => SplatBuffer.centerComponent sb sceneTransform (j / 3) (j mod 3))
    /\ holds (BaseData.colors base) TypedArray.Uint8Array
         (N.of_nat (maxSplatCount * 4)) (n * 4)
         (fun j => SplatBuffer.colorComponent sb sceneTransform (j / 4) (j mod 4))
    /\ describes dcov CovariancesDataType maxSplatCount 2 6 (n * 6)
         (TypedArray.elems (BaseData.covariances base))
    /\ describes dcc TypedArray.Uint32Array maxSplatCount 4 4 (n * 4)
         (packedWord (BaseData.centers base) (BaseData.colors base))
    /\ (if SplatMesh.dynamicMode m
        then exists dti,
               SplatDataTextures.tansformIndexes t = Some dti
               /\ describes dti TypedArray.Uint32Array maxSplatCount 1 4 n
                    (fun j => ToNumber_nat
                                (js_array_get (SplatMesh.globalSplatIndexToSceneIndexMap m) j))
        else SplatDataTextures.tansformIndexes t = None).

(** What a build of the one scene [sceneWith sb transform n] leaves
    configured on the instance, apart from the packed data. *)
Definition configured (sb : SplatBuffer.t) (transform : Matrix4.t) (n : nat)
  (lastBuildSplatCount : list nat) (m0 m : SplatMesh.t) : Prop :=
  SplatMesh.scenes m = [sceneWith sb transform n]
  /\ SplatMesh.lastBuildSplatCount m = lastBuildSplatCount
  /\ SplatMesh.dynamicMode m = SplatMesh.dynamicMode m0
  /\ SplatMesh.halfPrecisionCovariancesOnGPU m = SplatMesh.halfPrecisionCovariancesOnGPU m0
  /\ SplatMesh.renderer m = SplatMesh.renderer m0
  /\ SplatMesh.webGLUtils m = SplatMesh.webGLUtils m0
  /\ SplatMesh.globalSplatIndexToSceneIndexMap m
     = IndexMaps.sceneIndexMap (IndexMaps.buildSplatIndexMaps [sb]).

(** The part of an instance that an upload leaves as it is. *)
Definition sameBuild (m m' : SplatMesh.t) : Prop :=
  SplatMesh.scenes m' = SplatMesh.scenes m
  /\ SplatMesh.lastBuildSplatCount m' = SplatMesh.lastBuildSplatCount m
  /\ SplatMesh.dynamicMode m' = SplatMesh.dynamicMode m
  /\ SplatMesh.halfPrecisionCovariancesOnGPU m' = SplatMesh.halfPrecisionCovariancesOnGPU m
  /\ SplatMesh.renderer m' = SplatMesh.renderer m
  /\ SplatMesh.webGLUtils m' = SplatMesh.webGLUtils m
  /\ SplatMesh.globalSplatIndexToSceneIndexMap m'
     = SplatMesh.globalSplatIndexToSceneIndexMap m.

(* ===================================================================== *)
(** * Part I, continued: the rest of the methods                           *)
(* ===================================================================== *)

Local Open Scope js_scope.

(** ** Access by global splat index *)

(** [getScene(sceneIndex)] for an index that may be [undefined]: both
    comparisons of the guard are false for [undefined], and
    [this.scenes[undefined]] is [undefined]. *)
Definition getSceneAt (sceneIndex : option nat) : Method (option SplatScene.t) :=
  match sceneIndex with
  | Some i => let* scene := getScene i in ret (Some scene)
  | None => ret None
  end.

Definition getSceneIndexForSplat (globalIndex : nat) : Method (option nat) :=
  let* m := getMesh in
  ret (js_array_get (SplatMesh.globalSplatIndexToSceneIndexMap m) globalIndex).

Definition getSplatLocalIndex (globalIndex : nat) : Method (option nat) :=
  let* m := getMesh in
  ret (js_array_get (SplatMesh.globalSplatIndexToLocalSplatIndexMap m) globalIndex).

Definition getSplatBufferForSplat (globalIndex : nat) : Method SplatBuffer.t :=
  let* m := getMesh in
  let* scene :=
    getSceneAt (js_array_get (SplatMesh.globalSplatIndexToSceneIndexMap m) globalIndex) in
  let* scene := propertyOf "splatBuffer" scene in
  ret (SplatScene.splatBuffer scene).

Definition getSceneTransformForSplat (globalIndex : nat) : Method Matrix4.t :=
  let* m := getMesh in
  let* scene :=
    getSceneAt (js_array_get (SplatMesh.globalSplatIndexToSceneIndexMap m) globalIndex) in
  let* scene := propertyOf "transform" scene in
  ret (SplatScene.transform scene).

(** What [getLocalSplatParameters] stores in [paramsObj]. *)
Module LocalSplatParameters.
Record t := make {
  splatBuffer : SplatBuffer.t;
  localIndex : option nat;
  sceneTransform : option Matrix4.t
}.
End LocalSplatParameters.

(** [getLocalSplatParameters(globalIndex, paramsObj, returnSceneTransform)];
    [None] is an [undefined] or [null] [returnSceneTransform]. *)
Definition getLocalSplatParameters (globalIndex : nat) (returnSceneTransform : option bool)
  : Method LocalSplatParameters.t :=
  let* m := getMesh in
  let returnSceneTransform :=
    match returnSceneTransform with
    | None => if SplatMesh.dynamicMode m then false else true
    | Some b => b
    end in
  let* splatBuffer := getSplatBufferForSplat globalIndex in
  let* localIndex := getSplatLocalIndex globalIndex in
  let* sceneTransform :=
    if returnSceneTransform
    then (let* t := getSceneTransformForSplat globalIndex in ret (Some t))
    else ret None in
  ret {| LocalSplatParameters.splatBuffer := splatBuffer;
         LocalSplatParameters.localIndex := localIndex;
         LocalSplatParameters.sceneTransform := sceneTransform |}.

Local Close Scope js_scope.

(** ** Definitions used by the statements about the fill of several scenes *)

(** The first slot of scene [s] in the packed arrays: the splat counts of
    the scenes before it. *)
Definition countOffset (scenes : list SplatScene.t) (s : nat) : nat :=
  sum_list ((fun scene => SplatBuffer.getSplatCount (SplatScene.splatBuffer scene))
              <$> take s scenes).

(** The array [filled] is [original] with, for every scene [s] below [k]
    and every splat [i] of it, the [componentCount] components of the splat
    at slot [countOffset s + i]; from the first slot of scene [k] on it is
    [original]. *)
Definition laidOut (scenes : list SplatScene.t) (k componentCount : nat)
  (component : SplatScene.t -> nat -> nat -> JsNumber.t)
  (original filled : TypedArray.t) : Prop :=
  TypedArray.kind filled = TypedArray.kind original /\
  TypedArray.length filled = TypedArray.length original /\
  (forall s scene i c,
     s < k -> scenes !! s = Some scene ->
     i < SplatBuffer.getSplatCount (SplatScene.splatBuffer scene) -> c < componentCount ->
     let j := (countOffset scenes s + i) * componentCount + c in
     TypedArray.elems filled j
     = if TypedArray.inBounds original j
       then TypedArray.convert (TypedArray.kind original) (component scene i c)
       else TypedArray.elems original j) /\
  (forall j, countOffset scenes k * componentCount <= j ->
     TypedArray.elems filled j = TypedArray.elems original j).

(** ** Further concrete inputs *)

Module Scenarios.

(** [Examples.attached] after a full rebuild that packs the first 100
    splats of a buffer of capacity 200. *)
Definition built : World :=
  Examples.after (fullRebuild (Examples.buffer 0 200) Examples.identity 100)
    Examples.attached.

(** The same instance once the build has recorded its counts and the
    buffer holds 150 splats. *)
Definition grown : World :=
  withMesh (fun m => growSplatBuffers [150] (recordLastBuild m)) built.

(** Two scenes, the first of which holds one splat of two. *)
Definition partlyLoaded : list SplatScene.t := [Examples.scene 1 2; Examples.scene 1 1].

End Scenarios.

(** ** Predicates used by the statements about disposal and set-up *)

(** A run of [c] from [w] either returns a value and a state that satisfy
    [Q], or throws an error in a state that satisfy [E]. *)
Definition wp {A} (c : Method A) (Q : A -> World -> Prop)
  (E : JsError -> World -> Prop) (w : World) : Prop :=
  match c w with
  | (w', Normal a) => Q a w'
  | (w', Throw e) => E e w'
  end.

(** The instance holds nothing that [dispose] would release: no geometry
    but the shared dummy one, no material, no texture, no tree and, where
    [dispose] looks at them, no object of the distances computation other
    than the transform-indexes buffer. *)
Definition disposedOf (m : SplatMesh.t) : Prop :=
  (SplatMesh.geometry m = None \/ SplatMesh.geometry m = Some dummyGeometry) /\
  SplatMesh.material m = None /\
  SplatMesh.splatDataTextures m = None /\
  SplatMesh.splatTree m = None /\
  (SplatMesh.enableDistancesComputationOnGPU m = true ->
   is_Some (SplatMesh.renderer m) ->
   let d := SplatMesh.distancesTransformFeedback m in
   DTF.vao d = None /\ DTF.program d = None /\ DTF.centersBuffer d = None /\
   DTF.outDistancesBuffer d = None /\ DTF.id d = None).

(** The WebGL calls of [disposeDistancesComputationGPUResources] on the
    references [d], most recent first. *)
Definition releaseCalls (d : DTF.t) : list GL.Call :=
  let ifSet (o : option GL.handle) (calls : list GL.Call) :=
    match o with Some _ => calls | None => [] end in
  ifSet (DTF.id d) [GL.deleteTransformFeedback (DTF.id d)]
  ++ ifSet (DTF.outDistancesBuffer d) [GL.deleteBuffer (DTF.outDistancesBuffer d)]
  ++ ifSet (DTF.centersBuffer d) [GL.deleteBuffer None]
  ++ ifSet (DTF.program d)
       [GL.deleteShader (DTF.fragmentShader d); GL.deleteShader (DTF.vertexShader d);
        GL.deleteProgram (DTF.program d)]
  ++ ifSet (DTF.vao d) [GL.deleteVertexArray (DTF.vao d)].

(** What the set-up of the distances computation never changes: the
    renderer and the scenes. *)
Definition unchanged (m0 : SplatMesh.t) (w : World) : Prop :=
  SplatMesh.renderer (mesh w) = SplatMesh.renderer m0 /\
  SplatMesh.scenes (mesh w) = SplatMesh.scenes m0.

(** The instance has the renderer [r] and computes the distances on floats. *)
Definition configuration (r : Renderer.t) (w : World) : Prop :=
  SplatMesh.renderer (mesh w) = Some r /\
  SplatMesh.integerBasedDistancesComputation (mesh w) = false.

(** The program of the distances computation is referenced. *)
Definition hasProgram (w : World) : Prop :=
  is_Some (DTF.program (SplatMesh.distancesTransformFeedback (mesh w))).


(** Once the program is created or found. *)
Definition linked (r : Renderer.t) (w : World) : Prop :=
  configuration r w /\ hasProgram w.

Module Contexts.

(** An instance in dynamic, integer-based mode with one scene of 2 splats
    that has been given a renderer but has not set up the distances
    computation. *)
Definition unprepared : World :=
  withMesh (SplatMesh.set_renderer (Some Examples.renderer) true)
    (Examples.after (beginFullBuild [Examples.scene 2 4])
       (Examples.newWorld true false true true)).

(** The same instance in a context whose shaders compile as [compiles]
    says and whose programs link as [links] says. *)
Definition unpreparedOn (compiles : GL.ShaderType -> bool) (links : bool) : World :=
  withGL (fun g =>
    {| GL.objects := GL.objects g; GL.nextHandle := GL.nextHandle g;
       GL.VERTEX_ARRAY_BINDING := GL.VERTEX_ARRAY_BINDING g;
       GL.CURRENT_PROGRAM := GL.CURRENT_PROGRAM g;
       GL.ARRAY_BUFFER_BINDING := GL.ARRAY_BUFFER_BINDING g;
       GL.TEXTURE_BINDING_2D := GL.TEXTURE_BINDING_2D g;
       GL.calls := GL.calls g;
       GL.createShaderSucceeds := GL.createShaderSucceeds g;
       GL.COMPILE_STATUS := compiles; GL.LINK_STATUS := links;
       GL.attribLocation := GL.attribLocation g;
       GL.uniformLocation := GL.uniformLocation g |}) unprepared.


End Contexts.


Module Growth.


(** [Examples.disposed], the same instance after [dispose()], once its one
    scene has been replaced by a scene of capacity 8. *)
Definition enlargedAfterDispose : World :=
  withMesh (fun m =>
    SplatMesh.set_build [Examples.scene 2 8] (SplatMesh.lastBuildSplatCount m)
      (SplatMesh.lastBuildMaxSplatCount m) (SplatMesh.lastBuildSceneCount m) m)
    Examples.disposed.

End Growth.

(* ===================================================================== *)
(** * The worker of [splattree/SplatTree.js]                               *)
(* ===================================================================== *)

(** The worker builds one octree per scene from the centers that
    [processSplatMesh] sends. Its objects are mutated in place; here the
    tree under construction is a value, and the index set, the leaf list
    and the counter [WorkerSplatTreeNode.idGen] are passed along. The depth
    and the two limits are naturals, as [new SplatTree(8, 1000)] has them.
    [nextId] is the value of [WorkerSplatTreeNode.idGen] at a call. *)

Module SplatTreeWorker.

(** The arithmetic of the worker on Numbers. *)
Definition add (x y : JsNumber.t) : JsNumber.t := SFadd 53 1024 x y.
Definition sub (x y : JsNumber.t) : JsNumber.t := SFsub 53 1024 x y.
Definition half : JsNumber.t := S754_finite false 4503599627370496 (-53).
Definition lt (x y : JsNumber.t) : bool := SFltb x y.
Definition gt (x y : JsNumber.t) : bool := SFltb y x.
Definition le (x y : JsNumber.t) : bool := SFleb x y.
Definition ge (x y : JsNumber.t) : bool := SFleb y x.

(** An array of three Numbers. *)
Record vec3 := mkvec3 { c0 : JsNumber.t; c1 : JsNumber.t; c2 : JsNumber.t }.

(** A center as it is sent: [[x, y, z, globalSplatIndex]]. *)
Record Center := mkCenter { point : vec3; index : nat }.

Record WorkerBox3 := mkBox { boxMin : vec3; boxMax : vec3 }.

Definition containsPoint (b : WorkerBox3) (p : vec3) : bool :=
  ge (c0 p) (c0 (boxMin b)) && le (c0 p) (c0 (boxMax b)) &&
  ge (c1 p) (c1 (boxMin b)) && le (c1 p) (c1 (boxMax b)) &&
  ge (c2 p) (c2 (boxMin b)) && le (c2 p) (c2 (boxMax b)).

(** [node.data]: [null], [{indexes: [...]}] or [{}]. *)
Inductive NodeData :=
  | NoData
  | Indexes (indexes : list nat)
  | EmptyData.

#[warnings="-register-all"] Inductive WorkerSplatTreeNode :=
  | mkNode (min max center : vec3) (depth : nat) (children : list WorkerSplatTreeNode)
           (data : NodeData) (id : nat).

Definition nodeMin (n : WorkerSplatTreeNode) : vec3 :=
  match n with mkNode min _ _ _ _ _ _ => min end.
Definition nodeMax (n : WorkerSplatTreeNode) : vec3 :=
  match n with mkNode _ max _ _ _ _ _ => max end.
Definition depth (n : WorkerSplatTreeNode) : nat :=
  match n with mkNode _ _ _ depth _ _ _ => depth end.
Definition children (n : WorkerSplatTreeNode) : list WorkerSplatTreeNode :=
  match n with mkNode _ _ _ _ children _ _ => children end.
Definition data (n : WorkerSplatTreeNode) : NodeData :=
  match n with mkNode _ _ _ _ _ data _ => data end.
Definition id (n : WorkerSplatTreeNode) : nat :=
  match n with mkNode _ _ _ _ _ _ id => id end.

(** [new WorkerSplatTreeNode(min, max, depth)]: the [id] argument is
    [undefined], so the node takes [idGen++]. *)
Definition newNode (min max : vec3) (depth : nat) (nextId : nat)
  : WorkerSplatTreeNode * nat :=
  let center :=
    mkvec3 (add (SFmul 53 1024 (sub (c0 max) (c0 min)) half) (c0 min))
           (add (SFmul 53 1024 (sub (c1 max) (c1 min)) half) (c1 min))
           (add (SFmul 53 1024 (sub (c2 max) (c2 min)) half) (c2 min)) in
  (mkNode min max center depth [] NoData nextId, S nextId).

Definition withData (d : NodeData) (n : WorkerSplatTreeNode) : WorkerSplatTreeNode :=
  match n with
  | mkNode min max center depth children _ id => mkNode min max center depth children d id
  end.

Definition withChildren (cs : list WorkerSplatTreeNode) (n : WorkerSplatTreeNode)
  : WorkerSplatTreeNode :=
  match n with
  | mkNode min max center depth _ data id => mkNode min max center depth cs data id
  end.

(** What the worker threads through [processSplatTreeNode]:
    [tree.addedIndexes], [tree.nodesWithIndexes] and the static [idGen]. *)
Record State := mkState {
  addedIndexes : gset nat;
  nodesWithIndexes : list WorkerSplatTreeNode;
  idGen : nat
}.

(** The completion of a call: a result, a thrown error, or a recursion
    that the fuel of the model has cut short. *)
Inductive Outcome (A : Type) :=
  | Done (a : A)
  | Thrown (e : JsError)
  | OutOfFuel.
Arguments Done {A} a.
Arguments Thrown {A} e.
Arguments OutOfFuel {A}.

(** The loop of a leaf: the indexes not added yet, in order, each added
    as it is kept. *)
Fixpoint addNew (indexes : list nat) (added : gset nat) (newIndexes : list nat)
  : list nat * gset nat :=
  match indexes with
  | [] => (newIndexes, added)
  | i :: rest =>
      if decide (i ∈ added) then addNew rest added newIndexes
      else addNew rest ({[i]} ∪ added) (newIndexes ++ [i])
  end.

(** The eight boxes of the children, in the order of the source. *)
Definition childrenBounds (min max : vec3) : list WorkerBox3 :=
  let h0 := SFmul 53 1024 (sub (c0 max) (c0 min)) half in
  let h1 := SFmul 53 1024 (sub (c1 max) (c1 min)) half in
  let h2 := SFmul 53 1024 (sub (c2 max) (c2 min)) half in
  let n0 := add (c0 min) h0 in
  let n1 := add (c1 min) h1 in
  let n2 := add (c2 min) h2 in
  [ mkBox (mkvec3 (sub n0 h0) n1 (sub n2 h2)) (mkvec3 n0 (add n1 h1) n2);
    mkBox (mkvec3 n0 n1 (sub n2 h2)) (mkvec3 (add n0 h0) (add n1 h1) n2);
    mkBox (mkvec3 n0 n1 n2) (mkvec3 (add n0 h0) (add n1 h1) (add n2 h2));
    mkBox (mkvec3 (sub n0 h0) n1 n2) (mkvec3 n0 (add n1 h1) (add n2 h2));
    mkBox (mkvec3 (sub n0 h0) (sub n1 h1) (sub n2 h2)) (mkvec3 n0 n1 n2);
    mkBox (mkvec3 n0 (sub n1 h1) (sub n2 h2)) (mkvec3 (add n0 h0) n1 n2);
    mkBox (mkvec3 n0 (sub n1 h1) n2) (mkvec3 (add n0 h0) n1 (add n2 h2));
    mkBox (mkvec3 (sub n0 h0) (sub n1 h1) n2) (mkvec3 n0 n1 (add n2 h2)) ].

(** The loop over the indexes of a node that is split: every index is
    pushed to the list of each box that contains its center. A missing
    center makes [containsPoint(undefined)] throw. *)
Fixpoint distribute (indexToCenter : gmap nat Center) (bounds : list WorkerBox3)
  (indexes : list nat) (baseIndexes : list (list nat)) : Outcome (list (list nat)) :=
  match indexes with
  | [] => Done baseIndexes
  | splatGlobalIndex :: rest =>
      match indexToCenter !! splatGlobalIndex with
      | None => Thrown (TypeError "Cannot read properties of undefined (reading '0')")
      | Some center =>
          distribute indexToCenter bounds rest
            (zip_with (fun box base =>
                         if containsPoint box (point center)
                         then base ++ [splatGlobalIndex] else base)
               bounds baseIndexes)
      end
  end.

(** The loop that creates the children, one per box. *)
Fixpoint makeChildren (bounds : list WorkerBox3) (baseIndexes : list (list nat))
  (depth : nat) (nextId : nat) : list WorkerSplatTreeNode * nat :=
  match bounds, baseIndexes with
  | box :: bounds', base :: baseIndexes' =>
      let '(childNode, nextId1) := newNode (boxMin box) (boxMax box) depth nextId in
      let '(rest, nextId2) := makeChildren bounds' baseIndexes' depth nextId1 in
      (withData (Indexes base) childNode :: rest, nextId2)
  | _, _ => ([], nextId)
  end.

(** [for (let child of node.children) processSplatTreeNode(tree, child, ...)] *)
Fixpoint processAll
  (process : WorkerSplatTreeNode -> State -> Outcome (WorkerSplatTreeNode * State))
  (nodes : list WorkerSplatTreeNode) (st : State)
  : Outcome (list WorkerSplatTreeNode * State) :=
  match nodes with
  | [] => Done ([], st)
  | child :: rest =>
      match process child st with
      | Done (child', st1) =>
          match processAll process rest st1 with
          | Done (rest', st2) => Done (child' :: rest', st2)
          | Thrown e => Thrown e
          | OutOfFuel => OutOfFuel
          end
      | Thrown e => Thrown e
      | OutOfFuel => OutOfFuel
      end
  end.

(** [processSplatTreeNode(tree, node, indexToCenter)] *)
Fixpoint processSplatTreeNode (fuel : nat) (maxDepth maxCentersPerNode : nat)
  (indexToCenter : gmap nat Center) (node : WorkerSplatTreeNode) (st : State)
  : Outcome (WorkerSplatTreeNode * State) :=
  match fuel with
  | 0 => OutOfFuel
  | S fuel' =>
      match data node with
      | Indexes indexes =>
          let splatCount := length indexes in
          if (splatCount <? maxCentersPerNode) || (maxDepth <? depth node) then
            let '(newIndexes, added) := addNew indexes (addedIndexes st) [] in
            let node := withData (Indexes newIndexes) node in
            Done (node,
                  {| addedIndexes := added;
                     nodesWithIndexes := nodesWithIndexes st ++ [node];
                     idGen := idGen st |})
          else
            let bounds := childrenBounds (nodeMin node) (nodeMax node) in
            match distribute indexToCenter bounds indexes (replicate (length bounds) []) with
            | Done baseIndexes =>
                let '(childNodes, idGen') :=
                  makeChildren bounds baseIndexes (depth node + 1) (idGen st) in
                match processAll
                        (processSplatTreeNode fuel' maxDepth maxCentersPerNode indexToCenter)
                        (children node ++ childNodes)
                        {| addedIndexes := addedIndexes st;
                           nodesWithIndexes := nodesWithIndexes st;
                           idGen := idGen' |} with
                | Done (processed, st') =>
                    Done (withChildren processed (withData EmptyData node), st')
                | Thrown e => Thrown e
                | OutOfFuel => OutOfFuel
                end
            | Thrown e => Thrown e
            | OutOfFuel => OutOfFuel
            end
      | NoData => Thrown (TypeError "Cannot read properties of null (reading 'indexes')")
      | EmptyData =>
          Thrown (TypeError "Cannot read properties of undefined (reading 'length')")
      end
  end.

Record WorkerSplatSubTree := mkSubTree {
  maxDepth : nat;
  maxCentersPerNode : nat;
  sceneMin : vec3;
  sceneMax : vec3;
  rootNode : WorkerSplatTreeNode;
  treeAddedIndexes : gset nat;
  treeNodesWithIndexes : list WorkerSplatTreeNode
}.

(** The loop of [buildSubTree] over the centers of a scene. *)
Definition bounds_body (i : nat) (center : Center) (acc : vec3 * vec3 * list nat)
  : vec3 * vec3 * list nat :=
  let '(sceneMin, sceneMax, indexes) := acc in
  let p := point center in
  let first := Nat.eqb i 0 in
  let lower (c m : JsNumber.t) := if first || lt c m then c else m in
  let upper (c m : JsNumber.t) := if first || gt c m then c else m in
  (mkvec3 (lower (c0 p) (c0 sceneMin)) (lower (c1 p) (c1 sceneMin))
          (lower (c2 p) (c2 sceneMin)),
   mkvec3 (upper (c0 p) (c0 sceneMax)) (upper (c1 p) (c1 sceneMax))
          (upper (c2 p) (c2 sceneMax)),
   indexes ++ [index center]).

Fixpoint bounds_loop (i : nat) (sceneCenters : list Center)
  (acc : vec3 * vec3 * list nat) : vec3 * vec3 * list nat :=
  match sceneCenters with
  | [] => acc
  | center :: rest => bounds_loop (S i) rest (bounds_body i center acc)
  end.

Definition zero3 : vec3 := mkvec3 (JsNumber.ofZ 0) (JsNumber.ofZ 0) (JsNumber.ofZ 0).

(** [buildSubTree(sceneCenters, maxDepth, maxCentersPerNode)]: the tree
    with its root, which holds every index, and the counter. *)
Definition buildSubTree (sceneCenters : list Center) (maxDepth maxCentersPerNode : nat)
  (nextId : nat) : WorkerSplatSubTree * nat :=
  let '(sceneMin, sceneMax, indexes) := bounds_loop 0 sceneCenters (zero3, zero3, []) in
  let '(root, nextId') := newNode sceneMin sceneMax 0 nextId in
  ({| maxDepth := maxDepth; maxCentersPerNode := maxCentersPerNode;
      sceneMin := sceneMin; sceneMax := sceneMax;
      rootNode := withData (Indexes indexes) root;
      treeAddedIndexes := ∅; treeNodesWithIndexes := [] |}, nextId').

(** [indexToCenter[center[3]] = center] over the scenes in order. *)
Definition indexCenters (allCenters : list (list Center)) : gmap nat Center :=
  fold_left (fun m sceneCenters =>
               fold_left (fun m center => <[index center := center]> m) sceneCenters m)
    allCenters ∅.

(** The loop of [createSplatTree] over the scenes. The recursion goes one
    level down per call and stops below [maxDepth], so [maxDepth + 2] calls
    deep are all it can be. *)
Fixpoint createSubTrees (indexToCenter : gmap nat Center) (maxDepth maxCentersPerNode : nat)
  (allCenters : list (list Center)) (nextId : nat)
  : Outcome (list WorkerSplatSubTree * nat) :=
  match allCenters with
  | [] => Done ([], nextId)
  | sceneCenters :: rest =>
      let '(subTree, nextId1) := buildSubTree sceneCenters maxDepth maxCentersPerNode nextId in
      match processSplatTreeNode (maxDepth + 2) maxDepth maxCentersPerNode indexToCenter
              (rootNode subTree)
              {| addedIndexes := treeAddedIndexes subTree;
                 nodesWithIndexes := treeNodesWithIndexes subTree;
                 idGen := nextId1 |} with
      | Done (root, st) =>
          match createSubTrees indexToCenter maxDepth maxCentersPerNode rest (idGen st) with
          | Done (subTrees, nextId2) =>
              Done ({| maxDepth := maxDepth; maxCentersPerNode := maxCentersPerNode;
                       sceneMin := sceneMin subTree; sceneMax := sceneMax subTree;
                       rootNode := root;
                       treeAddedIndexes := addedIndexes st;
                       treeNodesWithIndexes := nodesWithIndexes st |} :: subTrees,
                    nextId2)
          | Thrown e => Thrown e
          | OutOfFuel => OutOfFuel
          end
      | Thrown e => Thrown e
      | OutOfFuel => OutOfFuel
      end
  end.

(** [createSplatTree(allCenters, maxDepth, maxCentersPerNode)]: the
    sub-trees that are posted back, and the counter. *)
Definition createSplatTree (allCenters : list (list Center))
  (maxDepth maxCentersPerNode : nat) (nextId : nat)
  : Outcome (list WorkerSplatSubTree * nat) :=
  createSubTrees (indexCenters allCenters) maxDepth maxCentersPerNode allCenters nextId.

(** ** What the statements about the trees speak of *)

(** The nodes without children, from left to right: the nodes that
    [visitLeaves] visits. *)
Fixpoint leaves (n : WorkerSplatTreeNode) : list WorkerSplatTreeNode :=
  match n with
  | mkNode _ _ _ _ cs _ _ =>
      match cs with
      | [] => [n]
      | _ => flat_map leaves cs
      end
  end.

(** Every node, parents before children. *)
Fixpoint nodes (n : WorkerSplatTreeNode) : list WorkerSplatTreeNode :=
  match n with
  | mkNode _ _ _ _ cs _ _ => n :: flat_map nodes cs
  end.

Definition indexesOf (n : WorkerSplatTreeNode) : list nat :=
  match data n with Indexes l => l | _ => [] end.

(** The indexes that the leaves of a tree hold, from left to right. *)
Definition leafIndexes (n : WorkerSplatTreeNode) : list nat :=
  flat_map indexesOf (leaves n).

(** The center of index [i] lies in the box of node [n]. *)
Definition inBox (indexToCenter : gmap nat Center) (n : WorkerSplatTreeNode) (i : nat)
  : Prop :=
  exists center, indexToCenter !! i = Some center /\
    containsPoint (mkBox (nodeMin n) (nodeMax n)) (point center) = true.

(** [box.containsPoint(indexToCenter[i])], for an index that has a center. *)
Definition holds (indexToCenter : gmap nat Center) (box : WorkerBox3) (i : nat) : bool :=
  match indexToCenter !! i with
  | Some center => containsPoint box (point center)
  | None => false
  end.

(** The nodes below a node. *)
Definition descendants (n : WorkerSplatTreeNode) : list WorkerSplatTreeNode :=
  flat_map nodes (children n).

(** The shape of an octree with the two limits: a node without children
    holds a list of indexes, is no deeper than [maxDepth + 1], and holds
    fewer than [maxCentersPerNode] indexes unless it is at that depth; any
    other node has data [{}], is no deeper than [maxDepth] and has eight
    children, one level down. *)
#[warnings="-register-all"] Inductive wellShaped (maxDepth maxCentersPerNode : nat) : WorkerSplatTreeNode -> Prop :=
  | shaped_leaf min max center depth indexes id :
      depth <= maxDepth + 1 ->
      (depth <= maxDepth -> length indexes < maxCentersPerNode) ->
      wellShaped maxDepth maxCentersPerNode
        (mkNode min max center depth [] (Indexes indexes) id)
  | shaped_inner min max center depth0 cs id :
      depth0 <= maxDepth ->
      length cs = 8 ->
      Forall (fun child => depth child = depth0 + 1 /\
                           wellShaped maxDepth maxCentersPerNode child) cs ->
      wellShaped maxDepth maxCentersPerNode
        (mkNode min max center depth0 cs EmptyData id).

(** What a call of [processSplatTreeNode] on [node] in state [st] leaves:
    the node [node'] with its box, depth and id, and the state [st']. *)
Definition processed (maxDepth maxCentersPerNode : nat) (indexToCenter : gmap nat Center)
  (node : WorkerSplatTreeNode) (st : State) (node' : WorkerSplatTreeNode) (st' : State)
  : Prop :=
  (nodeMin node' = nodeMin node /\ nodeMax node' = nodeMax node /\
   depth node' = depth node /\ id node' = id node) /\
  wellShaped maxDepth maxCentersPerNode node' /\
  nodesWithIndexes st' = nodesWithIndexes st ++ leaves node' /\
  (NoDup (leafIndexes node') /\
   (forall i, i ∈ leafIndexes node' -> (i ∉ addedIndexes st) /\ i ∈ indexesOf node) /\
   addedIndexes st' = addedIndexes st ∪ list_to_set (leafIndexes node')) /\
  (forall leaf, leaf ∈ leaves node' ->
     depth node <= depth leaf /\
     forall i, i ∈ indexesOf leaf ->
       i ∈ indexesOf node /\
       (depth node < depth leaf \/ inBox indexToCenter node i ->
        inBox indexToCenter leaf i)) /\
  (length (indexesOf node) < maxCentersPerNode ->
   leaves node' = [node'] /\
   forall i, i ∈ indexesOf node -> i ∈ addedIndexes st \/ i ∈ indexesOf node') /\
  (idGen st <= idGen st' /\
   map id (descendants node') ≡ₚ seq (idGen st) (idGen st' - idGen st)).

(** What [processSplatTreeNode] asks of the node it is called on, and of
    the fuel of the model. *)
Definition ready (maxDepth : nat) (indexToCenter : gmap nat Center) (fuel : nat)
  (n : WorkerSplatTreeNode) : Prop :=
  children n = [] /\ (exists l, data n = Indexes l) /\
  (forall i, i ∈ indexesOf n -> is_Some (indexToCenter !! i)) /\
  depth n <= maxDepth + 1 /\ maxDepth + 2 <= depth n + fuel /\ 0 < fuel.

(** The same for the loop over the children. *)
Inductive processedAll (post : WorkerSplatTreeNode -> State -> WorkerSplatTreeNode -> State -> Prop)
  : list WorkerSplatTreeNode -> State -> list WorkerSplatTreeNode -> State -> Prop :=
  | processed_nil st : processedAll post [] st [] st
  | processed_cons n ns st n' st1 ns' st2 :
      post n st n' st1 ->
      processedAll post ns st1 ns' st2 ->
      processedAll post (n :: ns) st (n' :: ns') st2.

(** No coordinate is [NaN]. *)
Definition noNaN (p : vec3) : Prop :=
  c0 p <> S754_nan /\ c1 p <> S754_nan /\ c2 p <> S754_nan.

(** Each coordinate of [b] is that coordinate of one of the centers. *)
Definition attained (centers : list Center) (b : vec3) : Prop :=
  (exists c, c ∈ centers /\ c0 (point c) = c0 b) /\
  (exists c, c ∈ centers /\ c1 (point c) = c1 b) /\
  (exists c, c ∈ centers /\ c2 (point c) = c2 b).

(** What [createSplatTree] leaves for the centers of one scene. *)
Definition built (maxDepth0 maxCentersPerNode0 : nat) (indexToCenter : gmap nat Center)
  (sceneCenters : list Center) (t : WorkerSplatSubTree) : Prop :=
  let root := rootNode t in
  (maxDepth t = maxDepth0 /\ maxCentersPerNode t = maxCentersPerNode0 /\ depth root = 0 /\
   nodeMin root = sceneMin t /\ nodeMax root = sceneMax t) /\
  wellShaped maxDepth0 maxCentersPerNode0 root /\
  treeNodesWithIndexes t = leaves root /\
  (NoDup (leafIndexes root) /\
   (forall i, i ∈ leafIndexes root -> i ∈ map index sceneCenters) /\
   treeAddedIndexes t = list_to_set (leafIndexes root)) /\
  (forall leaf i, leaf ∈ leaves root -> i ∈ indexesOf leaf -> 0 < depth leaf ->
                  inBox indexToCenter leaf i) /\
  (length sceneCenters < maxCentersPerNode0 ->
   leaves root = [root] /\ forall i, i ∈ map index sceneCenters -> i ∈ indexesOf root).

End SplatTreeWorker.

(** Two scenes for the worker: three centers, of which the last two share
    the index 2, and one center. *)
Module TreeExamples.
Import SplatTreeWorker.

Definition at3 (x y z : Z) (i : nat) : Center :=
  mkCenter (mkvec3 (JsNumber.ofZ x) (JsNumber.ofZ y) (JsNumber.ofZ z)) i.

Definition centers : list (list Center) :=
  [ [at3 0 0 0 0; at3 2 2 2 1; at3 2 0 0 2; at3 1 1 1 2];
    [at3 5 5 5 7] ].

Definition scene : list Center :=
  [at3 0 4 0 0; at3 2 (-2) 2 1; at3 (-1) 0 0 2].

End TreeExamples.

(* ===================================================================== *)
(** * [fillTransformsArray]                                                *)
(* ===================================================================== *)

(** [arr.length = n] on an [Array]: the array is cut, or grows by holes. *)
Definition js_array_setLength {A : Type} (n : nat) (arr : list (option A))
  : list (option A) :=
  take n arr ++ replicate (n - length arr) None.

(** [dst.set(src)] with an [Array] as the source: every element, a hole
    and [undefined] included, is converted to a Number and stored at the
    same index; a source longer than [dst] makes [set] throw. *)
Definition typedArraySetFromArray {S : Type} (dst : TypedArray.t)
  (src : list (option (option JsNumber.t))) : M S TypedArray.t :=
  if (N.of_nat (length src) <=? TypedArray.length dst)%N
  then ret {| TypedArray.kind := TypedArray.kind dst;
              TypedArray.length := TypedArray.length dst;
              TypedArray.elems := fun j =>
                if j <? length src
                then TypedArray.convert (TypedArray.kind dst)
                       (ToNumber (mjoin (js_array_get src j)))
                else TypedArray.elems dst j |}
  else throw (RangeError "offset is out of bounds").

(** The class field [fillTransformsArray] holds the function that an
    immediately invoked function returns; [tempArray] is the variable of
    that closure and keeps its value from one call to the next. An element
    of [tempArray] is a Number or [undefined] ([None]). *)
Module FillTransforms.

Local Open Scope js_scope.

Record State := mkState {
  world : World;
  tempArray : list (option (option JsNumber.t))
}.

Definition inWorld {A : Type} (c : Method A) : M State A :=
  fun s => let '(w, r) := c (world s) in
           ({| world := w; tempArray := tempArray s |}, r).

Definition onTempArray
  (f : list (option (option JsNumber.t)) -> list (option (option JsNumber.t)))
  : M State unit :=
  modify (fun s => {| world := world s; tempArray := f (tempArray s) |}).

(** [for (let j = 0; j < 16; j++) tempArray[i * 16 + j] = sceneTransformElements[j]] *)
Definition copyElements (i : nat) (sceneTransformElements : list JsNumber.t)
  (tempArray : list (option (option JsNumber.t))) : list (option (option JsNumber.t)) :=
  fold_left (fun arr j => js_array_assign arr (i * 16 + j) (sceneTransformElements !! j))
    (seq 0 16) tempArray.

(** The loop over the scenes; [getScene] does not change them. *)
Fixpoint copyScenes (indexes : list nat) : M State unit :=
  match indexes with
  | [] => ret tt
  | i :: rest =>
      let* scene := inWorld (getScene i) in
      onTempArray (copyElements i (Matrix4.elements (SplatScene.transform scene))) ;;
      copyScenes rest
  end.

(** [fillTransformsArray(array)], for a typed array; the result is [array]
    as the call leaves it. *)
Definition fillTransformsArray (array : TypedArray.t) : M State TypedArray.t :=
  let* tempArray0 := gets tempArray in
  when_ (negb (N.of_nat (length tempArray0) =? TypedArray.length array)%N)
    (onTempArray (js_array_setLength (N.to_nat (TypedArray.length array)))) ;;
  let* m := inWorld getMesh in
  copyScenes (seq 0 (length (SplatMesh.scenes m))) ;;
  let* tempArray1 := gets tempArray in
  typedArraySetFromArray array tempArray1.

(** The elements of a transform, as they are stored. *)
Definition stored (transform : Matrix4.t) : list (option (option JsNumber.t)) :=
  map (fun j => Some (Matrix4.elements transform !! j)) (seq 0 16).

(** What the loop over the scenes stores for them. *)
Definition storedScenes (scenes : list SplatScene.t) : list (option (option JsNumber.t)) :=
  flat_map (fun scene => stored (SplatScene.transform scene)) scenes.

(** [tempArray] as the loop over the scenes finds it: of the length of
    [array]. *)
Definition resized (array : TypedArray.t) (tempArray0 : list (option (option JsNumber.t)))
  : list (option (option JsNumber.t)) :=
  if negb (N.of_nat (length tempArray0) =? TypedArray.length array)%N
  then js_array_setLength (N.to_nat (TypedArray.length array)) tempArray0
  else tempArray0.

End FillTransforms.

(* ===================================================================== *)
(** * [loaders/KSplatLoader.js]: the sections of a streamed file           *)
(* ===================================================================== *)

(** [loadFromURL] keeps its progress in variables of its closure;
    [checkAndLoadSections] reads and updates them. The variables it uses
    are the state here. What it does to its collaborators (the splat
    buffer, the callback [onSectionBuilt], the promise and the timer) is
    recorded in order. The byte and splat counts are naturals. *)

Module KSplatLoader.

Local Open Scope js_scope.

Record SectionHeader := mkSectionHeader {
  storageSizeBytes : nat;
  splatCount : nat
}.

Inductive Effect :=
  | NewSplatBuffer                                   (* new SplatBuffer(fullBuffer, false) *)
  | UpdateLoadedCounts (sectionCount splatCount : nat)
  | OnSectionBuilt                                   (* onSectionBuilt(fullSplatBuffer) *)
  | SectionsLoadResolve                              (* sectionsLoadResolvePromise() *)
  | SetTimeout.                                      (* setTimeout(checkAndLoadSections, 100) *)

#[global] Instance Effect_eq_dec : EqDecision Effect.
Proof. solve_decision. Defined.

Record State := mkState {
  bytesLoaded : nat;
  header : option nat;                 (* [header.maxSectionCount], once parsed *)
  sectionHeaders : list SectionHeader;
  sectionHeadersLoaded : bool;
  sectionLoaded : gset nat;
  sectionCount : nat;
  fullSplatBuffer : bool;              (* whether it has been created *)
  effects : list Effect
}.

Definition emit (e : Effect) : M State unit :=
  modify (fun s =>
    {| bytesLoaded := bytesLoaded s; header := header s;
       sectionHeaders := sectionHeaders s;
       sectionHeadersLoaded := sectionHeadersLoaded s;
       sectionLoaded := sectionLoaded s; sectionCount := sectionCount s;
       fullSplatBuffer := fullSplatBuffer s; effects := effects s ++ [e] |}).

(** [sectionLoaded[sectionToLoad] = true; sectionCount++] *)
Definition markLoaded (sectionToLoad : nat) : M State unit :=
  modify (fun s =>
    {| bytesLoaded := bytesLoaded s; header := header s;
       sectionHeaders := sectionHeaders s;
       sectionHeadersLoaded := sectionHeadersLoaded s;
       sectionLoaded := {[sectionToLoad]} ∪ sectionLoaded s;
       sectionCount := sectionCount s + 1;
       fullSplatBuffer := fullSplatBuffer s; effects := effects s |}).

(** [if (!fullSplatBuffer) fullSplatBuffer = new SplatBuffer(fullBuffer, false)] *)
Definition ensureSplatBuffer : M State unit :=
  let* created := gets fullSplatBuffer in
  if created then ret tt
  else
    modify (fun s =>
      {| bytesLoaded := bytesLoaded s; header := header s;
         sectionHeaders := sectionHeaders s;
         sectionHeadersLoaded := sectionHeadersLoaded s;
         sectionLoaded := sectionLoaded s; sectionCount := sectionCount s;
         fullSplatBuffer := true; effects := effects s ++ [NewSplatBuffer] |}).

(** [header.maxSectionCount] *)
Definition maxSectionCount : M State nat :=
  let* h := gets header in
  match h with
  | Some n => ret n
  | None =>
      throw (TypeError "Cannot read properties of undefined (reading 'maxSectionCount')")
  end.

(** [sectionHeaders[i].field] *)
Definition sectionHeader {A : Type} (field : SectionHeader -> A) (name : string) (i : nat)
  : M State A :=
  let* hs := gets sectionHeaders in
  match hs !! i with
  | Some h => ret (field h)
  | None =>
      throw (TypeError ("Cannot read properties of undefined (reading '" ++ name ++ "')"))
  end.

(** [for (let s = 0; s < sectionCount; s++) splatCount += sectionHeaders[s].splatCount] *)
Fixpoint sumSplatCounts (indexes : list nat) (total : nat) : M State nat :=
  match indexes with
  | [] => ret total
  | s :: rest =>
      let* n := sectionHeader splatCount "splatCount" s in
      sumSplatCounts rest (total + n)
  end.

Section Sizes.

(** [SplatBuffer.HeaderSizeBytes] and [SplatBuffer.SectionHeaderSizeBytes],
    two constants of SplatBuffer.js. *)
Variable HeaderSizeBytes SectionHeaderSizeBytes : nat.

(** [for (let i = 0; i <= sectionCount && i < header.maxSectionCount; i++)
       byteOffset += sectionHeaders[i].storageSizeBytes] *)
Fixpoint skipSections (fuel : nat) (i : nat) (byteOffset : nat) : M State nat :=
  match fuel with
  | 0 => ret byteOffset
  | S fuel' =>
      let* count := gets sectionCount in
      let* max := maxSectionCount in
      if (i <=? count) && (i <? max) then
        let* size := sectionHeader storageSizeBytes "storageSizeBytes" i in
        skipSections fuel' (i + 1) (byteOffset + size)
      else ret byteOffset
  end.

(** The body of the second loop, for one [i]; the result is [byteOffset]
    as the body leaves it. *)
Definition loadSection (i : nat) (byteOffset : nat) : M State nat :=
  let* bytes := gets bytesLoaded in
  if byteOffset <=? bytes then
    let sectionToLoad := i - 1 in
    let* loaded := gets sectionLoaded in
    (if decide (sectionToLoad ∈ loaded) then ret tt
     else
       markLoaded sectionToLoad ;;
       let* count := gets sectionCount in
       let* total := sumSplatCounts (seq 0 count) 0 in
       ensureSplatBuffer ;;
       emit (UpdateLoadedCounts count total) ;;
       emit OnSectionBuilt ;;
       let* max := maxSectionCount in
       if max <=? count then emit SectionsLoadResolve else emit SetTimeout) ;;
    let* max := maxSectionCount in
    if i <? max then
      let* size := sectionHeader storageSizeBytes "storageSizeBytes" i in
      ret (byteOffset + size)
    else ret byteOffset
  else ret byteOffset.

(** [for (let i = sectionCount + 1; i <= header.maxSectionCount; i++) ...] *)
Fixpoint loadSections (fuel : nat) (i : nat) (byteOffset : nat) : M State unit :=
  match fuel with
  | 0 => ret tt
  | S fuel' =>
      let* max := maxSectionCount in
      if i <=? max then
        let* byteOffset' := loadSection i byteOffset in
        loadSections fuel' (i + 1) byteOffset'
      else ret tt
  end.

(** [checkAndLoadSections()]. Each loop counts [i] up to
    [header.maxSectionCount] at most, so [maxSectionCount + 1] rounds are
    all a loop can make. *)
Definition checkAndLoadSections : M State unit :=
  let* headersLoaded := gets sectionHeadersLoaded in
  if headersLoaded then
    let* max := maxSectionCount in
    let* byteOffset := skipSections (max + 1) 0
                         (HeaderSizeBytes + SectionHeaderSizeBytes * max) in
    let* count := gets sectionCount in
    loadSections (max + 1) (count + 1) byteOffset
  else ret tt.

(** More bytes arrive: [bytesLoaded += chunk.byteLength]. *)
Definition received (byteLength : nat) (s : State) : State :=
  {| bytesLoaded := bytesLoaded s + byteLength; header := header s;
     sectionHeaders := sectionHeaders s;
     sectionHeadersLoaded := sectionHeadersLoaded s;
     sectionLoaded := sectionLoaded s; sectionCount := sectionCount s;
     fullSplatBuffer := fullSplatBuffer s; effects := effects s |}.

(** What happens to the closure once the section headers are there: bytes
    arrive, and [checkAndLoadSections] is called, from [localOnProgress]
    or by a timer. *)
Inductive Step :=
  | Received (byteLength : nat)
  | Check.

Definition step (st : Step) (s : State) : State :=
  match st with
  | Received n => received n s
  | Check => fst (checkAndLoadSections s)
  end.

Definition run (steps : list Step) (s : State) : State :=
  fold_left (fun s st => step st s) steps s.

(** The closure when the section headers have just been parsed. *)
Definition headersParsed (bytes : nat) (headers : list SectionHeader) : State :=
  {| bytesLoaded := bytes; header := Some (length headers);
     sectionHeaders := headers; sectionHeadersLoaded := true;
     sectionLoaded := ∅; sectionCount := 0;
     fullSplatBuffer := false; effects := [] |}.

(** ** What the statements speak of *)

(** The number of leading sections whose bytes have all arrived, for
    sections that start at [offset]. *)
Fixpoint sectionsWithin (sizes : list nat) (offset bytes : nat) : nat :=
  match sizes with
  | [] => 0
  | size :: rest =>
      if offset + size <=? bytes then S (sectionsWithin rest (offset + size) bytes) else 0
  end.

Definition fullyReceived (s : State) : nat :=
  sectionsWithin (map storageSizeBytes (sectionHeaders s))
    (HeaderSizeBytes + SectionHeaderSizeBytes * length (sectionHeaders s))
    (bytesLoaded s).

(** The splats of the first [n] sections. *)
Definition splatsOf (headers : list SectionHeader) (n : nat) : nat :=
  list_sum (map splatCount (take n headers)).

(** What loading section [k] does to the collaborators. *)
Definition effectsOf (headers : list SectionHeader) (k : nat) : list Effect :=
  (if k =? 0 then [NewSplatBuffer] else []) ++
  [UpdateLoadedCounts (k + 1) (splatsOf headers (k + 1)); OnSectionBuilt;
   if length headers <=? k + 1 then SectionsLoadResolve else SetTimeout].

(** The end of the first [k] sections in the file. *)
Definition endOf (headers : list SectionHeader) (k : nat) : nat :=
  HeaderSizeBytes + SectionHeaderSizeBytes * length headers
  + list_sum (map storageSizeBytes (take k headers)).

(** The closure after the first [n] sections have been loaded, one after
    the other. *)
Definition loadedTo (n : nat) (s : State) : State :=
  {| bytesLoaded := bytesLoaded s; header := header s;
     sectionHeaders := sectionHeaders s;
     sectionHeadersLoaded := sectionHeadersLoaded s;
     sectionLoaded := list_to_set (seq 0 n); sectionCount := n;
     fullSplatBuffer := (0 <? n);
     effects := flat_map (effectsOf (sectionHeaders s)) (seq 0 n) |}.

(** The closure is as loading the first [sectionCount] sections, one after
    the other, leaves it. *)
Definition consistent (s : State) : Prop :=
  sectionHeadersLoaded s = true /\
  header s = Some (length (sectionHeaders s)) /\
  sectionCount s <= length (sectionHeaders s) /\
  sectionLoaded s = list_to_set (seq 0 (sectionCount s)) /\
  fullSplatBuffer s = (0 <? sectionCount s) /\
  effects s = flat_map (effectsOf (sectionHeaders s)) (seq 0 (sectionCount s)).

(** The closure is consistent and has not loaded more sections than have
    arrived. *)
Definition steady (s : State) : Prop :=
  consistent s /\ sectionCount s <= fullyReceived s.

End Sizes.

(** A file of three sections, with 16 and 8 bytes of headers. *)
Module Example.
Definition headers : list SectionHeader :=
  [mkSectionHeader 100 10; mkSectionHeader 200 20; mkSectionHeader 50 5].
Definition HeaderSizeBytes : nat := 16.
Definition SectionHeaderSizeBytes : nat := 8.
End Example.

End KSplatLoader.

(* ===================================================================== *)
(** * Part II: properties                                                  *)
(* ===================================================================== *)

Local Close Scope js_scope.
Local Open Scope nat_scope.

(** ** Counted loops *)

Lemma for_range_nil {S} from to (body : nat -> S -> S) s :
  to <= from -> for_range from to body s = s.
Proof.
  intros H. unfold for_range. replace (to - from) with 0 by lia. reflexivity.
Qed.

Lemma for_range_snoc {S} from to (body : nat -> S -> S) s :
  from <= to ->
  for_range from (Datatypes.S to) body s = body to (for_range from to body s).
Proof.
  intros H. unfold for_range.
  replace (Datatypes.S to - from) with (Datatypes.S (to - from)) by lia.
  rewrite seq_S, fold_left_app. simpl.
  replace (from + (to - from)) with to by lia. reflexivity.
Qed.

(** Invariant rule: [P k] holds of the state before iteration [k]. *)
Lemma for_range_ind {S} (P : nat -> S -> Prop) from to (body : nat -> S -> S) s :
  from <= to ->
  P from s ->
  (forall k acc, from <= k < to -> P k acc -> P (Datatypes.S k) (body k acc)) ->
  P to (for_range from to body s).
Proof.
  intros Hle H0 Hstep. induction to as [|to IH].
  - assert (from = 0) by lia. subst. rewrite for_range_nil by lia. exact H0.
  - destruct (decide (from = Datatypes.S to)) as [->|Hne].
    + rewrite for_range_nil by lia. exact H0.
    + rewrite for_range_snoc by lia. apply Hstep; [lia|].
      apply IH; [lia|]. intros k acc Hk. apply Hstep. lia.
Qed.

(** ** Plain arrays *)

Lemma js_array_assign_push {A} (arr : list (option A)) v :
  js_array_assign arr (length arr) v = arr ++ [Some v].
Proof.
  unfold js_array_assign.
  destruct (Nat.ltb_spec (length arr) (length arr)); [lia|].
  rewrite Nat.sub_diag. reflexivity.
Qed.

Lemma js_array_assign_at_end {A} (arr : list (option A)) k v :
  length arr = k -> js_array_assign arr k v = arr ++ [Some v].
Proof. intros <-. apply js_array_assign_push. Qed.

(** ** The global index maps *)

Module IndexMapsFacts.
Import IndexMaps.

Lemma sceneOffset_0 bs : sceneOffset bs 0 = 0.
Proof. unfold sceneOffset. rewrite take_0. reflexivity. Qed.

Lemma sceneOffset_S bs s sb :
  bs !! s = Some sb ->
  sceneOffset bs (S s) = sceneOffset bs s + SplatBuffer.getMaxSplatCount sb.
Proof.
  intros H. unfold sceneOffset. rewrite (take_S_r _ _ _ H), fmap_app, sum_list_with_app.
  simpl. lia.
Qed.

Lemma sceneOffset_all bs : sceneOffset bs (length bs) = totalMax bs.
Proof. unfold sceneOffset, totalMax. rewrite firstn_all. reflexivity. Qed.

Lemma sceneOffset_mono bs s t : s <= t -> sceneOffset bs s <= sceneOffset bs t.
Proof.
  induction 1 as [|t Hle IH]; [lia|].
  destruct (bs !! t) as [sb|] eqn:E.
  - rewrite (sceneOffset_S _ _ _ E). lia.
  - apply lookup_ge_None in E.
    assert (sceneOffset bs (S t) = sceneOffset bs t) as ->; [|exact IH].
    unfold sceneOffset. rewrite (take_ge bs (S t)), (take_ge bs t) by lia.
    reflexivity.
Qed.

(** Every global index below the total lies in the block of one scene. *)
Lemma sceneOffset_cover bs k g :
  k <= length bs -> g < sceneOffset bs k ->
  exists s sb, s < k /\ bs !! s = Some sb /\
    sceneOffset bs s <= g < sceneOffset bs s + SplatBuffer.getMaxSplatCount sb.
Proof.
  induction k as [|k IH]; intros Hk Hg.
  - rewrite sceneOffset_0 in Hg. lia.
  - destruct (lookup_lt_is_Some_2 bs k) as [sb E]; [lia|].
    rewrite (sceneOffset_S _ _ _ E) in Hg.
    destruct (decide (g < sceneOffset bs k)) as [Hlt|Hge].
    + destruct (IH ltac:(lia) Hlt) as (s & sb' & ? & ? & ?).
      exists s, sb'. repeat split; auto; lia.
    + exists k, sb. repeat split; auto; lia.
Qed.

(** The inner loop appends [maxSplatCount] pairs. *)
Lemma inner_loop s n lm sm :
  length sm = length lm ->
  for_range 0 n (inner_body s) (lm, sm, length lm)
  = (lm ++ (Some <$> seq 0 n), sm ++ replicate n (Some s), length lm + n).
Proof.
  intros Hlen. induction n as [|n IH].
  - rewrite for_range_nil by lia. simpl. rewrite !app_nil_r.
    f_equal. lia.
  - rewrite for_range_snoc by lia. rewrite IH. unfold inner_body.
    rewrite !js_array_assign_at_end
      by (rewrite length_app, ?length_fmap, ?length_seq, ?length_replicate; lia).
    rewrite seq_S, fmap_app, replicate_S_end. simpl.
    rewrite <- !app_assoc. f_equal. lia.
Qed.

Lemma outer_loop bs :
  outer_inv bs (length bs)
    (for_range 0 (length bs) (outer_body bs) ([], [], 0)).
Proof.
  apply (for_range_ind (outer_inv bs)); [lia| |].
  - simpl. rewrite sceneOffset_0. repeat split; auto; lia.
  - intros k [[lm sm] total] Hk (Htot & Hlen & Hoff & Hprev).
    destruct (lookup_lt_is_Some_2 bs k) as [sb E]; [lia|].
    unfold outer_body. rewrite E. subst total.
    rewrite inner_loop by exact Hlen. simpl.
    rewrite (sceneOffset_S _ _ _ E).
    repeat split.
    + rewrite length_app, length_fmap, length_seq. lia.
    + rewrite !length_app, length_fmap, length_seq, length_replicate. lia.
    + lia.
    + destruct (decide (s = k)) as [->|Hne].
      * assert (sb0 = sb) by congruence. subst sb0.
        rewrite <- Hoff, lookup_app_r by lia.
        replace (length lm + i - length lm) with i by lia.
        rewrite list_lookup_fmap, lookup_seq_lt by lia. reflexivity.
      * destruct (Hprev s sb0 i ltac:(lia) H0 H1) as [Hl _].
        rewrite lookup_app_l; [exact Hl|]. apply lookup_lt_Some in Hl. exact Hl.
    + destruct (decide (s = k)) as [->|Hne].
      * assert (sb0 = sb) by congruence. subst sb0.
        rewrite <- Hoff, lookup_app_r by lia.
        replace (length lm + i - length sm) with i by lia.
        apply lookup_replicate_2. lia.
      * destruct (Hprev s sb0 i ltac:(lia) H0 H1) as [_ Hs].
        rewrite lookup_app_l; [exact Hs|]. apply lookup_lt_Some in Hs. exact Hs.
Qed.

(** A predicate that holds exactly on [a, a + len) selects that range. *)
Lemma filter_seq_range (P : nat -> Prop) `{!forall g, Decision (P g)} n a len :
  a + len <= n ->
  (forall g, g < n -> P g <-> a <= g < a + len) ->
  filter P (seq 0 n) = seq a len.
Proof.
  intros Hle HP.
  replace n with (a + (len + (n - a - len))) by lia.
  rewrite !seq_app, !filter_app. simpl.
  assert (Hout : forall l, Forall (fun g => g < n /\ ~ (a <= g < a + len)) l ->
                           filter P l = []).
  { induction 1 as [|g l [Hg Hn] _ IH]; [reflexivity|].
    rewrite filter_cons_False; [exact IH|]. rewrite HP by exact Hg. exact Hn. }
  assert (Hin : forall l, Forall (fun g => a <= g < a + len) l -> filter P l = l).
  { induction 1 as [|g l Hg _ IH]; [reflexivity|].
    rewrite filter_cons_True; [f_equal; exact IH|]. apply HP; lia. }
  rewrite (Hout (seq 0 a)), (Hin (seq a len)), (Hout (seq (a + len) _)).
  - rewrite app_nil_r. reflexivity.
  - apply Forall_forall. intros g Hg. apply elem_of_seq in Hg. lia.
  - apply Forall_forall. intros g Hg. apply elem_of_seq in Hg. lia.
  - apply Forall_forall. intros g Hg. apply elem_of_seq in Hg. lia.
Qed.

End IndexMapsFacts.

(** C1. For every ordered list of source buffers, [buildSplatIndexMaps]
    appends, for each scene [s] in order and each local index [i] below the
    max splat count of [s], the pair [(s, i)] at the next global slot: both
    maps have the total max splat count as length and global index
    [sceneOffset s + i] maps to scene [s], local index [i]. Consequently the
    global indexes that map to scene [s] are exactly the [maxSplatCount_s]
    consecutive indexes from [sceneOffset s], and their local indexes are
    exactly 0, 1, ..., [maxSplatCount_s - 1]. With two scenes of max counts
    500 and 300, global index 650 maps to scene 1, local index 150. *)
Theorem buildSplatIndexMaps_correct (splatBuffers : list SplatBuffer.t) :
  let m := IndexMaps.buildSplatIndexMaps splatBuffers in
  length (IndexMaps.localSplatIndexMap m) = IndexMaps.totalMax splatBuffers /\
  length (IndexMaps.sceneIndexMap m) = IndexMaps.totalMax splatBuffers /\
  (forall s sb i,
     splatBuffers !! s = Some sb -> i < SplatBuffer.getMaxSplatCount sb ->
     IndexMaps.localSplatInfo m (IndexMaps.sceneOffset splatBuffers s + i)
     = (Some s, Some i)) /\
  (forall s sb,
     splatBuffers !! s = Some sb ->
     IndexMaps.globalIndexesOfScene m s
     = seq (IndexMaps.sceneOffset splatBuffers s) (SplatBuffer.getMaxSplatCount sb) /\
     length (IndexMaps.globalIndexesOfScene m s) = SplatBuffer.getMaxSplatCount sb /\
     js_array_get (IndexMaps.localSplatIndexMap m) <$> IndexMaps.globalIndexesOfScene m s
     = Some <$> seq 0 (SplatBuffer.getMaxSplatCount sb)) /\
  (forall sb0 sb1,
     splatBuffers = [sb0; sb1] ->
     SplatBuffer.getMaxSplatCount sb0 = 500 ->
     SplatBuffer.getMaxSplatCount sb1 = 300 ->
     IndexMaps.localSplatInfo m 650 = (Some 1, Some 150)).
Proof.
  intros m.
  pose proof (IndexMapsFacts.outer_loop splatBuffers) as Hinv.
  unfold m, IndexMaps.buildSplatIndexMaps.
  destruct (for_range 0 (length splatBuffers) (IndexMaps.outer_body splatBuffers)
              ([], [], 0)) as [[lm sm] total].
  destruct Hinv as (Htot & Hlen & Hoff & Hmap).
  rewrite IndexMapsFacts.sceneOffset_all in Hoff.
  cbn [IndexMaps.localSplatIndexMap IndexMaps.sceneIndexMap].
  assert (Hinfo : forall s sb i,
            splatBuffers !! s = Some sb -> i < SplatBuffer.getMaxSplatCount sb ->
            IndexMaps.localSplatInfo
              {| IndexMaps.localSplatIndexMap := lm; IndexMaps.sceneIndexMap := sm |}
              (IndexMaps.sceneOffset splatBuffers s + i) = (Some s, Some i)).
  { intros s sb i Hs Hi.
    destruct (Hmap s sb i (lookup_lt_Some _ _ _ Hs) Hs Hi) as [Hl Hsm].
    unfold IndexMaps.localSplatInfo, js_array_get. cbn.
    rewrite Hl, Hsm. reflexivity. }
  split; [lia|]. split; [lia|]. split; [exact Hinfo|]. split.
  - intros s sb Hs.
    assert (Hidx : IndexMaps.globalIndexesOfScene
                     {| IndexMaps.localSplatIndexMap := lm; IndexMaps.sceneIndexMap := sm |} s
                   = seq (IndexMaps.sceneOffset splatBuffers s)
                         (SplatBuffer.getMaxSplatCount sb)).
    { unfold IndexMaps.globalIndexesOfScene. cbn.
      apply IndexMapsFacts.filter_seq_range.
      - rewrite <- (IndexMapsFacts.sceneOffset_S _ _ _ Hs), Hlen, <- Htot, Hoff.
        rewrite <- IndexMapsFacts.sceneOffset_all.
        apply IndexMapsFacts.sceneOffset_mono. apply lookup_lt_Some in Hs. lia.
      - intros g Hg. split.
        + intros Hsg.
          destruct (IndexMapsFacts.sceneOffset_cover splatBuffers (length splatBuffers) g)
            as (s' & sb' & Hs'lt & Hs' & Hrange); [lia| |].
          { rewrite IndexMapsFacts.sceneOffset_all. lia. }
          destruct (Hmap s' sb' (g - IndexMaps.sceneOffset splatBuffers s') Hs'lt Hs')
            as [_ Hsm]; [lia|].
          replace (IndexMaps.sceneOffset splatBuffers s'
                   + (g - IndexMaps.sceneOffset splatBuffers s')) with g in Hsm by lia.
          assert (s' = s) by congruence. subst s'.
          assert (sb' = sb) by congruence. subst sb'. exact Hrange.
        + intros Hrange.
          destruct (Hmap s sb (g - IndexMaps.sceneOffset splatBuffers s)
                      (lookup_lt_Some _ _ _ Hs) Hs) as [_ Hsm]; [lia|].
          replace (IndexMaps.sceneOffset splatBuffers s
                   + (g - IndexMaps.sceneOffset splatBuffers s)) with g in Hsm by lia.
          exact Hsm. }
    split; [exact Hidx|]. split.
    + rewrite Hidx. apply length_seq.
    + rewrite Hidx.
      rewrite <- (Nat.add_0_r (IndexMaps.sceneOffset splatBuffers s)) at 1.
      rewrite <- fmap_add_seq, <- list_fmap_compose.
      apply list_fmap_ext. intros k i Hk.
      apply lookup_seq in Hk as [-> Hlt]. simpl.
      destruct (Hmap s sb k (lookup_lt_Some _ _ _ Hs) Hs Hlt) as [Hl _].
      unfold js_array_get. rewrite Hl. reflexivity.
  - intros sb0 sb1 -> H0 H1.
    replace 650 with (IndexMaps.sceneOffset [sb0; sb1] 1 + 150)
      by (unfold IndexMaps.sceneOffset; simpl; lia).
    apply (Hinfo 1 sb1 150); [reflexivity|lia].
Qed.

(** Two scenes of max splat counts 500 and 300. *)
Lemma buildSplatIndexMaps_correct_witness :
  IndexMaps.localSplatInfo
    (IndexMaps.buildSplatIndexMaps [Examples.buffer 500 500; Examples.buffer 300 300]) 650
  = (Some 1, Some 150).
Proof.
  pose proof (buildSplatIndexMaps_correct
                [Examples.buffer 500 500; Examples.buffer 300 300]) as H.
  cbv zeta in H. destruct H as (_ & _ & _ & _ & H).
  apply (H (Examples.buffer 500 500) (Examples.buffer 300 300)); reflexivity.
Defined.

(** ** The size of the data textures *)

Module TextureSizeFacts.

Local Open Scope Z_scope.

(** The loop from height [y]: when the bound is reached within [fuel]
    doublings, the loop stops at the first height that reaches it. *)
Lemma loop_spec need ept x : 0 < x -> 0 < ept ->
  forall fuel y, 0 < y ->
  need <= x * y * ept * 2 ^ Z.of_nat fuel ->
  exists k : nat,
    (k <= fuel)%nat /\
    computeDataTextureSize_loop fuel need ept 1 x y = Some (x, y * 2 ^ Z.of_nat k) /\
    need <= x * (y * 2 ^ Z.of_nat k) * ept /\
    forall j : nat, (j < k)%nat -> x * (y * 2 ^ Z.of_nat j) * ept < need.
Proof.
  intros Hx Hept fuel. induction fuel as [|fuel IH]; intros y Hy Hbound.
  - exists 0%nat. cbn [computeDataTextureSize_loop].
    change (Z.of_nat 0) with 0 in *. rewrite Z.pow_0_r, !Z.mul_1_r in *.
    destruct (Z.ltb_spec (x * y * ept) need); [lia|].
    split; [lia|]. split; [reflexivity|]. split; [lia|]. intros; lia.
  - cbn [computeDataTextureSize_loop]. rewrite (Z.mul_1_r need).
    destruct (Z.ltb_spec (x * y * ept) need) as [Hlt|Hge].
    + destruct (IH (y * 2)) as (k & Hk & Hres & Hok & Hmin); [lia| |].
      { rewrite Nat2Z.inj_succ, Z.pow_succ_r in Hbound by lia. lia. }
      exists (S k). rewrite Nat2Z.inj_succ, Z.pow_succ_r by lia.
      split; [lia|]. split.
      { rewrite Hres. f_equal. f_equal. lia. }
      split.
      { replace (y * (2 * 2 ^ Z.of_nat k)) with (y * 2 * 2 ^ Z.of_nat k) by lia.
        exact Hok. }
      intros [|j] Hj.
      * change (Z.of_nat 0) with 0. rewrite Z.pow_0_r. lia.
      * rewrite Nat2Z.inj_succ, Z.pow_succ_r by lia.
        replace (y * (2 * 2 ^ Z.of_nat j)) with (y * 2 * 2 ^ Z.of_nat j) by lia.
        apply Hmin. lia.
    + exists 0%nat. change (Z.of_nat 0) with 0. rewrite Z.pow_0_r, !Z.mul_1_r.
      split; [lia|]. split; [reflexivity|]. split; [lia|]. intros; lia.
Qed.

(** More iterations than needed do not change the result. *)
Lemma loop_fuel_mono need ept x fuel fuel' y r :
  (fuel <= fuel')%nat ->
  computeDataTextureSize_loop fuel need ept 1 x y = Some r ->
  computeDataTextureSize_loop fuel' need ept 1 x y = Some r.
Proof.
  revert fuel' y. induction fuel as [|fuel IH]; intros fuel' y Hle H.
  - simpl in H. destruct fuel'; simpl.
    + exact H.
    + destruct (x * y * ept <? need * 1); [discriminate|exact H].
  - destruct fuel' as [|fuel']; [lia|]. simpl in *.
    destruct (x * y * ept <? need * 1); [|exact H].
    apply IH; [lia|exact H].
Qed.

Lemma fuel_suffices need ept : 0 < ept ->
  need <= 4096 * 1024 * ept * 2 ^ Z.of_nat (Z.to_nat (Z.log2_up (need + 1))).
Proof.
  intros Hept. rewrite Z2Nat.id by apply Z.log2_up_nonneg.
  destruct (Z_le_gt_dec (need + 1) 1) as [Hsmall|Hbig].
  - assert (0 < 2 ^ Z.log2_up (need + 1)) by (apply Z.pow_pos_nonneg; [lia|apply Z.log2_up_nonneg]).
    nia.
  - pose proof (Z.log2_up_spec (need + 1) ltac:(lia)) as [_ Hup]. nia.
Qed.

Lemma loop_need fuel m ept eps x y :
  computeDataTextureSize_loop fuel m ept eps x y
  = computeDataTextureSize_loop fuel (m * eps) ept 1 x y.
Proof.
  revert y. induction fuel as [|fuel IH]; intros y; simpl.
  - rewrite Z.mul_1_r. reflexivity.
  - rewrite Z.mul_1_r, IH. reflexivity.
Qed.

End TextureSizeFacts.

(** C9. For every [maxSplatCount] (and a positive number of elements per
    texel), the size chosen for a data texture has width 4096 and a height
    that is 1024 doubled [k] times, where [k] is the first number of
    doublings for which width * height * elementsPerTexel is at least
    maxSplatCount * elementsPerSplat: the loop ends (the result is reached
    within [textureSizeFuel] iterations and with any larger allowance) and
    the returned size satisfies the inequality. *)
Theorem computeDataTextureSize_terminates_and_fits
  (maxSplatCount : nat) (elementsPerTexel elementsPerSplat : Z) :
  (0 < elementsPerTexel)%Z ->
  exists k : nat,
    let height := (1024 * 2 ^ Z.of_nat k)%Z in
    (forall fuel, textureSizeFuel maxSplatCount elementsPerSplat <= fuel ->
       computeDataTextureSize_fuel fuel maxSplatCount elementsPerTexel elementsPerSplat
       = Some (4096, height)%Z) /\
    computeDataTextureSize maxSplatCount elementsPerTexel elementsPerSplat
    = (4096, height)%Z /\
    (Z.of_nat maxSplatCount * elementsPerSplat <= 4096 * height * elementsPerTexel)%Z /\
    (forall j : nat, j < k ->
       (4096 * (1024 * 2 ^ Z.of_nat j) * elementsPerTexel
        < Z.of_nat maxSplatCount * elementsPerSplat)%Z).
Proof.
  intros Hept.
  destruct (TextureSizeFacts.loop_spec (Z.of_nat maxSplatCount * elementsPerSplat)
              elementsPerTexel 4096 ltac:(lia) Hept
              (textureSizeFuel maxSplatCount elementsPerSplat) 1024 ltac:(lia))
    as (k & Hk & Hres & Hok & Hmin).
  { apply TextureSizeFacts.fuel_suffices. exact Hept. }
  exists k. cbn zeta.
  assert (Hfuel : forall fuel, textureSizeFuel maxSplatCount elementsPerSplat <= fuel ->
            computeDataTextureSize_fuel fuel maxSplatCount elementsPerTexel elementsPerSplat
            = Some (4096, 1024 * 2 ^ Z.of_nat k)%Z).
  { intros fuel Hle. unfold computeDataTextureSize_fuel.
    rewrite TextureSizeFacts.loop_need.
    apply (TextureSizeFacts.loop_fuel_mono _ _ _ _ _ _ _ Hle). exact Hres. }
  split; [exact Hfuel|]. split.
  - unfold computeDataTextureSize. rewrite Hfuel by lia. reflexivity.
  - split; [exact Hok|exact Hmin].
Qed.

(** The covariances texture of 150 splats. *)
Lemma computeDataTextureSize_terminates_and_fits_witness :
  exists k : nat,
    computeDataTextureSize 150 2 6 = (4096, 1024 * 2 ^ Z.of_nat k)%Z
    /\ (Z.of_nat 150 * 6 <= 4096 * (1024 * 2 ^ Z.of_nat k) * 2)%Z.
Proof.
  destruct (computeDataTextureSize_terminates_and_fits 150 2 6) as (k & H); [lia|].
  cbv zeta in H. destruct H as (_ & Hsize & Hfits & _).
  exists k. split; [exact Hsize|exact Hfits].
Defined.

(** ** The guard against incremental updates of several scenes *)

Lemma checkForMultiSceneUpdateCondition_throws w functionName parameterName :
  1 < length (SplatMesh.scenes (mesh w)) ->
  checkForMultiSceneUpdateCondition true functionName parameterName w
  = (w, Throw (Error (multiSceneMessage functionName parameterName))).
Proof.
  intros H. unfold checkForMultiSceneUpdateCondition, bind, getMesh, gets.
  destruct (Nat.ltb_spec 1 (length (SplatMesh.scenes (mesh w)))); [|lia].
  reflexivity.
Qed.

Lemma checkForMultiSceneUpdateCondition_passes w sinceLastBuild functionName parameterName :
  length (SplatMesh.scenes (mesh w)) <= 1 \/ sinceLastBuild = false ->
  checkForMultiSceneUpdateCondition sinceLastBuild functionName parameterName w
  = (w, Normal tt).
Proof.
  intros H. unfold checkForMultiSceneUpdateCondition, bind, getMesh, gets.
  destruct (Nat.ltb_spec 1 (length (SplatMesh.scenes (mesh w)))), sinceLastBuild;
    try reflexivity.
  destruct H; [lia|discriminate].
Qed.

(** A method that starts with the guard stops there. *)
Lemma guarded_throws {A} w functionName parameterName (rest : Method A) :
  1 < length (SplatMesh.scenes (mesh w)) ->
  bind (checkForMultiSceneUpdateCondition true functionName parameterName)
       (fun _ => rest) w
  = (w, Throw (Error (multiSceneMessage functionName parameterName))).
Proof.
  intros H. unfold bind at 1.
  rewrite checkForMultiSceneUpdateCondition_throws by exact H. reflexivity.
Qed.

(** C2. On a mesh with more than one scene, every incremental-update
    operation called with [sinceLastBuild] true
    ([uploadSplatDataToTextures], [fillSplatDataArrays],
    [getIntegerCenters], [getFloatCenters],
    [updateGPUCentersBufferForDistancesComputation]) throws an [Error] whose
    message names the operation and the parameter, and leaves the whole
    state, the data textures and their backing arrays included, as it was. *)
Theorem multi_scene_incremental_update_rejected (w : World) :
  1 < length (SplatMesh.scenes (mesh w)) ->
  uploadSplatDataToTextures true w
  = (w, Throw (Error (multiSceneMessage "uploadSplatDataToTextures" "sinceLastBuild"))) /\
  (forall covariances centers colors applySceneTransform forceDestFromZero,
     fillSplatDataArrays covariances centers colors applySceneTransform true
       forceDestFromZero w
     = (w, Throw (Error (multiSceneMessage "fillSplatDataArrays" "sinceLastBuild")))) /\
  (forall padFour,
     getIntegerCenters padFour true w
     = (w, Throw (Error (multiSceneMessage "getIntegerCenters" "sinceLastBuild")))) /\
  (forall padFour,
     getFloatCenters padFour true w
     = (w, Throw (Error (multiSceneMessage "getFloatCenters" "sinceLastBuild")))) /\
  updateGPUCentersBufferForDistancesComputation true w
  = (w, Throw (Error (multiSceneMessage "updateGPUCentersBufferForDistancesComputation"
                        "sinceLastBuild"))).
Proof.
  intros H. repeat split; intros; apply guarded_throws; exact H.
Qed.

(** The instance [Examples.twoScenes]. *)
Lemma multi_scene_incremental_update_rejected_witness :
  uploadSplatDataToTextures true Examples.twoScenes
  = (Examples.twoScenes,
     Throw (Error (multiSceneMessage "uploadSplatDataToTextures" "sinceLastBuild"))).
Proof.
  apply (multi_scene_incremental_update_rejected Examples.twoScenes).
  vm_compute. lia.
Defined.

(** ** [getFloatCenters] and the centers buffer in floating-point mode *)

Lemma getFloatCenters_result w padFour sinceLastBuild :
  getFloatCenters padFour sinceLastBuild w
  = (w, Throw (if (1 <? length (SplatMesh.scenes (mesh w))) && sinceLastBuild
               then Error (multiSceneMessage "getFloatCenters" "sinceLastBuild")
               else floatCentersReferenceError)).
Proof.
  unfold getFloatCenters, bind at 1, checkForMultiSceneUpdateCondition, bind at 1,
    getMesh, gets.
  destruct ((1 <? length (SplatMesh.scenes (mesh w))) && sinceLastBuild); reflexivity.
Qed.

Lemma updateGPUCenters_float_result w sinceLastBuild :
  SplatMesh.integerBasedDistancesComputation (mesh w) = false ->
  updateGPUCentersBufferForDistancesComputation sinceLastBuild w
  = if (1 <? length (SplatMesh.scenes (mesh w))) && sinceLastBuild
    then (w, Throw (Error (multiSceneMessage
                             "updateGPUCentersBufferForDistancesComputation"
                             "sinceLastBuild")))
    else match SplatMesh.renderer (mesh w) with
         | None => (w, Normal tt)
         | Some _ =>
             (withGL (GL.doBindVertexArray
                        (DTF.vao (SplatMesh.distancesTransformFeedback (mesh w)))) w,
              Throw floatCentersReferenceError)
         end.
Proof.
  intros Hfloat.
  unfold updateGPUCentersBufferForDistancesComputation, bind at 1.
  unfold checkForMultiSceneUpdateCondition, bind at 1, getMesh, gets.
  destruct ((1 <? length (SplatMesh.scenes (mesh w))) && sinceLastBuild) eqn:Hguard;
    [reflexivity|].
  cbn [ret]. unfold bind at 1.
  destruct (SplatMesh.renderer (mesh w)) as [renderer|] eqn:Hr; [|reflexivity].
  unfold bind at 1, glGet, gets. unfold bind at 1, getDTF, gets.
  unfold bind at 1, glDo, modify. rewrite Hfloat.
  unfold bind at 1. rewrite getFloatCenters_result. cbn [mesh withGL].
  rewrite Hguard. reflexivity.
Qed.

(** C4. Every call of [getFloatCenters] throws: unless the multi-scene
    guard has thrown before, the argument [floatCenters] of
    [fillSplatDataArrays] is read before its declaration and the read throws
    a ReferenceError; the state is left as it was. Consequently, in
    floating-point mode (not integer based),
    [updateGPUCentersBufferForDistancesComputation] never gives the centers
    buffer any data: no [bufferData] with an array and no [bufferSubData] is
    issued, and the call either throws or, when there is no renderer,
    returns with the state unchanged. *)
Theorem getFloatCenters_always_throws (w : World) (padFour sinceLastBuild : bool) :
  (exists e, getFloatCenters padFour sinceLastBuild w = (w, Throw e)) /\
  (length (SplatMesh.scenes (mesh w)) <= 1 \/ sinceLastBuild = false ->
   getFloatCenters padFour sinceLastBuild w = (w, Throw floatCentersReferenceError)) /\
  (SplatMesh.integerBasedDistancesComputation (mesh w) = false ->
   let r := updateGPUCentersBufferForDistancesComputation sinceLastBuild w in
   mesh (fst r) = mesh w /\
   List.filter GL.isBufferUpload (GL.calls (gl (fst r)))
   = List.filter GL.isBufferUpload (GL.calls (gl w)) /\
   (is_Some (SplatMesh.renderer (mesh w)) -> threw r) /\
   (snd r = Normal tt -> SplatMesh.renderer (mesh w) = None /\ fst r = w)).
Proof.
  split; [|split].
  - eexists. apply getFloatCenters_result.
  - intros H. rewrite getFloatCenters_result.
    destruct (Nat.ltb_spec 1 (length (SplatMesh.scenes (mesh w)))), sinceLastBuild;
      try reflexivity.
    destruct H; [lia|discriminate].
  - intros Hfloat r. subst r. rewrite updateGPUCenters_float_result by exact Hfloat.
    destruct ((1 <? length (SplatMesh.scenes (mesh w))) && sinceLastBuild).
    + cbn. split; [reflexivity|]. split; [reflexivity|].
      split; [intros _; eexists; reflexivity|discriminate].
    + destruct (SplatMesh.renderer (mesh w)) as [renderer|].
      * cbn. split; [reflexivity|]. split; [reflexivity|].
        split; [intros _; eexists; reflexivity|discriminate].
      * cbn. split; [reflexivity|]. split; [reflexivity|].
        split; [intros [? ?]; discriminate|intros _; split; reflexivity].
Qed.

(** A call that passes the guard reads [floatCenters] too early. *)
Lemma getFloatCenters_always_throws_witness :
  getFloatCenters true false Examples.twoScenes
  = (Examples.twoScenes, Throw floatCentersReferenceError).
Proof.
  apply (getFloatCenters_always_throws Examples.twoScenes true false).
  right. reflexivity.
Defined.

(** ** Disposal of the WebGL objects of the distances computation *)

(** C10, evaluated on an instance in dynamic, integer-based mode that was
    given a renderer and then disposed of. [dispose()] returns normally and
    releases the vertex array (1), the program (2), the shader stored under
    [vertexShader] (4, the fragment shader), the output distances buffer (7)
    and the transform feedback (8). It does not release the centers buffer
    (5): the reference is set to [null] first and [gl.deleteBuffer(null)] is
    what is called (the two [deleteBuffer] calls are of 7 and of [null]). It neither releases nor forgets the transform-indexes
    buffer (6), and the vertex shader (3), which was never stored, stays
    live. A second [dispose()] returns normally and changes nothing. *)
Theorem dispose_does_not_release_every_buffer :
  snd (dispose Examples.rendered) = Normal tt /\
  (* what the instance held *)
  (let d := SplatMesh.distancesTransformFeedback (mesh Examples.rendered) in
   DTF.vao d = Some 1 /\ DTF.program d = Some 2 /\ DTF.vertexShader d = Some 4 /\
   DTF.fragmentShader d = None /\ DTF.centersBuffer d = Some 5 /\
   DTF.transformIndexesBuffer d = Some 6 /\ DTF.outDistancesBuffer d = Some 7 /\
   DTF.id d = Some 8) /\
  GL.objects (gl Examples.rendered) !! 3 = Some (GL.Shader GL.VERTEX_SHADER) /\
  (* released *)
  List.map (GL.live (gl Examples.disposed)) [1; 2; 4; 7; 8]
  = [false; false; false; false; false] /\
  (* not released *)
  List.map (GL.live (gl Examples.disposed)) [3; 5; 6] = [true; true; true] /\
  GL.deletedBuffers (gl Examples.disposed) = [Some 7; None] /\
  (* references after disposal *)
  (let d := SplatMesh.distancesTransformFeedback (mesh Examples.disposed) in
   DTF.centersBuffer d = None /\ DTF.transformIndexesBuffer d = Some 6) /\
  (* a second disposal *)
  snd (dispose Examples.disposed) = Normal tt /\
  length (GL.calls (gl (fst (dispose Examples.disposed))))
  = length (GL.calls (gl Examples.disposed)) /\
  GL.objects (gl (fst (dispose Examples.disposed))) = GL.objects (gl Examples.disposed) /\
  SplatMesh.distancesTransformFeedback (mesh (fst (dispose Examples.disposed)))
  = SplatMesh.distancesTransformFeedback (mesh Examples.disposed).
Proof.
  split; [vm_compute; reflexivity|].
  split; [vm_compute; repeat split|].
  split; [vm_compute; reflexivity|].
  split; [vm_compute; reflexivity|].
  split; [vm_compute; reflexivity|].
  split; [vm_compute; reflexivity|].
  split; [vm_compute; split; reflexivity|].
  split; [vm_compute; reflexivity|].
  split; [vm_compute; reflexivity|].
  split; vm_compute; reflexivity.
Qed.

(** ** Typed arrays *)

Module TypedArrayFacts.
Import TypedArray.

Lemma kind_store a i v : kind (store a i v) = kind a.
Proof. unfold store. destruct (inBounds a i); reflexivity. Qed.

Lemma length_store a i v : length (store a i v) = length a.
Proof. unfold store. destruct (inBounds a i); reflexivity. Qed.

Lemma inBounds_store a i v j : inBounds (store a i v) j = inBounds a j.
Proof. unfold inBounds. rewrite length_store. reflexivity. Qed.

Lemma elems_store_eq a i v :
  inBounds a i = true -> elems (store a i v) i = convert (kind a) v.
Proof. intros H. unfold store. rewrite H. cbn. rewrite Nat.eqb_refl. reflexivity. Qed.

Lemma elems_store_ne a i v j : j <> i -> elems (store a i v) j = elems a j.
Proof.
  intros H. unfold store. destruct (inBounds a i); [|reflexivity]. cbn.
  destruct (Nat.eqb_spec j i); [contradiction|reflexivity].
Qed.

Lemma get_inBounds a i : inBounds a i = true -> get a i = Some (elems a i).
Proof. intros H. unfold get. rewrite H. reflexivity. Qed.

Lemma inBounds_lt a i n : length a = N.of_nat n -> i < n -> inBounds a i = true.
Proof. intros Hl Hi. unfold inBounds. rewrite Hl. apply N.ltb_lt. lia. Qed.

Lemma same_refl a : same a a.
Proof. repeat split. Qed.

End TypedArrayFacts.

(** ** Numbers: integers as Numbers *)

Module JsNumberFacts.
Import JsNumber.

Local Open Scope Z_scope.

Lemma digits2_pos_bounds p :
  2 ^ (Zpos (digits2_pos p) - 1) <= Zpos p < 2 ^ Zpos (digits2_pos p).
Proof.
  induction p as [p IH|p IH|]; cbn [digits2_pos].
  - rewrite Pos2Z.inj_succ, Z.pow_succ_r by lia.
    replace (Z.succ (Zpos (digits2_pos p)) - 1) with (Z.succ (Zpos (digits2_pos p) - 1)) by lia.
    rewrite Z.pow_succ_r by lia. lia.
  - rewrite Pos2Z.inj_succ, Z.pow_succ_r by lia.
    replace (Z.succ (Zpos (digits2_pos p)) - 1) with (Z.succ (Zpos (digits2_pos p) - 1)) by lia.
    rewrite Z.pow_succ_r by lia. lia.
  - simpl. lia.
Qed.

Lemma iter_xO_value p k : Zpos (Pos.iter xO p k) = Zpos p * 2 ^ Zpos k.
Proof.
  induction k as [|k IH] using Pos.peano_ind.
  - simpl. lia.
  - rewrite Pos.iter_succ, Pos2Z.inj_xO, IH, Pos2Z.inj_succ, Z.pow_succ_r by lia. lia.
Qed.

Lemma iter_xO_digits p k :
  Zpos (digits2_pos (Pos.iter xO p k)) = Zpos (digits2_pos p) + Zpos k.
Proof.
  induction k as [|k IH] using Pos.peano_ind.
  - simpl. lia.
  - rewrite Pos.iter_succ. cbn [digits2_pos]. rewrite Pos2Z.inj_succ, IH. lia.
Qed.

(** The Number of a positive integer below 2^53: the mantissa is the
    integer shifted to 53 bits, and no rounding takes place. *)
Lemma binary_round_small sign p :
  Zpos p < 2 ^ 53 ->
  exists m e,
    binary_round 53 1024 sign p 0 = S754_finite sign m e /\
    e <= 0 /\ Zpos m = Zpos p * 2 ^ (- e).
Proof.
  intros Hp.
  pose proof (digits2_pos_bounds p) as [Hlo Hhi].
  assert (Hd : Zpos (digits2_pos p) <= 53).
  { destruct (Z_le_gt_dec (Zpos (digits2_pos p)) 53) as [|Hgt]; [assumption|].
    assert (2 ^ 53 <= 2 ^ (Zpos (digits2_pos p) - 1)) by (apply Z.pow_le_mono_r; lia).
    lia. }
  unfold binary_round.
  assert (Hfexp : fexp 53 1024 (Zpos (digits2_pos p) + 0) = Zpos (digits2_pos p) - 53).
  { unfold fexp, emin. lia. }
  rewrite Hfexp. unfold shl_align.
  destruct (Zpos (digits2_pos p) - 53 - 0) as [|q|q] eqn:Hq; [|lia|].
  - (* already 53 bits *)
    exists p, 0. split; [|split; [lia|simpl; lia]].
    unfold binary_round_aux, shr_fexp. cbn [Zdigits2 shr_record_of_loc].
    replace (fexp 53 1024 (Zpos (digits2_pos p) + 0) - 0) with 0
      by (rewrite Hfexp; lia).
    cbn [shr shr_m loc_of_shr_record round_nearest_even Zdigits2 shr_record_of_loc].
    replace (fexp 53 1024 (Zpos (digits2_pos p) + 0) - 0) with 0
      by (rewrite Hfexp; lia).
    cbn [shr shr_m]. reflexivity.
  - (* shifted left by q bits *)
    assert (He : Zpos (digits2_pos p) - 53 = Zneg q) by lia.
    exists (Pos.iter xO p q), (Zpos (digits2_pos p) - 53).
    split; [|split; [lia|]].
    + unfold binary_round_aux, shr_fexp. cbn [Zdigits2 shr_record_of_loc].
      assert (Hn : fexp 53 1024 (Zpos (digits2_pos (Pos.iter xO p q))
                                 + (Zpos (digits2_pos p) - 53))
                   - (Zpos (digits2_pos p) - 53) = 0).
      { rewrite iter_xO_digits. unfold fexp, emin. lia. }
      rewrite Hn.
      cbn [shr shr_m loc_of_shr_record round_nearest_even Zdigits2 shr_record_of_loc].
      rewrite Hn. cbn [shr shr_m].
      destruct (Z.leb_spec (Zpos (digits2_pos p) - 53) (1024 - 53)); [reflexivity|lia].
    + rewrite iter_xO_value. f_equal. f_equal. lia.
Qed.

Lemma truncZ_ofZ z : - 2 ^ 53 < z < 2 ^ 53 -> truncZ (ofZ z) = z.
Proof.
  intros Hz. unfold ofZ, binary_normalize.
  assert (Hshift : forall m e p, e <= 0 -> Zpos m = Zpos p * 2 ^ (- e) ->
                     Z.shiftl (Zpos m) e = Zpos p).
  { intros m e p He Hm. rewrite Hm.
    rewrite <- (Z.opp_involutive e) at 2. rewrite Z.shiftl_opp_r.
    rewrite Z.shiftr_div_pow2 by lia. apply Z.div_mul.
    apply Z.pow_nonzero; lia. }
  destruct z as [|p|p].
  - reflexivity.
  - destruct (binary_round_small false p ltac:(lia)) as (m & e & -> & He & Hm).
    cbn [truncZ cond_Zopp]. eapply Hshift; eassumption.
  - destruct (binary_round_small true p ltac:(lia)) as (m & e & -> & He & Hm).
    cbn [truncZ cond_Zopp]. rewrite (Hshift m e p He Hm). reflexivity.
Qed.

Lemma wrapS32_small z : - 2 ^ 31 <= z < 2 ^ 31 -> wrapS32 z = z.
Proof.
  intros Hz. unfold wrapS32, wrapU.
  destruct (Z_lt_le_dec z 0) as [Hneg|Hpos].
  - assert (z mod 2 ^ 32 = z + 2 ^ 32) as ->.
    { symmetry. apply (Z.mod_unique _ _ (-1)); lia. }
    destruct (Z.leb_spec (2 ^ 31) (z + 2 ^ 32)); lia.
  - rewrite Z.mod_small by lia.
    destruct (Z.leb_spec (2 ^ 31) z); lia.
Qed.

(** A store into an Int32Array keeps an integer that fits in 32 bits. *)
Lemma convert_Int32_ofZ z :
  - 2 ^ 31 <= z < 2 ^ 31 ->
  TypedArray.convert TypedArray.Int32Array (ofZ z) = ofZ z.
Proof.
  intros Hz. unfold TypedArray.convert, ToInt32.
  rewrite truncZ_ofZ by lia. rewrite wrapS32_small by exact Hz. reflexivity.
Qed.

End JsNumberFacts.

(** ** Fixed-point centers *)

Module IntegerCentersFacts.
Import TypedArray TypedArrayFacts.

Lemma for_range_0_3 {S} (f : nat -> S -> S) s :
  for_range 0 3 f s = f 2 (f 1 (f 0 s)).
Proof. reflexivity. Qed.

Lemma elems_after_store a i v j :
  elems (store a i v) j
  = if inBounds a i && Nat.eqb j i then convert (kind a) v else elems a j.
Proof.
  unfold store. destruct (inBounds a i); [|reflexivity]. reflexivity.
Qed.

Ltac decide_index :=
  repeat match goal with
  | |- context [Nat.eqb ?x ?y] => destruct (Nat.eqb_spec x y); try lia
  end.

(** One iteration writes the slots of splat [k] and no other slot. *)
Lemma centers_body_spec floatCenters (padFour : bool) k a n :
  let cc := if padFour then 4 else 3 in
  kind a = Int32Array -> length a = N.of_nat (n * cc) -> k < n ->
  let a' := getIntegerCenters_body floatCenters cc padFour k a in
  kind a' = Int32Array /\ length a' = length a /\
  (forall t, t < 3 ->
     elems a' (k * cc + t)
     = convert Int32Array (scaleAndRound (get floatCenters (k * 3 + t)))) /\
  (padFour = true -> elems a' (k * cc + 3) = convert Int32Array thousand) /\
  (forall j, j < k * cc \/ (k + 1) * cc <= j -> elems a' j = elems a j).
Proof.
  intros cc Hk Hl Hkn a'. subst a'. unfold getIntegerCenters_body.
  rewrite for_range_0_3.
  assert (Hb : forall t, t < cc -> forall b, length b = length a ->
                inBounds b (k * cc + t) = true).
  { intros t Ht b Hbl. apply (inBounds_lt _ _ (n * cc)); [congruence|]. nia. }
  destruct padFour; subst cc; cbn [andb].
  - split; [rewrite !kind_store; exact Hk|].
    split; [rewrite !length_store; reflexivity|].
    split; [|split].
    + intros t Ht. rewrite !elems_after_store, !inBounds_store, !kind_store, Hk.
      rewrite !Hb by (try lia; reflexivity). cbn [andb].
      assert (t = 0 \/ t = 1 \/ t = 2) as [ -> | [ -> | -> ] ] by lia; decide_index; reflexivity.
    + intros _. rewrite !elems_after_store, !inBounds_store, !kind_store, Hk.
      rewrite !Hb by (try lia; reflexivity). cbn [andb]. decide_index. reflexivity.
    + intros j Hj. rewrite !elems_after_store, !inBounds_store.
      rewrite !Hb by (try lia; reflexivity). cbn [andb]. decide_index. reflexivity.
  - split; [rewrite !kind_store; exact Hk|].
    split; [rewrite !length_store; reflexivity|].
    split; [|split].
    + intros t Ht. rewrite !elems_after_store, !inBounds_store, !kind_store, Hk.
      rewrite !Hb by (try lia; reflexivity). cbn [andb].
      assert (t = 0 \/ t = 1 \/ t = 2) as [ -> | [ -> | -> ] ] by lia; decide_index; reflexivity.
    + discriminate.
    + intros j Hj. rewrite !elems_after_store, !inBounds_store.
      rewrite !Hb by (try lia; reflexivity). cbn [andb]. decide_index. reflexivity.
Qed.

Lemma centers_loop_spec floatCenters (padFour : bool) n a0 :
  let cc := if padFour then 4 else 3 in
  kind a0 = Int32Array -> length a0 = N.of_nat (n * cc) ->
  let r := for_range 0 n (getIntegerCenters_body floatCenters cc padFour) a0 in
  kind r = Int32Array /\ length r = N.of_nat (n * cc) /\
  forall i, i < n ->
    (forall t, t < 3 ->
       elems r (i * cc + t)
       = convert Int32Array (scaleAndRound (get floatCenters (i * 3 + t)))) /\
    (padFour = true -> elems r (i * cc + 3) = convert Int32Array thousand).
Proof.
  intros cc Hk Hl r. subst r cc.
  pose (P := fun (k : nat) (a : TypedArray.t) =>
    kind a = Int32Array /\ length a = N.of_nat (n * (if padFour then 4 else 3)) /\
    forall i, i < k ->
      (forall t, t < 3 ->
         elems a (i * (if padFour then 4 else 3) + t)
         = convert Int32Array (scaleAndRound (get floatCenters (i * 3 + t)))) /\
      (padFour = true ->
       elems a (i * (if padFour then 4 else 3) + 3) = convert Int32Array thousand)).
  apply (for_range_ind P); [lia| |].
  - split; [exact Hk|]. split; [exact Hl|]. intros; lia.
  - intros k a Hkn (Hka & Hla & Hprev).
    destruct (centers_body_spec floatCenters padFour k a n Hka Hla ltac:(lia))
      as (Hk' & Hl' & Hnew & Hpad & Hold).
    split; [exact Hk'|]. split; [rewrite Hl'; exact Hla|].
    intros i Hi. destruct (decide (i = k)) as [->|Hne].
    + split; [exact Hnew|exact Hpad].
    + destruct (Hprev i ltac:(lia)) as [Hp1 Hp2]. split.
      * intros t Ht. rewrite Hold; [apply Hp1; exact Ht|].
        left. destruct padFour; nia.
      * intros Htrue. rewrite Hold; [apply Hp2; exact Htrue|].
        left. rewrite Htrue. nia.
Qed.

(** [getIntegerCenters] returns the array built by the loop. *)
Lemma getIntegerCenters_result w (padFour sinceLastBuild : bool) n :
  Datatypes.length (SplatMesh.scenes (mesh w)) <= 1 \/ sinceLastBuild = false ->
  fillCountOf (mesh w) sinceLastBuild = Some (Z.of_nat n) ->
  getIntegerCenters padFour sinceLastBuild w
  = (w, Normal
          (for_range 0 n
             (getIntegerCenters_body
                (filledFloatCenters (mesh w) sinceLastBuild
                   (create Float32Array (N.of_nat (n * 3))))
                (if padFour then 4 else 3) padFour)
             (create Int32Array (N.of_nat (n * (if padFour then 4 else 3)))))).
Proof.
  intros Hguard Hcount.
  unfold getIntegerCenters, bind at 1.
  rewrite checkForMultiSceneUpdateCondition_passes by exact Hguard.
  unfold bind at 1, getMesh, gets. rewrite Hcount. cbn [fmap option_fmap option_map].
  unfold bind at 1, newTypedArray.
  destruct (Z.ltb_spec (Z.of_nat n * 3) 0); [lia|]. cbn [ret].
  unfold bind at 1, fillSplatDataArrays, bind at 1.
  rewrite checkForMultiSceneUpdateCondition_passes by exact Hguard.
  unfold bind at 1, getMesh, gets. cbn [ret].
  unfold bind at 1.
  destruct (Z.ltb_spec (Z.of_nat n * Z.of_nat (if padFour then 4 else 3)) 0); [lia|].
  cbn [ret]. unfold filledFloatCenters, fillCountLoops.
  rewrite Nat2Z.id.
  replace (Z.to_N (Z.of_nat n * 3)) with (N.of_nat (n * 3)) by lia.
  replace (Z.to_N (Z.of_nat n * Z.of_nat (if padFour then 4 else 3)))
    with (N.of_nat (n * (if padFour then 4 else 3))) by lia.
  reflexivity.
Qed.

(** [getIntegerMatrixArray] pushes 16 Numbers. *)
Lemma assign_loop {A} (f : nat -> A) n :
  for_range 0 n (fun i arr => js_array_assign arr i (f i)) []
  = (fun i => Some (f i)) <$> seq 0 n.
Proof.
  induction n as [|n IH].
  - reflexivity.
  - rewrite for_range_snoc by lia. rewrite IH.
    rewrite js_array_assign_at_end by (rewrite list.length_fmap, length_seq; reflexivity).
    rewrite seq_S, fmap_app. reflexivity.
Qed.

End IntegerCentersFacts.

(** C8 as stated fails on a large center. The only splat of
    [Examples.far] has the center component 3000000. The Float32Array holds
    3000000, and [Math.round(3000000 * 1000.0)] is 3000000000; the Int32Array
    that [getIntegerCenters] returns holds -1294967296 in its place. *)
Lemma getIntegerCenters_wraps_large_center :
  TypedArray.get
    (filledFloatCenters (mesh Examples.far) false
       (TypedArray.create TypedArray.Float32Array 3)) 0
  = Some (JsNumber.ofZ 3000000) /\
  scaleAndRound (Some (JsNumber.ofZ 3000000)) = JsNumber.ofZ 3000000000 /\
  (returned (getIntegerCenters true false Examples.far)
     ≫= fun intCenters => TypedArray.get intCenters 0)
  = Some (JsNumber.ofZ (-1294967296)) /\
  JsNumber.ofZ (-1294967296) <> JsNumber.ofZ 3000000000.
Proof.
  split; [vm_compute; reflexivity|].
  split; [vm_compute; reflexivity|].
  split; [vm_compute; reflexivity|].
  vm_compute. discriminate.
Qed.

(** ** The vertex shader *)

Module ShaderFacts.
Import Shader ShaderSpec.

Local Open Scope glsl_scope.

Ltac float_cases x :=
  destruct x as [[|]|[|]| |[|] ? ?]; cbn [SFleb SFltb SFcompare] in *;
  try reflexivity; try discriminate; try congruence.

Ltac order_cases :=
  repeat match goal with
    | H : context [Z.compare ?a ?b] |- _ =>
        destruct (Z.compare_spec a b); cbn [CompOpp] in H
    | |- context [Z.compare ?a ?b] =>
        destruct (Z.compare_spec a b); cbn [CompOpp]
    | H : context [PosDef.Pos.compare_cont Eq ?a ?b] |- _ =>
        change (PosDef.Pos.compare_cont Eq a b) with (Pos.compare a b) in H;
        destruct (Pos.compare_spec a b); cbn [CompOpp] in H
    | |- context [PosDef.Pos.compare_cont Eq ?a ?b] =>
        change (PosDef.Pos.compare_cont Eq a b) with (Pos.compare a b);
        destruct (Pos.compare_spec a b); cbn [CompOpp]
    end;
  try reflexivity; try discriminate; try congruence; try lia.

(** [a <= b] excludes [b < a]. *)
Lemma le_not_gt a b : le a b -> SFltb b a = false.
Proof.
  unfold le, SFleb, SFltb. float_cases a; float_cases b; intros H; order_cases.
Qed.

Lemma lt_le a b : lt a b -> le a b.
Proof.
  unfold lt, le, SFleb, SFltb. float_cases a; float_cases b; intros H; order_cases.
Qed.

Lemma le_refl a : a <> S754_nan -> le a a.
Proof. intros Ha. unfold le, SFleb. float_cases a; order_cases. Qed.

Lemma lt_le_trans a b c : lt a b -> le b c -> lt a c.
Proof.
  unfold lt, le, SFleb, SFltb.
  float_cases a; float_cases b; float_cases c; intros H1 H2; order_cases.
Qed.

(** [max(x, y)] is not below [x], and is not NaN, unless [x] is NaN. *)
Lemma max_floor x y : x <> S754_nan -> le x (max x y).
Proof.
  intros Hx. unfold max, ltb. destruct (SFltb x y) eqn:E.
  - apply lt_le. exact E.
  - apply le_refl. exact Hx.
Qed.

(** The sign of a product. *)
Lemma mul_neg_r x y : y * (- x) = - (x * y).
Proof.
  unfold mul, neg, SFmul, SFopp.
  destruct x as [sx|sx| |sx mx ex], y as [sy|sy| |sy my ey];
    try reflexivity; try (destruct sx, sy; reflexivity).
  rewrite (Pos.mul_comm my mx), (Z.add_comm ey ex).
  unfold binary_round_aux.
  destruct (shr_fexp prec emax (Z.pos (mx * my)) (ex + ey) loc_Exact) as [mrs e'].
  destruct (shr_fexp prec emax _ e' loc_Exact) as [mrs' e''].
  destruct (shr_m mrs'); [destruct sx, sy; reflexivity| |reflexivity].
  destruct (e'' <=? emax - prec)%Z; destruct sx, sy; reflexivity.
Qed.

(** A finite float and its opposite add up to +0. *)
Lemma add_neg_self p : isFinite p = true -> p + (- p) = S754_zero false.
Proof.
  destruct p as [[|]|[|]| |sp mp ep]; try discriminate; try reflexivity.
  intros _. unfold add, neg, SFadd, SFopp.
  rewrite Z.min_id. unfold shl_align. rewrite Z.sub_diag. cbn [fst].
  replace (cond_Zopp sp (Z.pos mp) + cond_Zopp (negb sp) (Z.pos mp))%Z with 0%Z
    by (destruct sp; cbn; lia).
  reflexivity.
Qed.


(** The product and the transposition of GLSL are those of matrices. *)
Lemma mat3_mul_rc a b r c : (r < 3)%nat -> (c < 3)%nat ->
  rc (mat3_mul a b) r c = sum3 (fun k => rc a r k * rc b k c).
Proof.
  intros Hr Hc. unfold rc, sum3, entry.
  destruct r as [|[|[|r]]]; [| | |lia];
    destruct c as [|[|[|c]]]; try lia; reflexivity.
Qed.

Lemma transpose_rc a r c : (r < 3)%nat -> (c < 3)%nat ->
  rc (transpose a) r c = rc a c r.
Proof.
  intros Hr Hc. unfold rc, entry.
  destruct r as [|[|[|r]]]; [| | |lia];
    destruct c as [|[|[|c]]]; try lia; reflexivity.
Qed.

Lemma mat3_of_mat4_rc m r c : (r < 3)%nat -> (c < 3)%nat ->
  rc (mat3_of_mat4 m) r c = rc4 m r c.
Proof.
  intros Hr Hc. unfold rc, rc4, entry, entry4.
  destruct r as [|[|[|r]]]; [| | |lia];
    destruct c as [|[|[|c]]]; try lia; reflexivity.
Qed.

Lemma mat4_mul_rc a b r c : (r < 4)%nat -> (c < 4)%nat ->
  rc4 (mat4_mul a b) r c = sum4 (fun k => rc4 a r k * rc4 b k c).
Proof.
  intros Hr Hc. unfold rc4, sum4, entry4.
  destruct r as [|[|[|[|r]]]]; [| | | |lia];
    destruct c as [|[|[|[|c]]]]; try lia; reflexivity.
Qed.

Lemma mat4_mul_vec_at m v r : (r < 4)%nat ->
  at4 (mat4_mul_vec m v) r = sum4 (fun k => rc4 m r k * at4 v k).
Proof.
  intros Hr. unfold rc4, sum4, entry4.
  destruct r as [|[|[|[|r]]]]; [| | | |lia]; reflexivity.
Qed.

(** The matrix that the shader names [transformModelViewMatrix] is the
    model-view transform of the splat. *)
Lemma transformModelViewMatrix_rc i r c : (r < 4)%nat -> (c < 4)%nat ->
  rc4 (transformModelViewMatrix i) r c = modelViewTransform i r c.
Proof.
  intros Hr Hc. unfold transformModelViewMatrix, modelViewTransform.
  destruct (transform i) as [t|]; [|reflexivity].
  apply mat4_mul_rc; assumption.
Qed.

Lemma viewCenter_at i r : (r < 4)%nat ->
  at4 (Shader.viewCenter i) r = ShaderSpec.viewCenter i r.
Proof.
  intros Hr. unfold Shader.viewCenter, ShaderSpec.viewCenter.
  rewrite mat4_mul_vec_at by exact Hr. unfold sum4.
  rewrite !transformModelViewMatrix_rc by (try exact Hr; lia). reflexivity.
Qed.

Lemma clipCenter_at i r : (r < 4)%nat ->
  at4 (Shader.clipCenter i) r = ShaderSpec.clipCenter i r.
Proof.
  intros Hr. unfold Shader.clipCenter, ShaderSpec.clipCenter.
  rewrite mat4_mul_vec_at by exact Hr. unfold sum4.
  rewrite !viewCenter_at by lia. reflexivity.
Qed.

Lemma clip_margin i : clip i = margin i.
Proof. unfold clip, margin. rewrite <- (clipCenter_at i 3) by lia. reflexivity. Qed.

(** The clip test, coordinate by coordinate. *)
Lemma clipTest_spec i :
  clipTest i = true <->
  lt (ShaderSpec.clipCenter i 2) (- margin i)
  \/ outsideMargin (margin i) (ShaderSpec.clipCenter i 0)
  \/ outsideMargin (margin i) (ShaderSpec.clipCenter i 1).
Proof.
  unfold clipTest, outsideMargin, lt, ltb.
  rewrite clip_margin.
  rewrite <- (clipCenter_at i 0), <- (clipCenter_at i 1), <- (clipCenter_at i 2) by lia.
  cbn [at4]. rewrite !orb_true_iff. tauto.
Qed.

(** The stages of the projection, one by one. *)
Lemma Vrk_entries i :
  Vrk i
  = mat3_of
      (x2 (sampledCovarianceA i)) (y2 (sampledCovarianceA i)) (x2 (sampledCovarianceB i))
      (y2 (sampledCovarianceA i)) (y2 (sampledCovarianceB i)) (x2 (sampledCovarianceC i))
      (x2 (sampledCovarianceB i)) (x2 (sampledCovarianceC i)) (y2 (sampledCovarianceC i)).
Proof. reflexivity. Qed.

Lemma Vrk_symmetric i r c : (r < 3)%nat -> (c < 3)%nat -> rc (Vrk i) r c = rc (Vrk i) c r.
Proof.
  intros Hr Hc. rewrite Vrk_entries. unfold rc, entry.
  destruct r as [|[|[|r]]]; [| | |lia];
    destruct c as [|[|[|c]]]; try lia; reflexivity.
Qed.

Lemma J_entries gpu i :
  let x := ShaderSpec.viewCenter i 0 in
  let y := ShaderSpec.viewCenter i 1 in
  let z := ShaderSpec.viewCenter i 2 in
  let s := div gpu (lit 1) (z * z) in
  J gpu i
  = mat3_of
      (div gpu (x2 (focal i)) z) (lit 0) (- (x2 (focal i) * x) * s)
      (lit 0) (div gpu (y2 (focal i)) z) (- (y2 (focal i) * y) * s)
      (lit 0) (lit 0) (lit 0).
Proof.
  cbv zeta. unfold J, Shader.s.
  rewrite <- (viewCenter_at i 0), <- (viewCenter_at i 1), <- (viewCenter_at i 2) by lia.
  reflexivity.
Qed.

Lemma T_rc gpu i r c : (r < 3)%nat -> (c < 3)%nat ->
  rc (T gpu i) r c = sum3 (fun k => modelViewTransform i k r * rc (J gpu i) k c).
Proof.
  intros Hr Hc. unfold T, W.
  rewrite mat3_mul_rc by assumption. unfold sum3.
  rewrite !transpose_rc, !mat3_of_mat4_rc, !transformModelViewMatrix_rc
    by (try assumption; lia).
  reflexivity.
Qed.

Lemma cov2Dm_projected_rc gpu i r c : (r < 3)%nat -> (c < 3)%nat ->
  rc (cov2Dm_projected gpu i) r c
  = sum3 (fun l => sum3 (fun k => rc (T gpu i) k r * rc (Vrk i) k l) * rc (T gpu i) l c).
Proof.
  intros Hr Hc. unfold cov2Dm_projected.
  rewrite mat3_mul_rc by assumption. unfold sum3 at 1.
  rewrite !mat3_mul_rc by (try assumption; lia). unfold sum3.
  rewrite !transpose_rc by (try assumption; lia). reflexivity.
Qed.

(** [m[0][0] += 0.3; m[1][1] += 0.3] *)
Lemma dilation_rc (m : mat3) r c : (r < 3)%nat -> (c < 3)%nat ->
  rc (mkmat3 (mkvec3 (x3 (col0 m) + lit 0.3) (y3 (col0 m)) (z3 (col0 m)))
             (mkvec3 (x3 (col1 m)) (y3 (col1 m) + lit 0.3) (z3 (col1 m)))
             (col2 m)) r c
  = if bool_decide (r = c /\ (r < 2)%nat) then rc m r c + lit 0.3 else rc m r c.
Proof.
  intros Hr Hc. unfold rc, entry.
  destruct r as [|[|[|r]]]; [| | |lia];
    destruct c as [|[|[|c]]]; try lia;
    case_bool_decide; try lia; reflexivity.
Qed.

Lemma cov2Dm_rc gpu i r c : (r < 3)%nat -> (c < 3)%nat ->
  rc (cov2Dm gpu i) r c
  = if bool_decide (r = c /\ (r < 2)%nat)
    then rc (cov2Dm_projected gpu i) r c + lit 0.3
    else rc (cov2Dm_projected gpu i) r c.
Proof. intros Hr Hc. exact (dilation_rc (cov2Dm_projected gpu i) r c Hr Hc). Qed.

(** [vec3(m[0][0], m[0][1], m[1][1])] *)
Lemma entries_of_cov2Dv (m : mat3) :
  x3 (mkvec3 (entry m 0 0) (entry m 0 1) (entry m 1 1)) = rc m 0 0 /\
  y3 (mkvec3 (entry m 0 0) (entry m 0 1) (entry m 1 1)) = rc m 1 0 /\
  z3 (mkvec3 (entry m 0 0) (entry m 0 1) (entry m 1 1)) = rc m 1 1.
Proof. repeat split. Qed.

Lemma radicand_eq gpu i :
  let traceOver2 := lit 0.5 * (a gpu i + d gpu i) in
  radicand gpu i
  = max (lit 0.1) (traceOver2 * traceOver2 - (a gpu i * d gpu i - b gpu i * b gpu i)).
Proof. reflexivity. Qed.

Lemma radicand_floor gpu i : le (lit 0.1) (radicand gpu i) /\ lt (lit 0) (radicand gpu i).
Proof.
  assert (Hfloor : le (lit 0.1) (radicand gpu i)).
  { unfold radicand. apply max_floor. vm_compute. discriminate. }
  split; [exact Hfloor|].
  apply (lt_le_trans _ (lit 0.1)); [vm_compute; reflexivity|exact Hfloor].
Qed.

Lemma eigenValues_eq gpu i :
  let traceOver2 := lit 0.5 * (a gpu i + d gpu i) in
  eigenValue1 gpu i = traceOver2 + sqrt gpu (radicand gpu i) /\
  eigenValue2_initial gpu i = traceOver2 - sqrt gpu (radicand gpu i).
Proof. split; reflexivity. Qed.

Lemma eigenVectors_eq gpu i :
  eigenVector1 gpu i = normalize gpu (mkvec2 (b gpu i) (eigenValue1 gpu i - a gpu i)) /\
  eigenVector2 gpu i = mkvec2 (y2 (eigenVector1 gpu i)) (- x2 (eigenVector1 gpu i)).
Proof. split; reflexivity. Qed.

(** [(y, -x)] is perpendicular to [(x, y)]. *)
Lemma perpendicular (e : vec2) :
  isFinite (x2 e * y2 e) = true -> dot2 e (mkvec2 (y2 e) (- x2 e)) = S754_zero false.
Proof.
  intros Hfinite. unfold dot2. cbn [x2 y2].
  rewrite mul_neg_r. apply add_neg_self. exact Hfinite.
Qed.

End ShaderFacts.

(** The literals of the shader. *)
Lemma literals_are_rounded :
  Shader.lit 1.2 = S754_finite false 10066330 (-23) /\
  Shader.lit 0.3 = S754_finite false 10066330 (-25) /\
  Shader.lit 0.1 = S754_finite false 13421773 (-27) /\
  Shader.lit 0.5 = S754_finite false 8388608 (-24) /\
  Shader.lit 1 = S754_finite false 8388608 (-23) /\
  Shader.lit 0 = S754_zero false /\
  ((6 # 5) < Shader.toQ (Shader.lit 1.2))%Q.
Proof. repeat split; vm_compute; reflexivity. Qed.

(** C5 as stated fails beyond the far margin. The clip-space center of
    [ShaderSpec.beyondFarMargin] is (0, 0, 5, 1): its [z] lies outside the
    margin, which is the float of 1.2 times 1, and the splat is not
    rejected. *)
Lemma clip_test_keeps_z_beyond_margin :
  Shader.clipCenter ShaderSpec.beyondFarMargin
  = Shader.mkvec4 (Shader.lit 0) (Shader.lit 0) (Shader.lit 5) (Shader.lit 1) /\
  Shader.clip ShaderSpec.beyondFarMargin = Shader.lit 1.2 /\
  ShaderSpec.outsideMargin (Shader.clip ShaderSpec.beyondFarMargin)
    (Shader.z4 (Shader.clipCenter ShaderSpec.beyondFarMargin)) /\
  Shader.rejected ShaderSpec.beyondFarMargin = false /\
  Shader.gl_Position (Shader.main Shader.ieee ShaderSpec.beyondFarMargin)
  <> Shader.mkvec4 (Shader.lit 0) (Shader.lit 0) (Shader.lit 2) (Shader.lit 1).
Proof.
  split; [vm_compute; reflexivity|].
  split; [vm_compute; reflexivity|].
  split; [right; vm_compute; reflexivity|].
  split; [vm_compute; reflexivity|].
  vm_compute. discriminate.
Qed.

(** The margin is a rounded product. The clip-space center of
    [ShaderSpec.atMargin] is (x, 0, 1, 1) with [x] the float of the literal
    1.2, which as a number is above 1.2 times [w]; the margin is that same
    float, and the splat is not rejected. *)
Lemma clip_margin_is_rounded :
  let c := Shader.clipCenter ShaderSpec.atMargin in
  Shader.x4 c = Shader.lit 1.2 /\ Shader.w4 c = Shader.lit 1 /\
  ((6 # 5) * Shader.toQ (Shader.w4 c) < Shader.toQ (Shader.x4 c))%Q /\
  Shader.clip ShaderSpec.atMargin = Shader.lit 1.2 /\
  Shader.rejected ShaderSpec.atMargin = false.
Proof. repeat split; vm_compute; reflexivity. Qed.

(** C5, amended. The clip-space center is the projection matrix times the
    model-view transform times the center, and the margin is the binary32
    product of the float of 1.2 and its [w]. A splat is rejected exactly
    when the [x] or the [y] of the clip-space center lies outside the margin
    on either side, or its [z] lies below the negated margin, as floats; a
    rejected splat gets the fixed position (0, 0, 2, 1) and no varying. A
    splat whose [x] and [y] lie within the margin and whose [z] is not
    below the negated margin is not rejected, however large its [z]. *)
Theorem clip_test_rejects (i : Shader.Input) :
  let x := ShaderSpec.clipCenter i 0 in
  let y := ShaderSpec.clipCenter i 1 in
  let z := ShaderSpec.clipCenter i 2 in
  let clip := Shader.mul (Shader.lit 1.2) (ShaderSpec.clipCenter i 3) in
  (Shader.rejected i = true <->
   ShaderSpec.lt z (Shader.neg clip) \/ ShaderSpec.outsideMargin clip x
   \/ ShaderSpec.outsideMargin clip y) /\
  (Shader.rejected i = true ->
   forall gpu,
     Shader.main gpu i
     = {| Shader.gl_Position :=
            Shader.mkvec4 (Shader.lit 0) (Shader.lit 0) (Shader.lit 2) (Shader.lit 1);
          Shader.vPosition := None; Shader.vColor := None |}) /\
  (ShaderSpec.withinMargin clip x -> ShaderSpec.withinMargin clip y ->
   ShaderSpec.le (Shader.neg clip) z ->
   Shader.rejected i = false /\
   forall gpu, Shader.vColor (Shader.main gpu i) = Some (Shader.vColor_value gpu i)).
Proof.
  intros x y z clip. subst x y z clip. unfold Shader.rejected.
  fold (ShaderSpec.margin i).
  split; [apply ShaderFacts.clipTest_spec|]. split.
  - intros H gpu. unfold Shader.main. rewrite H. reflexivity.
  - intros [Hx1 Hx2] [Hy1 Hy2] Hz.
    assert (Hfalse : Shader.clipTest i = false).
    { destruct (Shader.clipTest i) eqn:E; [|reflexivity].
      apply ShaderFacts.clipTest_spec in E.
      unfold ShaderSpec.outsideMargin, ShaderSpec.lt in E.
      apply ShaderFacts.le_not_gt in Hx1, Hx2, Hy1, Hy2, Hz.
      destruct E as [E|[[E|E]|[E|E]]]; congruence. }
    split; [exact Hfalse|].
    intros gpu. unfold Shader.main. rewrite Hfalse. reflexivity.
Qed.

(** A splat on the axis at depth 1 lies within the margin. *)
Lemma clip_test_rejects_witness :
  Shader.rejected ShaderSpec.alphaOne = false.
Proof.
  pose proof (clip_test_rejects ShaderSpec.alphaOne) as H.
  cbv zeta in H. destruct H as (_ & _ & H).
  apply H; repeat split; vm_compute; reflexivity.
Defined.



(** Without the finiteness of the eigenvector the footprint of a splat of
    alpha 0 is not zero: [ShaderSpec.alphaZeroFlat] has the 2D covariance
    [diag(3, 1)], its first eigenvalue is 3, the vector (0, 3 - 3) has no
    direction, and the second basis vector is (NaN, NaN). *)
Lemma zero_alpha_without_direction :
  let gpu := Shader.ieee in
  Shader.transparentAdjust gpu ShaderSpec.alphaZeroFlat = Shader.lit 0 /\
  Shader.eigenValue2 gpu ShaderSpec.alphaZeroFlat = Shader.lit 0 /\
  Shader.eigenVector1 gpu ShaderSpec.alphaZeroFlat = Shader.mkvec2 S754_nan S754_nan /\
  Shader.basisVector2 gpu ShaderSpec.alphaZeroFlat = Shader.mkvec2 S754_nan S754_nan.
Proof. repeat split; vm_compute; reflexivity. Qed.



(** C7. The projector computes [cov2D = transpose(T) * Vrk * T] with
    [T = transpose(mat3(MV)) * J], where [MV] is the model-view transform
    of the splat (the model-view matrix, times the transform of the scene
    in dynamic mode), [Vrk] is the symmetric matrix of the six sampled
    covariances and [J] the matrix of the shader, whose columns are
    [(fx/z, 0, -(fx x) s)], [(0, fy/z, -(fy y) s)] and 0 for the view-space
    center [(x, y, z)] and [s = 1/(z z)]. The products are those of
    matrices, each entry a sum of rounded products. It adds the float of
    0.3 to the two diagonal terms of the upper-left block and to nothing
    else; with [(a, b, d)] that block, the eigenvalues are
    [trace/2 + sqrt(r)] and [trace/2 - sqrt(r)] for the radicand
    [r = max(0.1, (trace/2)^2 - det)], which is never NaN, at least the
    float of 0.1 and so positive; eigenvector 1 is
    [normalize(b, eigenValue1 - a)] and eigenvector 2 is [(y, -x)] of it,
    whose dot product with it is 0 when the product [x y] is finite. *)
Theorem covariance_projection_and_eigen_solve
  (gpu : Shader.Implementation) (i : Shader.Input) :
  let add := Shader.add in
  let sub := Shader.sub in
  let mul := Shader.mul in
  let MV := ShaderSpec.modelViewTransform i in
  let x := ShaderSpec.viewCenter i 0 in
  let y := ShaderSpec.viewCenter i 1 in
  let z := ShaderSpec.viewCenter i 2 in
  let s := Shader.div gpu (Shader.lit 1) (mul z z) in
  let fx := Shader.x2 (Shader.focal i) in
  let fy := Shader.y2 (Shader.focal i) in
  let J := Shader.J gpu i in
  let T := Shader.T gpu i in
  let Vrk := Shader.Vrk i in
  let a := Shader.a gpu i in
  let b := Shader.b gpu i in
  let d := Shader.d gpu i in
  let traceOver2 := mul (Shader.lit 0.5) (add a d) in
  let e1 := Shader.eigenVector1 gpu i in
  let e2 := Shader.eigenVector2 gpu i in
  Vrk
  = Shader.mat3_of
      (Shader.x2 (Shader.sampledCovarianceA i)) (Shader.y2 (Shader.sampledCovarianceA i))
      (Shader.x2 (Shader.sampledCovarianceB i))
      (Shader.y2 (Shader.sampledCovarianceA i)) (Shader.y2 (Shader.sampledCovarianceB i))
      (Shader.x2 (Shader.sampledCovarianceC i))
      (Shader.x2 (Shader.sampledCovarianceB i)) (Shader.x2 (Shader.sampledCovarianceC i))
      (Shader.y2 (Shader.sampledCovarianceC i)) /\
  (forall r c, r < 3 -> c < 3 -> ShaderSpec.rc Vrk r c = ShaderSpec.rc Vrk c r) /\
  J = Shader.mat3_of
        (Shader.div gpu fx z) (Shader.lit 0) (mul (Shader.neg (mul fx x)) s)
        (Shader.lit 0) (Shader.div gpu fy z) (mul (Shader.neg (mul fy y)) s)
        (Shader.lit 0) (Shader.lit 0) (Shader.lit 0) /\
  (forall r c, r < 3 -> c < 3 ->
     ShaderSpec.rc T r c
     = ShaderSpec.sum3 (fun k => mul (MV k r) (ShaderSpec.rc J k c))) /\
  (forall r c, r < 3 -> c < 3 ->
     ShaderSpec.rc (Shader.cov2Dm_projected gpu i) r c
     = ShaderSpec.sum3 (fun l =>
         mul (ShaderSpec.sum3 (fun k => mul (ShaderSpec.rc T k r) (ShaderSpec.rc Vrk k l)))
             (ShaderSpec.rc T l c))) /\
  (forall r c, r < 3 -> c < 3 ->
     ShaderSpec.rc (Shader.cov2Dm gpu i) r c
     = if bool_decide (r = c /\ r < 2)
       then add (ShaderSpec.rc (Shader.cov2Dm_projected gpu i) r c) (Shader.lit 0.3)
       else ShaderSpec.rc (Shader.cov2Dm_projected gpu i) r c) /\
  a = ShaderSpec.rc (Shader.cov2Dm gpu i) 0 0 /\
  b = ShaderSpec.rc (Shader.cov2Dm gpu i) 1 0 /\
  d = ShaderSpec.rc (Shader.cov2Dm gpu i) 1 1 /\
  Shader.radicand gpu i
  = Shader.max (Shader.lit 0.1)
      (sub (mul traceOver2 traceOver2) (sub (mul a d) (mul b b))) /\
  ShaderSpec.le (Shader.lit 0.1) (Shader.radicand gpu i) /\
  ShaderSpec.lt (Shader.lit 0) (Shader.radicand gpu i) /\
  Shader.eigenValue1 gpu i = add traceOver2 (Shader.sqrt gpu (Shader.radicand gpu i)) /\
  Shader.eigenValue2_initial gpu i
  = sub traceOver2 (Shader.sqrt gpu (Shader.radicand gpu i)) /\
  e1 = Shader.normalize gpu (Shader.mkvec2 b (sub (Shader.eigenValue1 gpu i) a)) /\
  e2 = Shader.mkvec2 (Shader.y2 e1) (Shader.neg (Shader.x2 e1)) /\
  (Shader.isFinite (mul (Shader.x2 e1) (Shader.y2 e1)) = true ->
   Shader.dot2 e1 e2 = S754_zero false).
Proof.
  intros add sub mul MV x y z s fx fy J T Vrk a b d traceOver2 e1 e2.
  subst add sub mul MV x y z s fx fy J T Vrk a b d traceOver2 e1 e2.
  split; [exact (ShaderFacts.Vrk_entries i)|].
  split; [exact (ShaderFacts.Vrk_symmetric i)|].
  split; [exact (ShaderFacts.J_entries gpu i)|].
  split; [exact (ShaderFacts.T_rc gpu i)|].
  split; [exact (ShaderFacts.cov2Dm_projected_rc gpu i)|].
  split; [exact (ShaderFacts.cov2Dm_rc gpu i)|].
  destruct (ShaderFacts.entries_of_cov2Dv (Shader.cov2Dm gpu i)) as (Ha & Hb & Hd).
  split; [exact Ha|]. split; [exact Hb|]. split; [exact Hd|].
  split; [exact (ShaderFacts.radicand_eq gpu i)|].
  split; [exact (proj1 (ShaderFacts.radicand_floor gpu i))|].
  split; [exact (proj2 (ShaderFacts.radicand_floor gpu i))|].
  split; [exact (proj1 (ShaderFacts.eigenValues_eq gpu i))|].
  split; [exact (proj2 (ShaderFacts.eigenValues_eq gpu i))|].
  split; [exact (proj1 (ShaderFacts.eigenVectors_eq gpu i))|].
  split; [exact (proj2 (ShaderFacts.eigenVectors_eq gpu i))|].
  exact (ShaderFacts.perpendicular (Shader.eigenVector1 gpu i)).
Qed.

(** A scene transform that doubles [x] under an identity model-view
    matrix: the first entry of [T] is 2 and the view-space [x] is 1. *)
Lemma covariance_projection_and_eigen_solve_witness :
  ShaderSpec.rc (Shader.T Shader.ieee ShaderSpec.stretched) 0 0 = Shader.lit 2 /\
  ShaderSpec.viewCenter ShaderSpec.stretched 0 = Shader.lit 1.
Proof.
  pose proof (covariance_projection_and_eigen_solve Shader.ieee ShaderSpec.stretched) as H.
  cbv zeta in H. destruct H as (_ & _ & _ & H & _).
  split; [|vm_compute; reflexivity].
  rewrite (H 0 0) by lia. vm_compute. reflexivity.
Defined.

(** ** Loops of stores *)

Module StoreLoops.
Import TypedArray TypedArrayFacts.

Lemma for_range_ext {S} from to (f g : nat -> S -> S) s :
  (forall i acc, from <= i < to -> f i acc = g i acc) ->
  for_range from to f s = for_range from to g s.
Proof.
  intros H. destruct (le_lt_dec from to) as [Hle|Hlt].
  - induction to as [|to IH].
    + rewrite !for_range_nil by lia. reflexivity.
    + destruct (decide (from = Datatypes.S to)) as [->|Hne].
      * rewrite !for_range_nil by lia. reflexivity.
      * rewrite !for_range_snoc by lia.
        rewrite IH by (first [lia | intros; apply H; lia]). apply H. lia.
  - rewrite !for_range_nil by lia. reflexivity.
Qed.

Lemma elems_store a i v j :
  elems (store a i v) j
  = if inBounds a i && Nat.eqb j i then convert (kind a) v else elems a j.
Proof. unfold store. destruct (inBounds a i); reflexivity. Qed.

Lemma within_spec lo hi j : within lo hi j = true <-> lo <= j < hi.
Proof.
  unfold within. rewrite andb_true_iff, Nat.leb_le, Nat.ltb_lt. reflexivity.
Qed.

Lemma within_true lo hi j : lo <= j < hi -> within lo hi j = true.
Proof. apply within_spec. Qed.

Lemma within_false lo hi j : j < lo \/ hi <= j -> within lo hi j = false.
Proof.
  intros H. destruct (within lo hi j) eqn:E; [|reflexivity].
  apply within_spec in E. lia.
Qed.

(** [for (i = lo; i < hi; i++) p[i] = f(i)] *)
Lemma store_loop (f : nat -> JsNumber.t) lo hi p0 :
  let r := for_range lo hi (fun i p => store p i (f i)) p0 in
  kind r = kind p0 /\ length r = length p0 /\
  forall j, elems r j
            = if within lo hi j && inBounds p0 j then convert (kind p0) (f j)
              else elems p0 j.
Proof.
  intros r. subst r.
  destruct (le_lt_dec lo hi) as [Hle|Hlt].
  - apply (for_range_ind (fun k r =>
      kind r = kind p0 /\ length r = length p0 /\
      forall j, elems r j
                = if within lo k j && inBounds p0 j then convert (kind p0) (f j)
                  else elems p0 j)); [exact Hle| |].
    + split; [reflexivity|]. split; [reflexivity|].
      intros j. rewrite within_false by lia. reflexivity.
    + intros k r Hk (Hkind & Hlen & Hel).
      split; [rewrite kind_store; exact Hkind|].
      split; [rewrite length_store; exact Hlen|].
      intros j. rewrite elems_store, Hkind, Hel.
      assert (Hb : inBounds r k = inBounds p0 k) by (unfold inBounds; rewrite Hlen; reflexivity).
      rewrite Hb.
      destruct (Nat.eqb_spec j k) as [->|Hne].
      * rewrite (within_true lo (Datatypes.S k) k) by lia.
        rewrite (within_false lo k k) by lia. cbn [andb].
        destruct (inBounds p0 k); reflexivity.
      * rewrite andb_false_r.
        destruct (within lo k j) eqn:E.
        -- apply within_spec in E. rewrite within_true by lia. reflexivity.
        -- rewrite within_false; [reflexivity|].
           destruct (within lo (Datatypes.S k) j) eqn:E'; [|].
           ++ apply within_spec in E'.
              assert (~ (lo <= j < k)) by (rewrite <- within_spec; congruence). lia.
           ++ assert (~ (lo <= j < Datatypes.S k)) by (rewrite <- within_spec; congruence). lia.
  - rewrite for_range_nil by lia.
    split; [reflexivity|]. split; [reflexivity|].
    intros j. rewrite within_false by lia. reflexivity.
Qed.

Lemma within_nspec lo hi j : within lo hi j = false -> ~ (lo <= j < hi).
Proof. intros H Hr. apply within_spec in Hr. congruence. Qed.

Ltac within_cases :=
  repeat match goal with
  | |- context [within ?a ?b ?j] =>
      let E := fresh "E" in
      destruct (within a b j) eqn:E;
      [apply within_spec in E | apply within_nspec in E]
  end.

(** [for (k = 0; k < cc; k++) p[base + k] = g(k)] *)
Lemma inner_block base cc (g : nat -> JsNumber.t) p0 :
  let r := for_range 0 cc (fun k p => store p (base + k) (g k)) p0 in
  kind r = kind p0 /\ length r = length p0 /\
  forall j, elems r j
            = if within base (base + cc) j && inBounds p0 j
              then convert (kind p0) (g (j - base))
              else elems p0 j.
Proof.
  intros r. subst r.
  apply (for_range_ind (fun k r =>
    kind r = kind p0 /\ length r = length p0 /\
    forall j, elems r j
              = if within base (base + k) j && inBounds p0 j
                then convert (kind p0) (g (j - base))
                else elems p0 j)); [lia| |].
  - split; [reflexivity|]. split; [reflexivity|].
    intros j. rewrite within_false by lia. reflexivity.
  - intros k r Hk (Hkind & Hlen & Hel).
    split; [rewrite kind_store; exact Hkind|].
    split; [rewrite length_store; exact Hlen|].
    intros j. rewrite elems_store, Hkind, Hel.
    assert (Hb : inBounds r (base + k) = inBounds p0 (base + k))
      by (unfold inBounds; rewrite Hlen; reflexivity).
    rewrite Hb.
    destruct (Nat.eqb_spec j (base + k)) as [->|Hne].
    + rewrite (within_true base (base + Datatypes.S k)) by lia.
      rewrite (within_false base (base + k)) by lia. cbn [andb].
      replace (base + k - base) with k by lia.
      destruct (inBounds p0 (base + k)); reflexivity.
    + rewrite andb_false_r. within_cases; try reflexivity; lia.
Qed.

(** The bulk extraction into slots that equal the splat indexes
    ([destOffset] equal to [from]): splat [i] lands at [i * cc]. *)
Lemma fillArray_spec cc comp count out srcFrom destFrom :
  0 < cc ->
  default (default 0 srcFrom) destFrom = default 0 srcFrom ->
  let from := default 0 srcFrom in
  let r := SplatBuffer.fillArray cc comp count out srcFrom None destFrom in
  kind r = kind out /\ length r = length out /\
  forall j, elems r j
            = if within (from * cc) (count * cc) j && inBounds out j
              then convert (kind out) (comp (j / cc) (j mod cc))
              else elems out j.
Proof.
  intros Hcc Hdest from r. subst r. unfold SplatBuffer.fillArray.
  cbv zeta. rewrite Hdest. fold from.
  destruct (le_lt_dec from count) as [Hle|Hlt].
  - apply (for_range_ind (fun k r =>
      kind r = kind out /\ length r = length out /\
      forall j, elems r j
                = if within (from * cc) (k * cc) j && inBounds out j
                  then convert (kind out) (comp (j / cc) (j mod cc))
                  else elems out j)); [exact Hle| |].
    + split; [reflexivity|]. split; [reflexivity|].
      intros j. rewrite within_false by lia. reflexivity.
    + intros i acc Hi (Hkind & Hlen & Hel).
      rewrite (for_range_ext 0 cc _
                 (fun k p => store p (i * cc + k) (comp i k)))
        by (intros k p _; f_equal; nia).
      destruct (inner_block (i * cc) cc (comp i) acc) as (Hk' & Hl' & He').
      split; [rewrite Hk'; exact Hkind|].
      split; [rewrite Hl'; exact Hlen|].
      intros j. rewrite He', Hkind, Hel.
      assert (Hb : inBounds acc j = inBounds out j)
        by (unfold inBounds; rewrite Hlen; reflexivity).
      rewrite Hb.
      destruct (inBounds out j); rewrite ?andb_false_r, ?andb_true_r; [|reflexivity].
      within_cases; try reflexivity; try nia.
      * (* j in the block of splat i *)
        assert (j / cc = i) as ->
          by (symmetry; apply (Nat.div_unique j cc i (j - i * cc)); nia).
        assert (j mod cc = j - i * cc) as ->
          by (symmetry; apply (Nat.mod_unique j cc i (j - i * cc)); nia).
        reflexivity.
  - rewrite for_range_nil by lia.
    split; [reflexivity|]. split; [reflexivity|].
    intros j. rewrite within_false by nia. reflexivity.
Qed.

End StoreLoops.

(** ** Methods that return normally *)

Module Returns.

Lemma conseq {A} (c : Method A) (Q Q' : A -> SplatMesh.t -> Prop) w :
  returns c Q w -> (forall a m, Q a m -> Q' a m) -> returns c Q' w.
Proof. intros (w' & a & Hc & HQ) H. exists w', a. auto. Qed.

Lemma of_ret {A} (a : A) (Q : A -> SplatMesh.t -> Prop) w :
  Q a (mesh w) -> returns (ret a) Q w.
Proof. intros H. exists w, a. auto. Qed.

Lemma of_bind {A B} (c : Method A) (k : A -> Method B) Q w :
  returns c (fun a m1 => forall w1, mesh w1 = m1 -> returns (k a) Q w1) w ->
  returns (bind c k) Q w.
Proof.
  intros (w1 & a & Hc & Hk). destruct (Hk w1 eq_refl) as (w2 & b & Hkb & HQ).
  exists w2, b. unfold bind. rewrite Hc. auto.
Qed.

Lemma of_getMesh (Q : SplatMesh.t -> SplatMesh.t -> Prop) w :
  Q (mesh w) (mesh w) -> returns getMesh Q w.
Proof. intros H. exists w, (mesh w). auto. Qed.

Lemma of_modify_mesh f (Q : unit -> SplatMesh.t -> Prop) w :
  Q tt (f (mesh w)) -> returns (modify (withMesh f)) Q w.
Proof. intros H. exists (withMesh f w), tt. auto. Qed.

Lemma of_event e (Q : unit -> SplatMesh.t -> Prop) w :
  Q tt (mesh w) -> returns (modify (withThreeEvent e)) Q w.
Proof. intros H. exists (withThreeEvent e w), tt. auto. Qed.

Lemma of_glDo f (Q : unit -> SplatMesh.t -> Prop) w :
  Q tt (mesh w) -> returns (glDo f) Q w.
Proof. intros H. exists (withGL f w), tt. auto. Qed.

Lemma of_glGet {A} (f : GL.t -> A) (Q : A -> SplatMesh.t -> Prop) w :
  (forall v, Q v (mesh w)) -> returns (glGet f) Q w.
Proof. intros H. exists w, (f (gl w)). auto. Qed.

Lemma of_propertyOf {A} what (o : option A) a (Q : A -> SplatMesh.t -> Prop) w :
  o = Some a -> Q a (mesh w) -> returns (propertyOf what o) Q w.
Proof. intros -> H. exists w, a. auto. Qed.

Lemma of_newDataTexture (Q : DataTexture.t -> SplatMesh.t -> Prop) w :
  (forall textureId,
     Q {| DataTexture.id := textureId; DataTexture.needsUpdate := true |} (mesh w)) ->
  returns newDataTexture Q w.
Proof. intros H. eexists _, _. split; [reflexivity|]. apply H. Qed.

Lemma of_typedArraySet dst src (Q : TypedArray.t -> SplatMesh.t -> Prop) w :
  TypedArray.fits dst src = true ->
  Q (TypedArray.set dst src) (mesh w) -> returns (typedArraySet dst src) Q w.
Proof.
  intros Hfits H. unfold typedArraySet. rewrite Hfits. apply of_ret. exact H.
Qed.

Lemma of_check sinceLastBuild functionName parameterName
  (Q : unit -> SplatMesh.t -> Prop) w :
  length (SplatMesh.scenes (mesh w)) <= 1 \/ sinceLastBuild = false ->
  Q tt (mesh w) ->
  returns (checkForMultiSceneUpdateCondition sinceLastBuild functionName parameterName) Q w.
Proof.
  intros Hguard H. exists w, tt.
  rewrite checkForMultiSceneUpdateCondition_passes by exact Hguard. auto.
Qed.

Lemma of_fillSplatDataArrays covariances centers colors applySceneTransform
  sinceLastBuild forceDestFromZero (Q : FillArrays -> SplatMesh.t -> Prop) w :
  length (SplatMesh.scenes (mesh w)) <= 1 \/ sinceLastBuild = false ->
  Q (fillSplatDataArrays_loop (mesh w) covariances centers colors applySceneTransform
       sinceLastBuild forceDestFromZero) (mesh w) ->
  returns (fillSplatDataArrays covariances centers colors applySceneTransform
             sinceLastBuild forceDestFromZero) Q w.
Proof.
  intros Hguard H. unfold fillSplatDataArrays.
  apply of_bind, of_check; [exact Hguard|]. intros w1 Hw1.
  apply of_bind, of_getMesh. intros w2 Hw2. apply of_ret.
  rewrite Hw2, Hw1. exact H.
Qed.

Lemma of_disposeTextureOf d (Q : unit -> SplatMesh.t -> Prop) w :
  Q tt (mesh w) -> returns (disposeTextureOf d) Q w.
Proof.
  intros H. unfold disposeTextureOf.
  destruct d as [desc|]; [|apply of_ret; exact H].
  destruct (TextureDesc.texture desc); [apply of_event|apply of_ret]; exact H.
Qed.

Lemma of_disposeTextures (Q : unit -> SplatMesh.t -> Prop) w :
  Q tt (SplatMesh.set_splatDataTextures None (mesh w)) ->
  returns disposeTextures Q w.
Proof.
  intros H. unfold disposeTextures.
  apply of_bind, of_getMesh. intros w1 Hw1.
  apply of_bind.
  assert (Hd : returns
            match SplatMesh.splatDataTextures (mesh w) with
            | Some t =>
                bind (disposeTextureOf (SplatDataTextures.covariances t)) (fun _ =>
                bind (disposeTextureOf (SplatDataTextures.centerColors t)) (fun _ =>
                disposeTextureOf (SplatDataTextures.tansformIndexes t)))
            | None => ret tt
            end (fun _ m => m = mesh w) w1).
  { destruct (SplatMesh.splatDataTextures (mesh w)).
    - apply of_bind, of_disposeTextureOf. intros w2 Hw2.
      apply of_bind, of_disposeTextureOf. intros w3 Hw3.
      apply of_disposeTextureOf. congruence.
    - apply of_ret. exact Hw1. }
  apply (conseq _ _ _ _ Hd). intros _ m -> w2 Hw2.
  apply of_modify_mesh. rewrite Hw2. exact H.
Qed.

Lemma of_getUniforms u (Q : Uniforms.t -> SplatMesh.t -> Prop) w :
  SplatMesh.material (mesh w) = Some (ShaderMaterial u) ->
  Q u (mesh w) -> returns getUniforms Q w.
Proof.
  intros Hm H. unfold getUniforms. apply of_bind, of_getMesh. intros w1 Hw1.
  rewrite Hm. apply of_ret. rewrite Hw1. exact H.
Qed.

Lemma of_webglTextureOf texture tex r (Q : option GL.handle -> SplatMesh.t -> Prop) w :
  SplatMesh.renderer (mesh w) = Some r -> texture = Some tex ->
  Q (Renderer.webglTexture r (DataTexture.id tex)) (mesh w) ->
  returns (webglTextureOf texture) Q w.
Proof.
  intros Hr Ht H. unfold webglTextureOf.
  apply of_bind, of_getMesh. intros w1 Hw1.
  apply of_bind, (of_propertyOf _ _ r); [exact Hr|]. intros w2 Hw2.
  apply of_bind, (of_propertyOf _ _ tex); [exact Ht|]. intros w3 Hw3.
  apply of_ret. congruence.
Qed.

End Returns.

(** ** Packed arrays *)

Module PackedFacts.
Import TypedArray TypedArrayFacts StoreLoops.

Lemma convert_zero k : convert k JsNumber.zero = JsNumber.zero.
Proof. destruct k; vm_compute; reflexivity. Qed.

Lemma inBounds_eq a b i : length a = length b -> inBounds a i = inBounds b i.
Proof. unfold inBounds. intros ->. reflexivity. Qed.

Lemma inBounds_iff a i : inBounds a i = true <-> (N.of_nat i < length a)%N.
Proof. unfold inBounds. apply N.ltb_lt. Qed.

Lemma inBounds_le a b i :
  (length a <= length b)%N -> inBounds a i = true -> inBounds b i = true.
Proof. rewrite !inBounds_iff. lia. Qed.

(** Four stores of one splat of [updateCenterColorsPaddedData]. *)
Lemma packedWord_at centers colors c k :
  k < 4 ->
  packedWord centers colors (c * 4 + k)
  = match k with
    | 0 => rgbaArrayToInteger colors (c * 4)
    | Datatypes.S k' => uintEncodedFloat (get centers (c * 3 + k'))
    end.
Proof.
  intros Hk. unfold packedWord.
  assert (Hm : (c * 4 + k) mod 4 = k)
    by (symmetry; apply (Nat.mod_unique _ 4 c k); lia).
  assert (Hd : (c * 4 + k) / 4 = c)
    by (symmetry; apply (Nat.div_unique _ 4 c k); lia).
  rewrite Hm, Hd. destruct k; [rewrite Nat.add_0_r|]; reflexivity.
Qed.

Lemma centerColors_body centers colors c p j :
  let r := updateCenterColorsPaddedData_body centers colors c p in
  kind r = kind p /\ length r = length p /\
  elems r j = if within (c * 4) (c * 4 + 4) j && inBounds p j
              then convert (kind p) (packedWord centers colors j)
              else elems p j.
Proof.
  intros r. subst r. unfold updateCenterColorsPaddedData_body.
  rewrite !kind_store, !length_store.
  split; [reflexivity|]. split; [reflexivity|].
  rewrite !elems_store, !inBounds_store, !kind_store.
  assert (Hin : forall k, j = c * 4 + k -> inBounds p (c * 4 + k) = inBounds p j)
    by (intros k ->; reflexivity).
  destruct (Nat.eqb_spec j (c * 4 + 3)) as [H3|H3].
  { rewrite within_true, (Hin 3 H3), andb_true_r by lia. cbn [andb].
    rewrite (eq_trans (f_equal (packedWord centers colors) H3)
               (packedWord_at centers colors c 3 ltac:(lia))).
    destruct (inBounds p j); [reflexivity|].
    destruct (Nat.eqb_spec j (c * 4 + 2)); [lia|].
    destruct (Nat.eqb_spec j (c * 4 + 1)); [lia|].
    destruct (Nat.eqb_spec j (c * 4)); [lia|].
    rewrite !andb_false_r. reflexivity. }
  rewrite andb_false_r.
  destruct (Nat.eqb_spec j (c * 4 + 2)) as [H2|H2].
  { rewrite within_true, (Hin 2 H2), andb_true_r by lia. cbn [andb].
    rewrite (eq_trans (f_equal (packedWord centers colors) H2)
               (packedWord_at centers colors c 2 ltac:(lia))).
    destruct (inBounds p j); [reflexivity|].
    destruct (Nat.eqb_spec j (c * 4 + 1)); [lia|].
    destruct (Nat.eqb_spec j (c * 4)); [lia|].
    rewrite !andb_false_r. reflexivity. }
  rewrite andb_false_r.
  destruct (Nat.eqb_spec j (c * 4 + 1)) as [H1|H1].
  { rewrite within_true, (Hin 1 H1), andb_true_r by lia. cbn [andb].
    rewrite (eq_trans (f_equal (packedWord centers colors) H1)
               (packedWord_at centers colors c 1 ltac:(lia))).
    rewrite Nat.add_0_r.
    destruct (inBounds p j); [reflexivity|].
    destruct (Nat.eqb_spec j (c * 4)); [lia|].
    rewrite !andb_false_r. reflexivity. }
  rewrite andb_false_r.
  destruct (Nat.eqb_spec j (c * 4)) as [H0|H0].
  { assert (H0' : j = c * 4 + 0) by lia.
    rewrite within_true, andb_true_r by lia. cbn [andb].
    rewrite <- (Nat.add_0_r (c * 4)) at 1. rewrite (Hin 0 H0').
    rewrite (eq_trans (f_equal (packedWord centers colors) H0')
               (packedWord_at centers colors c 0 ltac:(lia))).
    reflexivity. }
  rewrite andb_false_r. rewrite within_false by lia. reflexivity.
Qed.

Lemma centerColors_loop centers colors lo hi p0 :
  let r := for_range lo hi (updateCenterColorsPaddedData_body centers colors) p0 in
  kind r = kind p0 /\ length r = length p0 /\
  forall j, elems r j
            = if within (lo * 4) (hi * 4) j && inBounds p0 j
              then convert (kind p0) (packedWord centers colors j)
              else elems p0 j.
Proof.
  intros r. subst r.
  destruct (le_lt_dec lo hi) as [Hle|Hlt].
  - apply (for_range_ind (fun k r =>
      kind r = kind p0 /\ length r = length p0 /\
      forall j, elems r j
                = if within (lo * 4) (k * 4) j && inBounds p0 j
                  then convert (kind p0) (packedWord centers colors j)
                  else elems p0 j)); [exact Hle| |].
    + split; [reflexivity|]. split; [reflexivity|].
      intros j. rewrite within_false by lia. reflexivity.
    + intros c acc Hc (Hkind & Hlen & Hel).
      split; [rewrite (proj1 (centerColors_body centers colors c acc 0)); exact Hkind|].
      split; [rewrite (proj1 (proj2 (centerColors_body centers colors c acc 0))); exact Hlen|].
      intros j.
      rewrite (proj2 (proj2 (centerColors_body centers colors c acc j))).
      rewrite Hkind, Hel, (inBounds_eq acc p0 j Hlen).
      destruct (inBounds p0 j); rewrite ?andb_false_r, ?andb_true_r; [|reflexivity].
      within_cases; try reflexivity; lia.
  - rewrite for_range_nil by lia.
    split; [reflexivity|]. split; [reflexivity|].
    intros j. rewrite within_false by lia. reflexivity.
Qed.

(** The packed word of element [j] reads the three centers and the four
    color bytes of splat [j / 4] only. *)
Lemma packedWord_local centers colors centers' colors' j :
  (forall k, k < 3 -> get centers (j / 4 * 3 + k) = get centers' (j / 4 * 3 + k)) ->
  (forall k, k < 4 -> get colors (j / 4 * 4 + k) = get colors' (j / 4 * 4 + k)) ->
  packedWord centers colors j = packedWord centers' colors' j.
Proof.
  intros Hce Hco. unfold packedWord.
  pose proof (Nat.div_mod_eq j 4) as Hj.
  pose proof (Nat.mod_upper_bound j 4 ltac:(lia)) as Hlt.
  destruct (j mod 4) as [|k] eqn:Hmod.
  - assert (Hjj : j = j / 4 * 4) by lia.
    unfold rgbaArrayToInteger.
    pose proof (Hco 0 ltac:(lia)) as H0. pose proof (Hco 1 ltac:(lia)) as H1.
    pose proof (Hco 2 ltac:(lia)) as H2. pose proof (Hco 3 ltac:(lia)) as H3.
    rewrite Nat.add_0_r in H0. rewrite <- Hjj in H0, H1, H2, H3.
    rewrite H0, H1, H2, H3. reflexivity.
  - rewrite (Hce k) by lia. reflexivity.
Qed.

(** Reads of an array described by [holds]. *)
Lemma holds_get a k len hi f i :
  holds a k len hi f ->
  get a i = if (N.of_nat i <? len)%N
            then Some (if i <? hi then convert k (f i) else JsNumber.zero)
            else None.
Proof.
  intros (Hk & Hl & He). unfold get. unfold inBounds at 1. rewrite Hl.
  destruct (N.of_nat i <? len)%N eqn:E; [|reflexivity].
  rewrite He. unfold inBounds. rewrite Hl, E, andb_true_r. reflexivity.
Qed.

Lemma holds_same a b k len hi f g :
  holds a k len hi f -> holds b k len hi g ->
  (forall j, j < hi -> (N.of_nat j < len)%N -> convert k (f j) = convert k (g j)) ->
  same a b.
Proof.
  intros (Hka & Hla & Hea) (Hkb & Hlb & Heb) Hfg.
  split; [congruence|]. split; [congruence|].
  intros i Hi. rewrite Hea, Heb. rewrite Hi, (inBounds_eq b a i) by congruence.
  rewrite Hi, !andb_true_r.
  destruct (Nat.ltb_spec i hi); [|reflexivity].
  apply Hfg; [assumption|]. apply inBounds_iff in Hi. lia.
Qed.

End PackedFacts.

(** ** Texture sizes and update regions *)

Module RegionFacts.

Local Open Scope Z_scope.

Lemma size_fits (maxSplatCount : nat) ept eps : 0 < ept ->
  exists height,
    computeDataTextureSize maxSplatCount ept eps = (4096, height)
    /\ 0 < height /\ Z.of_nat maxSplatCount * eps <= 4096 * height * ept.
Proof.
  intros Hept.
  destruct (TextureSizeFacts.loop_spec (Z.of_nat maxSplatCount * eps) ept 4096
              ltac:(lia) Hept (textureSizeFuel maxSplatCount eps) 1024 ltac:(lia))
    as (k & _ & Hres & Hok & _).
  { apply TextureSizeFacts.fuel_suffices. exact Hept. }
  exists (1024 * 2 ^ Z.of_nat k).
  split; [|split; [|exact Hok]].
  - unfold computeDataTextureSize, computeDataTextureSize_fuel.
    rewrite TextureSizeFacts.loop_need, Hres. reflexivity.
  - assert (0 < 2 ^ Z.of_nat k) by (apply Z.pow_pos_nonneg; lia). lia.
Qed.

(** [computeTextureUpdateRegion] when a splat is made of whole texels: the
    quotients are the integer quotients. *)
Lemma Qfloor_quotient a b : 0 < b -> Qfloor (inject_Z a / inject_Z b) = a / b.
Proof.
  intros Hb. destruct b as [|b|b]; try lia.
  unfold Qdiv, Qinv, inject_Z, Qmult, Qfloor. cbn. rewrite Z.mul_1_r. reflexivity.
Qed.

Lemma Qeq_bool_inject_Z z : z <> 0 -> Qeq_bool (inject_Z z) 0 = false.
Proof.
  intros Hz. destruct (Qeq_bool (inject_Z z) 0) eqn:H; [|reflexivity].
  apply Qeq_bool_eq in H. unfold Qeq, inject_Z in H. cbn in H. lia.
Qed.

Lemma row_of_whole_texels s w ept eps :
  0 < w -> 0 < ept -> (ept | eps) ->
  Qfloor (inject_Z s * (inject_Z eps / inject_Z ept) / inject_Z w) = s * (eps / ept) / w.
Proof.
  intros Hw Hept [q ->]. rewrite Z.div_mul by lia.
  rewrite <- Qfloor_quotient by exact Hw.
  apply Qfloor_comp. rewrite !inject_Z_mult.
  assert (Hne : ~ inject_Z ept == 0%Q).
  { unfold Qeq, inject_Z. cbn. lia. }
  field. split; [unfold Qeq, inject_Z; cbn; lia|exact Hne].
Qed.

Lemma region_of_whole_texels ss es w h ept eps :
  0 < w -> 0 < ept -> (ept | eps) ->
  computeTextureUpdateRegion ss es w h ept eps
  = {| UpdateRegion.dataStart :=
         (fun r => r * w * ept) <$> ((fun s => s * (eps / ept) / w) <$> ss);
       UpdateRegion.dataEnd :=
         (fun r => r * w * ept + w * ept) <$> ((fun s => s * (eps / ept) / w) <$> es);
       UpdateRegion.startRow := (fun s => s * (eps / ept) / w) <$> ss;
       UpdateRegion.endRow := (fun s => s * (eps / ept) / w) <$> es |}.
Proof.
  intros Hw Hept Hdiv. unfold computeTextureUpdateRegion, numberQuotient, numberProduct.
  rewrite (Qeq_bool_inject_Z ept), (Qeq_bool_inject_Z w) by lia.
  destruct ss as [s|], es as [e|]; cbn [fmap option_fmap option_map];
    rewrite ?(Qeq_bool_inject_Z w) by lia; cbn [fmap option_fmap option_map];
    rewrite ?row_of_whole_texels by assumption; reflexivity.
Qed.

(** The view [new paddedData.constructor(buffer, byteOffset, length)] of an
    incremental update lies within the buffer. *)
Lemma view_in_buffer (n1 n2 : nat) (height ept eps bpe es len : Z) :
  (n1 <= n2)%nat -> 0 < ept -> (ept | eps) -> 1 <= eps / ept <= 4096 ->
  Z.of_nat n2 * (eps / ept) <= 4096 * height ->
  bpe = es \/ (bpe = 1 /\ es = 4) -> 0 < es ->
  len = 4096 * height * ept ->
  let region := computeTextureUpdateRegion (Some (Z.of_nat n1)) (Some (Z.of_nat n2 - 1))
                  4096 height ept eps in
  let byteOffset :=
    default 0 ((fun s => s * bpe) <$> UpdateRegion.dataStart region) in
  let viewLength :=
    default 0 (optSub (UpdateRegion.dataEnd region) (UpdateRegion.dataStart region)) in
  (byteOffset <? 0) || negb (byteOffset mod es =? 0) || (viewLength <? 0)
  || (len * es <? byteOffset + viewLength * es) = false.
Proof.
  intros Hn Hept Hdiv Htps Hfit Hbpe Hes ->.
  rewrite region_of_whole_texels by (lia || assumption). cbn.
  set (tps := eps / ept) in *.
  set (sr := Z.of_nat n1 * tps / 4096).
  set (er := (Z.of_nat n2 - 1) * tps / 4096).
  assert (Hsr : 0 <= sr) by (apply Z.div_pos; nia).
  assert (Her : er + 1 <= height).
  { assert (er < height); [|lia].
    apply Z.div_lt_upper_bound; nia. }
  assert (Hse : sr <= er + 1).
  { replace (er + 1) with (((Z.of_nat n2 - 1) * tps + 1 * 4096) / 4096)
      by (rewrite Z.div_add by lia; reflexivity).
    apply Z.div_le_mono; nia. }
  rewrite !orb_false_iff. repeat split.
  - apply Z.ltb_ge. nia.
  - apply negb_false_iff, Z.eqb_eq.
    destruct Hbpe as [->|[-> ->]].
    + apply Z.mod_mul. lia.
    + replace (sr * 4096 * ept * 1) with (sr * 1024 * ept * 4) by lia.
      apply Z.mod_mul. lia.
  - apply Z.ltb_ge. nia.
  - apply Z.ltb_ge.
    assert (Hb : bpe <= es) by (destruct Hbpe as [->|[-> ->]]; lia).
    assert (0 <= sr * 4096 * ept) by nia.
    assert (sr * 4096 * ept * bpe <= sr * 4096 * ept * es) by nia.
    nia.
Qed.

End RegionFacts.

(** ** [updateDataTexture] on an incremental update *)

Module UploadFacts.
Import Returns.

(** [updateDataTexture] returns: the view of the rows from the last build
    up to the last splat lies within the padded array. *)
Lemma of_updateDataTexture paddedData desc h ept eps bpe
  (Q : unit -> SplatMesh.t -> Prop) w r tex (n1 n2 : nat) height :
  SplatMesh.renderer (mesh w) = Some r ->
  TextureDesc.texture desc = Some tex ->
  SplatMesh.lastBuildSplatCount (mesh w) = [n1] ->
  getSplatCount (mesh w) = n2 ->
  SplatMesh.webGLUtils (mesh w) = true ->
  TextureDesc.size desc = (4096, height)%Z ->
  TypedArray.length paddedData = Z.to_N (4096 * height * ept) ->
  n1 <= n2 -> (0 < ept)%Z -> (ept | eps)%Z -> (1 <= eps / ept <= 4096)%Z ->
  (Z.of_nat n2 * (eps / ept) <= 4096 * height)%Z -> (0 < height)%Z ->
  (bpe = TypedArray.bytesPerElement (TypedArray.kind paddedData)
   \/ (bpe = 1 /\ TypedArray.bytesPerElement (TypedArray.kind paddedData) = 4))%Z ->
  Q tt (mesh w) ->
  returns (updateDataTexture paddedData desc h ept eps bpe) Q w.
Proof.
  intros Hr Htex Hlast Hcount Hutils Hsize Hlen Hn Hept Hdiv Htps Hfit Hheight Hbpe HQ.
  unfold updateDataTexture.
  apply of_bind, of_getMesh. intros w1 Hw1.
  rewrite Hr. apply of_bind, (of_propertyOf _ _ r); [reflexivity|]. intros w0 Hw0.
  rewrite Hsize, Hlast, Hcount, Hlen, Hutils, Htex. cbn [arrayToNumber negb].
  rewrite Z2N.id by nia.
  rewrite (RegionFacts.view_in_buffer n1 n2 height ept eps bpe
             (TypedArray.bytesPerElement (TypedArray.kind paddedData))
             (4096 * height * ept) Hn Hept Hdiv Htps Hfit Hbpe
             ltac:(destruct (TypedArray.kind paddedData); reflexivity) eq_refl).
  apply of_bind, (of_propertyOf _ _ tex); [reflexivity|]. intros w0' Hw0'.
  apply of_bind, of_glGet. intros currentTexture w2 Hw2.
  apply of_bind, of_glDo. intros w3 Hw3.
  apply of_bind, of_glDo. intros w4 Hw4.
  apply of_glDo. congruence.
Qed.

End UploadFacts.

(** ** Arrays that hold the first splats *)

Module HoldsFacts.
Import TypedArray TypedArrayFacts StoreLoops PackedFacts.

Lemma holds_create k len f : holds (create k len) k len 0 f.
Proof. split; [reflexivity|]. split; [reflexivity|]. intros j. reflexivity. Qed.

(** A loop that stores the elements from [lo] up to [hi] extends what the
    array holds. *)
Lemma holds_extend a r k len lo hi (f g f' : nat -> JsNumber.t) :
  holds a k len lo f ->
  kind r = kind a -> length r = length a ->
  (forall j, elems r j = if within lo hi j && inBounds a j then convert (kind a) (g j)
                         else elems a j) ->
  lo <= hi ->
  (forall j, lo <= j < hi -> inBounds a j = true -> convert k (g j) = convert k (f' j)) ->
  (forall j, j < lo -> inBounds a j = true -> convert k (f j) = convert k (f' j)) ->
  holds r k len hi f'.
Proof.
  intros (Hk & Hl & He) Hkr Hlr Her Hle Hnew Hold.
  split; [congruence|]. split; [congruence|].
  intros j. rewrite Her, He, Hk, (inBounds_eq r a j Hlr).
  destruct (inBounds a j) eqn:Hin; rewrite ?andb_false_r, ?andb_true_r; [|reflexivity].
  within_cases.
  - destruct (Nat.ltb_spec j hi); [|lia]. apply Hnew; [lia|exact Hin].
  - destruct (Nat.ltb_spec j lo), (Nat.ltb_spec j hi); try lia; try reflexivity.
    apply Hold; assumption.
Qed.

(** [padded.set(base)] on a new array. *)
Lemma holds_set base k len hi f kp lenp :
  holds base k len hi f -> (len <= lenp)%N ->
  holds (set (create kp lenp) base) kp lenp hi (elems base).
Proof.
  intros (Hk & Hl & He) Hle.
  split; [reflexivity|]. split; [reflexivity|].
  intros j. cbn [elems set create kind].
  unfold inBounds at 2. cbn [length set create].
  destruct (inBounds base j) eqn:Hin.
  - assert (Hp : (N.of_nat j <? lenp)%N = true).
    { apply N.ltb_lt. apply inBounds_iff in Hin. lia. }
    rewrite Hp, andb_true_r.
    destruct (Nat.ltb_spec j hi); [reflexivity|].
    rewrite He. destruct (Nat.ltb_spec j hi); [lia|]. cbn [andb].
    apply convert_zero.
  - destruct ((j <? hi) && (N.of_nat j <? lenp)%N) eqn:E; [|reflexivity].
    rewrite He, Hin, andb_false_r. symmetry. apply convert_zero.
Qed.

(** The bulk extraction of the splats from [n1] up to [n2]. *)
Lemma holds_fillArray cc comp a k len n1 n2 srcFrom destFrom :
  0 < cc -> n1 <= n2 ->
  default 0 srcFrom = n1 -> default n1 destFrom = n1 ->
  holds a k len (n1 * cc) (fun j => comp (j / cc) (j mod cc)) ->
  holds (SplatBuffer.fillArray cc comp n2 a srcFrom None destFrom) k len (n2 * cc)
    (fun j => comp (j / cc) (j mod cc)).
Proof.
  intros Hcc Hle Hsrc Hdest Ha.
  destruct (fillArray_spec cc comp n2 a srcFrom destFrom Hcc) as (Hk & Hl & He).
  { rewrite Hsrc. exact Hdest. }
  rewrite Hsrc in He.
  apply (holds_extend a _ k len (n1 * cc) (n2 * cc) _ _ _ Ha Hk Hl He);
    [nia|reflexivity|reflexivity].
Qed.

(** [for (i = lo; i < hi; i++) p[i] = g(i)] *)
Lemma holds_store_loop p k len lo hi (f g f' : nat -> JsNumber.t) :
  holds p k len lo f -> lo <= hi ->
  (forall j, lo <= j < hi -> inBounds p j = true -> convert k (g j) = convert k (f' j)) ->
  (forall j, j < lo -> inBounds p j = true -> convert k (f j) = convert k (f' j)) ->
  holds (for_range lo hi (fun i p => store p i (g i)) p) k len hi f'.
Proof.
  intros Hp Hle Hnew Hold.
  destruct (store_loop g lo hi p) as (Hk & Hl & He).
  exact (holds_extend p _ k len lo hi f g f' Hp Hk Hl He Hle Hnew Hold).
Qed.

(** [updateCenterColorsPaddedData(lo, hi, centers, colors, p)] *)
Lemma holds_centerColors p k len lo hi centers colors (f : nat -> JsNumber.t) :
  holds p k len (lo * 4) f -> lo <= hi ->
  (forall j, j < lo * 4 -> inBounds p j = true ->
             convert k (f j) = convert k (packedWord centers colors j)) ->
  holds (for_range lo hi (updateCenterColorsPaddedData_body centers colors) p)
    k len (hi * 4) (packedWord centers colors).
Proof.
  intros Hp Hle Hold.
  destruct (centerColors_loop centers colors lo hi p) as (Hk & Hl & He).
  apply (holds_extend p _ k len (lo * 4) (hi * 4) f (packedWord centers colors)
           (packedWord centers colors) Hp Hk Hl He); [lia|reflexivity|exact Hold].
Qed.

(** [packed], from its parts. *)
Lemma packed_of sb tr n m (dyn half : bool) smap t base dcov dcc :
  let sceneTransform := sceneTransformOf dyn tr in
  let level := (if half then 1 else 0)%Z in
  let maxSplatCount := SplatBuffer.getMaxSplatCount sb in
  SplatMesh.dynamicMode m = dyn ->
  SplatMesh.halfPrecisionCovariancesOnGPU m = half ->
  SplatMesh.globalSplatIndexToSceneIndexMap m = smap ->
  SplatMesh.splatDataTextures m = Some t ->
  SplatDataTextures.baseData t = Some base ->
  SplatDataTextures.covariances t = Some dcov ->
  SplatDataTextures.centerColors t = Some dcc ->
  holds (BaseData.covariances base) Float32Array (N.of_nat (maxSplatCount * 6)) (n * 6)
    (fun j => SplatBuffer.covarianceComponent sb sceneTransform level (j / 6) (j mod 6)) ->
  holds (BaseData.centers base) Float32Array (N.of_nat (maxSplatCount * 3)) (n * 3)
    (fun j => SplatBuffer.centerComponent sb sceneTransform (j / 3) (j mod 3)) ->
  holds (BaseData.colors base) Uint8Array (N.of_nat (maxSplatCount * 4)) (n * 4)
    (fun j => SplatBuffer.colorComponent sb sceneTransform (j / 4) (j mod 4)) ->
  describes dcov (if half then Uint16Array else Float32Array)
    maxSplatCount 2 6 (n * 6) (elems (BaseData.covariances base)) ->
  describes dcc Uint32Array maxSplatCount 4 4 (n * 4)
    (packedWord (BaseData.centers base) (BaseData.colors base)) ->
  (if dyn
   then exists dti,
          SplatDataTextures.tansformIndexes t = Some dti
          /\ describes dti Uint32Array maxSplatCount 1 4 n
               (fun j => ToNumber_nat (js_array_get smap j))
   else SplatDataTextures.tansformIndexes t = None) ->
  packed sb tr n m.
Proof.
  intros st lvl max Hdyn Hhalf Hsmap Ht Hb Hc Hcc H1 H2 H3 H4 H5 H6.
  subst dyn half smap.
  exists t, base, dcov, dcc. repeat (split; [assumption|]). assumption.
Qed.

End HoldsFacts.

(** ** [fillSplatDataArrays] on one scene *)

Module FillFacts.

(** [fillSplatDataArrays] on an instance of one scene. *)
Lemma loop_single m scene cov ce co (sinceLastBuild : bool) :
  SplatMesh.scenes m = [scene] ->
  let srcFrom := if sinceLastBuild then SplatMesh.lastBuildSplatCount m !! 0 else None in
  let destFrom := if sinceLastBuild then srcFrom else Some 0 in
  let sceneTransform :=
    sceneTransformOf (SplatMesh.dynamicMode m) (SplatScene.transform scene) in
  let sb := SplatScene.splatBuffer scene in
  fillSplatDataArrays_loop m (Some cov) (Some ce) (Some co) None sinceLastBuild false
  = (Some (SplatBuffer.fillSplatCovarianceArray sb cov sceneTransform srcFrom None destFrom
             (if SplatMesh.halfPrecisionCovariancesOnGPU m then 1 else 0)%Z),
     Some (SplatBuffer.fillSplatCenterArray sb ce sceneTransform srcFrom None destFrom),
     Some (SplatBuffer.fillSplatColorArray sb co sceneTransform srcFrom None destFrom)).
Proof.
  intros Hscenes. unfold fillSplatDataArrays_loop. rewrite Hscenes.
  cbn [Datatypes.length for_range Nat.sub seq fold_left].
  unfold fillSplatDataArrays_body. rewrite Hscenes. cbn [lookup list_lookup].
  unfold sceneTransformOf.
  destruct (SplatMesh.dynamicMode m), sinceLastBuild; reflexivity.
Qed.

End FillFacts.

(** ** The refresh of a data texture after an incremental update *)

Module RefreshFacts.
Import Returns.

Lemma set_splatDataTextures_same m :
  SplatMesh.set_splatDataTextures (SplatMesh.splatDataTextures m) m = m.
Proof. destruct m; reflexivity. Qed.

(** Either branch returns and leaves the data and the size of the
    descriptor as they are; at most the [needsUpdate] flag is set. *)
Lemma of_refreshTexture desc store ept eps bpe
  (Q : unit -> SplatMesh.t -> Prop) w t r tex (n1 n2 : nat) height :
  SplatMesh.renderer (mesh w) = Some r ->
  TextureDesc.texture desc = Some tex ->
  SplatMesh.splatDataTextures (mesh w) = Some t ->
  store desc t = t ->
  SplatMesh.lastBuildSplatCount (mesh w) = [n1] ->
  getSplatCount (mesh w) = n2 ->
  SplatMesh.webGLUtils (mesh w) = true ->
  TextureDesc.size desc = (4096, height)%Z ->
  TypedArray.length (TextureDesc.data desc) = Z.to_N (4096 * height * ept) ->
  n1 <= n2 -> (0 < ept)%Z -> (ept | eps)%Z -> (1 <= eps / ept <= 4096)%Z ->
  (Z.of_nat n2 * (eps / ept) <= 4096 * height)%Z -> (0 < height)%Z ->
  (bpe = TypedArray.bytesPerElement (TypedArray.kind (TextureDesc.data desc))
   \/ (bpe = 1 /\ TypedArray.bytesPerElement (TypedArray.kind (TextureDesc.data desc)) = 4))%Z ->
  (forall d', TextureDesc.data d' = TextureDesc.data desc ->
              TextureDesc.size d' = TextureDesc.size desc ->
              (exists tex', TextureDesc.texture d' = Some tex') ->
              Q tt (SplatMesh.set_splatDataTextures (Some (store d' t)) (mesh w))) ->
  returns (refreshTexture desc store ept eps bpe) Q w.
Proof.
  intros Hr Htex Ht Hstored Hlast Hcount Hutils Hsize Hlen Hn Hept Hdiv Htps Hfit Hheight
    Hbpe HQ.
  unfold refreshTexture.
  apply of_bind, (of_webglTextureOf _ tex r); [exact Hr|exact Htex|].
  intros w1 Hw1.
  destruct (Renderer.webglTexture r (DataTexture.id tex)) as [h|].
  - apply (UploadFacts.of_updateDataTexture _ _ _ _ _ _ _ _ r tex n1 n2 height);
      rewrite ?Hw1; try assumption.
    specialize (HQ desc eq_refl eq_refl (ex_intro _ tex Htex)).
    rewrite Hstored, <- Ht, set_splatDataTextures_same in HQ. exact HQ.
  - apply of_bind, of_getMesh. intros w2 Hw2.
    rewrite Hw1, Ht.
    apply of_bind, (of_propertyOf _ _ t); [reflexivity|]. intros w3 Hw3.
    apply of_modify_mesh. rewrite Hw3, Hw2, Hw1.
    apply HQ; [reflexivity|reflexivity|].
    unfold markNeedsUpdate. cbn. rewrite Htex. eexists. reflexivity.
Qed.

End RefreshFacts.

(** ** The full upload packs the splats of the scene *)

Module FullFacts.
Import Returns.

(** After a step: the instance of the new state, in terms of the first one. *)
Ltac advance Hw :=
  let w' := fresh "w" in
  let H := fresh "H" in
  intros w' H; rewrite ?Hw in H; rewrite ?Hw; clear Hw; rename H into Hw.

(** [uploadSplatDataToTextures(false)] on the one scene returns and leaves
    the packed data of its first [n] splats. *)
Lemma of_uploadFull sb tr n (Q : unit -> SplatMesh.t -> Prop) w u :
  SplatMesh.scenes (mesh w) = [sceneWith sb tr n] ->
  n <= SplatBuffer.getMaxSplatCount sb ->
  SplatMesh.material (mesh w) = Some (ShaderMaterial u) ->
  Uniforms.hasTransformUniforms u = SplatMesh.dynamicMode (mesh w) ->
  (forall m, sameBuild (mesh w) m -> packed sb tr n m -> Q tt m) ->
  returns (uploadSplatDataToTextures_full (SplatBuffer.getMaxSplatCount sb) n) Q w.
Proof.
  intros Hscenes Hn Hmat Hdyn HQ.
  remember (mesh w) as m0 eqn:Hw. symmetry in Hw.
  unfold uploadSplatDataToTextures_full.
  apply of_bind, of_disposeTextures. advance Hw.
  apply of_bind, of_fillSplatDataArrays; [right; reflexivity|].
  rewrite Hw.
  rewrite (FillFacts.loop_single _ (sceneWith sb tr n)) by exact Hscenes.
  cbn [fst snd default sceneWith SplatScene.splatBuffer SplatScene.transform
       SplatMesh.set_splatDataTextures SplatMesh.dynamicMode
       SplatMesh.halfPrecisionCovariancesOnGPU].
  advance Hw.
  unfold id.
  set (st := sceneTransformOf (SplatMesh.dynamicMode m0) tr).
  set (lvl := (if SplatMesh.halfPrecisionCovariancesOnGPU m0 then 1 else 0)%Z).
  set (max := SplatBuffer.getMaxSplatCount sb) in *.
  assert (Hcov : holds
            (SplatBuffer.fillSplatCovarianceArray (SplatBuffer.withSplatCount sb n)
               (TypedArray.create TypedArray.Float32Array
                  (N.of_nat (max * COVARIANCES_ELEMENTS_PER_SPLAT))) st None None (Some 0) lvl)
            TypedArray.Float32Array (N.of_nat (max * 6)) (n * 6)
            (fun j => SplatBuffer.covarianceComponent sb st lvl (j / 6) (j mod 6))).
  { apply (HoldsFacts.holds_fillArray 6 _ _ _ _ 0 n); [lia|lia|reflexivity|reflexivity|].
    exact (HoldsFacts.holds_create _ _ _). }
  assert (Hce : holds
            (SplatBuffer.fillSplatCenterArray (SplatBuffer.withSplatCount sb n)
               (TypedArray.create TypedArray.Float32Array (N.of_nat (max * 3)))
               st None None (Some 0))
            TypedArray.Float32Array (N.of_nat (max * 3)) (n * 3)
            (fun j => SplatBuffer.centerComponent sb st (j / 3) (j mod 3))).
  { apply (HoldsFacts.holds_fillArray 3 _ _ _ _ 0 n); [lia|lia|reflexivity|reflexivity|].
    exact (HoldsFacts.holds_create _ _ _). }
  assert (Hco : holds
            (SplatBuffer.fillSplatColorArray (SplatBuffer.withSplatCount sb n)
               (TypedArray.create TypedArray.Uint8Array (N.of_nat (max * 4)))
               st None None (Some 0))
            TypedArray.Uint8Array (N.of_nat (max * 4)) (n * 4)
            (fun j => SplatBuffer.colorComponent sb st (j / 4) (j mod 4))).
  { apply (HoldsFacts.holds_fillArray 4 _ _ _ _ 0 n); [lia|lia|reflexivity|reflexivity|].
    exact (HoldsFacts.holds_create _ _ _). }
  set (cov := SplatBuffer.fillSplatCovarianceArray _ _ _ _ _ _ _) in *.
  set (ce := SplatBuffer.fillSplatCenterArray _ _ _ _ _ _) in *.
  set (co := SplatBuffer.fillSplatColorArray _ _ _ _ _ _) in *.
  clearbody cov ce co.
  destruct (RegionFacts.size_fits max 2 6 ltac:(lia)) as (hcov & Ecov & Hhcov & Hfcov).
  destruct (RegionFacts.size_fits max 4 4 ltac:(lia)) as (hcc & Ecc & Hhcc & Hfcc).
  destruct (RegionFacts.size_fits max 1 4 ltac:(lia)) as (hti & Eti & Hhti & Hfti).
  apply of_bind, of_getMesh. advance Hw.
  cbn [SplatMesh.set_splatDataTextures SplatMesh.dynamicMode
       SplatMesh.halfPrecisionCovariancesOnGPU
       SplatMesh.globalSplatIndexToSceneIndexMap].
  apply of_bind, of_typedArraySet.
  { unfold TypedArray.fits. cbn [TypedArray.length TypedArray.create].
    rewrite (proj1 (proj2 Hcov)), Ecov. cbn [fst snd]. apply N.leb_le. lia. }
  advance Hw.
  apply of_bind, of_newDataTexture. intros covTex. advance Hw.
  apply of_bind, (of_getUniforms u); [rewrite Hw; exact Hmat|]. advance Hw.
  apply of_bind, of_modify_mesh. advance Hw.
  apply of_bind, of_newDataTexture. intros ccTex. advance Hw.
  apply of_bind; eapply of_getUniforms; [rewrite Hw; reflexivity|]. advance Hw.
  apply of_bind, of_modify_mesh. advance Hw.
  apply of_bind, of_modify_mesh. advance Hw.
  assert (Hdcov : forall tex,
            describes
              {| TextureDesc.data :=
                   TypedArray.set
                     (TypedArray.create
                        (if SplatMesh.halfPrecisionCovariancesOnGPU m0
                         then TypedArray.Uint16Array else TypedArray.Float32Array)
                        (Z.to_N ((computeDataTextureSize max 2 6).1
                                 * (computeDataTextureSize max 2 6).2 * 2))) cov;
                 TextureDesc.texture := Some tex;
                 TextureDesc.size := computeDataTextureSize max 2 6 |}
              (if SplatMesh.halfPrecisionCovariancesOnGPU m0
               then TypedArray.Uint16Array else TypedArray.Float32Array)
              max 2 6 (n * 6) (TypedArray.elems cov)).
  { intros tex. split; [reflexivity|]. split; [eexists; reflexivity|].
    cbn [TextureDesc.data].
    apply (HoldsFacts.holds_set _ _ _ _ _ _ _ Hcov).
    rewrite Ecov. cbn [fst snd]. lia. }
  assert (Hdcc : forall tex,
            describes
              {| TextureDesc.data :=
                   updateCenterColorsPaddedData (Some 0%Z) n ce co
                     (TypedArray.create TypedArray.Uint32Array
                        (Z.to_N ((computeDataTextureSize max 4 4).1
                                 * (computeDataTextureSize max 4 4).2 * 4)));
                 TextureDesc.texture := Some tex;
                 TextureDesc.size := computeDataTextureSize max 4 4 |}
              TypedArray.Uint32Array max 4 4 (n * 4) (packedWord ce co)).
  { intros tex. split; [reflexivity|]. split; [eexists; reflexivity|].
    cbn [TextureDesc.data].
    apply (HoldsFacts.holds_centerColors _ _ _ 0 n ce co (packedWord ce co));
      [exact (HoldsFacts.holds_create _ _ _)|lia|reflexivity]. }
  destruct (SplatMesh.dynamicMode m0) eqn:Edyn.
  - apply of_bind, of_newDataTexture. intros tiTex. advance Hw.
    apply of_bind; eapply of_getUniforms; [rewrite Hw; reflexivity|]. advance Hw.
    cbn [Uniforms.hasTransformUniforms]. rewrite Hdyn. cbn [negb].
    apply of_bind, of_modify_mesh. advance Hw.
    apply of_modify_mesh. rewrite Hw.
    apply HQ.
    + repeat split.
    + eapply (HoldsFacts.packed_of sb tr n _ true
                (SplatMesh.halfPrecisionCovariancesOnGPU m0)
                (SplatMesh.globalSplatIndexToSceneIndexMap m0));
        [exact Edyn|reflexivity|reflexivity
        |reflexivity|reflexivity|reflexivity|reflexivity
        |exact Hcov|exact Hce|exact Hco|apply Hdcov|apply Hdcc|].
      eexists. split; [reflexivity|].
      split; [reflexivity|]. split; [eexists; reflexivity|].
      cbn [TextureDesc.data].
      apply (HoldsFacts.holds_store_loop _ _ _ 0 n
               (fun j => ToNumber_nat
                           (js_array_get (SplatMesh.globalSplatIndexToSceneIndexMap m0) j)));
        [exact (HoldsFacts.holds_create _ _ _)|lia|reflexivity|reflexivity].
  - apply of_ret. rewrite Hw. apply HQ.
    + repeat split.
    + eapply (HoldsFacts.packed_of sb tr n _ false
                (SplatMesh.halfPrecisionCovariancesOnGPU m0)
                (SplatMesh.globalSplatIndexToSceneIndexMap m0));
        [exact Edyn|reflexivity|reflexivity
        |reflexivity|reflexivity|reflexivity|reflexivity
        |exact Hcov|exact Hce|exact Hco|apply Hdcov|apply Hdcc|].
      reflexivity.
Qed.

End FullFacts.

(** ** The full rebuild *)

Module BuildFacts.
Import Returns FullFacts.

Lemma set_meshData_same m :
  SplatMesh.set_meshData (SplatMesh.geometry m) (SplatMesh.material m) m = m.
Proof. destruct m; reflexivity. Qed.

(** [disposeMeshData] returns and changes the geometry and the material only. *)
Lemma of_disposeMeshData (Q : unit -> SplatMesh.t -> Prop) w :
  (forall g mat, Q tt (SplatMesh.set_meshData g mat (mesh w))) ->
  returns disposeMeshData Q w.
Proof.
  intros HQ. unfold disposeMeshData.
  apply of_bind, of_getMesh. intros w1 Hw1.
  apply of_bind.
  assert (H1 : returns
            match SplatMesh.geometry (mesh w) with
            | Some (InstancedGeometry _) =>
                bind (modify (withThreeEvent GeometryDispose)) (fun _ =>
                modify (withMesh (fun m =>
                  SplatMesh.set_meshData None (SplatMesh.material m) m)))
            | _ => ret tt
            end
            (fun _ m => exists g, m = SplatMesh.set_meshData g (SplatMesh.material (mesh w))
                                        (mesh w)) w1).
  { destruct (SplatMesh.geometry (mesh w)) as [[|]|] eqn:Eg.
    - apply of_ret. exists (SplatMesh.geometry (mesh w)).
      rewrite set_meshData_same. exact Hw1.
    - apply of_bind, of_event. intros w2 Hw2. apply of_modify_mesh.
      exists None. rewrite Hw2, Hw1. reflexivity.
    - apply of_ret. exists (SplatMesh.geometry (mesh w)).
      rewrite set_meshData_same. exact Hw1. }
  apply (conseq _ _ _ _ H1). intros _ m (g & ->) w2 Hw2.
  apply of_bind, of_getMesh. intros w3 Hw3. rewrite Hw2.
  destruct (SplatMesh.material (SplatMesh.set_meshData g _ (mesh w))) eqn:Em.
  - apply of_bind, of_event. intros w4 Hw4. apply of_modify_mesh.
    rewrite Hw4, Hw3, Hw2. apply HQ.
  - apply of_ret. rewrite Hw3, Hw2. apply HQ.
Qed.

(** The start of [build]: the scene, the counts of the last build reset,
    a new material and the index maps of the buffer. *)
Lemma of_beginFullBuild sb tr n (Q : unit -> SplatMesh.t -> Prop) w :
  (forall m, configured sb tr n [0] (mesh w) m ->
             SplatMesh.splatDataTextures m = SplatMesh.splatDataTextures (mesh w) ->
             SplatMesh.material m
             = Some (ShaderMaterial (Uniforms.initial (SplatMesh.dynamicMode (mesh w)))) ->
             Q tt m) ->
  returns (beginFullBuild [sceneWith sb tr n]) Q w.
Proof.
  intros HQ. unfold beginFullBuild.
  remember (mesh w) as m0 eqn:Hw. symmetry in Hw.
  apply of_bind, of_modify_mesh. advance Hw.
  apply of_bind, of_disposeMeshData. intros g mat. advance Hw.
  apply of_bind, of_getMesh. advance Hw.
  apply of_bind, of_modify_mesh. advance Hw.
  apply of_modify_mesh. rewrite Hw.
  apply HQ; [|reflexivity|reflexivity].
  repeat split.
Qed.

(** A full rebuild returns and leaves the packed data of the first [n]
    splats. *)
Lemma of_fullRebuild sb tr n (Q : unit -> SplatMesh.t -> Prop) w :
  n <= SplatBuffer.getMaxSplatCount sb ->
  (forall m, configured sb tr n [0] (mesh w) m -> packed sb tr n m -> Q tt m) ->
  returns (fullRebuild sb tr n) Q w.
Proof.
  intros Hn HQ. unfold fullRebuild.
  apply of_bind, of_beginFullBuild.
  intros m (Hscenes & Hlast & Hdyn & Hhalf & Hr & Hutils & Hsmap) Ht Hmat w1 Hw1.
  unfold uploadSplatDataToTextures.
  apply of_bind, of_check; [right; reflexivity|]. intros w2 Hw2.
  apply of_bind, of_getMesh. intros w3 Hw3. cbn [negb].
  rewrite Hw2, Hw1. unfold getMaxSplatCount, getSplatCount. rewrite Hscenes.
  cbn [getTotalMaxSplatCountForScenes getTotalSplatCountForScenes fold_left
       sceneWith SplatScene.splatBuffer SplatBuffer.withSplatCount
       SplatBuffer.getMaxSplatCount SplatBuffer.getSplatCount Nat.add].
  apply (of_uploadFull sb tr n _ _ (Uniforms.initial (SplatMesh.dynamicMode (mesh w))));
    rewrite ?Hw3, ?Hw2, ?Hw1; try assumption.
  - cbn. symmetry. exact Hdyn.
  - intros m' (Hs' & Hl' & Hd' & Hh' & Hr' & Hu' & Hm') Hpacked.
    apply HQ; [|exact Hpacked].
    repeat split; congruence.
Qed.

End BuildFacts.

(** ** The incremental upload extends the packed data *)

Module IncrementalFacts.
Import Returns FullFacts.
Import TypedArray TypedArrayFacts PackedFacts HoldsFacts.

(** Reads below the old count do not see the append. *)
Lemma holds_get_below a a' k len lo hi f i :
  holds a k len lo f -> holds a' k len hi f -> lo <= hi -> i < lo ->
  get a i = get a' i.
Proof.
  intros Ha Ha' Hle Hi.
  rewrite (holds_get a k len lo f i Ha), (holds_get a' k len hi f i Ha').
  destruct (Nat.ltb_spec i lo), (Nat.ltb_spec i hi); try lia. reflexivity.
Qed.

Lemma holds_elems_below a a' k len lo hi f i :
  holds a k len lo f -> holds a' k len hi f -> lo <= hi -> i < lo ->
  elems a i = elems a' i.
Proof.
  intros (Hk & Hl & He) (Hk' & Hl' & He') Hle Hi.
  rewrite He, He'. unfold inBounds. rewrite Hl, Hl'.
  destruct (Nat.ltb_spec i lo), (Nat.ltb_spec i hi); try lia. reflexivity.
Qed.

(** The end of a build of [n1] splats and the growth of the buffer to
    [n2]: the last count is [[n1]], the scene holds [n2] splats. *)
Lemma grow_record sb tr n1 n2 m :
  SplatMesh.scenes m = [sceneWith sb tr n1] ->
  SplatMesh.lastBuildSplatCount m = [0] ->
  let m' := growSplatBuffers [n2] (recordLastBuild m) in
  SplatMesh.scenes m' = [sceneWith sb tr n2]
  /\ SplatMesh.lastBuildSplatCount m' = [n1]
  /\ SplatMesh.dynamicMode m' = SplatMesh.dynamicMode m
  /\ SplatMesh.halfPrecisionCovariancesOnGPU m' = SplatMesh.halfPrecisionCovariancesOnGPU m
  /\ SplatMesh.renderer m' = SplatMesh.renderer m
  /\ SplatMesh.webGLUtils m' = SplatMesh.webGLUtils m
  /\ SplatMesh.globalSplatIndexToSceneIndexMap m'
     = SplatMesh.globalSplatIndexToSceneIndexMap m
  /\ SplatMesh.splatDataTextures m' = SplatMesh.splatDataTextures m.
Proof.
  intros Hscenes Hlast m'. subst m'.
  unfold growSplatBuffers, recordLastBuild.
  cbn [SplatMesh.set_build SplatMesh.scenes SplatMesh.lastBuildSplatCount
       SplatMesh.dynamicMode SplatMesh.halfPrecisionCovariancesOnGPU
       SplatMesh.renderer SplatMesh.webGLUtils
       SplatMesh.globalSplatIndexToSceneIndexMap SplatMesh.splatDataTextures].
  rewrite Hscenes, Hlast.
  repeat split.
Qed.

(** [describes], from its parts. *)
Lemma describes_of d a k max ept eps hi f height tex :
  TextureDesc.data d = a -> TextureDesc.size d = (4096, height)%Z ->
  TextureDesc.texture d = Some tex ->
  computeDataTextureSize max ept eps = (4096, height)%Z ->
  holds a k (Z.to_N (4096 * height * ept)) hi f ->
  describes d k max ept eps hi f.
Proof.
  intros Hd Hs Ht Hsize Ha. unfold describes. rewrite Hsize. cbn [fst snd].
  split; [exact Hs|]. split; [exists tex; exact Ht|]. rewrite Hd. exact Ha.
Qed.

(** [uploadSplatDataToTextures(true)] on packed data of [n1] splats, the
    scene holding [n2] by now, returns and leaves the packed data of [n2]. *)
Lemma of_uploadIncremental sb tr n1 n2 (Q : unit -> SplatMesh.t -> Prop) w r :
  SplatMesh.scenes (mesh w) = [sceneWith sb tr n2] ->
  SplatMesh.lastBuildSplatCount (mesh w) = [n1] ->
  SplatMesh.renderer (mesh w) = Some r ->
  SplatMesh.webGLUtils (mesh w) = true ->
  n1 <= n2 -> n2 <= SplatBuffer.getMaxSplatCount sb ->
  packed sb tr n1 (mesh w) ->
  (forall m, sameBuild (mesh w) m -> packed sb tr n2 m -> Q tt m) ->
  returns (uploadSplatDataToTextures_incremental n2) Q w.
Proof.
  intros Hscenes Hlast Hr Hutils Hn1 Hn2 Hpacked HQ.
  remember (mesh w) as m0 eqn:Hw. symmetry in Hw.
  destruct Hpacked as (t & base & dcov & dcc & Ht & Hbase & Hdcov & Hdcc
                       & Hcov & Hce & Hco & Hpcov & Hpcc & Hti).
  cbv zeta in Hcov, Hce, Hco, Hpcov, Hpcc, Hti.
  set (max := SplatBuffer.getMaxSplatCount sb) in *.
  destruct (RegionFacts.size_fits max 2 6 ltac:(lia)) as (hcov & Ecov & Hhcov & Hfcov).
  destruct (RegionFacts.size_fits max 4 4 ltac:(lia)) as (hcc & Ecc & Hhcc & Hfcc).
  destruct (RegionFacts.size_fits max 1 4 ltac:(lia)) as (hti & Eti & Hhti & Hfti).
  assert (Hcount : getSplatCount m0 = n2)
    by (unfold getSplatCount; rewrite Hscenes; reflexivity).
  unfold uploadSplatDataToTextures_incremental.
  apply of_bind, of_getMesh. advance Hw.
  apply of_bind, (of_propertyOf _ _ t); [exact Ht|]. advance Hw.
  apply of_bind, (of_propertyOf _ _ base); [exact Hbase|]. advance Hw.
  apply of_bind, of_fillSplatDataArrays; [left; rewrite Hw, Hscenes; cbn; lia|].
  rewrite Hw.
  rewrite (FillFacts.loop_single _ (sceneWith sb tr n2)) by exact Hscenes.
  rewrite Hlast.
  cbn [fst snd default sceneWith SplatScene.splatBuffer SplatScene.transform
       lookup list_lookup].
  unfold id.
  set (st := sceneTransformOf (SplatMesh.dynamicMode m0) tr) in *.
  set (lvl := (if SplatMesh.halfPrecisionCovariancesOnGPU m0 then 1 else 0)%Z) in *.
  assert (Hcov' : holds
            (SplatBuffer.fillSplatCovarianceArray (SplatBuffer.withSplatCount sb n2)
               (BaseData.covariances base) st (Some n1) None (Some n1) lvl)
            Float32Array (N.of_nat (max * 6)) (n2 * 6)
            (fun j => SplatBuffer.covarianceComponent sb st lvl (j / 6) (j mod 6))).
  { apply (holds_fillArray 6 _ _ _ _ n1 n2); [lia|lia|reflexivity|reflexivity|exact Hcov]. }
  assert (Hce' : holds
            (SplatBuffer.fillSplatCenterArray (SplatBuffer.withSplatCount sb n2)
               (BaseData.centers base) st (Some n1) None (Some n1))
            Float32Array (N.of_nat (max * 3)) (n2 * 3)
            (fun j => SplatBuffer.centerComponent sb st (j / 3) (j mod 3))).
  { apply (holds_fillArray 3 _ _ _ _ n1 n2); [lia|lia|reflexivity|reflexivity|exact Hce]. }
  assert (Hco' : holds
            (SplatBuffer.fillSplatColorArray (SplatBuffer.withSplatCount sb n2)
               (BaseData.colors base) st (Some n1) None (Some n1))
            Uint8Array (N.of_nat (max * 4)) (n2 * 4)
            (fun j => SplatBuffer.colorComponent sb st (j / 4) (j mod 4))).
  { apply (holds_fillArray 4 _ _ _ _ n1 n2); [lia|lia|reflexivity|reflexivity|exact Hco]. }
  set (cov' := SplatBuffer.fillSplatCovarianceArray _ _ _ _ _ _ _) in *.
  set (ce' := SplatBuffer.fillSplatCenterArray _ _ _ _ _ _) in *.
  set (co' := SplatBuffer.fillSplatColorArray _ _ _ _ _ _) in *.
  clearbody cov' ce' co'.
  advance Hw.
  apply of_bind, of_modify_mesh. advance Hw.
  cbn [store_baseData SplatDataTextures.covariances]. rewrite Hdcov.
  apply of_bind, (of_propertyOf _ _ dcov); [reflexivity|]. advance Hw.
  cbn [arrayToNumber].
  replace (Z.to_nat (Z.of_nat n1 * Z.of_nat COVARIANCES_ELEMENTS_PER_SPLAT)) with (n1 * 6)
    by (unfold COVARIANCES_ELEMENTS_PER_SPLAT; lia).
  cbn [BaseData.covariances BaseData.centers BaseData.colors].
  destruct Hpcov as (Hsz & (tex & Htex) & Hdata).
  rewrite Ecov in Hsz, Hdata. cbn [fst snd] in Hdata.
  assert (Hpc' : holds
            (for_range (n1 * 6) (n2 * COVARIANCES_ELEMENTS_PER_SPLAT)
               (fun i p => store p i (ToNumber (get cov' i))) (TextureDesc.data dcov))
            (if SplatMesh.halfPrecisionCovariancesOnGPU m0 then Uint16Array
             else Float32Array)
            (Z.to_N (4096 * hcov * 2)) (n2 * 6) (elems cov')).
  { apply (holds_store_loop _ _ _ (n1 * 6) (n2 * 6) (elems (BaseData.covariances base)));
      [exact Hdata|lia| |].
    - intros j Hj _.
      rewrite (get_inBounds cov' j); [reflexivity|].
      apply (inBounds_lt cov' j (max * 6)); [exact (proj1 (proj2 Hcov'))|lia].
    - intros j Hj _. f_equal.
      apply (holds_elems_below _ _ _ _ _ _ _ j Hcov Hcov'); lia. }
  set (pc' := for_range (n1 * 6) _ _ _) in *. clearbody pc'.
  apply of_bind, of_modify_mesh. advance Hw.
  apply of_bind.
  eapply (RefreshFacts.of_refreshTexture _ _ _ _ _ _ _ _ r tex n1 n2 hcov);
    [rewrite Hw; exact Hr|exact Htex|rewrite Hw; reflexivity|reflexivity
    |rewrite Hw; exact Hlast|rewrite Hw; exact Hcount|rewrite Hw; exact Hutils
    |exact Hsz|exact (proj1 (proj2 Hpc'))|exact Hn1|lia
    |exists 3%Z; reflexivity
    |vm_compute; split; discriminate
    |change (Z.of_nat COVARIANCES_ELEMENTS_PER_SPLAT / 2)%Z with 3%Z; lia|exact Hhcov
    |left; cbn [withData TextureDesc.data]; rewrite (proj1 Hpc');
     destruct (SplatMesh.halfPrecisionCovariancesOnGPU m0); reflexivity|].
  intros dcov' Hdata' Hsize' (tex' & Htex'). advance Hw.
  cbn [withData TextureDesc.data TextureDesc.size] in Hdata', Hsize'.
  apply of_bind, of_getMesh. advance Hw.
  cbn [SplatMesh.set_splatDataTextures SplatMesh.splatDataTextures].
  apply of_bind; eapply of_propertyOf; [reflexivity|]. advance Hw.
  cbn [store_covariances store_baseData SplatDataTextures.centerColors]. rewrite Hdcc.
  apply of_bind, (of_propertyOf _ _ dcc); [reflexivity|]. advance Hw.
  unfold updateCenterColorsPaddedData. rewrite Nat2Z.id.
  destruct Hpcc as (Hszcc & (texcc & Htexcc) & Hdatacc).
  rewrite Ecc in Hszcc, Hdatacc. cbn [fst snd] in Hdatacc.
  assert (Hpcc' : holds
            (for_range n1 n2 (updateCenterColorsPaddedData_body ce' co')
               (TextureDesc.data dcc))
            Uint32Array (Z.to_N (4096 * hcc * 4)) (n2 * 4) (packedWord ce' co')).
  { apply (holds_centerColors _ _ _ n1 n2 ce' co'
             (packedWord (BaseData.centers base) (BaseData.colors base)));
      [exact Hdatacc|exact Hn1|].
    intros j Hj _. f_equal.
    assert (Hq : j / 4 < n1) by (apply Nat.Div0.div_lt_upper_bound; lia).
    apply packedWord_local.
    - intros k Hk. apply (holds_get_below _ _ _ _ _ _ _ _ Hce Hce'); lia.
    - intros k Hk. apply (holds_get_below _ _ _ _ _ _ _ _ Hco Hco'); lia. }
  set (pcc' := for_range n1 n2 _ _) in *. clearbody pcc'.
  apply of_bind, of_modify_mesh. advance Hw.
  apply of_bind.
  eapply (RefreshFacts.of_refreshTexture _ _ _ _ _ _ _ _ r texcc n1 n2 hcc);
    [rewrite Hw; exact Hr|exact Htexcc|rewrite Hw; reflexivity|reflexivity
    |rewrite Hw; exact Hlast|rewrite Hw; exact Hcount|rewrite Hw; exact Hutils
    |exact Hszcc|exact (proj1 (proj2 Hpcc'))|exact Hn1|lia
    |exists 1%Z; reflexivity
    |vm_compute; split; discriminate
    |change (Z.of_nat CENTER_COLORS_ELEMENTS_PER_SPLAT / 4)%Z with 1%Z; lia|exact Hhcc
    |left; cbn [withData TextureDesc.data]; rewrite (proj1 Hpcc'); reflexivity|].
  intros dcc' Hdatacc' Hsizecc' (texcc' & Htexcc'). advance Hw.
  cbn [withData TextureDesc.data TextureDesc.size] in Hdatacc', Hsizecc'.
  assert (Hfinal_cov : describes dcov'
            (if SplatMesh.halfPrecisionCovariancesOnGPU m0 then Uint16Array
             else Float32Array) max 2 6 (n2 * 6) (elems cov')).
  { apply (describes_of _ pc' _ _ _ _ _ _ hcov tex');
      [exact Hdata'|congruence|exact Htex'|exact Ecov|exact Hpc']. }
  assert (Hfinal_cc : describes dcc' Uint32Array max 4 4 (n2 * 4) (packedWord ce' co')).
  { apply (describes_of _ pcc' _ _ _ _ _ _ hcc texcc');
      [exact Hdatacc'|congruence|exact Htexcc'|exact Ecc|exact Hpcc']. }
  destruct (SplatMesh.dynamicMode m0) eqn:Edyn.
  - destruct Hti as (dti & Hdti & Hszti & (texti & Htexti) & Hdatati).
    rewrite Eti in Hszti, Hdatati. cbn [fst snd] in Hdatati.
    apply of_bind, of_getMesh. advance Hw.
    cbn [SplatMesh.set_splatDataTextures SplatMesh.splatDataTextures].
    apply of_bind; eapply of_propertyOf; [reflexivity|]. advance Hw.
    cbn [store_centerColors store_covariances store_baseData
         SplatDataTextures.tansformIndexes].
    rewrite Hdti.
    apply of_bind, (of_propertyOf _ _ dti); [reflexivity|]. advance Hw.
    cbn [updateTransformIndexes].
    assert (Hpti' : holds
              (for_range n1 n2
                 (fun c p => store p c
                    (ToNumber_nat
                       (js_array_get (SplatMesh.globalSplatIndexToSceneIndexMap m0) c)))
                 (TextureDesc.data dti))
              Uint32Array (Z.to_N (4096 * hti * 1)) n2
              (fun j => ToNumber_nat
                          (js_array_get (SplatMesh.globalSplatIndexToSceneIndexMap m0) j))).
    { apply (holds_store_loop _ _ _ n1 n2
               (fun j => ToNumber_nat
                           (js_array_get (SplatMesh.globalSplatIndexToSceneIndexMap m0) j)));
        [exact Hdatati|exact Hn1|reflexivity|reflexivity]. }
    set (pti' := for_range n1 n2 _ _) in *. clearbody pti'.
    apply of_bind, of_modify_mesh. advance Hw.
    eapply (RefreshFacts.of_refreshTexture _ _ _ _ _ _ _ _ r texti n1 n2 hti);
      [rewrite Hw; exact Hr|exact Htexti|rewrite Hw; reflexivity|reflexivity
      |rewrite Hw; exact Hlast|rewrite Hw; exact Hcount|rewrite Hw; exact Hutils
      |exact Hszti|exact (proj1 (proj2 Hpti'))|exact Hn1|lia
      |exists 1%Z; reflexivity
      |vm_compute; split; discriminate
      |change (1 / 1)%Z with 1%Z; lia|exact Hhti
      |right; split; [reflexivity|];
       cbn [withData TextureDesc.data]; rewrite (proj1 Hpti'); reflexivity|].
    intros dti' Hdatati' Hsizeti' (texti' & Htexti').
    cbn [withData TextureDesc.data TextureDesc.size] in Hdatati', Hsizeti'.
    rewrite Hw. apply HQ.
    + repeat split.
    + eapply (packed_of sb tr n2 _ true
                (SplatMesh.halfPrecisionCovariancesOnGPU m0)
                (SplatMesh.globalSplatIndexToSceneIndexMap m0));
        [exact Edyn|reflexivity|reflexivity
        |reflexivity|reflexivity|reflexivity|reflexivity
        |exact Hcov'|exact Hce'|exact Hco'|exact Hfinal_cov|exact Hfinal_cc|].
      exists dti'. split; [reflexivity|].
      apply (describes_of _ pti' _ _ _ _ _ _ hti texti');
        [exact Hdatati'|congruence|exact Htexti'|exact Eti|exact Hpti'].
  - apply of_ret. rewrite Hw. apply HQ.
    + repeat split.
    + eapply (packed_of sb tr n2 _ false
                (SplatMesh.halfPrecisionCovariancesOnGPU m0)
                (SplatMesh.globalSplatIndexToSceneIndexMap m0));
        [exact Edyn|reflexivity|reflexivity
        |reflexivity|reflexivity|reflexivity|reflexivity
        |exact Hcov'|exact Hce'|exact Hco'|exact Hfinal_cov|exact Hfinal_cc|].
      exact Hti.
Qed.

End IncrementalFacts.

(** ** The incremental append against the full rebuild *)

Module AppendFacts.
Import Returns.
Import TypedArray TypedArrayFacts PackedFacts HoldsFacts IncrementalFacts.

(** The incremental append after a full rebuild of [n1] splats. *)
Lemma of_incrementalAppend sb tr n1 n2 (Q : unit -> SplatMesh.t -> Prop) w r m0 :
  configured sb tr n1 [0] m0 (mesh w) ->
  packed sb tr n1 (mesh w) ->
  SplatMesh.renderer (mesh w) = Some r ->
  SplatMesh.webGLUtils (mesh w) = true ->
  n1 <= n2 -> n2 <= SplatBuffer.getMaxSplatCount sb ->
  (forall m,
     SplatMesh.dynamicMode m = SplatMesh.dynamicMode m0 ->
     SplatMesh.halfPrecisionCovariancesOnGPU m = SplatMesh.halfPrecisionCovariancesOnGPU m0 ->
     SplatMesh.globalSplatIndexToSceneIndexMap m
     = IndexMaps.sceneIndexMap (IndexMaps.buildSplatIndexMaps [sb]) ->
     packed sb tr n2 m -> Q tt m) ->
  returns (incrementalAppend n2) Q w.
Proof.
  intros (Hscenes & Hlast & Hdyn & Hhalf & _ & _ & Hsmap) Hpacked Hr Hutils Hn1 Hn2 HQ.
  destruct (grow_record sb tr n1 n2 (mesh w) Hscenes Hlast)
    as (Hs' & Hl' & Hd' & Hh' & Hr' & Hu' & Hm' & Ht').
  unfold incrementalAppend.
  apply of_bind, of_modify_mesh. intros w1 Hw1.
  unfold uploadSplatDataToTextures.
  apply of_bind, of_check; [left; rewrite Hw1, Hs'; cbn; lia|]. intros w2 Hw2.
  apply of_bind, of_getMesh. intros w3 Hw3. cbn [negb].
  assert (Hcount : getSplatCount (mesh w2) = n2)
    by (unfold getSplatCount; rewrite Hw2, Hw1, Hs'; reflexivity).
  rewrite Hcount.
  apply (of_uploadIncremental sb tr n1 n2 _ _ r);
    rewrite ?Hw3, ?Hw2, ?Hw1; try assumption; try congruence.
  intros m (_ & _ & Hd & Hh & _ & _ & Hm) Hp.
  apply HQ; [congruence|congruence|congruence|exact Hp].
Qed.

Lemma holds_get_same a a' k len hi f i :
  holds a k len hi f -> holds a' k len hi f -> get a i = get a' i.
Proof.
  intros Ha Ha'.
  rewrite (holds_get a k len hi f i Ha), (holds_get a' k len hi f i Ha'). reflexivity.
Qed.

(** Descriptors of the same values hold the same data. *)
Lemma describes_same d d' k max ept eps hi f g :
  describes d k max ept eps hi f -> describes d' k max ept eps hi g ->
  (forall j, j < hi -> convert k (f j) = convert k (g j)) ->
  sameData (Some d) (Some d').
Proof.
  intros (Hs & _ & Hd) (Hs' & _ & Hd') Hfg. split; [|congruence].
  apply (holds_same _ _ _ _ _ _ _ Hd Hd'). intros j Hj _. apply Hfg. exact Hj.
Qed.

(** Two instances that hold the packed data of the same splats, in the
    same mode, hold the same packed arrays. *)
Lemma packed_same sb tr n m m' :
  SplatMesh.dynamicMode m' = SplatMesh.dynamicMode m ->
  SplatMesh.halfPrecisionCovariancesOnGPU m' = SplatMesh.halfPrecisionCovariancesOnGPU m ->
  SplatMesh.globalSplatIndexToSceneIndexMap m'
  = SplatMesh.globalSplatIndexToSceneIndexMap m ->
  packed sb tr n m -> packed sb tr n m' -> samePackedData m m'.
Proof.
  intros Hd Hh Hs
    (t & base & dcov & dcc & Ht & Hbase & Hdcov & Hdcc & Hcov & Hce & Hco & Hpcov & Hpcc & Hti)
    (t' & base' & dcov' & dcc' & Ht' & Hbase' & Hdcov' & Hdcc'
     & Hcov' & Hce' & Hco' & Hpcov' & Hpcc' & Hti').
  cbv zeta in *. rewrite Hd, Hh, Hs in *.
  unfold samePackedData. rewrite Ht, Ht', Hdcov, Hdcov', Hdcc, Hdcc'.
  split; [|split].
  - apply (describes_same _ _ _ _ _ _ _ _ _ Hpcov Hpcov').
    intros j Hj. f_equal.
    destruct Hcov as (_ & Hl & He), Hcov' as (_ & Hl' & He').
    rewrite He, He'. unfold inBounds. rewrite Hl, Hl'. reflexivity.
  - apply (describes_same _ _ _ _ _ _ _ _ _ Hpcc Hpcc').
    intros j Hj. f_equal. apply packedWord_local.
    + intros k _. apply (holds_get_same _ _ _ _ _ _ _ Hce Hce').
    + intros k _. apply (holds_get_same _ _ _ _ _ _ _ Hco Hco').
  - destruct (SplatMesh.dynamicMode m).
    + destruct Hti as (dti & -> & Hpti), Hti' as (dti' & -> & Hpti').
      apply (describes_same _ _ _ _ _ _ _ _ _ Hpti Hpti'). reflexivity.
    + rewrite Hti, Hti'. exact I.
Qed.

End AppendFacts.

(** C3. For a mesh of one scene that has a renderer, packing the first
    [n1] splats of the source buffer by a full rebuild and then appending
    the splats up to [n2] by an incremental update ([sinceLastBuild] true)
    returns normally and leaves padded covariances, packed center and color
    words and transform indexes that are the same arrays, element for
    element (kind, length and values, hence byte for byte), as the ones one
    full rebuild that packs the first [n2] splats leaves, for all
    [n1 <= n2] within the capacity of the buffer; in particular for 100 and
    150. *)
Theorem incremental_append_matches_full_rebuild
  (sb : SplatBuffer.t) (transform : Matrix4.t) (n1 n2 : nat) (r : Renderer.t) (w : World) :
  SplatMesh.renderer (mesh w) = Some r ->
  SplatMesh.webGLUtils (mesh w) = true ->
  n1 <= n2 -> n2 <= SplatBuffer.getMaxSplatCount sb ->
  returns (bind (fullRebuild sb transform n1) (fun _ => incrementalAppend n2))
    (fun _ incremental =>
       returns (fullRebuild sb transform n2)
         (fun _ full => samePackedData incremental full) w) w.
Proof.
  intros Hr Hutils Hn1 Hn2.
  apply Returns.of_bind, BuildFacts.of_fullRebuild; [lia|].
  intros m Hconf Hpacked w1 Hw1.
  pose proof Hconf as (_ & _ & _ & _ & Hr1 & Hu1 & _).
  apply (AppendFacts.of_incrementalAppend sb transform n1 n2 _ _ r (mesh w));
    rewrite ?Hw1; try assumption; try congruence.
  intros mA HdA HhA HsA HpA.
  apply BuildFacts.of_fullRebuild; [exact Hn2|].
  intros mB (_ & _ & HdB & HhB & _ & _ & HsB) HpB.
  apply (AppendFacts.packed_same sb transform n2); [congruence|congruence|congruence
                                                   |exact HpA|exact HpB].
Qed.

(** 100 splats packed, then 50 appended, against 150 packed at once, in
    dynamic mode with half-precision covariances and uploaded textures. *)
Lemma incremental_append_matches_full_rebuild_witness :
  returns (bind (fullRebuild (Examples.buffer 0 200) Examples.identity 100)
                (fun _ => incrementalAppend 150))
    (fun _ incremental =>
       returns (fullRebuild (Examples.buffer 0 200) Examples.identity 150)
         (fun _ full => samePackedData incremental full) Examples.attached)
    Examples.attached.
Proof.
  apply (incremental_append_matches_full_rebuild (Examples.buffer 0 200)
           Examples.identity 100 150 Examples.renderer_uploaded Examples.attached).
  - reflexivity.
  - reflexivity.
  - lia.
  - simpl. lia.
Defined.

(* ===================================================================== *)
(** * Further properties of the methods                                    *)
(* ===================================================================== *)

Local Open Scope nat_scope.

(** ** [computeTextureUpdateRegion] *)

Module UpdateRegionFacts.

Local Open Scope Z_scope.

Lemma row_of_element width ept x row :
  0 < width -> 0 < ept ->
  (row * width * ept <= x < (row + 1) * width * ept <-> x / ept / width = row).
Proof.
  intros Hw He. split.
  - intros [Hlo Hhi]. symmetry. apply Z.div_unique_pos with (r := x / ept - row * width).
    + assert (row * width <= x / ept) by (apply Z.div_le_lower_bound; nia).
      assert (x / ept < (row + 1) * width) by (apply Z.div_lt_upper_bound; nia).
      lia.
    + lia.
  - intros <-.
    pose proof (Z.mul_div_le (x / ept) width Hw).
    pose proof (Z.mul_succ_div_gt (x / ept) width Hw).
    pose proof (Z.mul_div_le x ept He).
    pose proof (Z.mul_succ_div_gt x ept He).
    nia.
Qed.

End UpdateRegionFacts.

(** X1. [computeTextureUpdateRegion] on splats [startSplat <= endSplat]
    of a texture [width] texels wide, the elements per splat being a
    multiple of the elements per texel: the region is made of the whole rows
    from the row of the first texel of [startSplat] to the row of the first
    texel of [endSplat]; an element lies in [dataStart, dataEnd) exactly
    when the row of its texel is one of these; the first element of every
    splat of the range lies in it, and every element of every such splat
    does when the texels of a splat divide the width, so that no splat
    straddles two rows. *)
Theorem computeTextureUpdateRegion_whole_rows
  (startSplat endSplat width height elementsPerTexel elementsPerSplat : Z) :
  (0 < width)%Z -> (0 < elementsPerTexel)%Z -> (0 < elementsPerSplat)%Z ->
  (elementsPerTexel | elementsPerSplat)%Z ->
  (0 <= startSplat <= endSplat)%Z ->
  let texelsPerSplat := (elementsPerSplat / elementsPerTexel)%Z in
  let r := computeTextureUpdateRegion (Some startSplat) (Some endSplat) width height
             elementsPerTexel elementsPerSplat in
  exists startRow endRow dataStart dataEnd : Z,
    UpdateRegion.startRow r = Some startRow /\ UpdateRegion.endRow r = Some endRow /\
    UpdateRegion.dataStart r = Some dataStart /\ UpdateRegion.dataEnd r = Some dataEnd /\
    (0 <= startRow <= endRow)%Z /\
    startRow = (startSplat * texelsPerSplat / width)%Z /\
    endRow = (endSplat * texelsPerSplat / width)%Z /\
    dataStart = (startRow * width * elementsPerTexel)%Z /\
    dataEnd = ((endRow + 1) * width * elementsPerTexel)%Z /\
    (forall x, (dataStart <= x < dataEnd)%Z
               <-> (startRow <= x / elementsPerTexel / width <= endRow)%Z) /\
    (forall s, (startSplat <= s <= endSplat)%Z ->
               (dataStart <= s * elementsPerSplat < dataEnd)%Z) /\
    ((texelsPerSplat | width)%Z ->
     forall s e, (startSplat <= s <= endSplat)%Z -> (0 <= e < elementsPerSplat)%Z ->
                 (dataStart <= s * elementsPerSplat + e < dataEnd)%Z).
Proof.
  intros Hw Hept Heps [q Hq] Hrange texelsPerSplat r.
  assert (Htps : texelsPerSplat = q)
    by (subst texelsPerSplat; rewrite Hq; apply Z.div_mul; lia).
  assert (Hqpos : (0 < q)%Z) by nia.
  set (sr := (startSplat * texelsPerSplat / width)%Z).
  set (er := (endSplat * texelsPerSplat / width)%Z).
  exists sr, er, (sr * width * elementsPerTexel)%Z, ((er + 1) * width * elementsPerTexel)%Z.
  assert (Hsr : (0 <= sr)%Z) by (apply Z.div_pos; nia).
  assert (Hse : (sr <= er)%Z) by (apply Z.div_le_mono; nia).
  assert (Hrows : forall x, (sr * width * elementsPerTexel <= x
                             < (er + 1) * width * elementsPerTexel)%Z
                            <-> (sr <= x / elementsPerTexel / width <= er)%Z).
  { intros x. split.
    - intros [Hlo Hhi].
      pose proof (proj2 (UpdateRegionFacts.row_of_element width elementsPerTexel x
                           (x / elementsPerTexel / width) Hw Hept) eq_refl) as [Ha Hb].
      split; [|nia].
      destruct (Z_le_gt_dec sr (x / elementsPerTexel / width)); [assumption|nia].
    - intros [Hlo Hhi].
      pose proof (proj2 (UpdateRegionFacts.row_of_element width elementsPerTexel x
                           (x / elementsPerTexel / width) Hw Hept) eq_refl) as [Ha Hb].
      nia. }
  assert (Hfirst : forall s e, (0 <= s)%Z -> (0 <= e < elementsPerSplat)%Z ->
            ((s * elementsPerSplat + e) / elementsPerTexel
             = s * q + e / elementsPerTexel)%Z).
  { intros s e Hs He. rewrite Hq.
    replace (s * (q * elementsPerTexel) + e)%Z with (e + s * q * elementsPerTexel)%Z by lia.
    rewrite Z.div_add by lia. lia. }
  subst r.
  rewrite RegionFacts.region_of_whole_texels by (first [lia | exists q; exact Hq]).
  cbn [fmap option_fmap option_map UpdateRegion.startRow UpdateRegion.endRow
       UpdateRegion.dataStart UpdateRegion.dataEnd].
  split; [reflexivity|]. split; [reflexivity|].
  split; [reflexivity|].
  split; [f_equal; fold texelsPerSplat; fold er; lia|].
  split; [lia|]. split; [reflexivity|]. split; [reflexivity|].
  split; [reflexivity|]. split; [reflexivity|].
  split; [exact Hrows|].
  split.
  - intros s Hs. apply Hrows.
    pose proof (Hfirst s 0%Z ltac:(lia) ltac:(lia)) as H0.
    rewrite Z.add_0_r, Z.div_0_l, Z.add_0_r in H0 by lia. rewrite H0.
    subst sr er. rewrite Htps. split; apply Z.div_le_mono; nia.
  - intros [k Hk] s e Hs He. apply Hrows. rewrite Hfirst by lia.
    rewrite Htps in Hk.
    assert (Hediv : (0 <= e / elementsPerTexel < q)%Z).
    { split; [apply Z.div_pos; lia|]. apply Z.div_lt_upper_bound; nia. }
    assert (Hkpos : (0 < k)%Z) by nia.
    (* the texels of splat s lie in the row of its first texel *)
    assert (Hrow : ((s * q + e / elementsPerTexel) / width = s * q / width)%Z).
    { rewrite Hk, (Z.mul_comm k q), <- !Z.div_div by lia.
      assert (H1 : ((s * q + e / elementsPerTexel) / q = s)%Z).
      { replace (s * q + e / elementsPerTexel)%Z with (e / elementsPerTexel + s * q)%Z by lia.
        rewrite Z.div_add by lia. rewrite Z.div_small by lia. lia. }
      assert (H2 : (s * q / q = s)%Z) by (apply Z.div_mul; lia).
      rewrite H1, H2. reflexivity. }
    rewrite Hrow. subst sr er. rewrite Htps. split; apply Z.div_le_mono; nia.
Qed.

(** The covariances texture of 100 to 150 splats. *)
Lemma computeTextureUpdateRegion_whole_rows_witness :
  exists dataStart dataEnd : Z,
    UpdateRegion.dataStart (computeTextureUpdateRegion (Some 100%Z) (Some 149%Z) 4096 1024 4 4)
    = Some dataStart /\
    UpdateRegion.dataEnd (computeTextureUpdateRegion (Some 100%Z) (Some 149%Z) 4096 1024 4 4)
    = Some dataEnd /\
    forall s e, (100 <= s <= 149)%Z -> (0 <= e < 4)%Z ->
                (dataStart <= s * 4 + e < dataEnd)%Z.
Proof.
  destruct (computeTextureUpdateRegion_whole_rows 100 149 4096 1024 4 4)
    as (sr & er & ds & de & _ & _ & Hds & Hde & _ & _ & _ & _ & _ & _ & _ & Hall);
    [lia|lia|lia|exists 1%Z; reflexivity|lia|].
  exists ds, de. split; [exact Hds|]. split; [exact Hde|].
  apply Hall. exists 4096%Z. reflexivity.
Defined.

(** X2. With three texels per splat, as for the covariances (6 elements
    per splat, 2 per texel), in a texture 4096 texels wide, a splat whose
    first texel is one of the last two of a row straddles two rows, and
    the region, which ends with the row of the first texel of [endSplat],
    leaves out the last element of that splat. *)
Theorem computeTextureUpdateRegion_straddling_splat (startSplat endSplat height : Z) :
  (0 <= startSplat <= endSplat)%Z ->
  (4094 <= (endSplat * 3) mod 4096)%Z ->
  exists dataEnd : Z,
    UpdateRegion.dataEnd
      (computeTextureUpdateRegion (Some startSplat) (Some endSplat) 4096 height 2 6)
    = Some dataEnd /\
    (dataEnd <= endSplat * 6 + 5)%Z.
Proof.
  intros Hrange Hmod.
  exists ((endSplat * 3 / 4096 + 1) * 4096 * 2)%Z. split.
  - rewrite RegionFacts.region_of_whole_texels
      by (first [lia | exists 3%Z; reflexivity]).
    cbn. f_equal. change (6 / 2)%Z with 3%Z. lia.
  - pose proof (Z.div_mod (endSplat * 3) 4096 ltac:(lia)) as Hdm. lia.
Qed.

(** Splat 1365, whose texels are 4095, 4096 and 4097. *)
Lemma computeTextureUpdateRegion_straddling_splat_witness :
  exists dataEnd : Z,
    UpdateRegion.dataEnd (computeTextureUpdateRegion (Some 0%Z) (Some 1365%Z) 4096 1024 2 6)
    = Some dataEnd /\
    (dataEnd <= 1365 * 6 + 5)%Z.
Proof.
  apply (computeTextureUpdateRegion_straddling_splat 0 1365 1024).
  - lia.
  - vm_compute. discriminate.
Defined.

(** ** [updateDataTexture] *)

(** X3. [updateDataTexture] on an instance that has a renderer and its
    [webGLUtils], for a descriptor that holds a texture, after a build of
    [n1] splats, on a padded array of the size of its texture (4096 texels
    wide) that holds the splats of the mesh, a splat being made of whole
    texels: the view fits in the array, so no RangeError is thrown; the instance is left as it is; the rows from the row of splat
    [n1] to the row of the last splat are uploaded by one [texSubImage2D]
    between a bind of the texture and a bind of the texture that was bound
    before, which is bound again afterwards. The view starts at element
    [dataStart * bytesPerElement / BYTES_PER_ELEMENT] of the array. *)
Theorem updateDataTexture_uploads_rows
  (paddedData : TypedArray.t) (textureDesc : TextureDesc.t) (webglTexture : GL.handle)
  (elementsPerTexel elementsPerSplat bytesPerElement : Z) (w : World) (n1 : nat)
  (height : Z) (renderer : Renderer.t) (dataTexture : DataTexture.t) :
  SplatMesh.renderer (mesh w) = Some renderer ->
  TextureDesc.texture textureDesc = Some dataTexture ->
  SplatMesh.lastBuildSplatCount (mesh w) = [n1] ->
  SplatMesh.webGLUtils (mesh w) = true ->
  TextureDesc.size textureDesc = (4096, height)%Z ->
  TypedArray.length paddedData = Z.to_N (4096 * height * elementsPerTexel) ->
  n1 <= getSplatCount (mesh w) ->
  (0 < elementsPerTexel)%Z -> (elementsPerTexel | elementsPerSplat)%Z ->
  (1 <= elementsPerSplat / elementsPerTexel <= 4096)%Z ->
  (Z.of_nat (getSplatCount (mesh w)) * (elementsPerSplat / elementsPerTexel)
   <= 4096 * height)%Z ->
  (0 < height)%Z ->
  (bytesPerElement = TypedArray.bytesPerElement (TypedArray.kind paddedData)
   \/ (bytesPerElement = 1 /\ TypedArray.bytesPerElement (TypedArray.kind paddedData) = 4))%Z ->
  let texelsPerSplat := (elementsPerSplat / elementsPerTexel)%Z in
  let startRow := (Z.of_nat n1 * texelsPerSplat / 4096)%Z in
  let endRow := ((Z.of_nat (getSplatCount (mesh w)) - 1) * texelsPerSplat / 4096)%Z in
  let dataStart := (startRow * 4096 * elementsPerTexel)%Z in
  let dataEnd := ((endRow + 1) * 4096 * elementsPerTexel)%Z in
  exists w',
    updateDataTexture paddedData textureDesc webglTexture elementsPerTexel
      elementsPerSplat bytesPerElement w = (w', Normal tt)
    /\ mesh w' = mesh w /\ three w' = three w /\ nextTextureId w' = nextTextureId w
    /\ GL.objects (gl w') = GL.objects (gl w)
    /\ GL.TEXTURE_BINDING_2D (gl w') = GL.TEXTURE_BINDING_2D (gl w)
    /\ GL.VERTEX_ARRAY_BINDING (gl w') = GL.VERTEX_ARRAY_BINDING (gl w)
    /\ GL.CURRENT_PROGRAM (gl w') = GL.CURRENT_PROGRAM (gl w)
    /\ GL.ARRAY_BUFFER_BINDING (gl w') = GL.ARRAY_BUFFER_BINDING (gl w)
    /\ GL.calls (gl w')
       = [GL.bindTexture (GL.TEXTURE_BINDING_2D (gl w));
          GL.texSubImage2D startRow 4096 (endRow - startRow + 1) paddedData
            (dataStart * bytesPerElement
             / TypedArray.bytesPerElement (TypedArray.kind paddedData))
            (dataEnd - dataStart);
          GL.bindTexture (Some webglTexture)] ++ GL.calls (gl w).
Proof.
  intros Hr Htex Hlast Hutils Hsize Hlen Hn Hept Hdiv Htps Hfit Hheight Hbpe.
  cbv zeta.
  unfold updateDataTexture, bind at 1, getMesh, gets.
  rewrite Hr. unfold bind at 1, propertyOf at 1, ret at 1.
  rewrite Hsize, Hlast, Hlen, Hutils, Htex. cbn [arrayToNumber negb].
  rewrite Z2N.id by nia.
  rewrite (RegionFacts.view_in_buffer n1 (getSplatCount (mesh w)) height elementsPerTexel
             elementsPerSplat bytesPerElement
             (TypedArray.bytesPerElement (TypedArray.kind paddedData))
             (4096 * height * elementsPerTexel) Hn Hept Hdiv Htps Hfit Hbpe
             ltac:(destruct (TypedArray.kind paddedData); reflexivity) eq_refl).
  rewrite RegionFacts.region_of_whole_texels by (lia || assumption).
  eexists. split; [reflexivity|].
  cbn. repeat split.
  repeat f_equal; lia.
Qed.

(** The padded center-colors array of a texture of 4096 by 1024 texels,
    whose texture the renderer has uploaded as object 100, after a build of
    100 splats of a buffer that now holds 150. *)
Lemma updateDataTexture_uploads_rows_witness :
  exists w',
    updateDataTexture
      (TypedArray.create TypedArray.Uint32Array (Z.to_N (4096 * 1024 * 4)))
      {| TextureDesc.data :=
           TypedArray.create TypedArray.Uint32Array (Z.to_N (4096 * 1024 * 4));
         TextureDesc.texture :=
           Some {| DataTexture.id := 0; DataTexture.needsUpdate := false |};
         TextureDesc.size := (4096, 1024)%Z |}
      100 4 4 4 Scenarios.grown = (w', Normal tt)
    /\ mesh w' = mesh Scenarios.grown.
Proof.
  destruct (updateDataTexture_uploads_rows
              (TypedArray.create TypedArray.Uint32Array (Z.to_N (4096 * 1024 * 4)))
              {| TextureDesc.data :=
                   TypedArray.create TypedArray.Uint32Array (Z.to_N (4096 * 1024 * 4));
                 TextureDesc.texture :=
                   Some {| DataTexture.id := 0; DataTexture.needsUpdate := false |};
                 TextureDesc.size := (4096, 1024)%Z |}
              100 4 4 4 Scenarios.grown 100 1024 Examples.renderer_uploaded
              {| DataTexture.id := 0; DataTexture.needsUpdate := false |})
    as (w' & Hrun & Hmesh & _).
  - reflexivity.
  - reflexivity.
  - reflexivity.
  - reflexivity.
  - reflexivity.
  - reflexivity.
  - vm_compute. lia.
  - lia.
  - exists 1%Z. reflexivity.
  - vm_compute. split; discriminate.
  - vm_compute. discriminate.
  - lia.
  - left. reflexivity.
  - exists w'. split; [exact Hrun|exact Hmesh].
Defined.

(** ** Lookups in the index maps of a build *)

Module LookupFacts.
Import IndexMaps IndexMapsFacts.

(** The maps of [buildSplatIndexMaps]: their lengths and entries. *)
Lemma maps_of_build bs :
  let m := buildSplatIndexMaps bs in
  length (localSplatIndexMap m) = totalMax bs /\
  length (sceneIndexMap m) = totalMax bs /\
  forall s sb i, bs !! s = Some sb -> i < SplatBuffer.getMaxSplatCount sb ->
    localSplatIndexMap m !! (sceneOffset bs s + i) = Some (Some i) /\
    sceneIndexMap m !! (sceneOffset bs s + i) = Some (Some s).
Proof.
  pose proof (outer_loop bs) as H. unfold buildSplatIndexMaps.
  destruct (for_range 0 (length bs) (outer_body bs) ([], [], 0)) as [[lm sm] total].
  destruct H as (Htotal & Hlen & Hoff & Hall). cbn.
  rewrite sceneOffset_all in Hoff.
  split; [lia|]. split; [lia|].
  intros s sb i Hs Hi. apply (Hall s sb i); [|exact Hs|exact Hi].
  apply lookup_lt_Some in Hs. exact Hs.
Qed.

End LookupFacts.

Module AccessFacts.
Import Returns FullFacts IndexMaps.

(** The start of [build], for any scenes. *)
Lemma of_beginFullBuild_scenes newScenes (Q : unit -> SplatMesh.t -> Prop) w :
  (forall m,
     SplatMesh.scenes m = newScenes ->
     SplatMesh.globalSplatIndexToLocalSplatIndexMap m
     = localSplatIndexMap (buildSplatIndexMaps (SplatScene.splatBuffer <$> newScenes)) ->
     SplatMesh.globalSplatIndexToSceneIndexMap m
     = sceneIndexMap (buildSplatIndexMaps (SplatScene.splatBuffer <$> newScenes)) ->
     SplatMesh.dynamicMode m = SplatMesh.dynamicMode (mesh w) ->
     Q tt m) ->
  returns (beginFullBuild newScenes) Q w.
Proof.
  intros HQ. unfold beginFullBuild.
  remember (mesh w) as m0 eqn:Hw. symmetry in Hw.
  apply of_bind, of_modify_mesh. advance Hw.
  apply of_bind, BuildFacts.of_disposeMeshData. intros g mat. advance Hw.
  apply of_bind, of_getMesh. advance Hw.
  apply of_bind, of_modify_mesh. advance Hw.
  apply of_modify_mesh. rewrite Hw.
  apply HQ; reflexivity.
Qed.

Lemma bind_normal {A B} (c : Method A) (k : A -> Method B) w w' a :
  c w = (w', Normal a) -> bind c k w = k a w'.
Proof. intros H. unfold bind. rewrite H. reflexivity. Qed.

Lemma bind_throw {A B} (c : Method A) (k : A -> Method B) w w' e :
  c w = (w', Throw e) -> bind c k w = (w', Throw e).
Proof. intros H. unfold bind. rewrite H. reflexivity. Qed.

Lemma getScene_at w s scene :
  SplatMesh.scenes (mesh w) !! s = Some scene -> getScene s w = (w, Normal scene).
Proof. intros H. unfold getScene, bind, getMesh, gets. rewrite H. reflexivity. Qed.

Lemma getSplatBufferForSplat_at w g s scene :
  SplatMesh.globalSplatIndexToSceneIndexMap (mesh w) !! g = Some (Some s) ->
  SplatMesh.scenes (mesh w) !! s = Some scene ->
  getSplatBufferForSplat g w = (w, Normal (SplatScene.splatBuffer scene)).
Proof.
  intros Hg Hs. unfold getSplatBufferForSplat.
  rewrite (bind_normal _ _ w w (mesh w)) by reflexivity.
  unfold js_array_get. rewrite Hg. cbn [mjoin option_join option_bind id getSceneAt].
  rewrite (bind_normal _ _ w w (Some scene))
    by (rewrite (bind_normal _ _ w w scene) by (apply getScene_at; exact Hs); reflexivity).
  reflexivity.
Qed.

Lemma getSceneTransformForSplat_at w g s scene :
  SplatMesh.globalSplatIndexToSceneIndexMap (mesh w) !! g = Some (Some s) ->
  SplatMesh.scenes (mesh w) !! s = Some scene ->
  getSceneTransformForSplat g w = (w, Normal (SplatScene.transform scene)).
Proof.
  intros Hg Hs. unfold getSceneTransformForSplat.
  rewrite (bind_normal _ _ w w (mesh w)) by reflexivity.
  unfold js_array_get. rewrite Hg. cbn [mjoin option_join option_bind id getSceneAt].
  rewrite (bind_normal _ _ w w (Some scene))
    by (rewrite (bind_normal _ _ w w scene) by (apply getScene_at; exact Hs); reflexivity).
  reflexivity.
Qed.

(** A global index without a scene index: the scene is [undefined]. *)
Lemma getSplatBufferForSplat_beyond w g :
  js_array_get (SplatMesh.globalSplatIndexToSceneIndexMap (mesh w)) g = None ->
  exists message, getSplatBufferForSplat g w = (w, Throw (TypeError message)).
Proof.
  intros Hg. unfold getSplatBufferForSplat.
  rewrite (bind_normal _ _ w w (mesh w)) by reflexivity.
  rewrite Hg. cbn [getSceneAt].
  rewrite (bind_normal _ _ w w None) by reflexivity.
  eexists. reflexivity.
Qed.

End AccessFacts.

(** X4. After the start of a build of any scenes, the lookup of a global
    index in the block of scene [s] returns the buffer of that scene, the
    local index and, unless the mesh is dynamic, the transform of the scene,
    and leaves the state as it is. A global index at or beyond the total
    max splat count has no scene: [getScene(undefined)] passes the guard
    and returns [undefined], so the lookup throws a TypeError, not the
    Error of [getScene], whatever [returnSceneTransform] is. *)
Theorem getLocalSplatParameters_after_build (newScenes : list SplatScene.t) (w0 : World) :
  let buffers := SplatScene.splatBuffer <$> newScenes in
  returns (beginFullBuild newScenes)
    (fun _ m =>
       forall w, mesh w = m ->
         (forall s scene i,
            newScenes !! s = Some scene ->
            i < SplatBuffer.getMaxSplatCount (SplatScene.splatBuffer scene) ->
            getLocalSplatParameters (IndexMaps.sceneOffset buffers s + i) None w
            = (w, Normal
                    {| LocalSplatParameters.splatBuffer := SplatScene.splatBuffer scene;
                       LocalSplatParameters.localIndex := Some i;
                       LocalSplatParameters.sceneTransform :=
                         if SplatMesh.dynamicMode (mesh w0) then None
                         else Some (SplatScene.transform scene) |})) /\
         (forall g returnSceneTransform,
            IndexMaps.totalMax buffers <= g ->
            exists message,
              getLocalSplatParameters g returnSceneTransform w
              = (w, Throw (TypeError message)))) w0.
Proof.
  intros buffers.
  apply AccessFacts.of_beginFullBuild_scenes.
  intros m Hscenes Hlmap Hsmap Hdyn w Hw. subst m buffers.
  destruct (LookupFacts.maps_of_build (SplatScene.splatBuffer <$> newScenes)) as (Hllen & Hslen & Hlookup).
  split.
  - intros s scene i Hs Hi.
    assert (Hb : (SplatScene.splatBuffer <$> newScenes) !! s
                 = Some (SplatScene.splatBuffer scene))
      by (rewrite list_lookup_fmap, Hs; reflexivity).
    destruct (Hlookup s _ i Hb Hi) as [Hl Hsc].
    assert (Hsw : SplatMesh.scenes (mesh w) !! s = Some scene)
      by (rewrite Hscenes; exact Hs).
    rewrite <- Hsmap in Hsc. rewrite <- Hlmap in Hl.
    unfold getLocalSplatParameters.
    rewrite (AccessFacts.bind_normal _ _ w w (mesh w)) by reflexivity.
    rewrite (AccessFacts.bind_normal _ _ w w (SplatScene.splatBuffer scene))
      by (apply (AccessFacts.getSplatBufferForSplat_at w _ s); assumption).
    rewrite (AccessFacts.bind_normal _ _ w w (Some i))
      by (unfold getSplatLocalIndex, bind, getMesh, gets, ret, js_array_get;
          rewrite Hl; reflexivity).
    rewrite Hdyn.
    destruct (SplatMesh.dynamicMode (mesh w0)).
    + reflexivity.
    + rewrite (AccessFacts.bind_normal _ _ w w (Some (SplatScene.transform scene)))
        by (rewrite (AccessFacts.bind_normal _ _ w w (SplatScene.transform scene))
              by (apply (AccessFacts.getSceneTransformForSplat_at w _ s); assumption);
            reflexivity).
      reflexivity.
  - intros g r Hg.
    destruct (AccessFacts.getSplatBufferForSplat_beyond w g) as [message Hthrow].
    { rewrite Hsmap. unfold js_array_get.
      rewrite (lookup_ge_None_2 _ g) by lia. reflexivity. }
    exists message. unfold getLocalSplatParameters.
    rewrite (AccessFacts.bind_normal _ _ w w (mesh w)) by reflexivity.
    apply AccessFacts.bind_throw. exact Hthrow.
Qed.

Module ConvertFacts.
Import JsNumber.

(** A store into a Uint32Array keeps an integer that fits in 32 bits. *)
Lemma convert_Uint32_ofZ z :
  (0 <= z < 2 ^ 32)%Z ->
  TypedArray.convert TypedArray.Uint32Array (ofZ z) = ofZ z.
Proof.
  intros Hz. unfold TypedArray.convert, ToUint32, wrapU.
  rewrite JsNumberFacts.truncZ_ofZ by lia. rewrite Z.mod_small by lia. reflexivity.
Qed.

End ConvertFacts.

(** X5. After the start of a build, [getTransformIndexes] is a
    Uint32Array with one element per global index, that is as many as the
    total max splat count, and the element of a global index in the block
    of scene [s] is [s]. *)
Theorem getTransformIndexes_after_build (newScenes : list SplatScene.t) (w0 : World) :
  let buffers := SplatScene.splatBuffer <$> newScenes in
  returns (beginFullBuild newScenes)
    (fun _ m =>
       TypedArray.kind (getTransformIndexes m) = TypedArray.Uint32Array /\
       TypedArray.length (getTransformIndexes m) = N.of_nat (IndexMaps.totalMax buffers) /\
       forall s sb i,
         buffers !! s = Some sb -> i < SplatBuffer.getMaxSplatCount sb ->
         (Z.of_nat s < 2 ^ 32)%Z ->
         TypedArray.get (getTransformIndexes m) (IndexMaps.sceneOffset buffers s + i)
         = Some (JsNumber.ofNat s)) w0.
Proof.
  intros buffers.
  apply AccessFacts.of_beginFullBuild_scenes.
  intros m _ _ Hsmap _. fold buffers in Hsmap.
  destruct (LookupFacts.maps_of_build buffers) as (_ & Hslen & Hlookup).
  unfold getTransformIndexes. rewrite Hsmap, Hslen.
  destruct (StoreLoops.store_loop
              (fun i => ToNumber_nat
                          (js_array_get
                             (IndexMaps.sceneIndexMap (IndexMaps.buildSplatIndexMaps buffers)) i))
              0 (IndexMaps.totalMax buffers)
              (TypedArray.create TypedArray.Uint32Array
                 (N.of_nat (IndexMaps.totalMax buffers)))) as (Hk & Hl & He).
  cbn [TypedArray.length TypedArray.create TypedArray.kind] in Hk, Hl.
  split; [exact Hk|]. split; [exact Hl|].
  intros s sb i Hs Hi Hs32.
  destruct (Hlookup s sb i Hs Hi) as [_ Hsc].
  assert (Hlt : IndexMaps.sceneOffset buffers s + i < IndexMaps.totalMax buffers).
  { apply lookup_lt_Some in Hsc. lia. }
  assert (Hin : forall a, TypedArray.length a = N.of_nat (IndexMaps.totalMax buffers) ->
                  TypedArray.inBounds a (IndexMaps.sceneOffset buffers s + i) = true).
  { intros a Ha. unfold TypedArray.inBounds. rewrite Ha. apply N.ltb_lt. lia. }
  unfold TypedArray.get. rewrite (Hin _ Hl). f_equal.
  rewrite He, (Hin (TypedArray.create TypedArray.Uint32Array
                      (N.of_nat (IndexMaps.totalMax buffers))) eq_refl),
    (StoreLoops.within_true 0) by lia.
  cbn [andb TypedArray.kind TypedArray.create].
  unfold js_array_get. rewrite Hsc. cbn [mjoin option_join option_bind id ToNumber_nat].
  apply ConvertFacts.convert_Uint32_ofZ. lia.
Qed.

(** ** The fill of the data arrays, scene after scene *)

Module FillScenesFacts.
Import TypedArray TypedArrayFacts StoreLoops PackedFacts.

(** The bulk extraction of the splats from [from] into the slots from
    [dest]. *)
Lemma fillArray_shift cc comp count out srcFrom destFrom :
  0 < cc ->
  let from := default 0 srcFrom in
  let dest := default from destFrom in
  let r := SplatBuffer.fillArray cc comp count out srcFrom None destFrom in
  kind r = kind out /\ length r = length out /\
  forall j, elems r j
            = if within (dest * cc) ((dest + (count - from)) * cc) j && inBounds out j
              then convert (kind out) (comp (j / cc - dest + from) (j mod cc))
              else elems out j.
Proof.
  intros Hcc from dest r. subst r. unfold SplatBuffer.fillArray.
  cbv zeta. fold from. fold dest.
  destruct (le_lt_dec from count) as [Hle|Hlt].
  - apply (for_range_ind (fun k r =>
      kind r = kind out /\ length r = length out /\
      forall j, elems r j
                = if within (dest * cc) ((dest + (k - from)) * cc) j && inBounds out j
                  then convert (kind out) (comp (j / cc - dest + from) (j mod cc))
                  else elems out j)); [exact Hle| |].
    + split; [reflexivity|]. split; [reflexivity|].
      intros j. rewrite within_false by lia. reflexivity.
    + intros i acc Hi (Hkind & Hlen & Hel).
      destruct (inner_block ((i - from + dest) * cc) cc (comp i) acc) as (Hk' & Hl' & He').
      split; [rewrite Hk'; exact Hkind|].
      split; [rewrite Hl'; exact Hlen|].
      intros j. rewrite He', Hkind, Hel.
      rewrite (inBounds_eq acc out j Hlen).
      destruct (inBounds out j); rewrite ?andb_false_r, ?andb_true_r; [|reflexivity].
      within_cases; try reflexivity; try nia.
      assert (j / cc = i - from + dest) as ->
        by (symmetry; apply (Nat.div_unique j cc _ (j - (i - from + dest) * cc)); nia).
      assert (j mod cc = j - (i - from + dest) * cc) as ->
        by (symmetry; apply (Nat.mod_unique j cc (i - from + dest)); nia).
      replace (i - from + dest - dest + from) with i by lia.
      reflexivity.
  - rewrite for_range_nil by lia.
    split; [reflexivity|]. split; [reflexivity|].
    intros j. rewrite within_false by nia. reflexivity.
Qed.

Lemma countOffset_0 scenes : countOffset scenes 0 = 0.
Proof. unfold countOffset. rewrite take_0. reflexivity. Qed.

Lemma countOffset_S scenes s scene :
  scenes !! s = Some scene ->
  countOffset scenes (S s)
  = countOffset scenes s + SplatBuffer.getSplatCount (SplatScene.splatBuffer scene).
Proof.
  intros H. unfold countOffset.
  rewrite (take_S_r _ _ _ H), fmap_app, sum_list_with_app. simpl. lia.
Qed.

Lemma countOffset_mono scenes s t :
  s <= t -> countOffset scenes s <= countOffset scenes t.
Proof.
  induction 1 as [|t Hle IH]; [lia|].
  destruct (scenes !! t) as [scene|] eqn:E.
  - rewrite (countOffset_S _ _ _ E). lia.
  - assert (countOffset scenes (S t) = countOffset scenes t) as ->; [|exact IH].
    unfold countOffset. apply lookup_ge_None in E.
    rewrite (take_ge scenes (S t)), (take_ge scenes t) by lia. reflexivity.
Qed.

Lemma getTotalSplatCount_offset scenes :
  getTotalSplatCountForScenes scenes = countOffset scenes (Datatypes.length scenes).
Proof.
  unfold getTotalSplatCountForScenes, countOffset. rewrite firstn_all.
  assert (H : forall l n,
            fold_left (fun total scene =>
                         total + SplatBuffer.getSplatCount (SplatScene.splatBuffer scene)) l n
            = n + sum_list ((fun scene =>
                               SplatBuffer.getSplatCount (SplatScene.splatBuffer scene)) <$> l)).
  { induction l as [|x l IH]; intros n; [cbn; lia|].
    rewrite fmap_cons. cbn [fold_left]. rewrite IH. cbn. lia. }
  rewrite H. lia.
Qed.

(** One more scene laid out. *)
Lemma laidOut_step scenes k cc comp orig a scene :
  0 < cc -> scenes !! k = Some scene ->
  laidOut scenes k cc comp orig a ->
  laidOut scenes (S k) cc comp orig
    (SplatBuffer.fillArray cc (comp scene)
       (SplatBuffer.getSplatCount (SplatScene.splatBuffer scene)) a None None
       (Some (countOffset scenes k))).
Proof.
  intros Hcc Hk (Hkind & Hlen & Hprev & Hrest).
  destruct (fillArray_shift cc (comp scene)
              (SplatBuffer.getSplatCount (SplatScene.splatBuffer scene)) a None
              (Some (countOffset scenes k)) Hcc) as (Hk' & Hl' & He').
  cbn [default] in He'. unfold id in He'. rewrite Nat.sub_0_r in He'.
  set (n := SplatBuffer.getSplatCount (SplatScene.splatBuffer scene)) in *.
  set (d := countOffset scenes k) in *.
  assert (HS : countOffset scenes (S k) = d + n) by (apply countOffset_S; exact Hk).
  split; [congruence|]. split; [congruence|]. split.
  - intros s scene' i c Hs Hscene Hi Hc j.
    rewrite He', Hkind, (inBounds_eq a orig j Hlen).
    destruct (decide (s = k)) as [->|Hne].
    + assert (scene' = scene) by congruence. subst scene'.
      assert (Hw : within (d * cc) ((d + n) * cc) j = true)
        by (apply within_true; subst j; fold d; fold n in Hi; nia).
      rewrite Hw. cbn [andb].
      destruct (inBounds orig j) eqn:Hin.
      * assert (j / cc = d + i) as ->
          by (symmetry; apply (Nat.div_unique j cc _ c); subst j; fold d; nia).
        assert (j mod cc = c) as ->
          by (symmetry; apply (Nat.mod_unique j cc (d + i)); subst j; fold d; nia).
        replace (d + i - d + 0) with i by lia. reflexivity.
      * apply Hrest. subst j. fold d. nia.
    + assert (Hlt : s < k) by lia.
      pose proof (countOffset_S _ _ _ Hscene) as HSs.
      pose proof (countOffset_mono scenes (S s) k ltac:(lia)) as Hmono.
      assert (Hw : within (d * cc) ((d + n) * cc) j = false)
        by (apply within_false; left; subst j; fold d in Hmono; nia).
      rewrite Hw. cbn [andb]. apply (Hprev s scene' i c Hlt Hscene Hi Hc).
  - intros j Hj. rewrite HS in Hj.
    rewrite He', within_false by nia. cbn [andb]. apply Hrest. nia.
Qed.

Lemma laidOut_start scenes cc comp orig : laidOut scenes 0 cc comp orig orig.
Proof.
  split; [reflexivity|]. split; [reflexivity|]. split.
  - intros; lia.
  - reflexivity.
Qed.

End FillScenesFacts.

(** X6. A full fill ([sinceLastBuild] false) of the three arrays over the
    scenes of the instance returns, leaves the instance as it is, and lays
    the scenes out one after the other: the components of splat [i] of
    scene [s] are at slot [i] plus the splat counts (not the max splat
    counts) of the scenes before [s], converted by the store, wherever the
    slot lies within the array; the elements from the total splat count on
    are left as they were. The scene transform is passed on when
    [applySceneTransform] is true or, if it is [undefined], when the mesh
    is not dynamic. *)
Theorem fillSplatDataArrays_lays_out_scenes
  (w : World) (covariances centers colors : TypedArray.t)
  (applySceneTransform : option bool) :
  let m := mesh w in
  let scenes := SplatMesh.scenes m in
  let applied :=
    match applySceneTransform with
    | Some b => b
    | None => negb (SplatMesh.dynamicMode m)
    end in
  let transformOf scene := if applied then Some (SplatScene.transform scene) else None in
  let level := (if SplatMesh.halfPrecisionCovariancesOnGPU m then 1 else 0)%Z in
  exists covariances' centers' colors',
    fillSplatDataArrays (Some covariances) (Some centers) (Some colors)
      applySceneTransform false false w
    = (w, Normal (Some covariances', Some centers', Some colors'))
    /\ laidOut scenes (length scenes) 6
         (fun scene => SplatBuffer.covarianceComponent (SplatScene.splatBuffer scene)
                         (transformOf scene) level)
         covariances covariances'
    /\ laidOut scenes (length scenes) 3
         (fun scene => SplatBuffer.centerComponent (SplatScene.splatBuffer scene)
                         (transformOf scene))
         centers centers'
    /\ laidOut scenes (length scenes) 4
         (fun scene => SplatBuffer.colorComponent (SplatScene.splatBuffer scene)
                         (transformOf scene))
         colors colors'.
Proof.
  intros m scenes applied transformOf level.
  unfold fillSplatDataArrays.
  rewrite (AccessFacts.bind_normal _ _ w w tt)
    by (apply checkForMultiSceneUpdateCondition_passes; right; reflexivity).
  rewrite (AccessFacts.bind_normal _ _ w w m) by reflexivity.
  unfold fillSplatDataArrays_loop. fold scenes.
  assert (Inv :
    let st := for_range 0 (length scenes) (fillSplatDataArrays_body m false false)
                (0, applySceneTransform, (Some covariances, Some centers, Some colors)) in
    exists a1 a2 a3,
      st = (countOffset scenes (length scenes),
            if length scenes =? 0 then applySceneTransform else Some applied,
            (Some a1, Some a2, Some a3))
      /\ laidOut scenes (length scenes) 6
           (fun scene => SplatBuffer.covarianceComponent (SplatScene.splatBuffer scene)
                           (transformOf scene) level) covariances a1
      /\ laidOut scenes (length scenes) 3
           (fun scene => SplatBuffer.centerComponent (SplatScene.splatBuffer scene)
                           (transformOf scene)) centers a2
      /\ laidOut scenes (length scenes) 4
           (fun scene => SplatBuffer.colorComponent (SplatScene.splatBuffer scene)
                           (transformOf scene)) colors a3).
  { cbv zeta.
    apply (for_range_ind (fun k st =>
      exists a1 a2 a3,
        st = (countOffset scenes k,
              if k =? 0 then applySceneTransform else Some applied,
              (Some a1, Some a2, Some a3))
        /\ laidOut scenes k 6
             (fun scene => SplatBuffer.covarianceComponent (SplatScene.splatBuffer scene)
                             (transformOf scene) level) covariances a1
        /\ laidOut scenes k 3
             (fun scene => SplatBuffer.centerComponent (SplatScene.splatBuffer scene)
                             (transformOf scene)) centers a2
        /\ laidOut scenes k 4
             (fun scene => SplatBuffer.colorComponent (SplatScene.splatBuffer scene)
                             (transformOf scene)) colors a3)); [lia| |].
    - exists covariances, centers, colors.
      rewrite FillScenesFacts.countOffset_0.
      split; [reflexivity|].
      split; [|split]; apply FillScenesFacts.laidOut_start.
    - intros k st Hk (a1 & a2 & a3 & -> & H1 & H2 & H3).
      destruct (lookup_lt_is_Some_2 scenes k ltac:(lia)) as [scene Hscene].
      exists (SplatBuffer.fillArray 6
                (SplatBuffer.covarianceComponent (SplatScene.splatBuffer scene)
                   (transformOf scene) level)
                (SplatBuffer.getSplatCount (SplatScene.splatBuffer scene)) a1 None None
                (Some (countOffset scenes k))),
             (SplatBuffer.fillArray 3
                (SplatBuffer.centerComponent (SplatScene.splatBuffer scene)
                   (transformOf scene))
                (SplatBuffer.getSplatCount (SplatScene.splatBuffer scene)) a2 None None
                (Some (countOffset scenes k))),
             (SplatBuffer.fillArray 4
                (SplatBuffer.colorComponent (SplatScene.splatBuffer scene)
                   (transformOf scene))
                (SplatBuffer.getSplatCount (SplatScene.splatBuffer scene)) a3 None None
                (Some (countOffset scenes k))).
      split.
      + unfold fillSplatDataArrays_body. fold scenes. rewrite Hscene.
        rewrite (FillScenesFacts.countOffset_S _ _ _ Hscene).
        assert (Happlied :
                  match (if k =? 0 then applySceneTransform else Some applied) with
                  | Some b => Some b
                  | None => Some (if SplatMesh.dynamicMode m then false else true)
                  end = Some applied).
        { destruct (k =? 0); [|reflexivity]. subst applied.
          destruct applySceneTransform; [reflexivity|].
          destruct (SplatMesh.dynamicMode m); reflexivity. }
        rewrite Happlied. cbn [default fmap option_fmap option_map Nat.eqb].
        unfold SplatBuffer.fillSplatCovarianceArray, SplatBuffer.fillSplatCenterArray,
          SplatBuffer.fillSplatColorArray.
        fold level. reflexivity.
      + split; [|split].
        * apply (FillScenesFacts.laidOut_step scenes k 6
                   (fun scene => SplatBuffer.covarianceComponent
                                   (SplatScene.splatBuffer scene) (transformOf scene) level)
                   covariances a1 scene); [lia|exact Hscene|exact H1].
        * apply (FillScenesFacts.laidOut_step scenes k 3
                   (fun scene => SplatBuffer.centerComponent
                                   (SplatScene.splatBuffer scene) (transformOf scene))
                   centers a2 scene); [lia|exact Hscene|exact H2].
        * apply (FillScenesFacts.laidOut_step scenes k 4
                   (fun scene => SplatBuffer.colorComponent
                                   (SplatScene.splatBuffer scene) (transformOf scene))
                   colors a3 scene); [lia|exact Hscene|exact H3]. }
  cbv zeta in Inv. destruct Inv as (a1 & a2 & a3 & Hst & H1 & H2 & H3).
  exists a1, a2, a3. rewrite Hst. split; [reflexivity|]. auto.
Qed.

(** X7. The packed arrays place scene [s] after the splat counts of the
    scenes before it, the index maps after their max splat counts. When
    every scene before [s] is full the two agree: the slot of splat [i] of
    scene [s] is the global index that maps to [(s, i)]. When they differ,
    the slot of a splat of scene [s] is a global index that the scene index
    map gives to a scene before [s]. *)
Theorem packed_slots_and_index_maps (scenes : list SplatScene.t) (s : nat)
  (scene : SplatScene.t) (i : nat) :
  let buffers := SplatScene.splatBuffer <$> scenes in
  let maps := IndexMaps.buildSplatIndexMaps buffers in
  scenes !! s = Some scene ->
  i < SplatBuffer.getSplatCount (SplatScene.splatBuffer scene) ->
  SplatBuffer.getSplatCount (SplatScene.splatBuffer scene)
  <= SplatBuffer.getMaxSplatCount (SplatScene.splatBuffer scene) ->
  ((forall s' scene', s' < s -> scenes !! s' = Some scene' ->
      SplatBuffer.getSplatCount (SplatScene.splatBuffer scene')
      = SplatBuffer.getMaxSplatCount (SplatScene.splatBuffer scene')) ->
   IndexMaps.localSplatInfo maps (countOffset scenes s + i) = (Some s, Some i)) /\
  (countOffset scenes s + i < IndexMaps.sceneOffset buffers s ->
   exists s', s' < s /\
     js_array_get (IndexMaps.sceneIndexMap maps) (countOffset scenes s + i) = Some s').
Proof.
  intros buffers maps Hs Hi Hle.
  destruct (LookupFacts.maps_of_build buffers) as (_ & _ & Hlookup). fold maps in Hlookup.
  assert (Hb : buffers !! s = Some (SplatScene.splatBuffer scene))
    by (unfold buffers; rewrite list_lookup_fmap, Hs; reflexivity).
  split.
  - intros Hfull.
    assert (Heq : forall k, k <= s -> countOffset scenes k = IndexMaps.sceneOffset buffers k).
    { induction k as [|k IH]; intros Hk.
      - rewrite FillScenesFacts.countOffset_0, IndexMapsFacts.sceneOffset_0. reflexivity.
      - destruct (lookup_lt_is_Some_2 scenes k) as [scene' Hk'].
        { apply lookup_lt_Some in Hs. lia. }
        rewrite (FillScenesFacts.countOffset_S _ _ _ Hk').
        rewrite (IndexMapsFacts.sceneOffset_S buffers k (SplatScene.splatBuffer scene'))
          by (unfold buffers; rewrite list_lookup_fmap, Hk'; reflexivity).
        rewrite IH by lia. rewrite (Hfull k scene' ltac:(lia) Hk'). reflexivity. }
    rewrite Heq by lia.
    destruct (Hlookup s _ i Hb ltac:(lia)) as [Hl Hsc].
    unfold IndexMaps.localSplatInfo, js_array_get. rewrite Hl, Hsc. reflexivity.
  - intros Hlt.
    destruct (IndexMapsFacts.sceneOffset_cover buffers s (countOffset scenes s + i))
      as (s' & sb' & Hs' & Hsb' & Hrange).
    { apply lookup_lt_Some in Hb. lia. }
    { exact Hlt. }
    exists s'. split; [exact Hs'|].
    destruct (Hlookup s' sb'
                (countOffset scenes s + i - IndexMaps.sceneOffset buffers s')
                Hsb' ltac:(lia)) as [_ Hsc].
    replace (IndexMaps.sceneOffset buffers s'
             + (countOffset scenes s + i - IndexMaps.sceneOffset buffers s'))
      with (countOffset scenes s + i) in Hsc by lia.
    unfold js_array_get. rewrite Hsc. reflexivity.
Qed.

(** Two scenes of capacity 2 and 1 holding one splat each: packed slot 1 is
    splat 0 of scene 1, and the index maps give it to scene 0. *)
Lemma packed_slots_and_index_maps_witness :
  exists s', s' < 1 /\
    js_array_get
      (IndexMaps.sceneIndexMap
         (IndexMaps.buildSplatIndexMaps (SplatScene.splatBuffer <$> Scenarios.partlyLoaded)))
      1 = Some s'.
Proof.
  apply (packed_slots_and_index_maps Scenarios.partlyLoaded 1 (Examples.scene 1 1) 0).
  - reflexivity.
  - vm_compute. lia.
  - vm_compute. lia.
  - vm_compute. lia.
Defined.

(** ** The integer centers of the splats *)

Module CentersOfSplatsFacts.
Import TypedArray TypedArrayFacts.

(** The Float32Array of a full fill holds the centers of the scenes one
    after the other. *)
Lemma filledFloatCenters_laidOut m fc :
  laidOut (SplatMesh.scenes m) (Datatypes.length (SplatMesh.scenes m)) 3
    (fun scene =>
       SplatBuffer.centerComponent (SplatScene.splatBuffer scene)
         (sceneTransformOf (SplatMesh.dynamicMode m) (SplatScene.transform scene)))
    fc (filledFloatCenters m false fc).
Proof.
  unfold filledFloatCenters, fillSplatDataArrays_loop.
  set (scenes := SplatMesh.scenes m).
  set (comp := fun scene =>
       SplatBuffer.centerComponent (SplatScene.splatBuffer scene)
         (sceneTransformOf (SplatMesh.dynamicMode m) (SplatScene.transform scene))).
  assert (Inv :
    exists a, for_range 0 (Datatypes.length scenes) (fillSplatDataArrays_body m false false)
                (0, None, (None, Some fc, None))
              = (countOffset scenes (Datatypes.length scenes),
                 if Datatypes.length scenes =? 0 then None
                 else Some (negb (SplatMesh.dynamicMode m)),
                 (None, Some a, None))
              /\ laidOut scenes (Datatypes.length scenes) 3 comp fc a).
  { apply (for_range_ind (fun k st =>
      exists a, st = (countOffset scenes k,
                      if k =? 0 then None else Some (negb (SplatMesh.dynamicMode m)),
                      (None, Some a, None))
                /\ laidOut scenes k 3 comp fc a)); [lia| |].
    - exists fc. rewrite FillScenesFacts.countOffset_0.
      split; [reflexivity|]. apply FillScenesFacts.laidOut_start.
    - intros k st Hk (a & -> & Hlaid).
      destruct (lookup_lt_is_Some_2 scenes k ltac:(lia)) as [scene Hscene].
      exists (SplatBuffer.fillArray 3 (comp scene)
                (SplatBuffer.getSplatCount (SplatScene.splatBuffer scene)) a None None
                (Some (countOffset scenes k))).
      split.
      + unfold fillSplatDataArrays_body. fold scenes. rewrite Hscene.
        rewrite (FillScenesFacts.countOffset_S _ _ _ Hscene).
        unfold comp, sceneTransformOf, SplatBuffer.fillSplatCenterArray.
        destruct (k =? 0), (SplatMesh.dynamicMode m); reflexivity.
      + apply (FillScenesFacts.laidOut_step scenes k 3 comp fc a scene);
          [lia|exact Hscene|exact Hlaid]. }
  destruct Inv as (a & -> & Hlaid). exact Hlaid.
Qed.

(** The slots of a scene lie below the total splat count. *)
Lemma slot_lt_splatCount m s scene i :
  SplatMesh.scenes m !! s = Some scene ->
  i < SplatBuffer.getSplatCount (SplatScene.splatBuffer scene) ->
  countOffset (SplatMesh.scenes m) s + i < getSplatCount m.
Proof.
  intros Hs Hi. unfold getSplatCount.
  rewrite FillScenesFacts.getTotalSplatCount_offset.
  pose proof (FillScenesFacts.countOffset_S _ _ _ Hs) as HS.
  pose proof (FillScenesFacts.countOffset_mono (SplatMesh.scenes m) (S s)
                (Datatypes.length (SplatMesh.scenes m))
                ltac:(apply lookup_lt_Some in Hs; lia)).
  lia.
Qed.

(** The Int32Array that the loop of [getIntegerCenters] builds, read slot
    by slot. *)
Lemma centers_loop_get floatCenters (padFour : bool) n :
  let cc := if padFour then 4 else 3 in
  let r := for_range 0 n (getIntegerCenters_body floatCenters cc padFour)
             (create Int32Array (N.of_nat (n * cc))) in
  kind r = Int32Array /\ length r = N.of_nat (n * cc) /\
  (forall i t, i < n -> t < 3 ->
     get r (i * cc + t)
     = Some (JsNumber.ofZ (JsNumber.ToInt32 (scaleAndRound (get floatCenters (i * 3 + t)))))) /\
  (padFour = true -> forall i, i < n -> get r (i * 4 + 3) = Some (JsNumber.ofZ 1000)).
Proof.
  intros cc r.
  destruct (IntegerCentersFacts.centers_loop_spec floatCenters padFour n
              (create Int32Array (N.of_nat (n * cc))))
    as (Hkind & Hlen & Helems); [reflexivity|reflexivity|].
  fold cc in Hkind, Hlen, Helems. fold r in Hkind, Hlen, Helems.
  split; [exact Hkind|]. split; [exact Hlen|]. split.
  - intros i t Hi Ht. rewrite get_inBounds.
    + destruct (Helems i Hi) as [He _]. rewrite (He t Ht). reflexivity.
    + apply (inBounds_lt _ _ (n * cc)); [exact Hlen|]. subst cc. destruct padFour; nia.
  - intros Hpad i Hi. subst cc. rewrite Hpad in *. rewrite get_inBounds.
    + destruct (Helems i Hi) as [_ He]. rewrite (He eq_refl). reflexivity.
    + apply (inBounds_lt _ _ (n * 4)); [exact Hlen|]. lia.
Qed.

(** A rounded Number within the range of a 32-bit integer is stored as it
    is. *)
Lemma ToInt32_in_range x r :
  x = JsNumber.ofZ r -> (- 2 ^ 31 <= r < 2 ^ 31)%Z -> JsNumber.ToInt32 x = r.
Proof.
  intros -> Hr. unfold JsNumber.ToInt32.
  rewrite JsNumberFacts.truncZ_ofZ by lia.
  apply JsNumberFacts.wrapS32_small. exact Hr.
Qed.

(** [getIntegerCenters(padFour, false)]: the slots of every splat. *)
Lemma all_integer_centers (w : World) (padFour : bool) :
  let m := mesh w in
  let scenes := SplatMesh.scenes m in
  let componentCount := if padFour then 4 else 3 in
  exists intCenters,
    getIntegerCenters padFour false w = (w, Normal intCenters) /\
    kind intCenters = Int32Array /\
    length intCenters = N.of_nat (getSplatCount m * componentCount) /\
    forall s scene i,
      scenes !! s = Some scene ->
      i < SplatBuffer.getSplatCount (SplatScene.splatBuffer scene) ->
      (forall t, t < 3 ->
         get intCenters ((countOffset scenes s + i) * componentCount + t)
         = Some (JsNumber.ofZ
                   (JsNumber.ToInt32
                      (scaleAndRound
                         (Some (JsNumber.fround
                                  (SplatBuffer.centerComponent (SplatScene.splatBuffer scene)
                                     (sceneTransformOf (SplatMesh.dynamicMode m)
                                        (SplatScene.transform scene)) i t))))))) /\
      (padFour = true ->
       get intCenters ((countOffset scenes s + i) * 4 + 3) = Some (JsNumber.ofZ 1000)).
Proof.
  intros m scenes componentCount. subst scenes.
  set (n := getSplatCount m).
  rewrite (IntegerCentersFacts.getIntegerCenters_result w padFour false n)
    by (first [right; reflexivity | reflexivity]).
  fold componentCount. fold m.
  set (fc := create Float32Array (N.of_nat (n * 3))).
  destruct (filledFloatCenters_laidOut m fc) as (Hfk & Hfl & Hfe & _).
  set (floatCenters := filledFloatCenters m false fc) in *.
  destruct (centers_loop_get floatCenters padFour n) as (Hkind & Hlen & Hget & Hpad).
  fold componentCount in Hkind, Hlen, Hget.
  eexists. split; [reflexivity|]. split; [exact Hkind|]. split; [exact Hlen|].
  intros s scene i Hs Hi.
  pose proof (slot_lt_splatCount m s scene i Hs Hi) as Hslot. fold n in Hslot.
  split.
  - intros t Ht. rewrite Hget by assumption. do 3 f_equal.
    assert (Hin : inBounds fc ((countOffset (SplatMesh.scenes m) s + i) * 3 + t) = true)
      by (apply (inBounds_lt _ _ (n * 3)); [reflexivity|nia]).
    rewrite get_inBounds by (rewrite <- Hin; apply PackedFacts.inBounds_eq; exact Hfl).
    rewrite (Hfe s scene i t ltac:(apply lookup_lt_Some in Hs; exact Hs) Hs Hi Ht).
    rewrite Hin. reflexivity.
  - intros Htrue. apply Hpad; assumption.
Qed.

End CentersOfSplatsFacts.

Module AddedCentersFacts.

(** [getIntegerCenters(padFour, true)] on a mesh of one scene: the slots of
    the splats added since the last build. *)
Lemma added_integer_centers
  (w : World) (scene : SplatScene.t) (last : nat) (padFour : bool) :
  SplatMesh.scenes (mesh w) = [scene] ->
  SplatMesh.lastBuildSplatCount (mesh w) = [last] ->
  last <= SplatBuffer.getSplatCount (SplatScene.splatBuffer scene) ->
  let n := SplatBuffer.getSplatCount (SplatScene.splatBuffer scene) - last in
  let componentCount := if padFour then 4 else 3 in
  let sceneTransform :=
    sceneTransformOf (SplatMesh.dynamicMode (mesh w)) (SplatScene.transform scene) in
  exists intCenters,
    getIntegerCenters padFour true w = (w, Normal intCenters) /\
    TypedArray.kind intCenters = TypedArray.Int32Array /\
    TypedArray.length intCenters = N.of_nat (n * componentCount) /\
    (forall i t, i < n -> t < 3 ->
       TypedArray.get intCenters (i * componentCount + t)
       = Some (JsNumber.ofZ
                 (JsNumber.ToInt32
                    (scaleAndRound
                       (Some (JsNumber.fround
                                (SplatBuffer.centerComponent (SplatScene.splatBuffer scene)
                                   sceneTransform (last + i) t))))))) /\
    (padFour = true -> forall i, i < n ->
       TypedArray.get intCenters (i * 4 + 3) = Some (JsNumber.ofZ 1000)).
Proof.
  intros Hscenes Hlast Hle n componentCount sceneTransform.
  assert (Hcount : fillCountOf (mesh w) true = Some (Z.of_nat n)).
  { unfold fillCountOf, getSplatCount. rewrite Hscenes, Hlast. cbn. f_equal. lia. }
  rewrite (IntegerCentersFacts.getIntegerCenters_result w padFour true n)
    by (first [left; rewrite Hscenes; cbn; lia | exact Hcount]).
  fold componentCount.
  set (fc := TypedArray.create TypedArray.Float32Array (N.of_nat (n * 3))).
  assert (Hfilled :
    filledFloatCenters (mesh w) true fc
    = SplatBuffer.fillArray 3
        (SplatBuffer.centerComponent (SplatScene.splatBuffer scene) sceneTransform)
        (SplatBuffer.getSplatCount (SplatScene.splatBuffer scene)) fc (Some last) None
        (Some 0)).
  { unfold filledFloatCenters, fillSplatDataArrays_loop. rewrite Hscenes.
    cbn [length for_range Nat.sub seq fold_left].
    unfold fillSplatDataArrays_body. rewrite Hscenes, Hlast.
    cbn [lookup list_lookup]. unfold sceneTransform, sceneTransformOf.
    destruct (SplatMesh.dynamicMode (mesh w)); reflexivity. }
  rewrite Hfilled.
  destruct (FillScenesFacts.fillArray_shift 3
              (SplatBuffer.centerComponent (SplatScene.splatBuffer scene) sceneTransform)
              (SplatBuffer.getSplatCount (SplatScene.splatBuffer scene)) fc (Some last)
              (Some 0) ltac:(lia)) as (Hfk & Hfl & Hfe).
  cbn [default] in Hfe. unfold id in Hfe. fold n in Hfe.
  set (floatCenters := SplatBuffer.fillArray 3 _ _ fc (Some last) None (Some 0)) in *.
  destruct (CentersOfSplatsFacts.centers_loop_get floatCenters padFour n)
    as (Hkind & Hlen & Hget & Hpad).
  fold componentCount in Hkind, Hlen, Hget.
  eexists. split; [reflexivity|]. split; [exact Hkind|]. split; [exact Hlen|].
  split; [|exact Hpad].
  intros i t Hi Ht. rewrite Hget by assumption. do 3 f_equal.
  assert (Hin : TypedArray.inBounds fc (i * 3 + t) = true)
    by (apply (TypedArrayFacts.inBounds_lt _ _ (n * 3)); [reflexivity|nia]).
  rewrite TypedArrayFacts.get_inBounds
    by (rewrite <- Hin; apply PackedFacts.inBounds_eq; exact Hfl).
  rewrite Hfe, Hin, StoreLoops.within_true by nia. cbn [andb].
  assert ((i * 3 + t) / 3 = i) as ->
    by (symmetry; apply (Nat.div_unique _ 3 i t); lia).
  assert ((i * 3 + t) mod 3 = t) as ->
    by (symmetry; apply (Nat.mod_unique _ 3 i t); lia).
  replace (i - 0 + last) with (last + i) by lia. reflexivity.
Qed.

End AddedCentersFacts.

(** ** The integer centers of the splats added since the last build *)

(** X8. On a mesh of one scene whose last build recorded [last] splats,
    [getIntegerCenters(padFour, true)] returns an Int32Array that holds the
    splats added since then only, the first of them at slot 0: slot [i]
    holds the rounded thousandfold of the center of splat [last + i], read
    through a Float32Array and stored as a 32-bit integer, and 1000 as the
    fourth component when padded. The state is left as it is. *)
Theorem getIntegerCenters_since_last_build
  (w : World) (scene : SplatScene.t) (last : nat) (padFour : bool) :
  SplatMesh.scenes (mesh w) = [scene] ->
  SplatMesh.lastBuildSplatCount (mesh w) = [last] ->
  last <= SplatBuffer.getSplatCount (SplatScene.splatBuffer scene) ->
  let n := SplatBuffer.getSplatCount (SplatScene.splatBuffer scene) - last in
  let componentCount := if padFour then 4 else 3 in
  let sceneTransform :=
    sceneTransformOf (SplatMesh.dynamicMode (mesh w)) (SplatScene.transform scene) in
  exists intCenters,
    getIntegerCenters padFour true w = (w, Normal intCenters) /\
    TypedArray.kind intCenters = TypedArray.Int32Array /\
    TypedArray.length intCenters = N.of_nat (n * componentCount) /\
    (forall i t, i < n -> t < 3 ->
       TypedArray.get intCenters (i * componentCount + t)
       = Some (JsNumber.ofZ
                 (JsNumber.ToInt32
                    (scaleAndRound
                       (Some (JsNumber.fround
                                (SplatBuffer.centerComponent (SplatScene.splatBuffer scene)
                                   sceneTransform (last + i) t))))))) /\
    (padFour = true -> forall i, i < n ->
       TypedArray.get intCenters (i * 4 + 3) = Some (JsNumber.ofZ 1000)).
Proof.
  exact (AddedCentersFacts.added_integer_centers w scene last padFour).
Qed.

(** The 50 splats added to a buffer since a build of 100, padded to four
    components. *)
Lemma getIntegerCenters_since_last_build_witness :
  exists intCenters,
    getIntegerCenters true true Scenarios.grown = (Scenarios.grown, Normal intCenters) /\
    TypedArray.length intCenters = 200%N.
Proof.
  destruct (getIntegerCenters_since_last_build Scenarios.grown
              (sceneWith (Examples.buffer 0 200) Examples.identity 150) 100 true)
    as (intCenters & Hrun & _ & Hlen & _).
  - reflexivity.
  - reflexivity.
  - vm_compute. lia.
  - exists intCenters. split; [exact Hrun|exact Hlen].
Defined.

(** ** The integer centers of every splat *)

(** C8, amended. [getIntegerCenters(padFour, false)] returns an Int32Array
    of [componentCount] elements per splat of the mesh. The scenes follow
    one another, and the three components of splat [i] of scene [s] hold
    [Math.round(c * 1000.0)], where [c] is the component of the center of
    that splat read through the Float32Array, converted by the store of the
    Int32Array (ToInt32): that integer itself whenever it lies in
    [-2^31, 2^31). With padding to four components the fourth one is 1000.
    [getIntegerCenters(padFour, true)] on a mesh of one scene holds in the
    same way the splats added since the last build, from slot 0 on.
    [getIntegerMatrixArray] returns the 16 Numbers
    [Math.round(element * 1000.0)]. *)
Theorem getIntegerCenters_scaled_rounded_int32 (w : World) (padFour : bool) :
  let m := mesh w in
  let scenes := SplatMesh.scenes m in
  let componentCount := if padFour then 4 else 3 in
  let fixed (scene : SplatScene.t) (i t : nat) : JsNumber.t :=
    scaleAndRound
      (Some (JsNumber.fround
               (SplatBuffer.centerComponent (SplatScene.splatBuffer scene)
                  (sceneTransformOf (SplatMesh.dynamicMode m) (SplatScene.transform scene))
                  i t))) in
  (exists intCenters,
     getIntegerCenters padFour false w = (w, Normal intCenters) /\
     TypedArray.kind intCenters = TypedArray.Int32Array /\
     TypedArray.length intCenters = N.of_nat (getSplatCount m * componentCount) /\
     forall s scene i,
       scenes !! s = Some scene ->
       i < SplatBuffer.getSplatCount (SplatScene.splatBuffer scene) ->
       let slot := countOffset scenes s + i in
       (forall t, t < 3 ->
          TypedArray.get intCenters (slot * componentCount + t)
          = Some (JsNumber.ofZ (JsNumber.ToInt32 (fixed scene i t))) /\
          forall r, fixed scene i t = JsNumber.ofZ r -> (- 2 ^ 31 <= r < 2 ^ 31)%Z ->
                    TypedArray.get intCenters (slot * componentCount + t)
                    = Some (JsNumber.ofZ r)) /\
       (padFour = true ->
        TypedArray.get intCenters (slot * 4 + 3) = Some (JsNumber.ofZ 1000))) /\
  (forall scene last,
     scenes = [scene] -> SplatMesh.lastBuildSplatCount m = [last] ->
     last <= SplatBuffer.getSplatCount (SplatScene.splatBuffer scene) ->
     let n := SplatBuffer.getSplatCount (SplatScene.splatBuffer scene) - last in
     exists intCenters,
       getIntegerCenters padFour true w = (w, Normal intCenters) /\
       TypedArray.kind intCenters = TypedArray.Int32Array /\
       TypedArray.length intCenters = N.of_nat (n * componentCount) /\
       forall i, i < n ->
         (forall t, t < 3 ->
            TypedArray.get intCenters (i * componentCount + t)
            = Some (JsNumber.ofZ (JsNumber.ToInt32 (fixed scene (last + i) t))) /\
            forall r, fixed scene (last + i) t = JsNumber.ofZ r ->
                      (- 2 ^ 31 <= r < 2 ^ 31)%Z ->
                      TypedArray.get intCenters (i * componentCount + t)
                      = Some (JsNumber.ofZ r)) /\
         (padFour = true ->
          TypedArray.get intCenters (i * 4 + 3) = Some (JsNumber.ofZ 1000))) /\
  (forall matrix,
     length (getIntegerMatrixArray matrix) = 16 /\
     forall i, i < 16 ->
       getIntegerMatrixArray matrix !! i
       = Some (Some (scaleAndRound (Matrix4.elements matrix !! i)))).
Proof.
  intros m scenes componentCount fixed. subst m scenes componentCount fixed.
  cbv beta. split; [|split].
  - destruct (CentersOfSplatsFacts.all_integer_centers w padFour)
      as (intCenters & Hrun & Hkind & Hlen & Hslots).
    exists intCenters. split; [exact Hrun|]. split; [exact Hkind|]. split; [exact Hlen|].
    intros s scene i Hs Hi slot. destruct (Hslots s scene i Hs Hi) as [Hget Hpad].
    split; [|exact Hpad].
    intros t Ht. split; [exact (Hget t Ht)|].
    intros r Hr Hrange. subst slot. rewrite (Hget t Ht). do 2 f_equal.
    apply CentersOfSplatsFacts.ToInt32_in_range; assumption.
  - intros scene last Hscenes Hlast Hle n.
    destruct (AddedCentersFacts.added_integer_centers w scene last padFour Hscenes Hlast Hle)
      as (intCenters & Hrun & Hkind & Hlen & Hget & Hpad).
    exists intCenters. split; [exact Hrun|]. split; [exact Hkind|]. split; [exact Hlen|].
    intros i Hi. split; [|intros Htrue; apply Hpad; assumption].
    intros t Ht. split; [exact (Hget i t Hi Ht)|].
    intros r Hr Hrange. rewrite (Hget i t Hi Ht). do 2 f_equal.
    apply CentersOfSplatsFacts.ToInt32_in_range; assumption.
  - intros matrix. unfold getIntegerMatrixArray.
    rewrite (IntegerCentersFacts.assign_loop
               (fun i => scaleAndRound (Matrix4.elements matrix !! i)) 16).
    split; [reflexivity|].
    intros i Hi. rewrite list_lookup_fmap, lookup_seq_lt by exact Hi. reflexivity.
Qed.

(** The one splat of [Examples.far], whose center is (3000000, 0.5, -2.5),
    padded to four components: the second and the third component are 500
    and -2500, the fourth one is 1000. *)
Lemma getIntegerCenters_scaled_rounded_int32_witness :
  exists intCenters,
    getIntegerCenters true false Examples.far = (Examples.far, Normal intCenters)
    /\ TypedArray.length intCenters = 4%N
    /\ TypedArray.get intCenters 1 = Some (JsNumber.ofZ 500)
    /\ TypedArray.get intCenters 2 = Some (JsNumber.ofZ (-2500))
    /\ TypedArray.get intCenters 3 = Some (JsNumber.ofZ 1000).
Proof.
  destruct (getIntegerCenters_scaled_rounded_int32 Examples.far true)
    as [(intCenters & Hrun & _ & Hlen & Hslots) _].
  destruct (Hslots 0 {| SplatScene.splatBuffer := Examples.farBuffer;
                        SplatScene.transform := Examples.identity |} 0
              eq_refl ltac:(vm_compute; lia)) as [Hget Hpad].
  exists intCenters. split; [exact Hrun|]. split; [exact Hlen|].
  split; [|split].
  - apply (proj2 (Hget 1 ltac:(lia)) 500%Z); [vm_compute; reflexivity|lia].
  - apply (proj2 (Hget 2 ltac:(lia)) (-2500)%Z); [vm_compute; reflexivity|lia].
  - exact (Hpad eq_refl).
Defined.


(** ** Disposal, for every state *)

Module DisposeFacts.
Import Returns.

Lemma world_eta w :
  {| mesh := mesh w; gl := gl w; three := three w; nextTextureId := nextTextureId w |} = w.
Proof. destruct w; reflexivity. Qed.

Lemma withMesh_same f w : f (mesh w) = mesh w -> withMesh f w = w.
Proof. intros H. unfold withMesh. rewrite H. apply world_eta. Qed.

Lemma splatDataTextures_eta m :
  SplatMesh.set_splatDataTextures (SplatMesh.splatDataTextures m) m = m.
Proof. destruct m; reflexivity. Qed.

Lemma splatTree_eta m : SplatMesh.set_splatTree (SplatMesh.splatTree m) m = m.
Proof. destruct m; reflexivity. Qed.

Lemma kept_unbind h (b b' : option GL.handle) :
  b' = b \/ b' = None -> GL.unbind h b' = b \/ GL.unbind h b' = None.
Proof.
  intros [->| ->]; [|right; reflexivity].
  destruct b as [h'|]; [|right; reflexivity].
  cbn. destruct (Nat.eqb h h'); [right|left]; reflexivity.
Qed.

Lemma disposeGPUResources_result w r :
  SplatMesh.renderer (mesh w) = Some r ->
  let d := SplatMesh.distancesTransformFeedback (mesh w) in
  let d' :=
    DTF.setObjects None
      (match DTF.program d with Some _ => None | None => DTF.vertexShader d end)
      (match DTF.program d with Some _ => None | None => DTF.fragmentShader d end)
      None None (DTF.transformIndexesBuffer d) None None d in
  exists g,
    disposeDistancesComputationGPUResources w
    = ({| mesh := SplatMesh.set_distancesTransformFeedback d' (mesh w); gl := g;
          three := three w; nextTextureId := nextTextureId w |}, Normal tt)
    /\ GL.calls g = releaseCalls d ++ GL.calls (gl w)
    /\ (forall h,
         DTF.vao d <> Some h -> DTF.program d <> Some h ->
         DTF.vertexShader d <> Some h -> DTF.fragmentShader d <> Some h ->
         DTF.outDistancesBuffer d <> Some h -> DTF.id d <> Some h ->
         GL.objects g !! h = GL.objects (gl w) !! h)
    /\ GL.nextHandle g = GL.nextHandle (gl w)
    /\ (GL.VERTEX_ARRAY_BINDING g = GL.VERTEX_ARRAY_BINDING (gl w)
        \/ GL.VERTEX_ARRAY_BINDING g = None)
    /\ GL.CURRENT_PROGRAM g = GL.CURRENT_PROGRAM (gl w)
    /\ GL.createShaderSucceeds g = GL.createShaderSucceeds (gl w)
    /\ GL.COMPILE_STATUS g = GL.COMPILE_STATUS (gl w)
    /\ GL.LINK_STATUS g = GL.LINK_STATUS (gl w)
    /\ GL.attribLocation g = GL.attribLocation (gl w)
    /\ GL.uniformLocation g = GL.uniformLocation (gl w).
Proof.
  intros Hr d d'. subst d d'.
  destruct w as [m g t n]. cbn [mesh gl three nextTextureId] in *.
  destruct m as [rd hp dm en ib sc tr tx d lm sm lc lmx lsc wu ge ma cr cm].
  cbn [SplatMesh.renderer SplatMesh.distancesTransformFeedback] in *. subst rd.
  destruct d as [i vs fs p cb tib ob va cl ml tl tls].
  unfold disposeDistancesComputationGPUResources,
    disposeDistancesComputationGPUBufferResources, bind, getMesh, getDTF, gets, ret,
    glDo, setDTF, modify, withGL, withMesh.
  destruct va, p, vs, fs, cb, ob, i;
    (cbn [mesh gl three nextTextureId SplatMesh.renderer
          SplatMesh.distancesTransformFeedback SplatMesh.set_distancesTransformFeedback
          DTF.id DTF.vertexShader DTF.fragmentShader DTF.program DTF.centersBuffer
          DTF.transformIndexesBuffer DTF.outDistancesBuffer DTF.vao DTF.setObjects
          DTF.centersLoc DTF.modelViewProjLoc DTF.transformIndexesLoc DTF.transformsLocs];
     eexists; (split; [reflexivity|]); (split; [reflexivity|]);
     (split;
      [ intros h' H1 H2 H3 H4 H5 H6;
        cbn [GL.objects GL.delete GL.log GL.withBindings GL.withObjects];
        rewrite ?lookup_delete_ne by congruence; reflexivity
      | split; [reflexivity|];
        split;
        [ cbn [GL.VERTEX_ARRAY_BINDING GL.delete GL.log GL.withBindings GL.withObjects];
          repeat apply kept_unbind; left; reflexivity
        | repeat split ] ])).
Qed.

Lemma disposeGPUResources_without_renderer w :
  SplatMesh.renderer (mesh w) = None ->
  disposeDistancesComputationGPUResources w = (w, Normal tt).
Proof.
  intros Hr. unfold disposeDistancesComputationGPUResources, bind, getMesh, gets.
  rewrite Hr. reflexivity.
Qed.

Lemma disposeGPUResources_noop w :
  (is_Some (SplatMesh.renderer (mesh w)) ->
   let d := SplatMesh.distancesTransformFeedback (mesh w) in
   DTF.vao d = None /\ DTF.program d = None /\ DTF.centersBuffer d = None /\
   DTF.outDistancesBuffer d = None /\ DTF.id d = None) ->
  disposeDistancesComputationGPUResources w = (w, Normal tt).
Proof.
  intros H.
  destruct (SplatMesh.renderer (mesh w)) as [r|] eqn:Hr;
    [|apply disposeGPUResources_without_renderer; exact Hr].
  destruct (H ltac:(eexists; reflexivity)) as (Hv & Hp & Hc & Ho & Hi).
  unfold disposeDistancesComputationGPUResources,
    disposeDistancesComputationGPUBufferResources, bind, getMesh, getDTF, gets, ret.
  rewrite Hr, Hv, Hp, Hr, Hc, Ho, Hi. reflexivity.
Qed.

Lemma disposeMeshData_noop w :
  SplatMesh.geometry (mesh w) = None \/ SplatMesh.geometry (mesh w) = Some dummyGeometry ->
  SplatMesh.material (mesh w) = None ->
  disposeMeshData w = (w, Normal tt).
Proof.
  intros Hg Hm. unfold disposeMeshData, bind, getMesh, gets, ret.
  destruct Hg as [Hg|Hg]; rewrite Hg, Hm; reflexivity.
Qed.

Lemma disposeTextures_noop w :
  SplatMesh.splatDataTextures (mesh w) = None -> disposeTextures w = (w, Normal tt).
Proof.
  intros Ht. unfold disposeTextures, bind, getMesh, gets, ret, modify.
  rewrite Ht. f_equal. apply withMesh_same.
  rewrite <- Ht. apply splatDataTextures_eta.
Qed.

Lemma disposeSplatTree_noop w :
  SplatMesh.splatTree (mesh w) = None -> disposeSplatTree w = (w, Normal tt).
Proof.
  intros Ht. unfold disposeSplatTree, modify. f_equal. apply withMesh_same.
  rewrite <- Ht. apply splatTree_eta.
Qed.

Lemma dispose_noop w : disposedOf (mesh w) -> dispose w = (w, Normal tt).
Proof.
  intros (Hg & Hm & Ht & Htree & Hgpu). unfold dispose.
  rewrite (AccessFacts.bind_normal _ _ _ _ _ (disposeMeshData_noop w Hg Hm)).
  rewrite (AccessFacts.bind_normal _ _ _ _ _ (disposeTextures_noop w Ht)).
  rewrite (AccessFacts.bind_normal _ _ _ _ _ (disposeSplatTree_noop w Htree)).
  unfold bind at 1, getMesh, gets.
  destruct (SplatMesh.enableDistancesComputationOnGPU (mesh w)) eqn:He; [|reflexivity].
  apply disposeGPUResources_noop. intros Hr. exact (Hgpu eq_refl Hr).
Qed.

Lemma of_disposeGPUResources (Q : unit -> SplatMesh.t -> Prop) w :
  (forall d',
     (is_Some (SplatMesh.renderer (mesh w)) ->
      DTF.vao d' = None /\ DTF.program d' = None /\ DTF.centersBuffer d' = None /\
      DTF.outDistancesBuffer d' = None /\ DTF.id d' = None) ->
     Q tt (SplatMesh.set_distancesTransformFeedback d' (mesh w))) ->
  returns disposeDistancesComputationGPUResources Q w.
Proof.
  intros H.
  destruct (SplatMesh.renderer (mesh w)) as [r|] eqn:Hr.
  - destruct (disposeGPUResources_result w r Hr) as (g & Hrun & _).
    eexists _, tt. split; [exact Hrun|]. cbn [mesh]. apply H.
    intros _. repeat split.
  - exists w, tt. split; [apply disposeGPUResources_without_renderer; exact Hr|].
    replace (mesh w) with (SplatMesh.set_distancesTransformFeedback
                             (SplatMesh.distancesTransformFeedback (mesh w)) (mesh w))
      by (destruct (mesh w); reflexivity).
    apply H. intros [? ?]. discriminate.
Qed.

Lemma of_disposeMeshData_released (Q : unit -> SplatMesh.t -> Prop) w :
  (forall g, g = None \/ g = Some dummyGeometry ->
             Q tt (SplatMesh.set_meshData g None (mesh w))) ->
  returns disposeMeshData Q w.
Proof.
  intros H. unfold returns, disposeMeshData, bind, getMesh, gets, ret, modify.
  destruct w as [m g t n]. cbn [mesh] in *.
  destruct m as [rd hp dm en ib sc tr tx d lm sm lc lmx lsc wu ge ma cr cm].
  cbn [SplatMesh.geometry SplatMesh.material] in *.
  destruct ge as [[|k]|], ma as [mat|]; cbn;
    eexists _, tt; (split; [reflexivity|]); cbn [mesh];
    first [ exact (H None (or_introl eq_refl))
          | exact (H (Some dummyGeometry) (or_intror eq_refl)) ].
Qed.

Lemma dispose_disposedOf w : returns dispose (fun _ m => disposedOf m) w.
Proof.
  unfold dispose.
  apply of_bind, of_disposeMeshData_released. intros g Hg w1 Hw1.
  apply of_bind, of_disposeTextures. intros w2 Hw2.
  apply of_bind. unfold disposeSplatTree. apply of_modify_mesh. intros w3 Hw3.
  apply of_bind, of_getMesh. intros w4 Hw4.
  rewrite Hw3, Hw2, Hw1.
  cbn [SplatMesh.enableDistancesComputationOnGPU SplatMesh.set_splatTree
       SplatMesh.set_splatDataTextures SplatMesh.set_meshData].
  destruct (SplatMesh.enableDistancesComputationOnGPU (mesh w)) eqn:He.
  - apply of_disposeGPUResources. intros d' Hd'.
    rewrite Hw4, Hw3, Hw2, Hw1 in *. cbn in Hd'.
    split; [exact Hg|]. split; [reflexivity|]. split; [reflexivity|].
    split; [reflexivity|].
    cbn. intros _ Hr. exact (Hd' Hr).
  - apply of_ret. rewrite Hw4, Hw3, Hw2, Hw1.
    split; [exact Hg|]. split; [reflexivity|]. split; [reflexivity|].
    split; [reflexivity|].
    cbn. rewrite He. discriminate.
Qed.

End DisposeFacts.

(** X9. [dispose()] never throws, whatever the state of the instance. It
    leaves no geometry but the shared dummy one, no material, no texture
    and no tree, and with a renderer and the distances computation enabled
    the references to the vertex array, the program, the centers buffer,
    the output buffer and the transform feedback are [null]. A second
    [dispose()] right after it returns without disposing of anything,
    without a WebGL call and without changing the state. *)
Theorem dispose_twice (w : World) :
  exists w',
    dispose w = (w', Normal tt) /\ disposedOf (mesh w') /\ dispose w' = (w', Normal tt).
Proof.
  destruct (DisposeFacts.dispose_disposedOf w) as (w' & [] & Hrun & Hd).
  exists w'. split; [exact Hrun|]. split; [exact Hd|].
  apply DisposeFacts.dispose_noop. exact Hd.
Qed.

(** X10. With a renderer, [disposeDistancesComputationGPUResources] never
    throws and changes nothing of the instance but the object references of
    the distances computation and nothing of Three.js. For each reference
    that is set it makes these WebGL calls: the deletion of the vertex
    array; of the program and of what [vertexShader] and [fragmentShader]
    hold; [deleteBuffer(null)] in the place of the centers buffer, whose
    reference is cleared before the call; the deletion of the output
    buffer; that of the transform feedback. The only buffer ever passed to
    [deleteBuffer] is the output buffer, the reference to the
    transform-indexes buffer is kept, and every WebGL object other than the
    ones passed to these calls is left in the context. *)
Theorem disposeDistancesComputationGPUResources_calls (w : World) (r : Renderer.t) :
  SplatMesh.renderer (mesh w) = Some r ->
  let d := SplatMesh.distancesTransformFeedback (mesh w) in
  exists w',
    disposeDistancesComputationGPUResources w = (w', Normal tt) /\
    (let d' := SplatMesh.distancesTransformFeedback (mesh w') in
     mesh w' = SplatMesh.set_distancesTransformFeedback d' (mesh w) /\
     DTF.vao d' = None /\ DTF.program d' = None /\ DTF.centersBuffer d' = None /\
     DTF.outDistancesBuffer d' = None /\ DTF.id d' = None /\
     DTF.transformIndexesBuffer d' = DTF.transformIndexesBuffer d) /\
    three w' = three w /\
    GL.calls (gl w') = releaseCalls d ++ GL.calls (gl w) /\
    (forall h, In (GL.deleteBuffer (Some h)) (releaseCalls d) ->
               DTF.outDistancesBuffer d = Some h) /\
    (forall h,
       DTF.vao d <> Some h -> DTF.program d <> Some h ->
       DTF.vertexShader d <> Some h -> DTF.fragmentShader d <> Some h ->
       DTF.outDistancesBuffer d <> Some h -> DTF.id d <> Some h ->
       GL.objects (gl w') !! h = GL.objects (gl w) !! h).
Proof.
  intros Hr d.
  destruct (DisposeFacts.disposeGPUResources_result w r Hr) as (g & Hrun & Hcalls & Hobj & _).
  eexists. split; [exact Hrun|].
  cbn [mesh gl three SplatMesh.distancesTransformFeedback
       SplatMesh.set_distancesTransformFeedback].
  split; [repeat split|]. split; [reflexivity|]. split; [exact Hcalls|].
  split; [|exact Hobj].
  intros h Hin. unfold releaseCalls in Hin. fold d in Hin.
  destruct (DTF.id d), (DTF.outDistancesBuffer d), (DTF.centersBuffer d),
    (DTF.program d), (DTF.vao d); cbn in Hin;
    repeat (destruct Hin as [Hin|Hin]; [try discriminate; try (inversion Hin; reflexivity)|]);
    try contradiction.
Qed.

(** The instance of the disposal example: its centers buffer 5 is still in
    the context after the call. *)
Lemma disposeDistancesComputationGPUResources_calls_witness :
  exists w',
    disposeDistancesComputationGPUResources Examples.rendered = (w', Normal tt) /\
    GL.objects (gl w') !! 5 = GL.objects (gl Examples.rendered) !! 5.
Proof.
  destruct (disposeDistancesComputationGPUResources_calls Examples.rendered
              Examples.renderer)
    as (w' & Hrun & _ & _ & _ & _ & Hobj).
  - reflexivity.
  - exists w'. split; [exact Hrun|]. apply Hobj; vm_compute; discriminate.
Defined.

(** ** [setupDistancesComputationTransformFeedback] *)

Module Wp.

Lemma wp_ret {A} (a : A) Q E w : Q a w -> wp (ret a) Q E w.
Proof. exact id. Qed.

Lemma wp_throw {A} e (Q : A -> World -> Prop) E w : E e w -> wp (throw e) Q E w.
Proof. exact id. Qed.

Lemma wp_bind {A B} (c : Method A) (k : A -> Method B) Q E w :
  wp c (fun a w' => wp (k a) Q E w') E w -> wp (bind c k) Q E w.
Proof. unfold wp, bind. destruct (c w) as [w' [a|e]]; exact id. Qed.

Lemma wp_gets {A} (f : World -> A) Q E w : Q (f w) w -> wp (gets f) Q E w.
Proof. exact id. Qed.

Lemma wp_modify (f : World -> World) Q E w : Q tt (f w) -> wp (modify f) Q E w.
Proof. exact id. Qed.

Lemma wp_glCreate k c Q E w :
  Q (GL.nextHandle (gl w)) (withGL (fun _ => fst (GL.create k c (gl w))) w) ->
  wp (glCreate k c) Q E w.
Proof. exact id. Qed.

Lemma wp_conseq {A} (c : Method A) (Q Q' : A -> World -> Prop) (E E' : JsError -> World -> Prop) w :
  wp c Q E w -> (forall a w', Q a w' -> Q' a w') -> (forall e w', E e w' -> E' e w') ->
  wp c Q' E' w.
Proof. unfold wp. destruct (c w) as [w' [a|e]]; auto. Qed.

Lemma wp_throws {A} (c : Method A) (P : JsError -> World -> Prop) w :
  wp c (fun _ _ => False) P w -> exists w' e, c w = (w', Throw e) /\ P e w'.
Proof.
  unfold wp. destruct (c w) as [w' [a|e]]; [contradiction|]. intros H. exists w', e. auto.
Qed.

Lemma wp_returns {A} (c : Method A) (P : A -> World -> Prop) w :
  wp c P (fun _ _ => False) w -> exists w' a, c w = (w', Normal a) /\ P a w'.
Proof.
  unfold wp. destruct (c w) as [w' [a|e]]; [|contradiction]. intros H. exists w', a. auto.
Qed.

Lemma wp_of_run {A} (c : Method A) Q E w w' r :
  c w = (w', r) ->
  match r with Normal a => Q a w' | Throw e => E e w' end -> wp c Q E w.
Proof. unfold wp. intros ->. exact id. Qed.

(** Sequencing through an invariant of the state. *)
Lemma wp_bind_inv {A B} (I : World -> Prop) (c : Method A) (k : A -> Method B) Q E w :
  wp c (fun _ w' => I w') E w ->
  (forall a w', I w' -> wp (k a) Q E w') ->
  wp (bind c k) Q E w.
Proof.
  intros Hc Hk. apply wp_bind. apply (wp_conseq _ _ _ _ _ _ Hc); [|auto].
  intros a w' HI. apply Hk. exact HI.
Qed.

End Wp.

Ltac wp_prim :=
  lazymatch goal with
  | |- wp (bind _ _) _ _ _ => apply Wp.wp_bind
  | |- wp (ret _) _ _ _ => apply Wp.wp_ret
  | |- wp (throw _) _ _ _ => apply Wp.wp_throw
  | |- wp (gets _) _ _ _ => apply Wp.wp_gets
  | |- wp getMesh _ _ _ => apply Wp.wp_gets
  | |- wp getDTF _ _ _ => apply Wp.wp_gets
  | |- wp (glGet _) _ _ _ => apply Wp.wp_gets
  | |- wp (modify _) _ _ _ => apply Wp.wp_modify
  | |- wp (glDo _) _ _ _ => apply Wp.wp_modify
  | |- wp (setDTF _) _ _ _ => apply Wp.wp_modify
  | |- wp (glCreate _ _) _ _ _ => apply Wp.wp_glCreate
  | |- wp (programArgument _ (Some _)) _ _ _ => unfold programArgument; apply Wp.wp_ret
  | |- wp (programArgument _ None) _ _ _ => unfold programArgument; apply Wp.wp_throw
  end; cbv beta.


(** Proof of [wp c (fun _ w' => I w') E w] for a [c] made of the
    primitives, where [I] does not look at what [c] changes and [E] is true,
    or [I], or [I] and the kind of the error: [solve_inv] proves [I] of an
    updated state from [I] of the state. *)
Ltac keeps_with I solve_inv :=
  lazymatch goal with
  | |- wp (bind _ _) _ _ _ =>
      apply (Wp.wp_bind_inv I); [keeps_with I solve_inv | intros ? ? ?; keeps_with I solve_inv]
  | |- wp (ret _) _ _ _ => apply Wp.wp_ret; solve_inv
  | |- wp (throw _) _ _ _ =>
      apply Wp.wp_throw; cbv beta;
      first [exact Logic.I | split; [solve_inv|eexists; reflexivity] | solve_inv]
  | |- wp (gets _) _ _ _ => apply Wp.wp_gets; solve_inv
  | |- wp getMesh _ _ _ => apply Wp.wp_gets; solve_inv
  | |- wp getDTF _ _ _ => apply Wp.wp_gets; solve_inv
  | |- wp (glGet _) _ _ _ => apply Wp.wp_gets; solve_inv
  | |- wp (glDo _) _ _ _ => apply Wp.wp_modify; solve_inv
  | |- wp (setDTF _) _ _ _ => apply Wp.wp_modify; solve_inv
  | |- wp (glCreate _ _) _ _ _ => apply Wp.wp_glCreate; solve_inv
  | |- wp (if ?b then _ else _) _ _ _ => destruct b; keeps_with I solve_inv
  | |- wp (match ?x with Some _ => _ | None => _ end) _ _ _ =>
      destruct x; keeps_with I solve_inv
  | |- wp (createShader _ _) _ _ _ => unfold createShader; keeps_with I solve_inv
  | |- wp (programArgument _ _) _ _ _ => unfold programArgument; keeps_with I solve_inv
  | |- wp disposeDistancesComputationGPUResources _ _ _ =>
      unfold disposeDistancesComputationGPUResources; keeps_with I solve_inv
  | |- wp disposeDistancesComputationGPUBufferResources _ _ _ =>
      unfold disposeDistancesComputationGPUBufferResources; keeps_with I solve_inv
  end.

Module SetupFacts.

Ltac solve_unchanged :=
  cbv beta; unfold unchanged in *;
  cbn [mesh withGL withMesh SplatMesh.renderer SplatMesh.scenes
       SplatMesh.set_distancesTransformFeedback];
  assumption.

Lemma unchanged_maxSplatCount m0 w :
  unchanged m0 w -> getMaxSplatCount (mesh w) = getMaxSplatCount m0.
Proof. intros [_ H]. unfold getMaxSplatCount. rewrite H. reflexivity. Qed.

(** A set-up that returns leaves a state in which a set-up is a no-op. *)
Lemma setup_settles (w : World) :
  wp setupDistancesComputationTransformFeedback
    (fun _ w' => setupDistancesComputationTransformFeedback w' = (w', Normal tt))
    (fun _ _ => True) w.
Proof.
  unfold setupDistancesComputationTransformFeedback at 1.
  apply Wp.wp_bind, Wp.wp_gets.
  destruct (SplatMesh.renderer (mesh w)) as [rd|] eqn:Hr.
  2:{ apply Wp.wp_ret. unfold setupDistancesComputationTransformFeedback, bind, getMesh, gets.
      rewrite Hr. reflexivity. }
  destruct (negb (negb (option_nat_eqb (SplatMesh.currentRenderer (mesh w))
                          (Some (Renderer.id rd))))
            && negb (negb (option_nat_eqb (SplatMesh.currentMaxSplatCount (mesh w))
                             (Some (getMaxSplatCount (mesh w)))))) eqn:Hguard.
  { apply Wp.wp_ret. unfold setupDistancesComputationTransformFeedback, bind, getMesh, gets.
    rewrite Hr, Hguard. reflexivity. }
  clear Hguard.
  assert (H0 : unchanged (mesh w) w) by (split; reflexivity).
  remember (mesh w) as m0 eqn:Hm0.
  set (rgo := negb (option_nat_eqb (SplatMesh.currentRenderer m0) (Some (Renderer.id rd)))).
  set (rb := negb (option_nat_eqb (SplatMesh.currentMaxSplatCount m0)
                     (Some (getMaxSplatCount m0)))).
  clearbody rgo rb.
  repeat (apply (Wp.wp_bind_inv (unchanged m0));
          [solve [keeps_with (unchanged m0) solve_unchanged]
          | clear dependent w; intros ? w ?]).
  apply Wp.wp_modify.
  destruct H as [Hr' Hs'].
  unfold setupDistancesComputationTransformFeedback, bind, getMesh, gets.
  cbn [mesh withMesh SplatMesh.renderer SplatMesh.set_setupState
       SplatMesh.currentRenderer SplatMesh.currentMaxSplatCount].
  rewrite Hr', Hr.
  replace (getMaxSplatCount (SplatMesh.set_setupState (Some (Renderer.id rd))
                               (Some (getMaxSplatCount m0)) (mesh w)))
    with (getMaxSplatCount m0)
    by (unfold getMaxSplatCount; cbn [SplatMesh.scenes SplatMesh.set_setupState];
        rewrite Hs'; reflexivity).
  unfold option_nat_eqb. rewrite !bool_decide_eq_true_2 by reflexivity.
  reflexivity.
Qed.

End SetupFacts.

(** X11. A call of [setupDistancesComputationTransformFeedback] that
    returns leaves a state in which the next call is a no-op: it returns
    without a WebGL call and without changing the state, because the
    renderer and the max splat count are the ones that the first call has
    recorded. This holds for every state, with or without a renderer. *)
Theorem setup_twice_is_setup_once (w w' : World) :
  setupDistancesComputationTransformFeedback w = (w', Normal tt) ->
  setupDistancesComputationTransformFeedback w' = (w', Normal tt).
Proof.
  intros Hrun. pose proof (SetupFacts.setup_settles w) as H.
  unfold wp in H. rewrite Hrun in H. exact H.
Qed.

(** The set-up of an instance that has its renderer, twice. *)
Lemma setup_twice_is_setup_once_witness :
  setupDistancesComputationTransformFeedback
    (Examples.after setupDistancesComputationTransformFeedback Contexts.unprepared)
  = (Examples.after setupDistancesComputationTransformFeedback Contexts.unprepared,
     Normal tt).
Proof.
  apply (setup_twice_is_setup_once Contexts.unprepared).
  assert (H : snd (setupDistancesComputationTransformFeedback Contexts.unprepared)
              = Normal tt) by (vm_compute; reflexivity).
  unfold Examples.after. rewrite <- H. apply surjective_pairing.
Defined.

Ltac wp_simpl :=
  cbn [id mesh gl three nextTextureId withGL withMesh fst snd negb andb orb
       GL.create GL.log GL.withObjects GL.withBindings GL.doBindVertexArray
       GL.doUseProgram GL.doBindBuffer GL.delete GL.unbind
       GL.objects GL.nextHandle GL.VERTEX_ARRAY_BINDING GL.CURRENT_PROGRAM
       GL.ARRAY_BUFFER_BINDING GL.TEXTURE_BINDING_2D GL.calls GL.createShaderSucceeds
       GL.COMPILE_STATUS GL.LINK_STATUS GL.attribLocation GL.uniformLocation
       SplatMesh.renderer SplatMesh.dynamicMode SplatMesh.integerBasedDistancesComputation
       SplatMesh.enableDistancesComputationOnGPU SplatMesh.scenes
       SplatMesh.distancesTransformFeedback SplatMesh.set_distancesTransformFeedback
       SplatMesh.currentRenderer SplatMesh.currentMaxSplatCount SplatMesh.set_setupState
       DTF.id DTF.vertexShader DTF.fragmentShader DTF.program DTF.centersBuffer
       DTF.transformIndexesBuffer DTF.outDistancesBuffer DTF.vao DTF.centersLoc
       DTF.modelViewProjLoc DTF.transformIndexesLoc DTF.transformsLocs
       DTF.setObjects DTF.setLocations].

Lemma set_distancesTransformFeedback_twice d d' m :
  SplatMesh.set_distancesTransformFeedback d' (SplatMesh.set_distancesTransformFeedback d m)
  = SplatMesh.set_distancesTransformFeedback d' m.
Proof. reflexivity. Qed.

(** The state of a run is kept as a record of its fields. *)
Ltac wp_state :=
  lazymatch goal with
  | |- wp _ _ _ ?s =>
      let s' := eval cbv beta iota delta
                  [mesh gl three nextTextureId withGL withMesh] in s in
      change s with s'
  end;
  cbn [SplatMesh.distancesTransformFeedback SplatMesh.set_distancesTransformFeedback];
  repeat lazymatch goal with
  | |- context [SplatMesh.set_distancesTransformFeedback ?a
                  (SplatMesh.set_distancesTransformFeedback ?b ?m)] =>
      change (SplatMesh.set_distancesTransformFeedback a
                (SplatMesh.set_distancesTransformFeedback b m))
        with (SplatMesh.set_distancesTransformFeedback a m)
  end;
  lazymatch goal with
  | |- wp _ _ _ ?s =>
      let s' := eval cbv beta iota delta
                  [id fst snd
                   GL.create GL.log GL.withObjects GL.withBindings GL.doBindVertexArray
                   GL.doUseProgram GL.doBindBuffer
                   GL.objects GL.nextHandle GL.VERTEX_ARRAY_BINDING GL.CURRENT_PROGRAM
                   GL.ARRAY_BUFFER_BINDING GL.TEXTURE_BINDING_2D GL.calls
                   GL.createShaderSucceeds GL.COMPILE_STATUS GL.LINK_STATUS
                   GL.attribLocation GL.uniformLocation
                   DTF.id DTF.vertexShader DTF.fragmentShader DTF.program DTF.centersBuffer
                   DTF.transformIndexesBuffer DTF.outDistancesBuffer DTF.vao DTF.centersLoc
                   DTF.modelViewProjLoc DTF.transformIndexesLoc DTF.transformsLocs
                   DTF.setObjects DTF.setLocations] in s in
      change s with s'
  end.

Lemma is_Some_true {A} (x : A) : bool_decide (is_Some (Some x)) = true.
Proof. apply bool_decide_eq_true_2. eauto. Qed.

Lemma is_Some_false {A} : bool_decide (is_Some (@None A)) = false.
Proof. apply bool_decide_eq_false_2. intros [? ?]. discriminate. Qed.

Ltac wp_step := wp_prim; wp_simpl; try wp_state.


(** The start of a set-up that rebuilds the objects: the disposal has run,
    and the context and the references are records of their fields. *)
Ltac setup_enter w r Hr Hcur :=
  let g := fresh "g" in
  let Hrun := fresh "Hrun" in
  destruct (DisposeFacts.disposeGPUResources_result w r Hr)
    as (g & Hrun & _ & _ & Hnext & Hvab & Hprog & Hcss & Hcomp & Hlink & _ & _);
  unfold setupDistancesComputationTransformFeedback;
  wp_prim; wp_prim;
  rewrite Hr;
  unfold option_nat_eqb; rewrite !(bool_decide_eq_false_2 _ Hcur);
  cbn [negb andb orb];
  wp_prim; apply (Wp.wp_of_run _ _ _ _ _ _ Hrun); clear Hrun;
  generalize dependent (SplatMesh.distancesTransformFeedback (mesh w));
  intros d0;
  generalize dependent (mesh w); intros m0; intros;
  destruct d0 as [i0 vs0 fs0 p0 cb0 tib0 ob0 va0 cl0 ml0 tl0 tls0];
  destruct g as [og ng vb cp ab tb calls css cst ls al ul];
  cbn [GL.createShaderSucceeds GL.COMPILE_STATUS GL.LINK_STATUS GL.nextHandle
       GL.VERTEX_ARRAY_BINDING GL.CURRENT_PROGRAM] in *;
  unfold createShader.

Ltac lookup_objects :=
  cbn [GL.objects gl];
  repeat first [rewrite lookup_insert_ne by lia | rewrite lookup_delete_ne by lia];
  first [apply lookup_insert_eq | apply lookup_delete_eq].

(** X12. The first set-up for a renderer, on a context whose shaders
    compile and whose program links, with [n] the next object of the
    context: it returns and changes nothing of the instance but the
    references of the distances computation and the two variables it
    records. It creates the vertex array [n], the program [n+1], the vertex
    shader [n+2], the fragment shader [n+3], the centers buffer [n+4], in
    dynamic mode the transform-indexes buffer [n+5], then the output buffer
    and the transform feedback, and all of them are in the context
    afterwards. [vertexShader] refers to the fragment shader and nothing
    refers to the vertex shader. The array buffer binding is left on the
    output buffer; the program in use is the one in use before or, if there
    was none, the new program; the vertex array binding is the one from
    before or the new vertex array, and the new one if there was none. *)
Theorem setup_creates_the_objects (w : World) (r : Renderer.t) :
  SplatMesh.renderer (mesh w) = Some r ->
  SplatMesh.currentRenderer (mesh w) <> Some (Renderer.id r) ->
  (forall type, GL.createShaderSucceeds (gl w) type = true
                /\ GL.COMPILE_STATUS (gl w) type = true) ->
  GL.LINK_STATUS (gl w) = true ->
  let n := GL.nextHandle (gl w) in
  let dynamicMode := SplatMesh.dynamicMode (mesh w) in
  let k := if dynamicMode then 1 else 0 in
  exists w' d',
    setupDistancesComputationTransformFeedback w = (w', Normal tt) /\
    mesh w'
    = SplatMesh.set_setupState (Some (Renderer.id r)) (Some (getMaxSplatCount (mesh w)))
        (SplatMesh.set_distancesTransformFeedback d' (mesh w)) /\
    three w' = three w /\
    (DTF.vao d' = Some n /\ DTF.program d' = Some (1 + n) /\
     DTF.vertexShader d' = Some (3 + n) /\ DTF.centersBuffer d' = Some (4 + n) /\
     DTF.transformIndexesBuffer d'
     = (if dynamicMode then Some (5 + n)
        else DTF.transformIndexesBuffer (SplatMesh.distancesTransformFeedback (mesh w))) /\
     DTF.outDistancesBuffer d' = Some (k + 5 + n) /\ DTF.id d' = Some (k + 6 + n)) /\
    (GL.objects (gl w') !! n = Some GL.VertexArray /\
     GL.objects (gl w') !! (1 + n) = Some GL.Program /\
     GL.objects (gl w') !! (2 + n) = Some (GL.Shader GL.VERTEX_SHADER) /\
     GL.objects (gl w') !! (3 + n) = Some (GL.Shader GL.FRAGMENT_SHADER) /\
     GL.objects (gl w') !! (4 + n) = Some GL.Buffer /\
     (dynamicMode = true -> GL.objects (gl w') !! (5 + n) = Some GL.Buffer) /\
     GL.objects (gl w') !! (k + 5 + n) = Some GL.Buffer /\
     GL.objects (gl w') !! (k + 6 + n) = Some GL.TransformFeedback /\
     GL.nextHandle (gl w') = k + 7 + n) /\
    GL.ARRAY_BUFFER_BINDING (gl w') = Some (k + 5 + n) /\
    GL.CURRENT_PROGRAM (gl w')
    = Some (default (1 + n) (GL.CURRENT_PROGRAM (gl w))) /\
    (GL.VERTEX_ARRAY_BINDING (gl w') = GL.VERTEX_ARRAY_BINDING (gl w)
     \/ GL.VERTEX_ARRAY_BINDING (gl w') = Some n) /\
    (GL.VERTEX_ARRAY_BINDING (gl w) = None -> GL.VERTEX_ARRAY_BINDING (gl w') = Some n).
Proof.
  intros Hr Hcur Hsh Hl n dyn k.
  destruct (Hsh GL.VERTEX_SHADER) as [Hcs1 Hco1].
  destruct (Hsh GL.FRAGMENT_SHADER) as [Hcs2 Hco2].
  enough (Hwp : wp setupDistancesComputationTransformFeedback
            (fun _ w' => exists d',
               mesh w'
               = SplatMesh.set_setupState (Some (Renderer.id r))
                   (Some (getMaxSplatCount (mesh w)))
                   (SplatMesh.set_distancesTransformFeedback d' (mesh w)) /\
               three w' = three w /\
               (DTF.vao d' = Some n /\ DTF.program d' = Some (1 + n) /\
                DTF.vertexShader d' = Some (3 + n) /\ DTF.centersBuffer d' = Some (4 + n) /\
                DTF.transformIndexesBuffer d'
                = (if dyn then Some (5 + n)
                   else DTF.transformIndexesBuffer
                          (SplatMesh.distancesTransformFeedback (mesh w))) /\
                DTF.outDistancesBuffer d' = Some (k + 5 + n) /\
                DTF.id d' = Some (k + 6 + n)) /\
               (GL.objects (gl w') !! n = Some GL.VertexArray /\
                GL.objects (gl w') !! (1 + n) = Some GL.Program /\
                GL.objects (gl w') !! (2 + n) = Some (GL.Shader GL.VERTEX_SHADER) /\
                GL.objects (gl w') !! (3 + n) = Some (GL.Shader GL.FRAGMENT_SHADER) /\
                GL.objects (gl w') !! (4 + n) = Some GL.Buffer /\
                (dyn = true -> GL.objects (gl w') !! (5 + n) = Some GL.Buffer) /\
                GL.objects (gl w') !! (k + 5 + n) = Some GL.Buffer /\
                GL.objects (gl w') !! (k + 6 + n) = Some GL.TransformFeedback /\
                GL.nextHandle (gl w') = k + 7 + n) /\
               GL.ARRAY_BUFFER_BINDING (gl w') = Some (k + 5 + n) /\
               GL.CURRENT_PROGRAM (gl w')
               = Some (default (1 + n) (GL.CURRENT_PROGRAM (gl w))) /\
               (GL.VERTEX_ARRAY_BINDING (gl w') = GL.VERTEX_ARRAY_BINDING (gl w)
                \/ GL.VERTEX_ARRAY_BINDING (gl w') = Some n) /\
               (GL.VERTEX_ARRAY_BINDING (gl w) = None ->
                GL.VERTEX_ARRAY_BINDING (gl w') = Some n))
            (fun _ _ => False) w).
  { destruct (Wp.wp_returns _ _ _ Hwp) as (w' & [] & Hrun & d' & H).
    exists w', d'. split; [exact Hrun|exact H]. }
  subst n dyn k.
  setup_enter w r Hr Hcur.
  rewrite <- Hcss in Hcs1, Hcs2. rewrite <- Hcomp in Hco1, Hco2. rewrite <- Hlink in Hl.
  rewrite <- Hnext, <- Hprog. clear Hnext Hprog Hcss Hcomp Hlink Hsh.
  set (vb0 := GL.VERTEX_ARRAY_BINDING (gl w)) in *. clearbody vb0.
  destruct (SplatMesh.dynamicMode m0) eqn:Hdyn, cp as [cp|], vb as [vb|];
    repeat first [ wp_step | progress wp_simpl
                 | rewrite is_Some_true | rewrite is_Some_false
                 | rewrite Hcs1 | rewrite Hcs2 | rewrite Hco1 | rewrite Hco2
                 | rewrite Hl ].
  all: eexists; (split; [reflexivity|]); (split; [reflexivity|]).
  all: cbn [gl GL.objects GL.ARRAY_BUFFER_BINDING GL.CURRENT_PROGRAM
            GL.VERTEX_ARRAY_BINDING GL.nextHandle DTF.vao DTF.program DTF.vertexShader
            DTF.centersBuffer DTF.transformIndexesBuffer DTF.outDistancesBuffer DTF.id
            default Nat.add].
  all: repeat match goal with |- _ /\ _ => split end.
  all: first
         [ reflexivity
         | lookup_objects
         | intros; first [discriminate | lookup_objects | reflexivity
                         | destruct Hvab; congruence]
         | destruct Hvab as [Hv|Hv]; [left; congruence|discriminate]
         | right; reflexivity ].
Qed.

(** On a fresh context the eight objects are 1 to 8, and the output
    buffer 7 stays bound. *)
Lemma setup_creates_the_objects_witness :
  exists w',
    setupDistancesComputationTransformFeedback Contexts.unprepared = (w', Normal tt) /\
    GL.ARRAY_BUFFER_BINDING (gl w') = Some 7.
Proof.
  destruct (setup_creates_the_objects Contexts.unprepared Examples.renderer)
    as (w' & d' & Hrun & _ & _ & _ & _ & Hab & _).
  - reflexivity.
  - vm_compute. discriminate.
  - intros []; split; reflexivity.
  - reflexivity.
  - exists w'. split; [exact Hrun|]. rewrite Hab. vm_compute. reflexivity.
Defined.

Ltac eqb_cases :=
  repeat (cbn [GL.unbind];
          match goal with
          | |- context [Nat.eqb ?a ?b] => destruct (Nat.eqb_spec a b); [lia|]
          end).

Ltac setup_leaf :=
  first [ reflexivity
        | lookup_objects
        | intros; first [congruence | lookup_objects]
        | eqb_cases; reflexivity ].

(** X13. When a shader of the set-up cannot be created or does not
    compile, the first set-up for a renderer throws the Error of the
    compilation, having changed nothing of the instance but the references
    of the distances computation; the variables of the closure are as
    before, so the next call tries again. The program that it has created
    is not deleted and no reference to it is kept; a vertex shader that
    did compile is not deleted either. The new vertex array stays bound:
    the binding from before the call is not restored. *)
Theorem setup_compile_failure (w : World) (r : Renderer.t) :
  SplatMesh.renderer (mesh w) = Some r ->
  SplatMesh.currentRenderer (mesh w) <> Some (Renderer.id r) ->
  (exists type, GL.createShaderSucceeds (gl w) type = false
                \/ GL.COMPILE_STATUS (gl w) type = false) ->
  let n := GL.nextHandle (gl w) in
  exists w' d',
    setupDistancesComputationTransformFeedback w
    = (w', Throw (Error "Could not compile shaders for distances computation on GPU.")) /\
    mesh w' = SplatMesh.set_distancesTransformFeedback d' (mesh w) /\
    three w' = three w /\
    DTF.vao d' = Some n /\ DTF.program d' = None /\
    GL.objects (gl w') !! n = Some GL.VertexArray /\
    GL.objects (gl w') !! (1 + n) = Some GL.Program /\
    (GL.createShaderSucceeds (gl w) GL.VERTEX_SHADER = true ->
     GL.COMPILE_STATUS (gl w) GL.VERTEX_SHADER = true ->
     GL.objects (gl w') !! (2 + n) = Some (GL.Shader GL.VERTEX_SHADER)) /\
    GL.VERTEX_ARRAY_BINDING (gl w') = Some n /\
    GL.CURRENT_PROGRAM (gl w') = GL.CURRENT_PROGRAM (gl w).
Proof.
  intros Hr Hcur Hfail n.
  enough (Hwp : wp setupDistancesComputationTransformFeedback (fun _ _ => False)
            (fun e w' =>
               e = Error "Could not compile shaders for distances computation on GPU." /\
               exists d',
                 mesh w' = SplatMesh.set_distancesTransformFeedback d' (mesh w) /\
                 three w' = three w /\
                 DTF.vao d' = Some n /\ DTF.program d' = None /\
                 GL.objects (gl w') !! n = Some GL.VertexArray /\
                 GL.objects (gl w') !! (1 + n) = Some GL.Program /\
                 (GL.createShaderSucceeds (gl w) GL.VERTEX_SHADER = true ->
                  GL.COMPILE_STATUS (gl w) GL.VERTEX_SHADER = true ->
                  GL.objects (gl w') !! (2 + n) = Some (GL.Shader GL.VERTEX_SHADER)) /\
                 GL.VERTEX_ARRAY_BINDING (gl w') = Some n /\
                 GL.CURRENT_PROGRAM (gl w') = GL.CURRENT_PROGRAM (gl w)) w).
  { destruct (Wp.wp_throws _ _ _ Hwp) as (w' & e & Hrun & -> & d' & H).
    exists w', d'. split; [exact Hrun|exact H]. }
  subst n.
  setup_enter w r Hr Hcur.
  rewrite <- Hcss, <- Hcomp, <- Hnext, <- Hprog in *.
  clear Hnext Hprog Hcss Hcomp Hlink Hvab.
  destruct (css GL.VERTEX_SHADER) eqn:Hcs1, (cst GL.VERTEX_SHADER) eqn:Hco1,
    (css GL.FRAGMENT_SHADER) eqn:Hcs2, (cst GL.FRAGMENT_SHADER) eqn:Hco2;
    try (exfalso; destruct Hfail as [[|] [H|H]]; congruence);
    clear Hfail;
    repeat first [ wp_step | progress wp_simpl
                 | rewrite Hcs1 | rewrite Hcs2 | rewrite Hco1 | rewrite Hco2 ].
  all: split; [reflexivity|]; eexists; (split; [reflexivity|]); (split; [reflexivity|]).
  all: cbn [gl GL.objects GL.CURRENT_PROGRAM GL.VERTEX_ARRAY_BINDING DTF.vao DTF.program
            Nat.add].
  all: repeat match goal with |- _ /\ _ => split end.
  all: setup_leaf.
Qed.

(** A context on which the fragment shader does not compile: the program
    2 is left in the context. *)
Lemma setup_compile_failure_witness :
  exists w',
    setupDistancesComputationTransformFeedback
      (Contexts.unpreparedOn
         (fun type => match type with GL.VERTEX_SHADER => true | _ => false end) true)
    = (w', Throw (Error "Could not compile shaders for distances computation on GPU.")) /\
    GL.objects (gl w') !! 2 = Some GL.Program.
Proof.
  destruct (setup_compile_failure
              (Contexts.unpreparedOn
                 (fun type => match type with GL.VERTEX_SHADER => true | _ => false end)
                 true)
              Examples.renderer)
    as (w' & d' & Hrun & _ & _ & _ & _ & _ & Hprogram & _).
  - reflexivity.
  - vm_compute. discriminate.
  - exists GL.FRAGMENT_SHADER. right. reflexivity.
  - exists w'. split; [exact Hrun|exact Hprogram].
Defined.

(** X14. When the shaders compile and the program does not link, the
    first set-up for a renderer throws the Error of the link, having
    deleted the program and the two shaders it has created. Nothing of the
    instance is changed but the references of the distances computation,
    among which there is no program; the variables of the closure are as
    before. The new vertex array is kept, referred to and left bound. *)
Theorem setup_link_failure (w : World) (r : Renderer.t) :
  SplatMesh.renderer (mesh w) = Some r ->
  SplatMesh.currentRenderer (mesh w) <> Some (Renderer.id r) ->
  (forall type, GL.createShaderSucceeds (gl w) type = true
                /\ GL.COMPILE_STATUS (gl w) type = true) ->
  GL.LINK_STATUS (gl w) = false ->
  let n := GL.nextHandle (gl w) in
  exists w' d',
    setupDistancesComputationTransformFeedback w
    = (w', Throw (Error "Could not link shaders for distances computation on GPU.")) /\
    mesh w' = SplatMesh.set_distancesTransformFeedback d' (mesh w) /\
    three w' = three w /\
    DTF.vao d' = Some n /\ DTF.program d' = None /\
    GL.objects (gl w') !! n = Some GL.VertexArray /\
    GL.objects (gl w') !! (1 + n) = None /\
    GL.objects (gl w') !! (2 + n) = None /\
    GL.objects (gl w') !! (3 + n) = None /\
    GL.VERTEX_ARRAY_BINDING (gl w') = Some n /\
    GL.CURRENT_PROGRAM (gl w') = GL.CURRENT_PROGRAM (gl w).
Proof.
  intros Hr Hcur Hsh Hl n.
  destruct (Hsh GL.VERTEX_SHADER) as [Hcs1 Hco1].
  destruct (Hsh GL.FRAGMENT_SHADER) as [Hcs2 Hco2].
  enough (Hwp : wp setupDistancesComputationTransformFeedback (fun _ _ => False)
            (fun e w' =>
               e = Error "Could not link shaders for distances computation on GPU." /\
               exists d',
                 mesh w' = SplatMesh.set_distancesTransformFeedback d' (mesh w) /\
                 three w' = three w /\
                 DTF.vao d' = Some n /\ DTF.program d' = None /\
                 GL.objects (gl w') !! n = Some GL.VertexArray /\
                 GL.objects (gl w') !! (1 + n) = None /\
                 GL.objects (gl w') !! (2 + n) = None /\
                 GL.objects (gl w') !! (3 + n) = None /\
                 GL.VERTEX_ARRAY_BINDING (gl w') = Some n /\
                 GL.CURRENT_PROGRAM (gl w') = GL.CURRENT_PROGRAM (gl w)) w).
  { destruct (Wp.wp_throws _ _ _ Hwp) as (w' & e & Hrun & -> & d' & H).
    exists w', d'. split; [exact Hrun|exact H]. }
  subst n.
  setup_enter w r Hr Hcur.
  rewrite <- Hcss in Hcs1, Hcs2. rewrite <- Hcomp in Hco1, Hco2. rewrite <- Hlink in Hl.
  rewrite <- Hnext, <- Hprog. clear Hnext Hprog Hcss Hcomp Hlink Hsh Hvab.
  repeat first [ wp_step | progress wp_simpl
               | rewrite Hcs1 | rewrite Hcs2 | rewrite Hco1 | rewrite Hco2 | rewrite Hl ].
  split; [reflexivity|]; eexists; (split; [reflexivity|]); (split; [reflexivity|]).
  cbn [gl GL.objects GL.CURRENT_PROGRAM GL.VERTEX_ARRAY_BINDING DTF.vao DTF.program
       Nat.add].
  repeat match goal with |- _ /\ _ => split end.
  all: setup_leaf.
Qed.

(** A context on which the program does not link: the program 2 is
    deleted. *)
Lemma setup_link_failure_witness :
  exists w',
    setupDistancesComputationTransformFeedback
      (Contexts.unpreparedOn (fun _ => true) false)
    = (w', Throw (Error "Could not link shaders for distances computation on GPU.")) /\
    GL.objects (gl w') !! 2 = None.
Proof.
  destruct (setup_link_failure (Contexts.unpreparedOn (fun _ => true) false)
              Examples.renderer)
    as (w' & d' & Hrun & _ & _ & _ & _ & _ & Hprogram & _).
  - reflexivity.
  - vm_compute. discriminate.
  - intros []; split; reflexivity.
  - reflexivity.
  - exists w'. split; [exact Hrun|exact Hprogram].
Defined.

(** ** [setRenderer] with the distances computed on floats *)

Module FloatModeFacts.





End FloatModeFacts.



(** ** The buffers of the distances computation *)

Module GpuBufferFacts.

Lemma length_integerCenters n (padFour : bool) floatCenters :
  TypedArray.length
    (for_range 0 n
       (getIntegerCenters_body floatCenters (if padFour then 4 else 3) padFour)
       (TypedArray.create TypedArray.Int32Array
          (N.of_nat (n * (if padFour then 4 else 3)))))
  = N.of_nat (n * (if padFour then 4 else 3)).
Proof.
  apply (IntegerCentersFacts.centers_loop_spec floatCenters padFour n); reflexivity.
Qed.

End GpuBufferFacts.

(** X16. With a renderer, in integer mode and with no more splats than
    the scenes can hold, [updateGPUCentersBufferForDistancesComputation()]
    returns: the integer centers, four per splat, fit in a new Uint32Array
    of 16 elements per splat of capacity, so [set] throws no RangeError. The
    array that [bufferData] uploads holds each integer center as an
    unsigned 32-bit integer and 0 from element [4 * splatCount] on. The
    calls are a bind of the vertex array of the distances computation, a
    bind of the centers buffer, the upload, an unbind of the array buffer
    and, only if a vertex array was bound before, a bind of that one. The
    instance and the objects of the context are left as they are. *)
Theorem updateGPUCentersBuffer_uploads_integer_centers (w : World) (r : Renderer.t) :
  SplatMesh.renderer (mesh w) = Some r ->
  SplatMesh.integerBasedDistancesComputation (mesh w) = true ->
  getSplatCount (mesh w) <= getMaxSplatCount (mesh w) ->
  let splatCount := getSplatCount (mesh w) in
  let maxSplatCount := getMaxSplatCount (mesh w) in
  let d := SplatMesh.distancesTransformFeedback (mesh w) in
  let currentVao := GL.VERTEX_ARRAY_BINDING (gl w) in
  exists w' intCenters,
    updateGPUCentersBufferForDistancesComputation false w = (w', Normal tt) /\
    getIntegerCenters true false w = (w, Normal intCenters) /\
    let maxArray :=
      TypedArray.set
        (TypedArray.create TypedArray.Uint32Array (N.of_nat (maxSplatCount * 16)))
        intCenters in
    mesh w' = mesh w /\ three w' = three w /\ GL.objects (gl w') = GL.objects (gl w) /\
    GL.calls (gl w')
    = match currentVao with Some _ => [GL.bindVertexArray currentVao] | None => [] end
      ++ [GL.bindBuffer GL.ARRAY_BUFFER None;
          GL.bufferData GL.ARRAY_BUFFER (GL.SrcArray maxArray) GL.STATIC_DRAW;
          GL.bindBuffer GL.ARRAY_BUFFER (DTF.centersBuffer d);
          GL.bindVertexArray (DTF.vao d)]
      ++ GL.calls (gl w) /\
    TypedArray.length intCenters = N.of_nat (splatCount * 4) /\
    (forall j, j < splatCount * 4 ->
       TypedArray.get maxArray j
       = Some (TypedArray.convert TypedArray.Uint32Array (TypedArray.elems intCenters j))) /\
    (forall j, splatCount * 4 <= j < maxSplatCount * 16 ->
       TypedArray.get maxArray j = Some JsNumber.zero) /\
    GL.ARRAY_BUFFER_BINDING (gl w') = None /\
    GL.VERTEX_ARRAY_BINDING (gl w')
    = match currentVao with Some _ => currentVao | None => DTF.vao d end.
Proof.
  intros Hr Hint Hle splatCount maxSplatCount d currentVao.
  pose proof (IntegerCentersFacts.getIntegerCenters_result w true false splatCount
                (or_intror eq_refl) eq_refl) as Hic.
  match type of Hic with _ = (_, Normal ?a) => set (intCenters := a) in * end.
  assert (Hlen : TypedArray.length intCenters = N.of_nat (splatCount * 4))
    by apply (GpuBufferFacts.length_integerCenters splatCount true).
  enough (Hwp : wp (updateGPUCentersBufferForDistancesComputation false)
            (fun _ w' =>
               let maxArray :=
                 TypedArray.set
                   (TypedArray.create TypedArray.Uint32Array (N.of_nat (maxSplatCount * 16)))
                   intCenters in
               mesh w' = mesh w /\ three w' = three w /\
               GL.objects (gl w') = GL.objects (gl w) /\
               GL.calls (gl w')
               = match currentVao with
                 | Some _ => [GL.bindVertexArray currentVao]
                 | None => []
                 end
                 ++ [GL.bindBuffer GL.ARRAY_BUFFER None;
                     GL.bufferData GL.ARRAY_BUFFER (GL.SrcArray maxArray) GL.STATIC_DRAW;
                     GL.bindBuffer GL.ARRAY_BUFFER (DTF.centersBuffer d);
                     GL.bindVertexArray (DTF.vao d)]
                 ++ GL.calls (gl w) /\
               GL.ARRAY_BUFFER_BINDING (gl w') = None /\
               GL.VERTEX_ARRAY_BINDING (gl w')
               = match currentVao with Some _ => currentVao | None => DTF.vao d end)
            (fun _ _ => False) w).
  { destruct (Wp.wp_returns _ _ _ Hwp)
      as (w' & [] & Hrun & Hm & Ht & Ho & Hc & Hab & Hvab).
    exists w', intCenters. split; [exact Hrun|]. split; [exact Hic|].
    cbv zeta. split; [exact Hm|]. split; [exact Ht|]. split; [exact Ho|].
    split; [exact Hc|]. split; [exact Hlen|].
    split; [|split; [|split; [exact Hab|exact Hvab]]].
    - intros j Hj. unfold TypedArray.get, TypedArray.set, TypedArray.inBounds.
      cbn [TypedArray.length TypedArray.elems TypedArray.kind TypedArray.create].
      rewrite Hlen.
      destruct (N.ltb_spec (N.of_nat j) (N.of_nat (maxSplatCount * 16))); [|lia].
      destruct (N.ltb_spec (N.of_nat j) (N.of_nat (splatCount * 4))); [|lia].
      reflexivity.
    - intros j Hj. unfold TypedArray.get, TypedArray.set, TypedArray.inBounds.
      cbn [TypedArray.length TypedArray.elems TypedArray.kind TypedArray.create].
      rewrite Hlen.
      destruct (N.ltb_spec (N.of_nat j) (N.of_nat (maxSplatCount * 16))); [|lia].
      destruct (N.ltb_spec (N.of_nat j) (N.of_nat (splatCount * 4))); [lia|].
      reflexivity. }
  unfold updateGPUCentersBufferForDistancesComputation.
  apply Wp.wp_bind.
  eapply Wp.wp_of_run;
    [apply checkForMultiSceneUpdateCondition_passes; right; reflexivity|].
  cbv beta iota.
  wp_prim. wp_prim. rewrite Hr, Hint.
  wp_prim. wp_prim. wp_prim. wp_prim. wp_prim. wp_prim.
  apply Wp.wp_bind.
  eapply Wp.wp_of_run.
  { apply (IntegerCentersFacts.getIntegerCenters_result _ true false splatCount);
      [right; reflexivity|reflexivity]. }
  cbv beta iota. cbn [mesh withGL]. fold intCenters.
  wp_prim. wp_prim. wp_prim. wp_prim.
  unfold typedArraySet.
  replace (TypedArray.fits _ intCenters) with true
    by (unfold TypedArray.fits; cbn [TypedArray.length TypedArray.create];
        rewrite Hlen; symmetry; apply N.leb_le; fold maxSplatCount; lia).
  wp_prim. wp_prim. wp_prim. wp_prim. wp_prim.
  subst currentVao. cbn [gl withGL].
  destruct (GL.VERTEX_ARRAY_BINDING (gl w)) as [v|] eqn:Hv.
  - rewrite is_Some_true. wp_prim. cbn. repeat split.
  - rewrite is_Some_false. wp_prim. cbn. repeat split.
Qed.

(** The instance of the disposal example: two splats, a capacity of four. *)
Lemma updateGPUCentersBuffer_uploads_integer_centers_witness :
  exists w' intCenters,
    updateGPUCentersBufferForDistancesComputation false Examples.rendered
    = (w', Normal tt) /\
    getIntegerCenters true false Examples.rendered = (Examples.rendered, Normal intCenters) /\
    TypedArray.length intCenters = 8%N.
Proof.
  destruct (updateGPUCentersBuffer_uploads_integer_centers Examples.rendered
              Examples.renderer)
    as (w' & intCenters & Hrun & Hic & _ & _ & _ & _ & Hlen & _).
  - reflexivity.
  - reflexivity.
  - vm_compute. lia.
  - exists w', intCenters. split; [exact Hrun|]. split; [exact Hic|].
    rewrite Hlen. vm_compute. reflexivity.
Defined.

(** ** The packed data after a full rebuild *)

(** X17. A full rebuild of one scene that holds [n] splats of a buffer,
    [n] within its capacity, returns on every instance and leaves the
    packed data of these splats: base arrays of 6, 3 and 4 elements per
    splat of capacity with the covariances, centers and colors of the
    first [n] splats and 0 elsewhere; a covariances array of the size of
    its texture that holds the base covariances as floats or, in half
    precision, as 16-bit integers; an array of four 32-bit words per splat,
    the RGBA word of the color and the bit patterns of the three center
    components; in dynamic mode only, an array of the scene index of each
    splat. Each descriptor has a texture. The scene list is the one scene
    and the recorded splat counts are reset to 0. *)
Theorem fullRebuild_packs_the_splats
  (sb : SplatBuffer.t) (transform : Matrix4.t) (n : nat) (w : World) :
  n <= SplatBuffer.getMaxSplatCount sb ->
  returns (fullRebuild sb transform n)
    (fun _ m =>
       packed sb transform n m /\
       SplatMesh.scenes m = [sceneWith sb transform n] /\
       SplatMesh.lastBuildSplatCount m = [0] /\
       SplatMesh.dynamicMode m = SplatMesh.dynamicMode (mesh w) /\
       SplatMesh.halfPrecisionCovariancesOnGPU m
       = SplatMesh.halfPrecisionCovariancesOnGPU (mesh w)) w.
Proof.
  intros Hn. apply BuildFacts.of_fullRebuild; [exact Hn|].
  intros m (Hs & Hl & Hd & Hh & _) Hp.
  split; [exact Hp|]. repeat split; assumption.
Qed.

(** The first 100 splats of a buffer of capacity 200. *)
Lemma fullRebuild_packs_the_splats_witness :
  returns (fullRebuild (Examples.buffer 0 200) Examples.identity 100)
    (fun _ m => packed (Examples.buffer 0 200) Examples.identity 100 m) Examples.attached.
Proof.
  apply (Returns.conseq _ _ _ _
           (fullRebuild_packs_the_splats (Examples.buffer 0 200) Examples.identity 100
              Examples.attached ltac:(simpl; lia))).
  intros _ m [Hp _]. exact Hp.
Defined.

(** ** The set-up after a change of the max splat count *)

Module RebuildBuffersFacts.


End RebuildBuffersFacts.



(** ** The worker of the splat tree *)

Module SplatTreeFacts.
Import SplatTreeWorker.

Lemma elem_of_flat_map {A B} (f : A -> list B) (l : list A) (x : B) :
  x ∈ flat_map f l <-> exists y, y ∈ l /\ x ∈ f y.
Proof.
  rewrite list_elem_of_In, in_flat_map.
  split; intros (y & H1 & H2); exists y; rewrite ?list_elem_of_In in *; auto.
Qed.

Lemma addNew_spec (indexes : list nat) : forall added acc,
  exists extra,
    addNew indexes added acc = (acc ++ extra, added ∪ list_to_set extra) /\
    NoDup extra /\
    (forall i, i ∈ extra -> (i ∉ added) /\ i ∈ indexes) /\
    (forall i, i ∈ indexes -> i ∈ added \/ i ∈ extra) /\
    length extra <= length indexes.
Proof.
  induction indexes as [|i rest IH]; intros added acc; cbn [addNew].
  - exists []. rewrite app_nil_r. split_and!.
    + f_equal. set_solver.
    + constructor.
    + intros j Hj. set_solver.
    + intros j Hj. set_solver.
    + reflexivity.
  - destruct (decide (i ∈ added)) as [Hin|Hnin].
    + destruct (IH added acc) as (extra & -> & Hnd & Hsub & Hall & Hlen).
      exists extra. split_and!; try assumption; try reflexivity.
      * intros j Hj. destruct (Hsub j Hj). split; [assumption | right; assumption].
      * intros j Hj. apply elem_of_cons in Hj as [->|Hj]; [left; assumption | apply Hall, Hj].
      * cbn. lia.
    + destruct (IH ({[i]} ∪ added) (acc ++ [i])) as (extra & -> & Hnd & Hsub & Hall & Hlen).
      exists (i :: extra). split_and!.
      * f_equal; [rewrite <- app_assoc; reflexivity | set_solver].
      * apply NoDup_cons. split; [|assumption].
        intros Hi. apply Hsub in Hi as [Hi _]. set_solver.
      * intros j Hj. apply elem_of_cons in Hj as [->|Hj].
        -- split; [assumption | left].
        -- destruct (Hsub j Hj) as [H1 H2]. split; [set_solver | right; assumption].
      * intros j Hj. apply elem_of_cons in Hj as [->|Hj]; [right; left|].
        destruct (Hall j Hj) as [H|H]; [|right; right; assumption].
        apply elem_of_union in H as [H|H]; [right; set_solver | left; assumption].
      * cbn. lia.
Qed.

Lemma zip_with_zip_with_l {A B} (f g : A -> B -> B) (l : list A) : forall k,
  zip_with f l (zip_with g l k) = zip_with (fun a b => f a (g a b)) l k.
Proof.
  induction l as [|a l IH]; intros [|b k]; cbn; try reflexivity.
  f_equal. apply IH.
Qed.

Lemma zip_with_app_nil {A B} (l : list A) : forall k : list (list B),
  length k = length l -> zip_with (fun _ base => base ++ []) l k = k.
Proof.
  induction l as [|a l IH]; intros [|b k] Hlen; cbn in *; try reflexivity; try discriminate.
  rewrite app_nil_r. f_equal. apply IH. lia.
Qed.

Lemma distribute_spec (indexToCenter : gmap nat Center) (bounds : list WorkerBox3)
  (indexes : list nat) : forall baseIndexes,
  length baseIndexes = length bounds ->
  (forall i, i ∈ indexes -> is_Some (indexToCenter !! i)) ->
  distribute indexToCenter bounds indexes baseIndexes
  = Done (zip_with (fun box base =>
                      base ++ filter (fun i => holds indexToCenter box i = true) indexes)
            bounds baseIndexes).
Proof.
  induction indexes as [|i rest IH]; intros base Hlen Hdom; cbn [distribute].
  - f_equal. symmetry. apply zip_with_app_nil. assumption.
  - destruct (Hdom i) as [c Hc]; [left|]. rewrite Hc.
    rewrite IH.
    + rewrite zip_with_zip_with_l. f_equal.
      apply zip_with_ext; [|reflexivity..]. intros box x.
      assert (Hh : holds indexToCenter box i = containsPoint box (point c))
        by (unfold holds; rewrite Hc; reflexivity).
      destruct (containsPoint box (point c)).
      * rewrite filter_cons_True by exact Hh. rewrite <- app_assoc. reflexivity.
      * rewrite filter_cons_False by (rewrite Hh; discriminate). reflexivity.
    + rewrite length_zip_with. lia.
    + intros j Hj; apply Hdom; right; assumption.
Qed.

Lemma makeChildren_spec (f : WorkerBox3 -> list nat) (d : nat) (bounds : list WorkerBox3) :
  forall g,
  exists cs,
    makeChildren bounds
      (zip_with (fun box base => base ++ f box) bounds (replicate (length bounds) [])) d g
    = (cs, g + length bounds) /\
    length cs = length bounds /\
    map id cs = seq g (length bounds) /\
    Forall (fun c => children c = [] /\ depth c = d /\
                     exists box, nodeMin c = boxMin box /\ nodeMax c = boxMax box /\
                                 data c = Indexes (f box)) cs.
Proof.
  induction bounds as [|box bs IH]; intros g.
  - exists []. cbn. rewrite Nat.add_0_r. split_and!; try reflexivity. constructor.
  - cbn [length replicate zip_with makeChildren newNode].
    destruct (IH (S g)) as (cs & -> & Hlen & Hids & Hall).
    eexists. split_and!.
    + f_equal. lia.
    + cbn. rewrite Hlen. reflexivity.
    + cbn. rewrite Hids. reflexivity.
    + constructor; [|exact Hall].
      cbn. split_and!; try reflexivity. exists box. split_and!; reflexivity.
Qed.

Lemma processAll_spec
  (process : WorkerSplatTreeNode -> State -> Outcome (WorkerSplatTreeNode * State))
  (pre : WorkerSplatTreeNode -> Prop)
  (post : WorkerSplatTreeNode -> State -> WorkerSplatTreeNode -> State -> Prop) :
  (forall n st, pre n -> exists n' st', process n st = Done (n', st') /\ post n st n' st') ->
  forall ns st, Forall pre ns ->
  exists ns' st', processAll process ns st = Done (ns', st') /\ processedAll post ns st ns' st'.
Proof.
  intros Hprocess ns. induction ns as [|n ns IH]; intros st Hpre.
  - exists [], st. split; [reflexivity | constructor].
  - apply Forall_cons in Hpre as [Hn Hns].
    destruct (Hprocess n st Hn) as (n' & st1 & Hrun & Hpost).
    destruct (IH st1 Hns) as (ns' & st2 & Hrun' & Hposts).
    exists (n' :: ns'), st2. cbn [processAll]. rewrite Hrun, Hrun'.
    split; [reflexivity | econstructor; eassumption].
Qed.

Lemma flat_map_flat_map {A B C} (f : B -> list C) (g : A -> list B) (l : list A) :
  flat_map f (flat_map g l) = flat_map (fun x => flat_map f (g x)) l.
Proof.
  induction l as [|a l IH]; cbn; [reflexivity|].
  rewrite flat_map_app, IH. reflexivity.
Qed.

Lemma nodes_unfold (n : WorkerSplatTreeNode) : nodes n = n :: descendants n.
Proof. destruct n; reflexivity. Qed.

Lemma ids_of_nodes (cs : list WorkerSplatTreeNode) :
  map id (flat_map nodes cs) ≡ₚ map id cs ++ map id (flat_map descendants cs).
Proof.
  induction cs as [|c cs IH]; [reflexivity|].
  cbn [flat_map]. rewrite nodes_unfold. cbn [app map].
  apply perm_skip. rewrite !map_app, IH.
  apply Permutation_app_swap_app.
Qed.

Lemma Forall2_transfer {A B} (R : A -> B -> Prop) (P : A -> Prop) (Q : B -> Prop) l k :
  Forall2 R l k -> Forall P l -> (forall x y, R x y -> P x -> Q y) -> Forall Q k.
Proof.
  intros H2 H1 Himp. induction H2 as [|x y l k Hxy _ IH]; [constructor|].
  apply Forall_cons in H1 as [Hx Hl]. constructor; [eapply Himp; eassumption | apply IH, Hl].
Qed.

Lemma Forall2_map_eq {A B} (f : A -> B) (l k : list A) :
  Forall2 (fun x y => f y = f x) l k -> map f k = map f l.
Proof. induction 1 as [|x y l k Hxy _ IH]; cbn; [reflexivity | rewrite Hxy, IH; reflexivity]. Qed.

Lemma leaves_of_leaf (n : WorkerSplatTreeNode) : children n = [] -> leaves n = [n].
Proof. destruct n; cbn; intros ->; reflexivity. Qed.

Lemma leaves_of_inner (n : WorkerSplatTreeNode) :
  children n <> [] -> leaves n = flat_map leaves (children n).
Proof. destruct n as [? ? ? ? [|c cs] ? ?]; cbn; [congruence | reflexivity]. Qed.

Lemma processedAll_facts (md mc : nat) (i2c : gmap nat Center) ns st ns' st' :
  processedAll (processed md mc i2c) ns st ns' st' ->
  Forall2 (fun n n' =>
             (nodeMin n' = nodeMin n /\ nodeMax n' = nodeMax n /\
              depth n' = depth n /\ id n' = id n) /\ wellShaped md mc n') ns ns' /\
  nodesWithIndexes st' = nodesWithIndexes st ++ flat_map leaves ns' /\
  (NoDup (flat_map leafIndexes ns') /\
   (forall i, i ∈ flat_map leafIndexes ns' ->
      (i ∉ addedIndexes st) /\ exists n, n ∈ ns /\ i ∈ indexesOf n) /\
   addedIndexes st' = addedIndexes st ∪ list_to_set (flat_map leafIndexes ns')) /\
  (forall leaf, leaf ∈ flat_map leaves ns' ->
     exists n, n ∈ ns /\ depth n <= depth leaf /\
       forall i, i ∈ indexesOf leaf ->
         i ∈ indexesOf n /\
         (depth n < depth leaf \/ inBox i2c n i -> inBox i2c leaf i)) /\
  (idGen st <= idGen st' /\
   map id (flat_map descendants ns') ≡ₚ seq (idGen st) (idGen st' - idGen st)).
Proof.
  induction 1 as [st | n ns st n' st1 ns' st2 Hpost Hrest IH].
  - cbn. split_and!.
    + constructor.
    + rewrite app_nil_r. reflexivity.
    + constructor.
    + intros i Hi. inversion Hi.
    + set_solver.
    + intros leaf Hl. inversion Hl.
    + lia.
    + rewrite Nat.sub_diag. reflexivity.
  - destruct Hpost as (Hsame & Hshape & Hnwi & (Hnd & Hnew & Hadded) & Hbox & _ & Hle & Hids).
    destruct IH as (IHsame & IHnwi & (IHnd & IHnew & IHadded) & IHbox & IHle & IHids).
    cbn [flat_map]. split_and!.
    + constructor; [split; assumption | assumption].
    + rewrite IHnwi, Hnwi, <- app_assoc. reflexivity.
    + apply NoDup_app. split_and!; try assumption.
      intros i Hi Hi'. apply IHnew in Hi' as [Hi' _]. apply Hi'.
      rewrite Hadded. apply elem_of_union. right. apply elem_of_list_to_set. exact Hi.
    + intros i Hi. apply elem_of_app in Hi as [Hi|Hi].
      * destruct (Hnew i Hi) as [H1 H2]. split; [assumption|]. exists n. split; [left | assumption].
      * destruct (IHnew i Hi) as [H1 (m & Hm & H2)]. split.
        -- intros Hin. apply H1. rewrite Hadded. apply elem_of_union. left. exact Hin.
        -- exists m. split; [right|]; assumption.
    + rewrite IHadded, Hadded. rewrite list_to_set_app_L. set_solver.
    + intros leaf Hl. apply elem_of_app in Hl as [Hl|Hl].
      * exists n. destruct (Hbox leaf Hl) as [H1 H2]. split_and!; [left | assumption | assumption].
      * destruct (IHbox leaf Hl) as (m & Hm & H1 & H2).
        exists m. split_and!; [right; assumption | assumption | assumption].
    + lia.
    + rewrite map_app, Hids, IHids.
      replace (idGen st2 - idGen st) with ((idGen st1 - idGen st) + (idGen st2 - idGen st1)) by lia.
      rewrite seq_app. replace (idGen st + (idGen st1 - idGen st)) with (idGen st1) by lia.
      reflexivity.
Qed.

End SplatTreeFacts.

Module SplatTreeProcess.
Import SplatTreeWorker SplatTreeFacts.

Lemma holds_inBox (i2c : gmap nat Center) (n : WorkerSplatTreeNode) (box : WorkerBox3) i :
  nodeMin n = boxMin box -> nodeMax n = boxMax box ->
  holds i2c box i = true -> inBox i2c n i.
Proof.
  intros Hmin Hmax. unfold holds, inBox. destruct (i2c !! i) as [c|]; [|discriminate].
  intros H. exists c. split; [reflexivity|]. rewrite Hmin, Hmax. destruct box. exact H.
Qed.

Lemma processSplatTreeNode_spec (md mc : nat) (i2c : gmap nat Center) :
  forall fuel node st,
  ready md i2c fuel node ->
  exists node' st',
    processSplatTreeNode fuel md mc i2c node st = Done (node', st') /\
    processed md mc i2c node st node' st'.
Proof.
  induction fuel as [|fuel IH]; intros node st (Hcs & (l & Hdata) & Hdom & Hdepth & Hfuel & Hpos);
    [lia|].
  cbn [processSplatTreeNode]. rewrite Hdata.
  assert (Hl : indexesOf node = l) by (unfold indexesOf; rewrite Hdata; reflexivity).
  rewrite Hl in Hdom.
  destruct ((length l <? mc) || (md <? depth node)) eqn:Hleaf.
  - (* a leaf *)
    destruct (addNew_spec l (addedIndexes st) []) as (extra & -> & Hnd & Hsub & Hcomplete & Hlen).
    cbn [app]. eexists. eexists. split; [reflexivity|].
    destruct node as [mn mx ce d cs dat nid]. cbn in Hcs, Hdata, Hdepth. subst cs dat.
    unfold processed, leafIndexes, descendants.
    cbn [withData nodeMin nodeMax depth id children leaves flat_map nodes
         nodesWithIndexes addedIndexes idGen indexesOf data map].
    rewrite app_nil_r. split_and!; try reflexivity; try assumption.
    + constructor; [assumption|].
      intros Hd. cbn [depth length] in Hleaf.
      apply orb_true_iff in Hleaf as [H|H]; apply Nat.ltb_lt in H; lia.
    + intros leaf Hleaf'. apply list_elem_of_singleton in Hleaf'. subst leaf.
      cbn [depth indexesOf data]. split; [lia|]. intros i Hi. split; [apply Hsub, Hi|].
      intros [H|H]; [lia | exact H].
    + intros _. split; [reflexivity|]. intros i Hi.
      destruct (Hcomplete i Hi) as [H|H]; [left | right]; exact H.
    + rewrite Nat.sub_diag. reflexivity.
  - (* a node that is split *)
    apply orb_false_iff in Hleaf as [Hcount Hd].
    apply Nat.ltb_ge in Hcount. apply Nat.ltb_ge in Hd.
    set (bounds := childrenBounds (nodeMin node) (nodeMax node)).
    assert (Hbounds : length bounds = 8) by reflexivity.
    rewrite distribute_spec; [| rewrite length_replicate; reflexivity | exact Hdom].
    destruct (makeChildren_spec (fun box => filter (fun i => holds i2c box i = true) l)
                (depth node + 1) bounds (idGen st))
      as (cs & -> & Hlen & Hids & Hall).
    rewrite Hcs. cbn [app].
    set (st0 := {| addedIndexes := addedIndexes st; nodesWithIndexes := nodesWithIndexes st;
                   idGen := idGen st + length bounds |}).
    destruct (processAll_spec (processSplatTreeNode fuel md mc i2c) (ready md i2c fuel)
                (processed md mc i2c) (IH) cs st0) as (cs' & st' & -> & Hchain).
    { eapply Forall_impl; [exact Hall|]. cbn beta.
      intros c (Hc1 & Hc2 & box & Hmin & Hmax & Hc3).
      unfold ready. split_and!; try assumption; try lia.
      - eexists; exact Hc3.
      - unfold indexesOf. rewrite Hc3. intros i Hi.
        apply list_elem_of_filter in Hi as [_ Hi]. apply Hdom, Hi. }
    eexists. eexists. split; [reflexivity|].
    apply processedAll_facts in Hchain
      as (Hsame & Hnwi & (Hnd & Hnew & Hadded) & Hbox & Hle & Hdesc).
    assert (Hlen' : length cs' = 8).
    { apply Forall2_length in Hsame. lia. }
    destruct node as [mn mx ce d cs0 dat nid]. cbn in Hcs, Hdata, Hdepth, Hd. subst cs0 dat.
    cbn [depth] in *.
    assert (Hleaves : leaves (mkNode mn mx ce d cs' EmptyData nid) = flat_map leaves cs').
    { apply leaves_of_inner. cbn. destruct cs'; [discriminate | congruence]. }
    unfold processed, leafIndexes, descendants.
    cbn [withData withChildren nodeMin nodeMax depth id children]. rewrite Hleaves.
    rewrite flat_map_flat_map. fold leafIndexes.
    change (flat_map (fun x => flat_map indexesOf (leaves x)) cs')
      with (flat_map leafIndexes cs').
    cbn [addedIndexes nodesWithIndexes idGen st0] in *.
    split_and!; try reflexivity; try assumption.
    + constructor; [assumption | assumption |].
      eapply Forall2_transfer; [exact Hsame | exact Hall |]. cbn beta.
      intros c c' ((_ & _ & Hdc & _) & Hws) (_ & Hdc' & _). split; [lia | exact Hws].
    + intros i Hi. destruct (Hnew i Hi) as [H1 (c & Hc & H2)]. split; [exact H1|].
      cbn [indexesOf data].
      rewrite Forall_forall in Hall. destruct (Hall c Hc) as (_ & _ & box & _ & _ & Hdc).
      unfold indexesOf in H2. rewrite Hdc in H2.
      apply list_elem_of_filter in H2 as [_ H2]. exact H2.
    + intros leaf Hleaf. destruct (Hbox leaf Hleaf) as (c & Hc & Hdl & Hin).
      rewrite Forall_forall in Hall. destruct (Hall c Hc) as (_ & Hdc & box & Hmin & Hmax & Hdat).
      split; [lia|]. intros i Hi. destruct (Hin i Hi) as [Hic Himp].
      unfold indexesOf in Hic. rewrite Hdat in Hic.
      apply list_elem_of_filter in Hic as [Hholds Hil].
      split; [exact Hil|]. intros _. apply Himp. right.
      eapply holds_inBox; eassumption.
    + cbn [indexesOf data]. intros Hsmall. lia.
    + lia.
    + rewrite ids_of_nodes, Hdesc.
      rewrite (Forall2_map_eq id cs cs'), Hids.
      * rewrite Hbounds.
        replace (idGen st' - idGen st) with (8 + (idGen st' - (idGen st + 8))) by lia.
        rewrite (seq_app 8). reflexivity.
      * eapply Forall2_impl; [exact Hsame|]. cbn beta. intros c c' ((_ & _ & _ & H) & _). exact H.
Qed.

Lemma processAll_ext
  (p1 p2 : WorkerSplatTreeNode -> State -> Outcome (WorkerSplatTreeNode * State)) :
  (forall n st r, p1 n st = Done r -> p2 n st = Done r) ->
  forall ns st r, processAll p1 ns st = Done r -> processAll p2 ns st = Done r.
Proof.
  intros Hp ns. induction ns as [|n ns IH]; intros st r H; cbn [processAll] in *; [exact H|].
  destruct (p1 n st) as [[n' st1]| |] eqn:H1; try discriminate.
  rewrite (Hp _ _ _ H1).
  destruct (processAll p1 ns st1) as [[ns' st2]| |] eqn:H2; try discriminate.
  rewrite (IH _ _ H2). exact H.
Qed.

(** The result does not depend on the fuel, once there is enough of it. *)
Lemma processSplatTreeNode_more_fuel (md mc : nat) (i2c : gmap nat Center) :
  forall fuel node st r,
  processSplatTreeNode fuel md mc i2c node st = Done r ->
  forall k, processSplatTreeNode (fuel + k) md mc i2c node st = Done r.
Proof.
  induction fuel as [|fuel IH]; intros node st r H k; [discriminate H|].
  cbn [Nat.add processSplatTreeNode] in *.
  destruct (data node) as [|l|]; try discriminate.
  destruct ((length l <? mc) || (md <? depth node)); [exact H|].
  destruct (distribute _ _ _ _) as [base| |]; try discriminate.
  destruct (makeChildren _ _ _ _) as [cs g].
  match type of H with
  | match processAll ?p ?ns ?s with _ => _ end = _ =>
      destruct (processAll p ns s) as [[ns' st']| |] eqn:Hall; try discriminate;
      rewrite (processAll_ext p (processSplatTreeNode (fuel + k) md mc i2c)
                 (fun n0 s0 r0 Hr => IH n0 s0 r0 Hr k) ns s _ Hall)
  end.
  exact H.
Qed.

End SplatTreeProcess.

Module NumberOrder.

Ltac compare_cases :=
  repeat match goal with
    | H : context [Z.compare ?a ?b] |- _ =>
        destruct (Z.compare_spec a b); cbn [CompOpp] in H
    | |- context [Z.compare ?a ?b] =>
        destruct (Z.compare_spec a b); cbn [CompOpp]
    | H : context [PosDef.Pos.compare_cont Eq ?a ?b] |- _ =>
        change (PosDef.Pos.compare_cont Eq a b) with (Pos.compare a b) in H;
        destruct (Pos.compare_spec a b); cbn [CompOpp] in H
    | |- context [PosDef.Pos.compare_cont Eq ?a ?b] =>
        change (PosDef.Pos.compare_cont Eq a b) with (Pos.compare a b);
        destruct (Pos.compare_spec a b); cbn [CompOpp]
    end;
  try reflexivity; try discriminate; try congruence; try lia.

Ltac by_cases_of x :=
  destruct x as [[|]|[|]| |[|] ? ?]; cbn [SFleb SFltb SFcompare] in *;
  try reflexivity; try discriminate; try congruence.

Lemma SFleb_refl (x : spec_float) : x <> S754_nan -> SFleb x x = true.
Proof. intros Hx. unfold SFleb. by_cases_of x; compare_cases. Qed.

Lemma SFltb_false_leb (x y : spec_float) :
  x <> S754_nan -> y <> S754_nan -> SFltb x y = false -> SFleb y x = true.
Proof.
  intros Hx Hy. unfold SFleb, SFltb. by_cases_of x; by_cases_of y; intros H; compare_cases.
Qed.

Lemma SFltb_leb_trans (x y z : spec_float) :
  SFltb x y = true -> SFleb y z = true -> SFleb x z = true.
Proof.
  unfold SFleb, SFltb. by_cases_of x; by_cases_of y; by_cases_of z; intros H1 H2; compare_cases.
Qed.

Lemma SFleb_ltb_trans (x y z : spec_float) :
  SFleb x y = true -> SFltb y z = true -> SFleb x z = true.
Proof.
  unfold SFleb, SFltb. by_cases_of x; by_cases_of y; by_cases_of z; intros H1 H2; compare_cases.
Qed.

Lemma SFltb_no_nan (x y : spec_float) : SFltb x y = true -> x <> S754_nan /\ y <> S754_nan.
Proof. unfold SFltb. by_cases_of x; by_cases_of y; intros _; split; congruence. Qed.

End NumberOrder.

Module SceneBounds.
Import SplatTreeWorker NumberOrder.

Lemma containsPoint_iff (mn mx p : vec3) :
  containsPoint (mkBox mn mx) p = true <->
  (SFleb (c0 mn) (c0 p) = true /\ SFleb (c0 p) (c0 mx) = true) /\
  (SFleb (c1 mn) (c1 p) = true /\ SFleb (c1 p) (c1 mx) = true) /\
  (SFleb (c2 mn) (c2 p) = true /\ SFleb (c2 p) (c2 mx) = true).
Proof.
  unfold containsPoint, ge, le. cbn [boxMin boxMax].
  rewrite !andb_true_iff. tauto.
Qed.

Lemma lower_spec (first : bool) (p m : JsNumber.t) :
  p <> S754_nan -> (first = false -> m <> S754_nan) ->
  let m' := if first || lt p m then p else m in
  m' <> S754_nan /\ SFleb m' p = true /\
  (first = false -> forall x, SFleb m x = true -> SFleb m' x = true).
Proof.
  intros Hp Hm. unfold lt. destruct first; cbn [orb].
  - split_and!; [exact Hp | apply SFleb_refl, Hp | discriminate].
  - specialize (Hm eq_refl). destruct (SFltb p m) eqn:Hlt.
    + split_and!; [exact Hp | apply SFleb_refl, Hp |].
      intros _ x Hx. eapply SFltb_leb_trans; eassumption.
    + split_and!; [exact Hm | apply SFltb_false_leb; assumption | intros _ x Hx; exact Hx].
Qed.

Lemma upper_spec (first : bool) (p m : JsNumber.t) :
  p <> S754_nan -> (first = false -> m <> S754_nan) ->
  let m' := if first || gt p m then p else m in
  m' <> S754_nan /\ SFleb p m' = true /\
  (first = false -> forall x, SFleb x m = true -> SFleb x m' = true).
Proof.
  intros Hp Hm. unfold gt. destruct first; cbn [orb].
  - split_and!; [exact Hp | apply SFleb_refl, Hp | discriminate].
  - specialize (Hm eq_refl). destruct (SFltb m p) eqn:Hlt.
    + split_and!; [exact Hp | apply SFleb_refl, Hp |].
      intros _ x Hx. eapply SFleb_ltb_trans; eassumption.
    + split_and!; [exact Hm | apply SFltb_false_leb; assumption | intros _ x Hx; exact Hx].
Qed.

Lemma bounds_loop_holds (sceneCenters : list Center) : forall i mn mx indexes seen,
  (forall c, c ∈ sceneCenters -> noNaN (point c)) ->
  (i = 0 -> seen = []) ->
  (i <> 0 -> noNaN mn /\ noNaN mx) ->
  (forall c, c ∈ seen -> containsPoint (mkBox mn mx) (point c) = true) ->
  forall mn' mx' indexes',
  bounds_loop i sceneCenters (mn, mx, indexes) = (mn', mx', indexes') ->
  forall c, c ∈ seen ++ sceneCenters -> containsPoint (mkBox mn' mx') (point c) = true.
Proof.
  induction sceneCenters as [|p rest IH]; intros i mn mx indexes seen Hnan Hfirst Hbox Hseen
    mn' mx' indexes' Hrun c Hc; cbn [bounds_loop] in Hrun.
  - injection Hrun as <- <- <-. rewrite app_nil_r in Hc. apply Hseen, Hc.
  - unfold bounds_body in Hrun.
    assert (Hp : noNaN (point p)) by (apply Hnan; left).
    destruct Hp as (Hp0 & Hp1 & Hp2).
    assert (Hm : Nat.eqb i 0 = false -> noNaN mn /\ noNaN mx).
    { intros H. apply Hbox. apply Nat.eqb_neq in H. exact H. }
    assert (Hs : Nat.eqb i 0 = true -> seen = []).
    { intros H. apply Hfirst. apply Nat.eqb_eq in H. exact H. }
    destruct (lower_spec (Nat.eqb i 0) (c0 (point p)) (c0 mn) Hp0) as (L0 & L0' & L0'');
      [intros H; apply (Hm H)|].
    destruct (lower_spec (Nat.eqb i 0) (c1 (point p)) (c1 mn) Hp1) as (L1 & L1' & L1'');
      [intros H; apply (Hm H)|].
    destruct (lower_spec (Nat.eqb i 0) (c2 (point p)) (c2 mn) Hp2) as (L2 & L2' & L2'');
      [intros H; apply (Hm H)|].
    destruct (upper_spec (Nat.eqb i 0) (c0 (point p)) (c0 mx) Hp0) as (U0 & U0' & U0'');
      [intros H; apply (Hm H)|].
    destruct (upper_spec (Nat.eqb i 0) (c1 (point p)) (c1 mx) Hp1) as (U1 & U1' & U1'');
      [intros H; apply (Hm H)|].
    destruct (upper_spec (Nat.eqb i 0) (c2 (point p)) (c2 mx) Hp2) as (U2 & U2' & U2'');
      [intros H; apply (Hm H)|].
    eapply (IH (S i) _ _ _ (seen ++ [p])); [| | | | exact Hrun |].
    + intros x Hx. apply Hnan. right. exact Hx.
    + discriminate.
    + intros _. split; split_and!; assumption.
    + intros x Hx. apply containsPoint_iff. cbn [c0 c1 c2].
      apply elem_of_app in Hx as [Hx|Hx].
      * destruct (Nat.eqb i 0) eqn:Hi; [rewrite (Hs eq_refl) in Hx; inversion Hx|].
        apply Hseen, containsPoint_iff in Hx. destruct Hx as ((A0 & B0) & (A1 & B1) & (A2 & B2)).
        split_and!; auto.
      * apply list_elem_of_singleton in Hx. subst x. split_and!; assumption.
    + rewrite <- app_assoc. exact Hc.
Qed.

Lemma attained_more (l k : list Center) (b : vec3) :
  (forall c, c ∈ l -> c ∈ k) -> attained l b -> attained k b.
Proof.
  intros Hsub ((x & Hx & Ex) & (y & Hy & Ey) & (z & Hz & Ez)).
  split_and!; [exists x | exists y | exists z]; split; auto.
Qed.

Lemma either_attained (l : list Center) (p : Center) (sel : vec3 -> JsNumber.t)
  (test : bool) (b : vec3) (first : bool) :
  (first = false -> exists c, c ∈ l /\ sel (point c) = sel b) ->
  exists c, c ∈ l ++ [p] /\
            sel (point c) = (if first || test then sel (point p) else sel b).
Proof.
  intros H. destruct first; cbn [orb].
  - exists p. split; [apply elem_of_app; right; left | reflexivity].
  - destruct test.
    + exists p. split; [apply elem_of_app; right; left | reflexivity].
    + destruct (H eq_refl) as (c & Hc & Hsel). exists c.
      split; [apply elem_of_app; left; exact Hc | exact Hsel].
Qed.

Lemma bounds_loop_attained (sceneCenters : list Center) : forall i mn mx indexes seen,
  (i <> 0 -> attained seen mn /\ attained seen mx) ->
  (i = 0 -> sceneCenters <> []) ->
  forall mn' mx' indexes',
  bounds_loop i sceneCenters (mn, mx, indexes) = (mn', mx', indexes') ->
  attained (seen ++ sceneCenters) mn' /\ attained (seen ++ sceneCenters) mx'.
Proof.
  induction sceneCenters as [|p rest IH]; intros i mn mx indexes seen Hatt Hne
    mn' mx' indexes' Hrun; cbn [bounds_loop] in Hrun.
  - injection Hrun as <- <- <-. rewrite app_nil_r. apply Hatt.
    intros ->. apply Hne; reflexivity.
  - unfold bounds_body in Hrun.
    replace (seen ++ p :: rest) with ((seen ++ [p]) ++ rest)
      by (rewrite <- app_assoc; reflexivity).
    eapply (IH (S i)); [| discriminate | exact Hrun].
    intros _.
    assert (H : Nat.eqb i 0 = false -> attained seen mn /\ attained seen mx).
    { intros Hi. apply Hatt. apply Nat.eqb_neq in Hi. exact Hi. }
    split; (split_and!; cbn [c0 c1 c2]);
      match goal with
      | |- exists c, _ /\ ?sel (point c) = (if _ || ?test then _ else ?sel ?b) =>
          apply (either_attained seen p sel test b (Nat.eqb i 0));
          intros Hi; destruct (H Hi) as [(? & ? & ?) (? & ? & ?)]; assumption
      end.
Qed.

End SceneBounds.

Module SplatTreeBuild.
Import SplatTreeWorker SplatTreeFacts SplatTreeProcess.

Lemma bounds_loop_indexes (sceneCenters : list Center) : forall i mn mx indexes,
  exists mn' mx',
    bounds_loop i sceneCenters (mn, mx, indexes)
    = (mn', mx', indexes ++ map index sceneCenters).
Proof.
  induction sceneCenters as [|c cs IH]; intros i mn mx indexes; cbn [bounds_loop map].
  - exists mn, mx. rewrite app_nil_r. reflexivity.
  - unfold bounds_body.
    edestruct IH as (mn' & mx' & ->). exists mn', mx'.
    rewrite <- app_assoc. reflexivity.
Qed.

Lemma insert_centers_dom (sceneCenters : list Center) : forall (m : gmap nat Center) i,
  is_Some (m !! i) \/ i ∈ map index sceneCenters ->
  is_Some (fold_left (fun m center => <[index center := center]> m) sceneCenters m !! i).
Proof.
  induction sceneCenters as [|c cs IH]; intros m i H; cbn [fold_left map] in *.
  - destruct H as [H|H]; [exact H | inversion H].
  - apply IH. destruct (decide (i = index c)) as [->|Hne].
    + left. rewrite lookup_insert_eq. eexists; reflexivity.
    + rewrite lookup_insert_ne by congruence.
      destruct H as [H|H]; [left; exact H|].
      apply elem_of_cons in H as [H|H]; [congruence | right; exact H].
Qed.

Lemma indexCenters_dom (allCenters : list (list Center)) sceneCenters i :
  sceneCenters ∈ allCenters -> i ∈ map index sceneCenters ->
  is_Some (indexCenters allCenters !! i).
Proof.
  unfold indexCenters. generalize (∅ : gmap nat Center) as m.
  induction allCenters as [|sc rest IH]; intros m Hin Hi; [inversion Hin|].
  cbn [fold_left].
  assert (Hkeep : forall (l : list (list Center)) (m : gmap nat Center),
             is_Some (m !! i) ->
             is_Some (fold_left (fun m sceneCenters =>
                          fold_left (fun m center => <[index center := center]> m)
                            sceneCenters m) l m !! i)).
  { induction l as [|x l IHl]; intros m' Hm'; cbn [fold_left]; [exact Hm'|].
    apply IHl. apply insert_centers_dom. left. exact Hm'. }
  apply elem_of_cons in Hin as [->|Hin].
  - apply Hkeep. apply insert_centers_dom. right. exact Hi.
  - apply IH; assumption.
Qed.

Lemma createSubTrees_spec (md mc : nat) (i2c : gmap nat Center) :
  forall allCenters nextId,
  (forall sceneCenters i, sceneCenters ∈ allCenters -> i ∈ map index sceneCenters ->
                          is_Some (i2c !! i)) ->
  exists subTrees nextId',
    createSubTrees i2c md mc allCenters nextId = Done (subTrees, nextId') /\
    Forall2 (built md mc i2c) allCenters subTrees /\
    nextId <= nextId' /\
    map id (flat_map (fun t => nodes (rootNode t)) subTrees)
    ≡ₚ seq nextId (nextId' - nextId).
Proof.
  induction allCenters as [|sc rest IH]; intros g Hdom.
  - exists [], g. cbn. split_and!; try constructor. rewrite Nat.sub_diag. reflexivity.
  - cbn [createSubTrees]. unfold buildSubTree.
    destruct (bounds_loop_indexes sc 0 zero3 zero3 []) as (mn & mx & ->).
    cbn [app newNode withData rootNode treeAddedIndexes treeNodesWithIndexes sceneMin sceneMax].
    match goal with
    | |- context [processSplatTreeNode _ _ _ _ ?n ?st] =>
        destruct (processSplatTreeNode_spec md mc i2c (md + 2) n st)
          as (root & st' & -> & Hpost)
    end.
    { unfold ready. cbn [children data depth indexesOf]. split_and!; try reflexivity; try lia.
      - eexists; reflexivity.
      - intros i Hi. eapply Hdom; [left | exact Hi]. }
    destruct (IH (idGen st')) as (ts & g' & -> & Hts & Hle & Hids).
    { intros sc' i Hsc' Hi. eapply Hdom; [right; exact Hsc' | exact Hi]. }
    destruct Hpost as ((Hmin & Hmax & Hdepth & Hid) & Hshape & Hnwi & (Hnd & Hnew & Hadded)
                       & Hbox & Hsmall & Hle' & Hdesc).
    cbn [nodeMin nodeMax depth id addedIndexes nodesWithIndexes idGen indexesOf data app] in *.
    eexists. eexists. split; [reflexivity|]. split_and!.
    + constructor; [|exact Hts].
      unfold built. cbn [rootNode maxDepth maxCentersPerNode sceneMin sceneMax
                         treeAddedIndexes treeNodesWithIndexes].
      split_and!; try reflexivity; try assumption.
      * intros i Hi. apply Hnew, Hi.
      * rewrite Hadded. set_solver.
      * intros leaf i Hleaf Hi Hpos. destruct (Hbox leaf Hleaf) as [_ H].
        destruct (H i Hi) as [_ H']. apply H'. left. exact Hpos.
      * rewrite length_map in Hsmall. intros Hlen. destruct (Hsmall Hlen) as [H1 H2].
        split; [exact H1|]. intros i Hi. destruct (H2 i Hi) as [H|H]; [set_solver | exact H].
    + lia.
    + cbn [flat_map]. rewrite nodes_unfold. cbn [map app rootNode]. rewrite map_app, Hdesc, Hids, Hid.
      replace (g' - g) with (S ((idGen st' - S g) + (g' - idGen st'))) by lia.
      cbn [seq]. rewrite seq_app. replace (S g + (idGen st' - S g)) with (idGen st') by lia.
      reflexivity.
Qed.

Lemma createSplatTree_spec (allCenters : list (list Center)) (md mc nextId : nat) :
  exists subTrees nextId',
    createSplatTree allCenters md mc nextId = Done (subTrees, nextId') /\
    Forall2 (built md mc (indexCenters allCenters)) allCenters subTrees /\
    nextId <= nextId' /\
    map id (flat_map (fun t => nodes (rootNode t)) subTrees)
    ≡ₚ seq nextId (nextId' - nextId).
Proof.
  apply createSubTrees_spec. intros sc i Hsc Hi. eapply indexCenters_dom; eassumption.
Qed.

Lemma containsPoint_no_nan (box : WorkerBox3) (p : vec3) :
  containsPoint box p = true ->
  c0 p <> S754_nan /\ c1 p <> S754_nan /\ c2 p <> S754_nan.
Proof.
  unfold containsPoint, ge, le. intros H.
  repeat (apply andb_true_iff in H as [H ?]).
  split_and!; intros Hnan;
    match goal with
    | Hle : SFleb ?x _ = true, Hn : ?x = S754_nan |- _ =>
        rewrite Hn in Hle; discriminate Hle
    end.
Qed.

End SplatTreeBuild.

(** X19. [createSplatTree] returns for every input: it does not throw
    and the recursion ends. There is one sub-tree per scene, with the two
    limits, and with a root at depth 0 whose box is the scene's. In each
    tree a node without children holds a list of indexes, is no deeper than
    [maxDepth + 1] and, unless it is at that depth, holds fewer than
    [maxCentersPerNode] indexes; every other node has data [{}], is no
    deeper than [maxDepth] and has eight children one level down. *)
Theorem createSplatTree_returns (allCenters : list (list SplatTreeWorker.Center))
  (maxDepth maxCentersPerNode nextId : nat) :
  exists subTrees nextId',
    SplatTreeWorker.createSplatTree allCenters maxDepth maxCentersPerNode nextId
    = SplatTreeWorker.Done (subTrees, nextId') /\
    length subTrees = length allCenters /\
    Forall (fun t =>
              let root := SplatTreeWorker.rootNode t in
              SplatTreeWorker.maxDepth t = maxDepth /\
              SplatTreeWorker.maxCentersPerNode t = maxCentersPerNode /\
              SplatTreeWorker.depth root = 0 /\
              SplatTreeWorker.nodeMin root = SplatTreeWorker.sceneMin t /\
              SplatTreeWorker.nodeMax root = SplatTreeWorker.sceneMax t /\
              SplatTreeWorker.wellShaped maxDepth maxCentersPerNode root) subTrees.
Proof.
  destruct (SplatTreeBuild.createSplatTree_spec allCenters maxDepth maxCentersPerNode nextId)
    as (ts & g' & Hrun & Hbuilt & _).
  exists ts, g'. split; [exact Hrun|]. split.
  - symmetry. eapply Forall2_length. exact Hbuilt.
  - eapply SplatTreeFacts.Forall2_transfer; [exact Hbuilt | apply Forall_true; exact (fun _ => I) |].
    cbn beta. intros sc t ((H1 & H2 & H3 & H4 & H5) & H6 & _) _. cbv zeta. tauto.
Qed.

(** X20. In the sub-tree of a scene the leaves hold each index at most
    once: the lists of the leaves, taken together from left to right, have
    no duplicate, so an index whose center lies in the boxes of several
    children is held under the first of them only. Every index held is an
    index of the scene, [nodesWithIndexes] lists exactly the leaves from
    left to right, and [addedIndexes] has exactly the indexes held. A
    scene with fewer than [maxCentersPerNode] centers gets a tree of one
    node, which holds every index of the scene. *)
Theorem leaves_hold_each_index_once (allCenters : list (list SplatTreeWorker.Center))
  (maxDepth maxCentersPerNode nextId : nat) subTrees nextId' :
  SplatTreeWorker.createSplatTree allCenters maxDepth maxCentersPerNode nextId
  = SplatTreeWorker.Done (subTrees, nextId') ->
  Forall2 (fun sceneCenters t =>
             let root := SplatTreeWorker.rootNode t in
             let indexes := map SplatTreeWorker.index sceneCenters in
             SplatTreeWorker.treeNodesWithIndexes t = SplatTreeWorker.leaves root /\
             NoDup (SplatTreeWorker.leafIndexes root) /\
             (forall i, i ∈ SplatTreeWorker.leafIndexes root -> i ∈ indexes) /\
             SplatTreeWorker.treeAddedIndexes t
             = list_to_set (SplatTreeWorker.leafIndexes root) /\
             (length sceneCenters < maxCentersPerNode ->
              SplatTreeWorker.leaves root = [root] /\
              forall i, i ∈ indexes -> i ∈ SplatTreeWorker.indexesOf root))
    allCenters subTrees.
Proof.
  intros Hrun.
  destruct (SplatTreeBuild.createSplatTree_spec allCenters maxDepth maxCentersPerNode nextId)
    as (ts & g' & Hrun' & Hbuilt & _).
  rewrite Hrun in Hrun'. injection Hrun' as <- <-.
  eapply Forall2_impl; [exact Hbuilt|]. cbn beta.
  intros sc t (_ & _ & H1 & (H2 & H3 & H4) & _ & H5). cbv zeta. tauto.
Qed.

Lemma leaves_hold_each_index_once_witness :
  exists subTrees nextId',
    SplatTreeWorker.createSplatTree TreeExamples.centers 1 2 0
    = SplatTreeWorker.Done (subTrees, nextId') /\
    Forall2 (fun sceneCenters t =>
               let root := SplatTreeWorker.rootNode t in
               let indexes := map SplatTreeWorker.index sceneCenters in
               SplatTreeWorker.treeNodesWithIndexes t = SplatTreeWorker.leaves root /\
               NoDup (SplatTreeWorker.leafIndexes root) /\
               (forall i, i ∈ SplatTreeWorker.leafIndexes root -> i ∈ indexes) /\
               SplatTreeWorker.treeAddedIndexes t
               = list_to_set (SplatTreeWorker.leafIndexes root) /\
               (length sceneCenters < 2 ->
                SplatTreeWorker.leaves root = [root] /\
                forall i, i ∈ indexes -> i ∈ SplatTreeWorker.indexesOf root))
      TreeExamples.centers subTrees.
Proof.
  eexists. eexists. split; [vm_compute; reflexivity|].
  eapply (leaves_hold_each_index_once TreeExamples.centers 1 2 0).
  vm_compute. reflexivity.
Defined.

(** X21. An index that a leaf below the root holds has a center, the one
    that was sent last for that index, and this center lies in the box of
    the leaf, faces included. So no leaf below the root holds an index
    whose center has a [NaN] coordinate: once the root is split, such a
    splat is in no leaf of the tree. *)
Theorem leaf_box_holds_its_centers (allCenters : list (list SplatTreeWorker.Center))
  (maxDepth maxCentersPerNode nextId : nat) subTrees nextId' :
  SplatTreeWorker.createSplatTree allCenters maxDepth maxCentersPerNode nextId
  = SplatTreeWorker.Done (subTrees, nextId') ->
  forall t leaf i,
    t ∈ subTrees ->
    leaf ∈ SplatTreeWorker.leaves (SplatTreeWorker.rootNode t) ->
    0 < SplatTreeWorker.depth leaf ->
    i ∈ SplatTreeWorker.indexesOf leaf ->
    exists center,
      SplatTreeWorker.indexCenters allCenters !! i = Some center /\
      SplatTreeWorker.containsPoint
        (SplatTreeWorker.mkBox (SplatTreeWorker.nodeMin leaf) (SplatTreeWorker.nodeMax leaf))
        (SplatTreeWorker.point center) = true /\
      SplatTreeWorker.noNaN (SplatTreeWorker.point center).
Proof.
  intros Hrun t leaf i Ht Hleaf Hdepth Hi.
  destruct (SplatTreeBuild.createSplatTree_spec allCenters maxDepth maxCentersPerNode nextId)
    as (ts & g' & Hrun' & Hbuilt & _).
  rewrite Hrun in Hrun'. injection Hrun' as <- <-.
  assert (Hall : Forall (fun t => forall leaf i,
                           leaf ∈ SplatTreeWorker.leaves (SplatTreeWorker.rootNode t) ->
                           i ∈ SplatTreeWorker.indexesOf leaf ->
                           0 < SplatTreeWorker.depth leaf ->
                           SplatTreeWorker.inBox (SplatTreeWorker.indexCenters allCenters)
                             leaf i) subTrees).
  { eapply SplatTreeFacts.Forall2_transfer;
      [exact Hbuilt | apply Forall_true; exact (fun _ => I) |].
    cbn beta. intros sc t' (_ & _ & _ & _ & H & _) _. exact H. }
  rewrite Forall_forall in Hall.
  destruct (Hall t Ht leaf i Hleaf Hi Hdepth) as (center & Hc & Hbox).
  exists center. split_and!; [exact Hc | exact Hbox |].
  eapply SplatTreeBuild.containsPoint_no_nan. exact Hbox.
Qed.

Lemma leaf_box_holds_its_centers_witness :
  exists subTrees nextId' t leaf,
    SplatTreeWorker.createSplatTree TreeExamples.centers 0 2 0
    = SplatTreeWorker.Done (subTrees, nextId') /\
    t ∈ subTrees /\
    leaf ∈ SplatTreeWorker.leaves (SplatTreeWorker.rootNode t) /\
    0 < SplatTreeWorker.depth leaf /\
    1 ∈ SplatTreeWorker.indexesOf leaf /\
    exists center,
      SplatTreeWorker.indexCenters TreeExamples.centers !! 1 = Some center /\
      SplatTreeWorker.containsPoint
        (SplatTreeWorker.mkBox (SplatTreeWorker.nodeMin leaf) (SplatTreeWorker.nodeMax leaf))
        (SplatTreeWorker.point center) = true /\
      SplatTreeWorker.noNaN (SplatTreeWorker.point center).
Proof.
  eexists. eexists. eexists. eexists.
  split; [vm_compute; reflexivity|].
  split; [apply list_elem_of_here|].
  split; [vm_compute; do 2 apply list_elem_of_further; apply list_elem_of_here|].
  split; [vm_compute; lia|].
  split; [vm_compute; apply list_elem_of_here|].
  eapply (leaf_box_holds_its_centers TreeExamples.centers 0 2 0).
  - vm_compute. reflexivity.
  - apply list_elem_of_here.
  - vm_compute. do 2 apply list_elem_of_further. apply list_elem_of_here.
  - vm_compute. lia.
  - vm_compute. apply list_elem_of_here.
Defined.

(** X22. The ids of the nodes that a call of [createSplatTree] creates,
    over all its sub-trees, are the values of the counter from the one the
    call starts with up to the one it ends with, each taken by exactly one
    node: no two nodes share an id, and the counter ends as many higher as
    there are nodes. *)
Theorem node_ids_are_consecutive (allCenters : list (list SplatTreeWorker.Center))
  (maxDepth maxCentersPerNode nextId : nat) subTrees nextId' :
  SplatTreeWorker.createSplatTree allCenters maxDepth maxCentersPerNode nextId
  = SplatTreeWorker.Done (subTrees, nextId') ->
  let created :=
    flat_map (fun t => SplatTreeWorker.nodes (SplatTreeWorker.rootNode t)) subTrees in
  map SplatTreeWorker.id created ≡ₚ seq nextId (length created) /\
  NoDup (map SplatTreeWorker.id created) /\
  nextId' = nextId + length created.
Proof.
  intros Hrun created.
  destruct (SplatTreeBuild.createSplatTree_spec allCenters maxDepth maxCentersPerNode nextId)
    as (ts & g' & Hrun' & _ & Hle & Hids).
  rewrite Hrun in Hrun'. injection Hrun' as <- <-. fold created in Hids.
  assert (Hlen : length created = nextId' - nextId).
  { rewrite <- (length_map SplatTreeWorker.id), Hids, length_seq. reflexivity. }
  split_and!.
  - rewrite Hlen. exact Hids.
  - rewrite Hids. apply NoDup_seq.
  - lia.
Qed.

Lemma node_ids_are_consecutive_witness :
  exists subTrees nextId',
    SplatTreeWorker.createSplatTree TreeExamples.centers 0 2 5
    = SplatTreeWorker.Done (subTrees, nextId') /\
    let created :=
      flat_map (fun t => SplatTreeWorker.nodes (SplatTreeWorker.rootNode t)) subTrees in
    map SplatTreeWorker.id created ≡ₚ seq 5 (length created) /\
    NoDup (map SplatTreeWorker.id created) /\
    nextId' = 5 + length created.
Proof.
  eexists. eexists. split; [vm_compute; reflexivity|].
  eapply (node_ids_are_consecutive TreeExamples.centers 0 2 5).
  vm_compute. reflexivity.
Defined.

(** X23. [buildSubTree] gives the root the box of the scene. For a scene
    without centers that box is the point [0, 0, 0]. Otherwise each
    coordinate of [sceneMin] and of [sceneMax] is that coordinate of one
    of the centers, and, when no coordinate of a center is [NaN], the box
    holds every center of the scene. *)
Theorem root_box_holds_the_centers (sceneCenters : list SplatTreeWorker.Center)
  (maxDepth maxCentersPerNode nextId : nat) :
  (forall c, c ∈ sceneCenters -> SplatTreeWorker.noNaN (SplatTreeWorker.point c)) ->
  let t := fst (SplatTreeWorker.buildSubTree sceneCenters maxDepth maxCentersPerNode nextId) in
  let root := SplatTreeWorker.rootNode t in
  (SplatTreeWorker.nodeMin root = SplatTreeWorker.sceneMin t /\
   SplatTreeWorker.nodeMax root = SplatTreeWorker.sceneMax t /\
   SplatTreeWorker.indexesOf root = map SplatTreeWorker.index sceneCenters) /\
  (sceneCenters = [] ->
   SplatTreeWorker.sceneMin t = SplatTreeWorker.zero3 /\
   SplatTreeWorker.sceneMax t = SplatTreeWorker.zero3) /\
  (sceneCenters <> [] ->
   SplatTreeWorker.attained sceneCenters (SplatTreeWorker.sceneMin t) /\
   SplatTreeWorker.attained sceneCenters (SplatTreeWorker.sceneMax t)) /\
  (forall c, c ∈ sceneCenters ->
     SplatTreeWorker.containsPoint
       (SplatTreeWorker.mkBox (SplatTreeWorker.sceneMin t) (SplatTreeWorker.sceneMax t))
       (SplatTreeWorker.point c) = true).
Proof.
  intros Hnan. unfold SplatTreeWorker.buildSubTree.
  destruct (SplatTreeBuild.bounds_loop_indexes sceneCenters 0
              SplatTreeWorker.zero3 SplatTreeWorker.zero3 []) as (mn & mx & Hrun).
  rewrite Hrun. cbn -[SplatTreeWorker.zero3 SplatTreeWorker.containsPoint].
  split_and!; try reflexivity.
  - intros ->. cbn in Hrun. injection Hrun as <- <-. split; reflexivity.
  - intros Hne.
    apply (SceneBounds.bounds_loop_attained sceneCenters 0 _ _ _ [] ltac:(congruence)
             ltac:(intros _; exact Hne) _ _ _ Hrun).
  - intros c Hc.
    apply (SceneBounds.bounds_loop_holds sceneCenters 0 _ _ _ [] Hnan ltac:(reflexivity)
             ltac:(congruence) ltac:(intros x Hx; inversion Hx) _ _ _ Hrun c Hc).
Qed.

Lemma root_box_holds_the_centers_witness :
  SplatTreeWorker.sceneMin (fst (SplatTreeWorker.buildSubTree TreeExamples.scene 8 1000 0))
  = SplatTreeWorker.mkvec3 (JsNumber.ofZ (-1)) (JsNumber.ofZ (-2)) (JsNumber.ofZ 0) /\
  SplatTreeWorker.sceneMax (fst (SplatTreeWorker.buildSubTree TreeExamples.scene 8 1000 0))
  = SplatTreeWorker.mkvec3 (JsNumber.ofZ 2) (JsNumber.ofZ 4) (JsNumber.ofZ 2) /\
  forall c, c ∈ TreeExamples.scene ->
    SplatTreeWorker.containsPoint
      (SplatTreeWorker.mkBox
         (SplatTreeWorker.sceneMin
            (fst (SplatTreeWorker.buildSubTree TreeExamples.scene 8 1000 0)))
         (SplatTreeWorker.sceneMax
            (fst (SplatTreeWorker.buildSubTree TreeExamples.scene 8 1000 0))))
      (SplatTreeWorker.point c) = true.
Proof.
  split; [vm_compute; reflexivity|]. split; [vm_compute; reflexivity|].
  apply (root_box_holds_the_centers TreeExamples.scene 8 1000 0).
  intros c Hc. unfold TreeExamples.scene in Hc.
  repeat (apply elem_of_cons in Hc as [->|Hc]);
    [vm_compute; split_and!; discriminate.. | inversion Hc].
Defined.

(** ** [fillTransformsArray] *)

Module FillTransformsFacts.
Import FillTransforms.

Lemma js_array_assign_next {A} (pre rest : list (option A)) (k : nat) (v : A) :
  length pre = k ->
  js_array_assign (pre ++ rest) k v = (pre ++ [Some v]) ++ drop 1 rest.
Proof.
  intros Hk. unfold js_array_assign. rewrite length_app.
  destruct rest as [|x rest]; cbn [length drop].
  - rewrite Nat.add_0_r, Hk, Nat.ltb_irrefl, Nat.sub_diag. cbn.
    rewrite !app_nil_r. reflexivity.
  - replace (k <? length pre + S (length rest)) with true
      by (symmetry; apply Nat.ltb_lt; lia).
    rewrite <- Hk, insert_app_r_alt, Nat.sub_diag by lia. cbn.
    rewrite <- app_assoc. reflexivity.
Qed.

Lemma assign_run {A} (f : nat -> A) (base : nat) (c : nat) : forall j0 pre rest,
  length pre = base + j0 ->
  fold_left (fun arr j => js_array_assign arr (base + j) (f j)) (seq j0 c) (pre ++ rest)
  = (pre ++ map (fun j => Some (f j)) (seq j0 c)) ++ drop c rest.
Proof.
  induction c as [|c IH]; intros j0 pre rest Hlen; cbn [seq fold_left map].
  - rewrite app_nil_r. reflexivity.
  - rewrite js_array_assign_next by exact Hlen.
    rewrite IH by (rewrite length_app; cbn; lia).
    rewrite drop_drop, <- !app_assoc. reflexivity.
Qed.

Lemma copyElements_spec (i : nat) (elements : list JsNumber.t) pre rest :
  length pre = i * 16 ->
  copyElements i elements (pre ++ rest)
  = (pre ++ stored (Matrix4.make elements)) ++ drop 16 rest.
Proof.
  intros Hlen. unfold copyElements, stored.
  apply (assign_run (fun j => elements !! j) (i * 16) 16 0). lia.
Qed.

Lemma stored_length (m : Matrix4.t) : length (stored m) = 16.
Proof. reflexivity. Qed.

Lemma storedScenes_length (scenes : list SplatScene.t) :
  length (storedScenes scenes) = 16 * length scenes.
Proof.
  unfold storedScenes. induction scenes as [|s l IH]; [reflexivity|].
  cbn [flat_map]. rewrite length_app, stored_length, IH. cbn [length]. lia.
Qed.

Lemma copyScenes_spec (w : World) : forall c i0 pre rest,
  length pre = 16 * i0 ->
  i0 + c <= length (SplatMesh.scenes (mesh w)) ->
  copyScenes (seq i0 c) {| world := w; tempArray := pre ++ rest |}
  = ({| world := w;
        tempArray := (pre ++ storedScenes (take c (drop i0 (SplatMesh.scenes (mesh w)))))
                     ++ drop (16 * c) rest |}, Normal tt).
Proof.
  induction c as [|c IH]; intros i0 pre rest Hlen Hle; cbn [seq copyScenes].
  - cbn. rewrite app_nil_r. reflexivity.
  - destruct (lookup_lt_is_Some_2 (SplatMesh.scenes (mesh w)) i0) as [scene Hscene]; [lia|].
    unfold bind at 1. unfold inWorld, getScene, getMesh. unfold bind at 1, gets. cbn [world].
    rewrite Hscene. unfold ret. cbn [world tempArray].
    unfold bind at 1. unfold onTempArray, modify. cbn [world tempArray].
    destruct scene as [sb [elements]]. cbn [SplatScene.transform Matrix4.elements].
    rewrite copyElements_spec by lia.
    rewrite IH; [| rewrite length_app, stored_length; lia | lia].
    f_equal. f_equal.
    rewrite (drop_S _ _ _ Hscene). cbn [take storedScenes flat_map SplatScene.transform].
    rewrite drop_drop, <- !app_assoc.
    replace (16 + 16 * c) with (16 * S c) by lia. reflexivity.
Qed.

Lemma storedScenes_lookup (scenes : list SplatScene.t) : forall i j scene,
  scenes !! i = Some scene -> j < 16 ->
  storedScenes scenes !! (i * 16 + j)
  = Some (Some (Matrix4.elements (SplatScene.transform scene) !! j)).
Proof.
  induction scenes as [|s l IH]; intros i j scene Hi Hj; [discriminate Hi|].
  unfold storedScenes. cbn [flat_map]. destruct i as [|i]; cbn in Hi.
  - injection Hi as ->. rewrite lookup_app_l by (rewrite stored_length; lia).
    cbn [Nat.mul Nat.add]. unfold stored. rewrite list_lookup_fmap.
    rewrite lookup_seq_lt by lia. reflexivity.
  - rewrite lookup_app_r by (rewrite stored_length; lia).
    rewrite stored_length. replace (S i * 16 + j - 16) with (i * 16 + j) by lia.
    apply IH; assumption.
Qed.

Lemma js_array_setLength_length {A} (n : nat) (arr : list (option A)) :
  length (js_array_setLength n arr) = n.
Proof. unfold js_array_setLength. rewrite length_app, length_take, length_replicate. lia. Qed.

Lemma js_array_setLength_get {A} (n : nat) (arr : list (option A)) (k : nat) :
  k < n -> js_array_get (js_array_setLength n arr) k = js_array_get arr k.
Proof.
  intros Hk. unfold js_array_get, js_array_setLength.
  destruct (decide (k < length arr)) as [Hlt|Hge].
  - rewrite lookup_app_l by (rewrite length_take; lia).
    rewrite lookup_take_lt by lia. reflexivity.
  - rewrite lookup_app_r by (rewrite length_take; lia).
    rewrite lookup_replicate_2 by (rewrite length_take; lia).
    rewrite (lookup_ge_None_2 arr k) by lia. reflexivity.
Qed.

Lemma resized_length array tempArray0 :
  length (resized array tempArray0) = N.to_nat (TypedArray.length array).
Proof.
  unfold resized. destruct (N.eqb_spec (N.of_nat (length tempArray0)) (TypedArray.length array))
    as [Heq|Hne]; cbn [negb].
  - rewrite <- Heq. lia.
  - apply js_array_setLength_length.
Qed.

Lemma resized_get array tempArray0 k :
  k < N.to_nat (TypedArray.length array) ->
  js_array_get (resized array tempArray0) k = js_array_get tempArray0 k.
Proof.
  intros Hk. unfold resized. destruct (negb _); [|reflexivity].
  apply js_array_setLength_get. exact Hk.
Qed.

Lemma fillTransformsArray_run (w : World) tempArray0 (array : TypedArray.t) :
  let scenes := SplatMesh.scenes (mesh w) in
  let tempArray1 :=
    storedScenes scenes ++ drop (16 * length scenes) (resized array tempArray0) in
  fillTransformsArray array {| world := w; tempArray := tempArray0 |}
  = typedArraySetFromArray array tempArray1 {| world := w; tempArray := tempArray1 |}.
Proof.
  intros scenes tempArray1. unfold fillTransformsArray.
  unfold bind at 1, gets. cbn [tempArray].
  unfold bind at 1.
  assert (Hresize :
    when_ (negb (N.of_nat (length tempArray0) =? TypedArray.length array)%N)
      (onTempArray (js_array_setLength (N.to_nat (TypedArray.length array))))
      {| world := w; tempArray := tempArray0 |}
    = ({| world := w; tempArray := resized array tempArray0 |}, Normal tt)).
  { unfold when_, resized. destruct (negb _); reflexivity. }
  rewrite Hresize.
  unfold bind at 1, inWorld, getMesh, gets. cbn [world tempArray].
  unfold bind at 1.
  pose proof (copyScenes_spec w (length (SplatMesh.scenes (mesh w))) 0 []
                (resized array tempArray0) eq_refl (le_n _)) as Hloop.
  cbn [app] in Hloop. rewrite drop_0, firstn_all in Hloop. rewrite Hloop.
  unfold bind at 1, gets. cbn [tempArray]. reflexivity.
Qed.

(** The state and the array that a call leaves when the transforms fit. *)
Lemma fillTransformsArray_fits (w : World) tempArray0 (array : TypedArray.t) :
  let scenes := SplatMesh.scenes (mesh w) in
  let L := N.to_nat (TypedArray.length array) in
  16 * length scenes <= L ->
  exists tempArray1 array',
    fillTransformsArray array {| world := w; tempArray := tempArray0 |}
    = ({| world := w; tempArray := tempArray1 |}, Normal array') /\
    length tempArray1 = L /\
    TypedArray.kind array' = TypedArray.kind array /\
    TypedArray.length array' = TypedArray.length array /\
    (forall k, k < L ->
       TypedArray.elems array' k
       = TypedArray.convert (TypedArray.kind array)
           (ToNumber (mjoin (js_array_get tempArray1 k)))) /\
    (forall i j scene, scenes !! i = Some scene -> j < 16 ->
       js_array_get tempArray1 (i * 16 + j)
       = Some (Matrix4.elements (SplatScene.transform scene) !! j)) /\
    (forall k, 16 * length scenes <= k < L ->
       js_array_get tempArray1 k = js_array_get tempArray0 k).
Proof.
  intros scenes L Hfit.
  rewrite fillTransformsArray_run. fold scenes.
  set (tempArray1 := storedScenes scenes ++ drop (16 * length scenes) (resized array tempArray0)).
  assert (Hlen : length tempArray1 = L).
  { unfold tempArray1. rewrite length_app, storedScenes_length, length_drop, resized_length.
    fold L. lia. }
  exists tempArray1. eexists. unfold typedArraySetFromArray.
  replace (N.of_nat (length tempArray1) <=? TypedArray.length array)%N with true
    by (symmetry; apply N.leb_le; rewrite Hlen; unfold L; lia).
  split; [reflexivity|]. cbn [TypedArray.kind TypedArray.length TypedArray.elems].
  split_and!; try reflexivity; try assumption.
  - intros k Hk. rewrite Hlen. replace (k <? L) with true by (symmetry; apply Nat.ltb_lt; lia).
    reflexivity.
  - intros i j scene Hi Hj. unfold js_array_get, tempArray1.
    assert (i < length scenes) by (eapply lookup_lt_Some; exact Hi).
    rewrite lookup_app_l by (rewrite storedScenes_length; lia).
    rewrite (storedScenes_lookup scenes i j scene Hi Hj). reflexivity.
  - intros k Hk. rewrite <- (resized_get array tempArray0 k) by (fold L; lia).
    unfold js_array_get, tempArray1.
    rewrite lookup_app_r by (rewrite storedScenes_length; lia).
    rewrite storedScenes_length, lookup_drop. f_equal. f_equal. lia.
Qed.

End FillTransformsFacts.

(** X24. When the typed array has room for 16 elements per scene,
    [fillTransformsArray] returns, leaves the instance as it is and writes
    every element of the array, not only the 16 per scene: element
    [16 i + j] is element [j] of the transform of scene [i] (NaN if the
    matrix has none), converted to the kind of the array; an element after
    the last scene is what the closure's [tempArray] holds there from
    earlier calls, and NaN converted to the kind of the array, whatever the
    array held, when [tempArray] holds nothing there, as on the first
    call. [tempArray] ends with the length of the array. *)
Theorem fillTransformsArray_overwrites_the_array (w : World)
  (tempArray0 : list (option (option JsNumber.t))) (array : TypedArray.t) :
  let scenes := SplatMesh.scenes (mesh w) in
  let L := N.to_nat (TypedArray.length array) in
  16 * length scenes <= L ->
  exists tempArray1 array',
    FillTransforms.fillTransformsArray array
      {| FillTransforms.world := w; FillTransforms.tempArray := tempArray0 |}
    = ({| FillTransforms.world := w; FillTransforms.tempArray := tempArray1 |},
       Normal array') /\
    length tempArray1 = L /\
    TypedArray.kind array' = TypedArray.kind array /\
    TypedArray.length array' = TypedArray.length array /\
    (forall i j scene, scenes !! i = Some scene -> j < 16 ->
       TypedArray.elems array' (i * 16 + j)
       = TypedArray.convert (TypedArray.kind array)
           (ToNumber (Matrix4.elements (SplatScene.transform scene) !! j))) /\
    (forall k, 16 * length scenes <= k < L ->
       TypedArray.elems array' k
       = TypedArray.convert (TypedArray.kind array)
           (ToNumber (mjoin (js_array_get tempArray0 k))) /\
       (length tempArray0 <= k ->
        TypedArray.elems array' k
        = TypedArray.convert (TypedArray.kind array) JsNumber.NaN)).
Proof.
  intros scenes L Hfit.
  destruct (FillTransformsFacts.fillTransformsArray_fits w tempArray0 array Hfit)
    as (t1 & a' & Hrun & Hlen & Hkind & Hlength & Helems & Hscenes & Hrest).
  exists t1, a'. split_and!; try assumption.
  - intros i j scene Hi Hj.
    assert (i < length scenes) by (eapply lookup_lt_Some; exact Hi).
    rewrite Helems by (fold scenes L in Hfit; unfold L in *; lia).
    rewrite (Hscenes i j scene Hi Hj). reflexivity.
  - intros k Hk.
    assert (Hk' : TypedArray.elems a' k
                  = TypedArray.convert (TypedArray.kind array)
                      (ToNumber (mjoin (js_array_get tempArray0 k)))).
    { rewrite Helems by (unfold L in *; lia). rewrite (Hrest k Hk). reflexivity. }
    split; [exact Hk'|]. intros Hge. rewrite Hk'. unfold js_array_get.
    rewrite (lookup_ge_None_2 tempArray0 k) by lia. reflexivity.
Qed.

Lemma fillTransformsArray_overwrites_the_array_witness :
  exists tempArray1 array',
    FillTransforms.fillTransformsArray (TypedArray.create TypedArray.Float32Array 40)
      {| FillTransforms.world := Examples.twoScenes; FillTransforms.tempArray := [] |}
    = ({| FillTransforms.world := Examples.twoScenes;
          FillTransforms.tempArray := tempArray1 |}, Normal array') /\
    TypedArray.elems array' 21 = JsNumber.ofZ 1 /\
    TypedArray.elems array' 35 = JsNumber.NaN.
Proof.
  destruct (fillTransformsArray_overwrites_the_array Examples.twoScenes []
              (TypedArray.create TypedArray.Float32Array 40))
    as (t1 & a' & Hrun & _ & _ & _ & Hscenes & Hrest).
  - vm_compute. lia.
  - exists t1, a'. split; [exact Hrun|]. split.
    + change 21 with (1 * 16 + 5).
      rewrite (Hscenes 1 5 (Examples.scene 300 300)); [| reflexivity | lia].
      vm_compute. reflexivity.
    + destruct (Hrest 35) as [_ H]; [vm_compute; lia|].
      rewrite H by (cbn; lia). reflexivity.
Defined.

(** X25. When the typed array is shorter than 16 elements per scene,
    [fillTransformsArray] throws the RangeError of [array.set], with the
    instance as it was. The closure's [tempArray] is left with 16 elements
    per scene, longer than the array, so the next call with this array cuts
    it and throws again. *)
Theorem fillTransformsArray_short_array (w : World)
  (tempArray0 : list (option (option JsNumber.t))) (array : TypedArray.t) :
  let scenes := SplatMesh.scenes (mesh w) in
  N.to_nat (TypedArray.length array) < 16 * length scenes ->
  exists tempArray1,
    FillTransforms.fillTransformsArray array
      {| FillTransforms.world := w; FillTransforms.tempArray := tempArray0 |}
    = ({| FillTransforms.world := w; FillTransforms.tempArray := tempArray1 |},
       Throw (RangeError "offset is out of bounds")) /\
    length tempArray1 = 16 * length scenes /\
    forall i j scene, scenes !! i = Some scene -> j < 16 ->
      js_array_get tempArray1 (i * 16 + j)
      = Some (Matrix4.elements (SplatScene.transform scene) !! j).
Proof.
  intros scenes Hshort.
  rewrite FillTransformsFacts.fillTransformsArray_run. fold scenes.
  set (tempArray1 := FillTransforms.storedScenes scenes
                     ++ drop (16 * length scenes) (FillTransforms.resized array tempArray0)).
  assert (Hlen : length tempArray1 = 16 * length scenes).
  { unfold tempArray1.
    rewrite length_app, FillTransformsFacts.storedScenes_length, length_drop,
      FillTransformsFacts.resized_length. lia. }
  exists tempArray1. unfold typedArraySetFromArray.
  replace (N.of_nat (length tempArray1) <=? TypedArray.length array)%N with false
    by (symmetry; apply N.leb_gt; rewrite Hlen; lia).
  split_and!; [reflexivity | exact Hlen |].
  intros i j scene Hi Hj. unfold js_array_get, tempArray1.
  assert (i < length scenes) by (eapply lookup_lt_Some; exact Hi).
  rewrite lookup_app_l by (rewrite FillTransformsFacts.storedScenes_length; lia).
  rewrite (FillTransformsFacts.storedScenes_lookup scenes i j scene Hi Hj). reflexivity.
Qed.

Lemma fillTransformsArray_short_array_witness :
  exists tempArray1,
    FillTransforms.fillTransformsArray (TypedArray.create TypedArray.Float32Array 16)
      {| FillTransforms.world := Examples.twoScenes; FillTransforms.tempArray := [] |}
    = ({| FillTransforms.world := Examples.twoScenes;
          FillTransforms.tempArray := tempArray1 |},
       Throw (RangeError "offset is out of bounds")) /\
    length tempArray1 = 32.
Proof.
  destruct (fillTransformsArray_short_array Examples.twoScenes []
              (TypedArray.create TypedArray.Float32Array 16))
    as (t1 & Hrun & Hlen & _).
  - vm_compute. lia.
  - exists t1. split; [exact Hrun|]. rewrite Hlen. vm_compute. reflexivity.
Defined.

(** X26. [fillTransformsArray] does not clear what earlier calls stored.
    After a call with the scenes [scenes1], a call with fewer scenes and an
    array of the same length writes the transforms of the scenes that are
    left, and after them still the transforms of the scenes of the first
    call that are no longer there. *)
Theorem fillTransformsArray_keeps_removed_scenes (w1 w2 : World)
  (tempArray0 : list (option (option JsNumber.t))) (a b : TypedArray.t) :
  let scenes1 := SplatMesh.scenes (mesh w1) in
  let scenes2 := SplatMesh.scenes (mesh w2) in
  TypedArray.length b = TypedArray.length a ->
  16 * length scenes1 <= N.to_nat (TypedArray.length a) ->
  length scenes2 <= length scenes1 ->
  exists tempArray1 a' tempArray2 b',
    FillTransforms.fillTransformsArray a
      {| FillTransforms.world := w1; FillTransforms.tempArray := tempArray0 |}
    = ({| FillTransforms.world := w1; FillTransforms.tempArray := tempArray1 |}, Normal a') /\
    FillTransforms.fillTransformsArray b
      {| FillTransforms.world := w2; FillTransforms.tempArray := tempArray1 |}
    = ({| FillTransforms.world := w2; FillTransforms.tempArray := tempArray2 |}, Normal b') /\
    forall i j scene, length scenes2 <= i -> scenes1 !! i = Some scene -> j < 16 ->
      TypedArray.elems b' (i * 16 + j)
      = TypedArray.convert (TypedArray.kind b)
          (ToNumber (Matrix4.elements (SplatScene.transform scene) !! j)).
Proof.
  intros scenes1 scenes2 Hsame Hfit Hfewer.
  destruct (FillTransformsFacts.fillTransformsArray_fits w1 tempArray0 a Hfit)
    as (t1 & a' & Hrun1 & _ & _ & _ & _ & Hscenes1 & _).
  destruct (FillTransformsFacts.fillTransformsArray_fits w2 t1 b)
    as (t2 & b' & Hrun2 & _ & _ & _ & Helems2 & _ & Hrest2).
  { rewrite Hsame. fold scenes1 scenes2 in Hfit |- *. lia. }
  exists t1, a', t2, b'. split_and!; [exact Hrun1 | exact Hrun2 |].
  intros i j scene Hi Hscene Hj.
  assert (i < length scenes1) by (eapply lookup_lt_Some; exact Hscene).
  fold scenes1 in Hfit. fold scenes2 in Hrest2.
  rewrite Helems2 by (rewrite Hsame; lia).
  rewrite Hrest2 by (rewrite Hsame; lia).
  rewrite (Hscenes1 i j scene Hscene Hj). reflexivity.
Qed.

Lemma fillTransformsArray_keeps_removed_scenes_witness :
  exists tempArray1 a' tempArray2 b',
    FillTransforms.fillTransformsArray (TypedArray.create TypedArray.Float32Array 32)
      {| FillTransforms.world := Examples.twoScenes; FillTransforms.tempArray := [] |}
    = ({| FillTransforms.world := Examples.twoScenes;
          FillTransforms.tempArray := tempArray1 |}, Normal a') /\
    FillTransforms.fillTransformsArray (TypedArray.create TypedArray.Float32Array 32)
      {| FillTransforms.world := Examples.rendered; FillTransforms.tempArray := tempArray1 |}
    = ({| FillTransforms.world := Examples.rendered;
          FillTransforms.tempArray := tempArray2 |}, Normal b') /\
    TypedArray.elems b' 16 = JsNumber.ofZ 1.
Proof.
  destruct (fillTransformsArray_keeps_removed_scenes Examples.twoScenes Examples.rendered []
              (TypedArray.create TypedArray.Float32Array 32)
              (TypedArray.create TypedArray.Float32Array 32))
    as (t1 & a' & t2 & b' & Hrun1 & Hrun2 & Hkept).
  - reflexivity.
  - vm_compute. lia.
  - vm_compute. lia.
  - exists t1, a', t2, b'. split; [exact Hrun1|]. split; [exact Hrun2|].
    change 16 with (1 * 16 + 0).
    rewrite (Hkept 1 0 (Examples.scene 300 300)); [| vm_compute; lia | reflexivity | lia].
    vm_compute. reflexivity.
Defined.

(** ** The sections of a streamed file *)

Module SectionFacts.
Import KSplatLoader.

Section Sizes.
Variable H SH : nat.

Notation endOf := (endOf H SH).

Lemma consistent_loadedTo (s : State) :
  KSplatLoader.consistent s -> s = loadedTo (sectionCount s) s.
Proof.
  intros (H1 & H2 & H3 & H4 & H5 & H6). destruct s. cbn in *. subst. reflexivity.
Qed.

Lemma loadedTo_consistent (n : nat) (s : State) :
  sectionHeadersLoaded s = true -> header s = Some (length (sectionHeaders s)) ->
  n <= length (sectionHeaders s) -> KSplatLoader.consistent (loadedTo n s).
Proof. intros H1 H2 H3. unfold KSplatLoader.consistent. cbn. split_and!; auto. Qed.

Lemma endOf_S (hs : list SectionHeader) (j : nat) (h : SectionHeader) :
  hs !! j = Some h -> endOf hs (S j) = endOf hs j + storageSizeBytes h.
Proof.
  intros Hj. unfold KSplatLoader.endOf. rewrite (take_S_r _ _ _ Hj), map_app, list_sum_app.
  cbn. lia.
Qed.

Lemma sectionsWithin_step (hs : list SectionHeader) (j : nat) (h : SectionHeader) bytes :
  hs !! j = Some h ->
  sectionsWithin (map storageSizeBytes (drop j hs)) (endOf hs j) bytes
  = if endOf hs (S j) <=? bytes
    then S (sectionsWithin (map storageSizeBytes (drop (S j) hs)) (endOf hs (S j)) bytes)
    else 0.
Proof.
  intros Hj. rewrite (drop_S _ _ _ Hj). cbn [map sectionsWithin].
  rewrite (endOf_S hs j h Hj). reflexivity.
Qed.

Lemma sectionsWithin_le (sizes : list nat) : forall off bytes,
  sectionsWithin sizes off bytes <= length sizes.
Proof.
  induction sizes as [|x l IH]; intros off bytes; cbn; [lia|].
  destruct (_ <=? _); [specialize (IH (off + x) bytes)|]; lia.
Qed.

Lemma sectionsWithin_mono (sizes : list nat) : forall off bytes bytes',
  bytes <= bytes' -> sectionsWithin sizes off bytes <= sectionsWithin sizes off bytes'.
Proof.
  induction sizes as [|x l IH]; intros off bytes bytes' Hle; cbn; [lia|].
  destruct (Nat.leb_spec (off + x) bytes); [|lia].
  replace (off + x <=? bytes') with true by (symmetry; apply Nat.leb_le; lia).
  specialize (IH (off + x) bytes bytes' Hle). lia.
Qed.

Lemma fullyReceived_from (s : State) : forall j,
  j <= fullyReceived H SH s ->
  fullyReceived H SH s
  = j + sectionsWithin (map storageSizeBytes (drop j (sectionHeaders s)))
          (endOf (sectionHeaders s) j) (bytesLoaded s).
Proof.
  induction j as [|j IH]; intros Hj.
  - unfold fullyReceived, KSplatLoader.endOf. cbn. rewrite Nat.add_0_r. reflexivity.
  - rewrite IH by lia.
    assert (Hlt : j < length (sectionHeaders s)).
    { pose proof (sectionsWithin_le (map storageSizeBytes (sectionHeaders s))
                    (H + SH * length (sectionHeaders s)) (bytesLoaded s)) as Hle.
      rewrite length_map in Hle. unfold fullyReceived in Hj. lia. }
    destruct (lookup_lt_is_Some_2 _ _ Hlt) as [h Hh].
    rewrite (sectionsWithin_step _ j h _ Hh).
    rewrite IH in Hj by lia. rewrite (sectionsWithin_step _ j h _ Hh) in Hj.
    destruct (_ <=? _); lia.
Qed.

Lemma sumSplatCounts_spec (s : State) : forall n k total,
  k + n <= length (sectionHeaders s) ->
  sumSplatCounts (seq k n) total s
  = (s, Normal (total + list_sum (map splatCount (take n (drop k (sectionHeaders s)))))).
Proof.
  induction n as [|n IH]; intros k total Hle; cbn [seq sumSplatCounts].
  - cbn. rewrite Nat.add_0_r. reflexivity.
  - destruct (lookup_lt_is_Some_2 (sectionHeaders s) k) as [h Hh]; [lia|].
    unfold bind at 1, sectionHeader, bind at 1, gets. rewrite Hh. unfold ret at 1.
    rewrite IH by lia. rewrite (drop_S _ _ _ Hh). cbn [take map list_sum fold_right].
    fold (list_sum (map splatCount (take n (drop (S k) (sectionHeaders s))))).
    do 2 f_equal. lia.
Qed.

Lemma maxSectionCount_run (s : State) (max : nat) :
  header s = Some max -> maxSectionCount s = (s, Normal max).
Proof. intros Hh. unfold maxSectionCount, bind, gets. rewrite Hh. reflexivity. Qed.

Lemma skipSections_spec (s : State) : forall fuel i,
  header s = Some (length (sectionHeaders s)) ->
  let stop := Nat.min (sectionCount s + 1) (length (sectionHeaders s)) in
  i <= stop -> stop - i < fuel ->
  skipSections fuel i (endOf (sectionHeaders s) i) s
  = (s, Normal (endOf (sectionHeaders s) stop)).
Proof.
  induction fuel as [|fuel IH]; intros i Hh stop Hi Hfuel; [lia|].
  cbn [skipSections]. unfold bind at 1, gets.
  unfold bind at 1. rewrite (maxSectionCount_run s _ Hh).
  destruct (Nat.leb_spec i (sectionCount s)); destruct (Nat.ltb_spec i (length (sectionHeaders s)));
    cbn [andb].
  - destruct (lookup_lt_is_Some_2 (sectionHeaders s) i) as [h Hi']; [lia|].
    unfold bind at 1, sectionHeader, bind at 1, gets. rewrite Hi'. unfold ret at 1.
    rewrite <- (endOf_S _ _ _ Hi'). replace (i + 1) with (S i) by lia.
    apply IH; [exact Hh | fold stop; lia | fold stop; lia].
  - replace i with stop by lia. reflexivity.
  - replace i with stop by lia. reflexivity.
  - replace i with stop by lia. reflexivity.
Qed.

Lemma loadSection_stalled (s : State) (i off : nat) :
  bytesLoaded s < off -> loadSection i off s = (s, Normal off).
Proof.
  intros Hlt. unfold loadSection, bind at 1, gets.
  replace (off <=? bytesLoaded s) with false by (symmetry; apply Nat.leb_gt; lia).
  reflexivity.
Qed.

Lemma loadSections_stalled (s : State) (off : nat) : forall fuel i,
  header s = Some (length (sectionHeaders s)) ->
  bytesLoaded s < off -> loadSections fuel i off s = (s, Normal tt).
Proof.
  induction fuel as [|fuel IH]; intros i Hh Hlt; [reflexivity|].
  cbn [loadSections]. unfold bind at 1. rewrite (maxSectionCount_run s _ Hh).
  destruct (i <=? _); [|reflexivity].
  unfold bind at 1. rewrite (loadSection_stalled s i off Hlt). apply IH; assumption.
Qed.

Lemma loadSection_received (s : State) (j : nat) (h : SectionHeader) :
  header s = Some (length (sectionHeaders s)) ->
  sectionHeaders s !! j = Some h ->
  endOf (sectionHeaders s) (S j) <= bytesLoaded s ->
  loadSection (S j) (endOf (sectionHeaders s) (S j)) (loadedTo j s)
  = (loadedTo (S j) s,
     Normal (endOf (sectionHeaders s) (Nat.min (S (S j)) (length (sectionHeaders s))))).
Proof.
  intros Hh Hj Hbytes.
  assert (Hlt : j < length (sectionHeaders s)) by (eapply lookup_lt_Some; exact Hj).
  set (target := loadedTo (S j) s).
  unfold loadSection. unfold bind at 1, gets. cbn [bytesLoaded loadedTo].
  replace (_ <=? bytesLoaded s) with true by (symmetry; apply Nat.leb_le; exact Hbytes).
  unfold bind at 1. unfold bind at 1, gets. unfold loadedTo at 1. cbn [sectionLoaded].
  destruct (decide (S j - 1 ∈ (list_to_set (seq 0 j) : gset nat))) as [Hin|_].
  { apply elem_of_list_to_set, elem_of_seq in Hin. lia. }
  unfold bind at 1, markLoaded, modify.
  cbn [loadedTo bytesLoaded header sectionHeaders sectionHeadersLoaded sectionLoaded
       sectionCount fullSplatBuffer effects].
  unfold bind at 1, gets. cbn [sectionCount].
  unfold bind at 1.
  match goal with
  | |- context [sumSplatCounts ?l ?t ?st] =>
      pose proof (sumSplatCounts_spec st (j + 1) 0 0) as Hsum
  end.
  cbn [sectionHeaders] in Hsum. rewrite Hsum by lia. clear Hsum.
  rewrite drop_0. cbn [Nat.add].
  fold (splatsOf (sectionHeaders s) (j + 1)).
  unfold bind at 1, ensureSplatBuffer, bind at 1, gets. cbn [fullSplatBuffer].
  assert (Hstate : forall (e : list Effect) (created : bool),
    (let* _ := emit (UpdateLoadedCounts (j + 1) (splatsOf (sectionHeaders s) (j + 1))) in
     let* _ := emit OnSectionBuilt in
     let* max := maxSectionCount in
     if max <=? j + 1 then emit SectionsLoadResolve else emit SetTimeout)%js
      {| bytesLoaded := bytesLoaded s; header := header s;
         sectionHeaders := sectionHeaders s;
         sectionHeadersLoaded := sectionHeadersLoaded s;
         sectionLoaded := {[S j - 1]} ∪ list_to_set (seq 0 j);
         sectionCount := j + 1; fullSplatBuffer := created; effects := e |}
    = ({| bytesLoaded := bytesLoaded s; header := header s;
          sectionHeaders := sectionHeaders s;
          sectionHeadersLoaded := sectionHeadersLoaded s;
          sectionLoaded := {[S j - 1]} ∪ list_to_set (seq 0 j);
          sectionCount := j + 1; fullSplatBuffer := created;
          effects := e ++ [UpdateLoadedCounts (j + 1) (splatsOf (sectionHeaders s) (j + 1));
                           OnSectionBuilt;
                           if length (sectionHeaders s) <=? j + 1
                           then SectionsLoadResolve else SetTimeout] |}, Normal tt)).
  { intros e created. unfold bind, emit, modify, maxSectionCount. unfold bind, gets, ret.
    cbn [bytesLoaded header sectionHeaders sectionHeadersLoaded sectionLoaded
         sectionCount fullSplatBuffer effects].
    rewrite Hh.
    destruct (length (sectionHeaders s) <=? j + 1);
      cbn [bytesLoaded header sectionHeaders sectionHeadersLoaded sectionLoaded
           sectionCount fullSplatBuffer effects];
      rewrite <- !app_assoc; reflexivity. }
  assert (Hfinal : forall created e,
    created = true ->
    e = flat_map (effectsOf (sectionHeaders s)) (seq 0 j)
        ++ (if j =? 0 then [NewSplatBuffer] else []) ->
    {| bytesLoaded := bytesLoaded s; header := header s;
       sectionHeaders := sectionHeaders s;
       sectionHeadersLoaded := sectionHeadersLoaded s;
       sectionLoaded := {[S j - 1]} ∪ list_to_set (seq 0 j);
       sectionCount := j + 1; fullSplatBuffer := created;
       effects := e ++ [UpdateLoadedCounts (j + 1) (splatsOf (sectionHeaders s) (j + 1));
                        OnSectionBuilt;
                        if length (sectionHeaders s) <=? j + 1
                        then SectionsLoadResolve else SetTimeout] |}
    = target).
  { intros created e -> ->. unfold target, loadedTo.
    rewrite (seq_S j 0), flat_map_app, list_to_set_app_L. cbn [flat_map Nat.add].
    rewrite app_nil_r. unfold effectsOf at 3. rewrite <- !app_assoc.
    replace (S j - 1) with j by lia. replace (j + 1) with (S j) by lia.
    f_equal. set_solver. }
  assert (Hrest : forall st : State,
    header st = Some (length (sectionHeaders s)) -> sectionHeaders st = sectionHeaders s ->
    (let* max := maxSectionCount in
     if S j <? max
     then let* size := sectionHeader storageSizeBytes "storageSizeBytes" (S j) in
          ret (endOf (sectionHeaders s) (S j) + size)
     else ret (endOf (sectionHeaders s) (S j)))%js st
    = (st, Normal (endOf (sectionHeaders s) (Nat.min (S (S j)) (length (sectionHeaders s)))))).
  { intros st Hst Hhs. unfold bind at 1. rewrite (maxSectionCount_run st _ Hst).
    destruct (Nat.ltb_spec (S j) (length (sectionHeaders s))) as [Hlt'|Hge].
    - destruct (lookup_lt_is_Some_2 (sectionHeaders s) (S j) Hlt') as [h' Hh'].
      unfold bind at 1, sectionHeader, bind at 1, gets. rewrite Hhs, Hh'. unfold ret.
      rewrite <- (endOf_S _ _ _ Hh'). rewrite Nat.min_l by lia. reflexivity.
    - unfold ret. rewrite Nat.min_r by lia. replace (length (sectionHeaders s)) with (S j) by lia.
      reflexivity. }
  destruct (0 <? j) eqn:Hpos.
  - unfold ret at 1. rewrite Hstate.
    rewrite (Hfinal true _ eq_refl); [apply Hrest; [exact Hh | reflexivity]|].
    apply Nat.ltb_lt in Hpos. replace (j =? 0) with false by (symmetry; apply Nat.eqb_neq; lia).
    rewrite app_nil_r. reflexivity.
  - unfold modify. cbn [bytesLoaded header sectionHeaders sectionHeadersLoaded sectionLoaded
                        sectionCount fullSplatBuffer effects].
    rewrite Hstate.
    rewrite (Hfinal true _ eq_refl); [apply Hrest; [exact Hh | reflexivity]|].
    apply Nat.ltb_ge in Hpos. replace (j =? 0) with true by (symmetry; apply Nat.eqb_eq; lia).
    reflexivity.
Qed.

Lemma loadSections_from (s : State) : forall fuel j,
  sectionHeadersLoaded s = true ->
  header s = Some (length (sectionHeaders s)) ->
  j < length (sectionHeaders s) ->
  length (sectionHeaders s) - j <= fuel ->
  loadSections fuel (j + 1) (endOf (sectionHeaders s) (S j)) (loadedTo j s)
  = (loadedTo (j + sectionsWithin (map storageSizeBytes (drop j (sectionHeaders s)))
                      (endOf (sectionHeaders s) j) (bytesLoaded s)) s, Normal tt).
Proof.
  induction fuel as [|fuel IH]; intros j Hloaded Hh Hj Hfuel; [lia|].
  destruct (lookup_lt_is_Some_2 (sectionHeaders s) j Hj) as [h Hjh].
  cbn [loadSections]. unfold bind at 1.
  rewrite (maxSectionCount_run (loadedTo j s) (length (sectionHeaders s))) by exact Hh.
  replace (j + 1 <=? length (sectionHeaders s)) with true by (symmetry; apply Nat.leb_le; lia).
  rewrite (sectionsWithin_step _ j h _ Hjh).
  unfold bind at 1. replace (j + 1) with (S j) by lia.
  destruct (Nat.leb_spec (endOf (sectionHeaders s) (S j)) (bytesLoaded s)) as [Hrec|Hstall].
  - rewrite (loadSection_received s j h Hh Hjh Hrec).
    destruct (decide (S j < length (sectionHeaders s))) as [Hmore|Hlast].
    + rewrite Nat.min_l by lia. replace (S (S j)) with (S j + 1) by lia.
      replace (S j + 1) with (S (S j)) at 2 by lia.
      rewrite (IH (S j)) by (try assumption; lia).
      replace (j + S (sectionsWithin (map storageSizeBytes (drop (S j) (sectionHeaders s)))
                        (endOf (sectionHeaders s) (S j)) (bytesLoaded s)))
        with (S j + sectionsWithin (map storageSizeBytes (drop (S j) (sectionHeaders s)))
                      (endOf (sectionHeaders s) (S j)) (bytesLoaded s)) by lia.
      reflexivity.
    + rewrite (drop_ge (sectionHeaders s) (S j)) by lia. cbn [map sectionsWithin].
      replace (j + 1) with (S j) by lia.
      destruct fuel as [|fuel]; [reflexivity|].
      cbn [loadSections]. unfold bind at 1.
      rewrite (maxSectionCount_run (loadedTo (S j) s) (length (sectionHeaders s))) by exact Hh.
      replace (S j + 1 <=? length (sectionHeaders s)) with false
        by (symmetry; apply Nat.leb_gt; lia).
      reflexivity.
  - rewrite (loadSection_stalled (loadedTo j s) (S j) _ Hstall).
    rewrite Nat.add_0_r. apply loadSections_stalled; [exact Hh | exact Hstall].
Qed.


Lemma fullyReceived_le (s : State) : fullyReceived H SH s <= length (sectionHeaders s).
Proof.
  unfold fullyReceived.
  pose proof (sectionsWithin_le (map storageSizeBytes (sectionHeaders s))
                (H + SH * length (sectionHeaders s)) (bytesLoaded s)) as Hle.
  rewrite length_map in Hle. exact Hle.
Qed.

Lemma checkAndLoadSections_run (s : State) :
  KSplatLoader.consistent s ->
  sectionCount s <= fullyReceived H SH s ->
  checkAndLoadSections H SH s = (loadedTo (fullyReceived H SH s) s, Normal tt).
Proof.
  intros Hc Hle. pose proof (consistent_loadedTo s Hc) as Hs.
  destruct Hc as (Hloaded & Hh & Hcount & _).
  unfold checkAndLoadSections. unfold bind at 1, gets. rewrite Hloaded.
  unfold bind at 1. rewrite (maxSectionCount_run s _ Hh).
  unfold bind at 1.
  pose proof (skipSections_spec s (length (sectionHeaders s) + 1) 0 Hh) as Hskip.
  cbv zeta in Hskip. unfold KSplatLoader.endOf at 1 in Hskip.
  cbn [take map list_sum fold_right] in Hskip. rewrite Nat.add_0_r in Hskip.
  rewrite Hskip by lia. clear Hskip.
  unfold bind at 1, gets.
  destruct (decide (sectionCount s < length (sectionHeaders s))) as [Hlt|Hge].
  - rewrite Nat.min_l by lia. replace (sectionCount s + 1) with (S (sectionCount s)) at 2 by lia.
    pose proof (loadSections_from s (length (sectionHeaders s) + 1) (sectionCount s)
                  Hloaded Hh Hlt ltac:(lia)) as Hload.
    rewrite <- Hs in Hload. rewrite Hload.
    rewrite <- (fullyReceived_from s (sectionCount s) Hle). reflexivity.
  - pose proof (fullyReceived_le s) as Hfr.
    replace (fullyReceived H SH s) with (sectionCount s) by lia. rewrite <- Hs.
    replace (sectionCount s) with (length (sectionHeaders s)) by lia.
    cbn [loadSections]. rewrite Nat.add_1_r. cbn [loadSections]. unfold bind at 1.
    rewrite (maxSectionCount_run s _ Hh).
    replace (S (length (sectionHeaders s)) <=? length (sectionHeaders s)) with false
      by (symmetry; apply Nat.leb_gt; lia).
    reflexivity.
Qed.

Lemma step_steady (st : Step) (s : State) :
  steady H SH s ->
  steady H SH (step H SH st s) /\
  sectionHeaders (step H SH st s) = sectionHeaders s /\
  (st = Check -> sectionCount (step H SH st s) = fullyReceived H SH (step H SH st s)).
Proof.
  intros [Hc Hle]. destruct st as [n|]; cbn [step].
  - split_and!; [| reflexivity | discriminate].
    split.
    + destruct Hc as (H1 & H2 & H3 & H4 & H5 & H6). unfold KSplatLoader.consistent. cbn.
      split_and!; assumption.
    + cbn [sectionCount received]. unfold fullyReceived. cbn [sectionHeaders bytesLoaded received].
      etransitivity; [exact Hle|]. apply sectionsWithin_mono. lia.
  - rewrite (checkAndLoadSections_run s Hc Hle). cbn [fst].
    destruct Hc as (H1 & H2 & H3 & _).
    split_and!; [| reflexivity | intros _; reflexivity].
    split.
    + apply loadedTo_consistent; [assumption | assumption | apply fullyReceived_le].
    + reflexivity.
Qed.

Lemma run_steady (steps : list Step) : forall s,
  steady H SH s ->
  steady H SH (run H SH steps s) /\
  sectionHeaders (run H SH steps s) = sectionHeaders s.
Proof.
  induction steps as [|st steps IH]; intros s Hs; cbn [run fold_left]; [split; [exact Hs | reflexivity]|].
  destruct (step_steady st s Hs) as (Hs' & Hhs & _).
  destruct (IH _ Hs') as [H1 H2]. split; [exact H1 | rewrite <- Hhs; exact H2].
Qed.

Lemma headersParsed_steady (bytes : nat) (headers : list SectionHeader) :
  steady H SH (headersParsed bytes headers).
Proof.
  split; [|cbn; lia]. unfold KSplatLoader.consistent. cbn. split_and!; try reflexivity. lia.
Qed.

Lemma count_effects (headers : list SectionHeader) (c : nat) :
  c <= length headers ->
  let es := flat_map (effectsOf headers) (seq 0 c) in
  count_occ Effect_eq_dec es SectionsLoadResolve
  = (if (0 <? length headers) && (c =? length headers) then 1 else 0) /\
  count_occ Effect_eq_dec es OnSectionBuilt = c /\
  count_occ Effect_eq_dec es SetTimeout = Nat.min c (length headers - 1) /\
  count_occ Effect_eq_dec es NewSplatBuffer = Nat.min c 1.
Proof.
  induction c as [|c IH]; intros Hle es.
  - subst es. cbn [seq flat_map count_occ Nat.min].
    destruct (length headers); cbn; split_and!; reflexivity.
  - subst es. rewrite seq_S, flat_map_app. cbn [Nat.add flat_map].
    rewrite app_nil_r, !count_occ_app.
    destruct (IH ltac:(lia)) as (I1 & I2 & I3 & I4). rewrite I1, I2, I3, I4.
    unfold effectsOf. rewrite !count_occ_app.
    replace (0 <? length headers) with true by (symmetry; apply Nat.ltb_lt; lia).
    replace (c =? length headers) with false by (symmetry; apply Nat.eqb_neq; lia).
    cbn [andb].
    destruct (Nat.eqb_spec c 0) as [Hc0|Hc0];
      destruct (Nat.leb_spec (length headers) (c + 1)) as [Hl|Hl];
      destruct (Nat.eqb_spec (S c) (length headers)) as [He|He]; try lia;
      cbn [count_occ app];
      repeat (destruct (Effect_eq_dec _ _); try congruence); lia.
Qed.

End Sizes.
End SectionFacts.

(** X27. On a consistent closure [checkAndLoadSections] returns and
    loads the sections that have arrived in full and are not loaded yet,
    the leading sections whose last byte is within [bytesLoaded], in order
    and each once. For section [k] it creates the splat buffer if [k] is
    the first, calls [updateLoadedCounts(k + 1, splats of the first k + 1
    sections)] and [onSectionBuilt], and then resolves the promise if [k]
    is the last section and starts a timer otherwise. It leaves the
    closure consistent, and a call right after it does nothing. *)
Theorem checkAndLoadSections_loads_received_sections
  (HeaderSizeBytes SectionHeaderSizeBytes : nat) (s : KSplatLoader.State) :
  let received := KSplatLoader.fullyReceived HeaderSizeBytes SectionHeaderSizeBytes s in
  KSplatLoader.consistent s ->
  KSplatLoader.sectionCount s <= received ->
  exists s',
    KSplatLoader.checkAndLoadSections HeaderSizeBytes SectionHeaderSizeBytes s
    = (s', Normal tt) /\
    KSplatLoader.consistent s' /\
    KSplatLoader.sectionCount s' = received /\
    (forall k, k ∈ KSplatLoader.sectionLoaded s' <-> k < received) /\
    KSplatLoader.bytesLoaded s' = KSplatLoader.bytesLoaded s /\
    KSplatLoader.sectionHeaders s' = KSplatLoader.sectionHeaders s /\
    KSplatLoader.effects s'
    = KSplatLoader.effects s
      ++ flat_map (KSplatLoader.effectsOf (KSplatLoader.sectionHeaders s))
           (seq (KSplatLoader.sectionCount s) (received - KSplatLoader.sectionCount s)) /\
    KSplatLoader.checkAndLoadSections HeaderSizeBytes SectionHeaderSizeBytes s'
    = (s', Normal tt).
Proof.
  intros received Hc Hle.
  pose proof (SectionFacts.checkAndLoadSections_run _ _ s Hc Hle) as Hrun.
  fold received in Hrun.
  pose proof (SectionFacts.fullyReceived_le HeaderSizeBytes SectionHeaderSizeBytes s) as Hfr.
  fold received in Hfr.
  assert (Hc' : KSplatLoader.consistent (KSplatLoader.loadedTo received s)).
  { destruct Hc as (H1 & H2 & _). apply SectionFacts.loadedTo_consistent; assumption. }
  exists (KSplatLoader.loadedTo received s). split_and!; try reflexivity; try assumption.
  - intros k. cbn [KSplatLoader.sectionLoaded KSplatLoader.loadedTo].
    rewrite elem_of_list_to_set, elem_of_seq. lia.
  - destruct Hc as (_ & _ & _ & _ & _ & He). rewrite He.
    cbn [KSplatLoader.effects KSplatLoader.loadedTo].
    rewrite <- flat_map_app, <- seq_app. f_equal. f_equal. lia.
  - pose proof (SectionFacts.checkAndLoadSections_run HeaderSizeBytes SectionHeaderSizeBytes
                  (KSplatLoader.loadedTo received s) Hc') as Hagain.
    assert (Hsame : KSplatLoader.fullyReceived HeaderSizeBytes SectionHeaderSizeBytes
                      (KSplatLoader.loadedTo received s) = received) by reflexivity.
    rewrite Hsame in Hagain. rewrite Hagain by (cbn; lia). reflexivity.
Qed.

Lemma checkAndLoadSections_loads_received_sections_witness :
  exists s',
    KSplatLoader.checkAndLoadSections KSplatLoader.Example.HeaderSizeBytes
      KSplatLoader.Example.SectionHeaderSizeBytes
      (KSplatLoader.headersParsed 350 KSplatLoader.Example.headers)
    = (s', Normal tt) /\
    KSplatLoader.sectionCount s' = 2 /\
    KSplatLoader.effects s'
    = [KSplatLoader.NewSplatBuffer; KSplatLoader.UpdateLoadedCounts 1 10;
       KSplatLoader.OnSectionBuilt; KSplatLoader.SetTimeout;
       KSplatLoader.UpdateLoadedCounts 2 30; KSplatLoader.OnSectionBuilt;
       KSplatLoader.SetTimeout].
Proof.
  destruct (checkAndLoadSections_loads_received_sections
              KSplatLoader.Example.HeaderSizeBytes KSplatLoader.Example.SectionHeaderSizeBytes
              (KSplatLoader.headersParsed 350 KSplatLoader.Example.headers))
    as (s' & Hrun & _ & Hcount & _ & _ & _ & Heffects & _).
  - unfold KSplatLoader.consistent. cbn. split_and!; try reflexivity. lia.
  - vm_compute. lia.
  - exists s'. split; [exact Hrun|]. split; [rewrite Hcount; reflexivity|].
    rewrite Heffects. reflexivity.
Defined.

(** X28. From the moment the section headers are parsed, however the
    arrival of bytes and the calls of [checkAndLoadSections] (from
    [localOnProgress] or by a timer) follow each other, the closure stays
    consistent: the sections loaded are the first [sectionCount] ones, no
    more than have arrived in full, and after a call exactly those. The
    promise is resolved at most once, and it has been resolved exactly when
    the file has at least one section and all are loaded; for a file
    without sections it is never resolved. [onSectionBuilt] has been called
    once per loaded section, the splat buffer was created at most once, and
    one timer was set for each loaded section but the last. *)
Theorem sections_load_resolves_once (HeaderSizeBytes SectionHeaderSizeBytes : nat)
  (bytes : nat) (headers : list KSplatLoader.SectionHeader)
  (steps : list KSplatLoader.Step) :
  let s := KSplatLoader.run HeaderSizeBytes SectionHeaderSizeBytes steps
             (KSplatLoader.headersParsed bytes headers) in
  let count := KSplatLoader.sectionCount s in
  let occurrences := count_occ KSplatLoader.Effect_eq_dec (KSplatLoader.effects s) in
  KSplatLoader.consistent s /\
  KSplatLoader.sectionHeaders s = headers /\
  count <= KSplatLoader.fullyReceived HeaderSizeBytes SectionHeaderSizeBytes s /\
  (forall steps', steps = steps' ++ [KSplatLoader.Check] ->
     count = KSplatLoader.fullyReceived HeaderSizeBytes SectionHeaderSizeBytes s) /\
  occurrences KSplatLoader.SectionsLoadResolve
  = (if (0 <? length headers) && (count =? length headers) then 1 else 0) /\
  occurrences KSplatLoader.OnSectionBuilt = count /\
  occurrences KSplatLoader.SetTimeout = Nat.min count (length headers - 1) /\
  occurrences KSplatLoader.NewSplatBuffer = Nat.min count 1.
Proof.
  intros s count occurrences.
  destruct (SectionFacts.run_steady HeaderSizeBytes SectionHeaderSizeBytes steps
              (KSplatLoader.headersParsed bytes headers)
              (SectionFacts.headersParsed_steady _ _ bytes headers)) as [[Hc Hle] Hhs].
  fold s in Hc, Hle, Hhs. cbn [KSplatLoader.sectionHeaders KSplatLoader.headersParsed] in Hhs.
  assert (Hlast : forall steps', steps = steps' ++ [KSplatLoader.Check] ->
            count = KSplatLoader.fullyReceived HeaderSizeBytes SectionHeaderSizeBytes s).
  { intros steps' ->. unfold count, s, KSplatLoader.run. rewrite fold_left_app. cbn [fold_left].
    destruct (SectionFacts.run_steady HeaderSizeBytes SectionHeaderSizeBytes steps'
                (KSplatLoader.headersParsed bytes headers)
                (SectionFacts.headersParsed_steady _ _ bytes headers)) as [Hs' _].
    destruct (SectionFacts.step_steady HeaderSizeBytes SectionHeaderSizeBytes
                KSplatLoader.Check _ Hs') as (_ & _ & Heq).
    apply Heq. reflexivity. }
  split; [exact Hc|].
  destruct Hc as (H1 & H2 & H3 & H4 & H5 & H6).
  pose proof (SectionFacts.count_effects headers count) as Hcounts.
  rewrite Hhs in H3, H6. fold count in H3, H6.
  destruct (Hcounts H3) as (C1 & C2 & C3 & C4).
  unfold occurrences. rewrite H6.
  split_and!; assumption.
Qed.
